(** * Combat-Logger: the ACMI air-to-air combat analyzers

    A shallow embedding of [improved_acmi_analyzer.py]
    ([ImprovedCombatAnalyzer], with its report in [Report]) and of the
    parts of [acmi_analyzer.py] ([CombatAnalyzer]) that collect the
    pilots, credit the missiles, count deaths and estimate kills,
    followed by the properties of the two analyzers.

    Python values are modelled as follows.
    - [int] is [Z]; [//] is [Z.div] and [%] is [Z.modulo] (both floor
      towards minus infinity, as in Python).
    - [float] is IEEE 754 binary64, through the executable
      specification [SpecFloat] ([prec = 53], [emax = 1024]).
    - [str] is [string]; [a in b] on strings is the substring test.
    - [dict] and [defaultdict] keep insertion order: association lists
      with unique keys, a new key going to the end.
    - an exception aborts the analysis: the float conversions return
      [option] and the steps that use them are in the option monad. *)

From Stdlib Require Import ZArith List String Ascii Bool Lia SpecFloat.
From Stdlib Require Import Permutation Sorted.
Import ListNotations.
Local Open Scope string_scope.
Local Open Scope list_scope.
Local Open Scope Z_scope.

Set Implicit Arguments.

(** ** Python strings *)

Module PyStr.

(** [needle in hay] for two [str]. *)
Fixpoint contains (hay needle : string) : bool :=
  if String.prefix needle hay then true
  else match hay with
       | EmptyString => false
       | String _ rest => contains rest needle
       end.

(** [any(k in s for k in keys)]. *)
Definition any_in (keys : list string) (s : string) : bool :=
  existsb (fun k => contains s k) keys.

(** [x in xs] for a list of [str]. *)
Definition mem (x : string) (xs : list string) : bool :=
  existsb (String.eqb x) xs.

(** Truth value of an optional string: [None] and [''] are false. *)
Definition truthy (o : option string) : option string :=
  match o with
  | Some s => if String.eqb s "" then None else Some s
  | None => None
  end.

(** [d.get(key, default)] on a JSON field that may be absent. *)
Definition get_or (o : option string) (default : string) : string :=
  match o with
  | Some s => s
  | None => default
  end.

End PyStr.

(** ** Python dictionaries with [str] keys *)

Module PyDict.
Section Dict.
Variable V : Type.

Definition dict := list (string * V).

Fixpoint get (d : dict) (k : string) : option V :=
  match d with
  | [] => None
  | (k', v) :: d' => if String.eqb k' k then Some v else get d' k
  end.

(** [k in d] *)
Definition mem (d : dict) (k : string) : bool :=
  match get d k with
  | Some _ => true
  | None => false
  end.

(** [d[k] = v]: an existing key keeps its place, a new one is appended. *)
Fixpoint set (d : dict) (k : string) (v : V) : dict :=
  match d with
  | [] => [(k, v)]
  | (k', v') :: d' =>
      if String.eqb k' k then (k, v) :: d' else (k', v') :: set d' k v
  end.

(** [d[k]] on a [defaultdict] whose factory returns [default]. *)
Definition get_default (default : V) (d : dict) (k : string) : V :=
  match get d k with
  | Some v => v
  | None => default
  end.

Definition keys (d : dict) : list string := map fst d.
Definition values (d : dict) : list V := map snd d.

End Dict.
End PyDict.

(** ** Python floats (binary64) *)

Module PyFloat.

Definition prec : Z := 53.
Definition emax : Z := 1024.

Definition float := spec_float.

(** [float(z)]: correctly rounded; [OverflowError] when the result is
    not finite. *)
Definition of_int (z : Z) : option float :=
  match binary_normalize prec emax z 0 false with
  | S754_infinity _ => None
  | S754_nan => None
  | f => Some f
  end.

Definition mul (x y : float) : float := SFmul prec emax x y.

(** [a / b] on two non-negative [int]: the correctly rounded quotient,
    [ZeroDivisionError] when [b] is 0 and [OverflowError] when the
    quotient is too large for a float.  (Negative operands do not occur
    in the analyzers; they are treated as errors here.) *)
Definition int_truediv (a b : Z) : option float :=
  match a, b with
  | Z0, Zpos _ => Some (S754_zero false)
  | Zpos _, Zpos _ =>
      let '(q, e, l) := SFdiv_core_binary prec emax a 0 b 0 in
      match binary_round_aux prec emax false q e l with
      | S754_infinity _ => None
      | S754_nan => None
      | f => Some f
      end
  | _, _ => None
  end.

(** [int * float] *)
Definition int_mul (z : Z) (y : float) : option float :=
  match of_int z with
  | Some x => Some (mul x y)
  | None => None
  end.

(** [int(f)]: truncation towards zero; [ValueError] on NaN and
    [OverflowError] on an infinity. *)
Definition to_int (f : float) : option Z :=
  match f with
  | S754_zero _ => Some 0
  | S754_finite s m e =>
      let t := Z.shiftl (Zpos m) e in
      Some (if s then - t else t)
  | S754_infinity _ => None
  | S754_nan => None
  end.

(** [math.floor(f)]: the largest integer not above [f] (a shift of a
    negative number rounds towards minus infinity). *)
Definition floor (f : float) : option Z :=
  match f with
  | S754_zero _ => Some 0
  | S754_finite s m e => Some (Z.shiftl (if s then Zneg m else Zpos m) e)
  | S754_infinity _ => None
  | S754_nan => None
  end.

(** The literals [0.0] and [0.3]. *)
Definition zero : float := S754_zero false.
Definition lit_0_3 : float := S754_finite false 5404319552844595 (-54).

(** A zero or a finite number with a clear sign bit and magnitude below
    [2^b]. *)
Definition below (f : float) (b : Z) : Prop :=
  match f with
  | S754_zero s => s = false
  | S754_finite s m e => s = false /\ Zdigits2 (Zpos m) + e <= b
  | _ => False
  end.

(** [sys.maxsize]: no list is longer. *)
Definition max_size : Z := 2 ^ 63 - 1.

End PyFloat.

(** ** The objects of a loaded recording (pyacmi) *)

Module Acmi.

(** One object of the recording.  [ident] is the identity of the Python
    object: pyacmi objects define no [__eq__], so [a in objs] compares
    identities.

    The model covers the objects whose [coalition()] is a string.  A
    [json_...] field is [None] when the recording gives no such
    property.  For [Name] and [Country] pyacmi keeps the key with the
    value [None]: the analyzers then store [None] as the country, and
    raise [TypeError] on a missile or on a pilot's aircraft without
    [Name], where the model reads the default of [.get]: the
    definitions below follow the analyzers on the recordings whose
    missiles and piloted aircraft have a [Name]. *)
Record AcmiObject : Type := {
  ident : nat;
  is_plane : bool;
  is_missile : bool;
  pilot : option string;          (* obj.pilot() *)
  coalition : string;             (* obj.coalition() *)
  json_ID : option string;        (* obj.json().get('ID') *)
  json_Parent : option string;    (* obj.json().get('Parent') *)
  json_Name : option string;      (* obj.json().get('Name') *)
  json_Country : option string;   (* obj.json().get('Country') *)
  json_Group : option string      (* obj.json().get('Group') *)
}.

(** The loaded recording: [acmi.alive_objects()] and
    [acmi.removed_objects()]. *)
Record Recording : Type := {
  alive_objects : list AcmiObject;
  removed_objects : list AcmiObject
}.

(** [o in objs] *)
Definition obj_in (o : AcmiObject) (objs : list AcmiObject) : bool :=
  existsb (fun o' => Nat.eqb (ident o') (ident o)) objs.

End Acmi.

(** ** [ImprovedCombatAnalyzer] (improved_acmi_analyzer.py) *)

Module ImprovedCombatAnalyzer.

Import Acmi.

(** One value of [self.pilot_stats]. *)
Record PilotStats : Type := {
  pilot_name : string;
  aircraft_type : string;
  coalition : string;
  country : string;
  group : string;
  missiles_fired : Z;
  air_to_air_kills : Z;
  deaths : Z;
  survived : bool;
  missile_types_used : list string;
  estimated_hit_rate : PyFloat.float
}.

(** [self.pilot_stats]: pilot name to statistics, in first-seen order. *)
Definition pilot_stats : Type := PyDict.dict PilotStats.

(** The factory of the [defaultdict]. *)
Definition default_stats : PilotStats :=
  {| pilot_name := ""; aircraft_type := ""; coalition := "";
     country := ""; group := "";
     missiles_fired := 0; air_to_air_kills := 0; deaths := 0;
     survived := false; missile_types_used := [];
     estimated_hit_rate := PyFloat.zero |}.

(** [self.pilot_stats[pilot]] *)
Definition stats_of (ps : pilot_stats) (pilot : string) : PilotStats :=
  PyDict.get_default default_stats ps pilot.

Definition with_deaths (s : PilotStats) (d : Z) : PilotStats :=
  {| pilot_name := pilot_name s; aircraft_type := aircraft_type s;
     coalition := coalition s; country := country s; group := group s;
     missiles_fired := missiles_fired s;
     air_to_air_kills := air_to_air_kills s; deaths := d;
     survived := survived s;
     missile_types_used := missile_types_used s;
     estimated_hit_rate := estimated_hit_rate s |}.

Definition with_missiles (s : PilotStats) (n : Z) (types : list string)
  : PilotStats :=
  {| pilot_name := pilot_name s; aircraft_type := aircraft_type s;
     coalition := coalition s; country := country s; group := group s;
     missiles_fired := n;
     air_to_air_kills := air_to_air_kills s; deaths := deaths s;
     survived := survived s;
     missile_types_used := types;
     estimated_hit_rate := estimated_hit_rate s |}.

Definition with_kills (s : PilotStats) (k : Z) (rate : PyFloat.float)
  : PilotStats :=
  {| pilot_name := pilot_name s; aircraft_type := aircraft_type s;
     coalition := coalition s; country := country s; group := group s;
     missiles_fired := missiles_fired s;
     air_to_air_kills := k; deaths := deaths s;
     survived := survived s;
     missile_types_used := missile_types_used s;
     estimated_hit_rate := rate |}.

(** [self.air_to_air_missiles]: designator to family label. *)
Definition air_to_air_missiles : PyDict.dict string :=
  [ ("AIM_120", "AMRAAM"); ("AIM-9L", "Sidewinder");
    ("AIM-9M", "Sidewinder"); ("AIM-9X", "Sidewinder");
    ("AIM-7", "Sparrow"); ("R-27", "Alamo"); ("R-73", "Archer");
    ("R-77", "Adder"); ("P_24R", "Apex") ].

Definition is_air_to_air_missile (missile : AcmiObject) : bool :=
  let missile_name := PyStr.get_or (json_Name missile) "" in
  PyStr.any_in (PyDict.keys air_to_air_missiles) missile_name.

Definition is_fighter_aircraft (aircraft_type : string) : bool :=
  let fighters := ["F-16"; "F-4"; "F-18"; "FA-18"; "MiG-21"; "MiG-23";
                   "MiG-25"; "Su-27"] in
  PyStr.any_in fighters aircraft_type.

Definition can_carry_missile (aircraft_type missile_type : string) : bool :=
  let western_aircraft := ["F-16"; "F-4"; "F-18"; "FA-18"] in
  let eastern_aircraft := ["MiG-21"; "MiG-23"; "MiG-25"; "Su-27"] in
  let western_missiles := ["AIM_120"; "AIM-9L"; "AIM-9M"; "AIM-9X"; "AIM-7"] in
  let eastern_missiles := ["R-27"; "R-73"; "R-77"; "P_24R"] in
  let is_western_aircraft := PyStr.any_in western_aircraft aircraft_type in
  let is_eastern_aircraft := PyStr.any_in eastern_aircraft aircraft_type in
  let is_western_missile := PyStr.any_in western_missiles missile_type in
  let is_eastern_missile := PyStr.any_in eastern_missiles missile_type in
  (is_western_aircraft && is_western_missile)
  || (is_eastern_aircraft && is_eastern_missile).

(** *** [analyze_pilots] *)

(** The set [alive_pilots]; only membership is used. *)
Definition alive_pilots_of (alive_aircraft : list AcmiObject) : list string :=
  fold_left
    (fun acc aircraft =>
       match PyStr.truthy (pilot aircraft) with
       | Some p => if PyStr.mem p acc then acc else acc ++ [p]
       | None => acc
       end)
    alive_aircraft [].

(** The record built for a pilot seen for the first time. *)
Definition new_stats (p : string) (aircraft : AcmiObject)
           (alive_pilots : list string) : PilotStats :=
  {| pilot_name := p;
     aircraft_type := PyStr.get_or (json_Name aircraft) "Unknown";
     coalition := Acmi.coalition aircraft;
     country := PyStr.get_or (json_Country aircraft) "Unknown";
     group := PyStr.get_or (json_Group aircraft) "Unknown";
     missiles_fired := 0; air_to_air_kills := 0; deaths := 0;
     survived := PyStr.mem p alive_pilots;
     missile_types_used := [];
     estimated_hit_rate := PyFloat.zero |}.

(** One turn of the loop over [all_aircraft]. *)
Definition analyze_pilot (alive_aircraft : list AcmiObject)
           (alive_pilots : list string)
           (ps : pilot_stats) (aircraft : AcmiObject) : pilot_stats :=
  match PyStr.truthy (pilot aircraft) with
  | None => ps
  | Some p =>
      let ps1 :=
        if PyDict.mem ps p then ps
        else PyDict.set ps p (new_stats p aircraft alive_pilots) in
      if negb (obj_in aircraft alive_aircraft)
      then let s := stats_of ps1 p in
           PyDict.set ps1 p (with_deaths s (deaths s + 1))
      else ps1
  end.

Definition analyze_pilots (ps : pilot_stats)
           (all_aircraft alive_aircraft : list AcmiObject) : pilot_stats :=
  let alive_pilots := alive_pilots_of alive_aircraft in
  fold_left (analyze_pilot alive_aircraft alive_pilots) all_aircraft ps.

(** *** [estimate_missile_usage] *)

(** [coalition_missiles]: the missiles of each coalition. *)
Definition group_by_coalition (missiles : list AcmiObject)
  : PyDict.dict (list AcmiObject) :=
  fold_left
    (fun d missile =>
       let c := Acmi.coalition missile in
       PyDict.set d c (PyDict.get_default [] d c ++ [missile]))
    missiles [].

(** [coalition_pilots]: the fighter pilots of each coalition, in the
    order of [self.pilot_stats]. *)
Definition fighters_by_coalition (ps : pilot_stats)
  : PyDict.dict (list string) :=
  fold_left
    (fun d (item : string * PilotStats) =>
       let (p, stats) := item in
       if is_fighter_aircraft (aircraft_type stats)
       then PyDict.set d (coalition stats)
              (PyDict.get_default [] d (coalition stats) ++ [p])
       else d)
    ps [].

(** [missile_types]: how many missiles of a coalition carry each name. *)
Definition count_by_name (missiles : list AcmiObject) : PyDict.dict Z :=
  fold_left
    (fun d missile =>
       let missile_name := PyStr.get_or (json_Name missile) "" in
       PyDict.set d missile_name (PyDict.get_default 0 d missile_name + 1))
    missiles [].

(** The two statements that credit one pilot (lines 176-178). *)
Definition credit (ps : pilot_stats) (p missile_type : string)
           (missiles_to_add : Z) : pilot_stats :=
  let s := stats_of ps p in
  let types :=
    if PyStr.mem missile_type (missile_types_used s)
    then missile_types_used s
    else missile_types_used s ++ [missile_type] in
  PyDict.set ps p (with_missiles s (missiles_fired s + missiles_to_add) types).

(** [for i, pilot in enumerate(capable_pilots)], from index [i] on. *)
Fixpoint distribute (ps : pilot_stats) (i : Z) (capable_pilots : list string)
         (missile_type : string) (missiles_per_pilot remainder : Z)
  : pilot_stats :=
  match capable_pilots with
  | [] => ps
  | p :: rest =>
      let missiles_to_add :=
        if i <? remainder then missiles_per_pilot + 1
        else missiles_per_pilot in
      distribute (credit ps p missile_type missiles_to_add) (i + 1) rest
                 missile_type missiles_per_pilot remainder
  end.

Definition capable_pilots_of (ps : pilot_stats) (pilots : list string)
           (missile_type : string) : list string :=
  filter (fun p => can_carry_missile (aircraft_type (stats_of ps p))
                                     missile_type)
         pilots.

(** The body of the loop over [missile_types.items()]. *)
Definition distribute_type (pilots : list string) (ps : pilot_stats)
           (item : string * Z) : pilot_stats :=
  let (missile_type, count) := item in
  let capable_pilots := capable_pilots_of ps pilots missile_type in
  match capable_pilots with
  | [] => ps
  | _ :: _ =>
      let k := Z.of_nat (List.length capable_pilots) in
      distribute ps 0 capable_pilots missile_type (count / k) (count mod k)
  end.

(** The body of the loop over [coalition_missiles.items()]. *)
Definition distribute_coalition (coalition_pilots : PyDict.dict (list string))
           (ps : pilot_stats) (item : string * list AcmiObject)
  : pilot_stats :=
  let (c, missiles) := item in
  let pilots := PyDict.get_default [] coalition_pilots c in
  match pilots with
  | [] => ps
  | _ :: _ => fold_left (distribute_type pilots) (count_by_name missiles) ps
  end.

Definition estimate_missile_usage (ps : pilot_stats)
           (air_to_air : list AcmiObject) : pilot_stats :=
  let coalition_missiles := group_by_coalition air_to_air in
  let coalition_pilots := fighters_by_coalition ps in
  fold_left (distribute_coalition coalition_pilots) coalition_missiles ps.

(** *** [calculate_kill_estimates] *)

(** [coalition_losses]: removed aircraft per coalition. *)
Definition count_losses (removed_aircraft : list AcmiObject) : PyDict.dict Z :=
  fold_left
    (fun d aircraft =>
       let c := Acmi.coalition aircraft in
       PyDict.set d c (PyDict.get_default 0 d c + 1))
    removed_aircraft [].

Definition enemy_of (pilot_coalition : string) : string :=
  if String.eqb pilot_coalition "Enemies" then "Allies" else "Enemies".

(** [coalition_shooters] *)
Definition shooters_of (ps : pilot_stats) (pilot_coalition : string)
  : list string :=
  map fst
      (filter (fun item : string * PilotStats =>
                 String.eqb (coalition (snd item)) pilot_coalition
                 && (missiles_fired (snd item) >? 0))
              ps).

(** [sum(self.pilot_stats[p]['missiles_fired'] for p in shooters)] *)
Definition total_missiles_of (ps : pilot_stats) (shooters : list string) : Z :=
  fold_left (fun acc p => acc + missiles_fired (stats_of ps p)) shooters 0.

Section HitRate.
(** The local constant [estimated_hit_rate] of the source (0.3). *)
Variable hit_rate : PyFloat.float.

(** Lines 231-238: the pilot's share of the coalition's missiles and the
    smaller of the two bounds. *)
Definition estimated_kills (fired total_coalition_missiles enemy_losses : Z)
  : option Z :=
  match PyFloat.int_truediv fired total_coalition_missiles with
  | None => None
  | Some pilot_missile_share =>
      match PyFloat.int_mul fired hit_rate,
            PyFloat.int_mul enemy_losses pilot_missile_share with
      | Some x, Some y =>
          match PyFloat.to_int x, PyFloat.to_int y with
          | Some a, Some b => Some (Z.min a b)
          | _, _ => None
          end
      | _, _ => None
      end
  end.

(** One turn of the loop over [self.pilot_stats.items()]. *)
Definition estimate_kills (coalition_losses : PyDict.dict Z)
           (ps : pilot_stats) (p : string) : option pilot_stats :=
  let stats := stats_of ps p in
  if missiles_fired stats =? 0 then Some ps
  else
    let pilot_coalition := coalition stats in
    let enemy_coalition := enemy_of pilot_coalition in
    let enemy_losses := PyDict.get_default 0 coalition_losses enemy_coalition in
    if enemy_losses =? 0 then Some ps
    else
      let coalition_shooters := shooters_of ps pilot_coalition in
      match coalition_shooters with
      | [] => Some ps
      | _ :: _ =>
          let total_coalition_missiles :=
            total_missiles_of ps coalition_shooters in
          match estimated_kills (missiles_fired stats)
                                total_coalition_missiles enemy_losses with
          | None => None
          | Some kills =>
              let rate := if missiles_fired stats >? 0
                          then hit_rate else PyFloat.zero in
              Some (PyDict.set ps p (with_kills stats kills rate))
          end
      end.

(** The loop, over the keys still to visit. *)
Fixpoint estimate_all (coalition_losses : PyDict.dict Z)
         (ps : pilot_stats) (pilots : list string) : option pilot_stats :=
  match pilots with
  | [] => Some ps
  | p :: rest =>
      match estimate_kills coalition_losses ps p with
      | Some ps' => estimate_all coalition_losses ps' rest
      | None => None
      end
  end.

Definition calculate_kill_estimates_with (ps : pilot_stats)
           (removed_aircraft : list AcmiObject) : option pilot_stats :=
  estimate_all (count_losses removed_aircraft) ps (PyDict.keys ps).

(** [analyze_combat_data]; the result is [self.pilot_stats]. *)
Definition analyze_combat_data_with (acmi : Recording) : option pilot_stats :=
  let alive_aircraft := filter is_plane (alive_objects acmi) in
  let removed_aircraft := filter is_plane (removed_objects acmi) in
  let all_aircraft := alive_aircraft ++ removed_aircraft in
  let missiles := filter is_missile (removed_objects acmi) in
  let air_to_air := filter is_air_to_air_missile missiles in
  let ps1 := analyze_pilots [] all_aircraft alive_aircraft in
  let ps2 := estimate_missile_usage ps1 air_to_air in
  calculate_kill_estimates_with ps2 removed_aircraft.

End HitRate.

Definition calculate_kill_estimates :=
  calculate_kill_estimates_with PyFloat.lit_0_3.

Definition analyze_combat_data :=
  analyze_combat_data_with PyFloat.lit_0_3.

(** *** The totals of [generate_report] *)

Definition sum_Z (xs : list Z) : Z := fold_left Z.add xs 0.

Record CoalitionTotals : Type := {
  c_pilots : Z; c_survivors : Z; c_missiles : Z; c_kills : Z; c_deaths : Z
}.

Definition no_totals : CoalitionTotals :=
  {| c_pilots := 0; c_survivors := 0; c_missiles := 0; c_kills := 0;
     c_deaths := 0 |}.

(** The coalition breakdown. *)
Definition coalitions_of (ps : pilot_stats) : PyDict.dict CoalitionTotals :=
  fold_left
    (fun d stats =>
       let c := coalition stats in
       let d1 := if PyDict.mem d c then d else PyDict.set d c no_totals in
       let t := PyDict.get_default no_totals d1 c in
       PyDict.set d1 c
         {| c_pilots := c_pilots t + 1;
            c_survivors := if survived stats then c_survivors t + 1
                           else c_survivors t;
            c_missiles := c_missiles t + missiles_fired stats;
            c_kills := c_kills t + air_to_air_kills stats;
            c_deaths := c_deaths t + deaths stats |})
    (PyDict.values ps) [].

(** The figures of the SUMMARY STATISTICS section. *)
Record Summary : Type := {
  total_pilots : Z;
  survivors : Z;
  total_missiles : Z;
  total_kills : Z;
  total_deaths : Z;
  coalitions : PyDict.dict CoalitionTotals
}.

Definition summary_of (ps : pilot_stats) : Summary :=
  {| total_pilots := Z.of_nat (List.length ps);
     survivors := sum_Z (map (fun s : PilotStats => if survived s then 1 else 0)
                             (PyDict.values ps));
     total_missiles := sum_Z (map missiles_fired (PyDict.values ps));
     total_kills := sum_Z (map air_to_air_kills (PyDict.values ps));
     total_deaths := sum_Z (map deaths (PyDict.values ps));
     coalitions := coalitions_of ps |}.

End ImprovedCombatAnalyzer.

(** ** [CombatAnalyzer] (acmi_analyzer.py)

    The first analyzer credits a missile to the pilot of its [Parent]
    aircraft.  The fields of its statistics that are only initialised
    ([missiles_hit], [kills_list], [death_cause], [flight_time],
    [max_altitude], [max_speed]) are left out. *)

Module CombatAnalyzer.

Import Acmi.

Record PilotStats : Type := {
  pilot_name : string;
  aircraft_type : string;
  coalition : string;
  country : string;
  group : string;
  missiles_fired : Z;
  air_to_air_kills : Z;
  deaths : Z;
  missiles_fired_list : list string   (* the 'missile_type' of each entry *)
}.

Definition pilot_stats : Type := PyDict.dict PilotStats.

Definition default_stats : PilotStats :=
  {| pilot_name := ""; aircraft_type := ""; coalition := "";
     country := ""; group := "";
     missiles_fired := 0; air_to_air_kills := 0; deaths := 0;
     missiles_fired_list := [] |}.

Definition stats_of (ps : pilot_stats) (p : string) : PilotStats :=
  PyDict.get_default default_stats ps p.

Definition with_deaths (s : PilotStats) (d : Z) : PilotStats :=
  {| pilot_name := pilot_name s; aircraft_type := aircraft_type s;
     coalition := coalition s; country := country s; group := group s;
     missiles_fired := missiles_fired s;
     air_to_air_kills := air_to_air_kills s; deaths := d;
     missiles_fired_list := missiles_fired_list s |}.

Definition with_missile (s : PilotStats) (missile_name : string) : PilotStats :=
  {| pilot_name := pilot_name s; aircraft_type := aircraft_type s;
     coalition := coalition s; country := country s; group := group s;
     missiles_fired := missiles_fired s + 1;
     air_to_air_kills := air_to_air_kills s; deaths := deaths s;
     missiles_fired_list := missiles_fired_list s ++ [missile_name] |}.

Definition with_kills (s : PilotStats) (k : Z) : PilotStats :=
  {| pilot_name := pilot_name s; aircraft_type := aircraft_type s;
     coalition := coalition s; country := country s; group := group s;
     missiles_fired := missiles_fired s;
     air_to_air_kills := k; deaths := deaths s;
     missiles_fired_list := missiles_fired_list s |}.

(** [analyze_objects]: the aircraft and the missiles of the recording. *)
Definition all_objects (acmi : Recording) : list AcmiObject :=
  alive_objects acmi ++ removed_objects acmi.

Definition aircraft_of (acmi : Recording) : list AcmiObject :=
  filter is_plane (all_objects acmi).

Definition missiles_of (acmi : Recording) : list AcmiObject :=
  filter (fun obj => negb (is_plane obj) && is_missile obj) (all_objects acmi).

Definition new_stats (p : string) (plane : AcmiObject) : PilotStats :=
  {| pilot_name := p;
     aircraft_type := PyStr.get_or (json_Name plane) "Unknown";
     coalition := Acmi.coalition plane;
     country := PyStr.get_or (json_Country plane) "Unknown";
     group := PyStr.get_or (json_Group plane) "Unknown";
     missiles_fired := 0; air_to_air_kills := 0; deaths := 0;
     missiles_fired_list := [] |}.

(** One turn of the loop of [analyze_aircraft]. *)
Definition analyze_plane (acmi : Recording) (ps : pilot_stats)
           (plane : AcmiObject) : pilot_stats :=
  match PyStr.truthy (pilot plane) with
  | None => ps
  | Some p =>
      let ps1 :=
        if PyDict.mem ps p then ps
        else PyDict.set ps p (new_stats p plane) in
      if obj_in plane (removed_objects acmi)
      then let s := stats_of ps1 p in
           PyDict.set ps1 p (with_deaths s (deaths s + 1))
      else ps1
  end.

Definition analyze_aircraft (acmi : Recording) (ps : pilot_stats)
           (aircraft : list AcmiObject) : pilot_stats :=
  fold_left (analyze_plane acmi) aircraft ps.

Definition find_pilot_by_object_id (acmi : Recording) (object_id : string)
  : option string :=
  match find (fun obj =>
                match json_ID obj with
                | Some i => String.eqb i object_id && is_plane obj
                | None => false
                end)
             (all_objects acmi) with
  | Some obj => pilot obj
  | None => None
  end.

Definition air_to_air_missiles : list string :=
  ["AIM_120"; "AIM-9L"; "AIM-9M"; "AIM-9X"; "AIM-7"; "R-27"; "R-73";
   "R-77"; "P_24R"].

(** One turn of the loop of [analyze_missiles]. *)
Definition analyze_missile (acmi : Recording) (ps : pilot_stats)
           (missile : AcmiObject) : pilot_stats :=
  let missile_name := PyStr.get_or (json_Name missile) "" in
  if PyStr.any_in air_to_air_missiles missile_name then
    match PyStr.truthy (json_Parent missile) with
    | Some parent_id =>
        match PyStr.truthy (find_pilot_by_object_id acmi parent_id) with
        | Some parent_pilot =>
            PyDict.set ps parent_pilot
              (with_missile (stats_of ps parent_pilot) missile_name)
        | None => ps
        end
    | None => ps
    end
  else ps.

Definition analyze_missiles (acmi : Recording) (ps : pilot_stats)
           (missiles : list AcmiObject) : pilot_stats :=
  fold_left (analyze_missile acmi) missiles ps.

Definition enemy_of (pilot_coalition : string) : string :=
  if String.eqb pilot_coalition "Enemies" then "Allies" else "Enemies".

(** [len([obj for obj in removed_aircraft if obj.coalition() == c])] *)
Definition losses_of (removed_aircraft : list AcmiObject) (c : string) : Z :=
  Z.of_nat (List.length
              (filter (fun obj => String.eqb (Acmi.coalition obj) c)
                      removed_aircraft)).

(** The number of pilots of a coalition that fired. *)
Definition shooters_in (ps : pilot_stats) (c : string) : Z :=
  Z.of_nat (List.length
              (filter (fun s => String.eqb (coalition s) c
                                && (missiles_fired s >? 0))
                      (PyDict.values ps))).

(** One turn of the loop of [calculate_kill_statistics]; [None] is the
    [ZeroDivisionError] of [//]. *)
Definition estimate_kills (removed_aircraft : list AcmiObject)
           (ps : pilot_stats) (p : string) : option pilot_stats :=
  let stats := stats_of ps p in
  if missiles_fired stats >? 0 then
    let enemy_coalition := enemy_of (coalition stats) in
    let enemy_losses := losses_of removed_aircraft enemy_coalition in
    if (enemy_losses >? 0) && (missiles_fired stats >? 0) then
      let k := shooters_in ps (coalition stats) in
      if k =? 0 then None
      else
        let per_shooter := enemy_losses / k in
        let estimated_kills :=
          Z.min (missiles_fired stats / 2)
                (if per_shooter =? 0 then 1 else per_shooter) in
        Some (PyDict.set ps p (with_kills stats (Z.max 0 estimated_kills)))
    else Some ps
  else Some ps.

Fixpoint estimate_all (removed_aircraft : list AcmiObject)
         (ps : pilot_stats) (pilots : list string) : option pilot_stats :=
  match pilots with
  | [] => Some ps
  | p :: rest =>
      match estimate_kills removed_aircraft ps p with
      | Some ps' => estimate_all removed_aircraft ps' rest
      | None => None
      end
  end.

Definition calculate_kill_statistics (acmi : Recording) (ps : pilot_stats)
  : option pilot_stats :=
  let removed_aircraft := filter is_plane (removed_objects acmi) in
  estimate_all removed_aircraft ps (PyDict.keys ps).

(** [run_analysis] up to the report; the result is [self.pilot_stats]. *)
Definition run_analysis (acmi : Recording) : option pilot_stats :=
  let aircraft := aircraft_of acmi in
  let missiles := missiles_of acmi in
  let ps1 := analyze_aircraft acmi [] aircraft in
  let ps2 := analyze_missiles acmi ps1 missiles in
  calculate_kill_statistics acmi ps2.

End CombatAnalyzer.

(** ** Vocabulary of the properties *)

Module Spec.
Import Acmi ImprovedCombatAnalyzer.

(** The pilot of an object is [p]. *)
Definition pilot_is (p : string) (o : AcmiObject) : bool :=
  match pilot o with
  | Some q => String.eqb q p
  | None => false
  end.

(** The number of removed aircraft flown by [p]. *)
Definition lost_aircraft (acmi : Recording) (p : string) : Z :=
  Z.of_nat (List.length
              (filter (fun o => is_plane o && pilot_is p o)
                      (removed_objects acmi))).

(** No object is both alive and removed. *)
Definition partitioned (acmi : Recording) : Prop :=
  forallb (fun a =>
             forallb (fun r => negb (Nat.eqb (ident a) (ident r)))
                     (removed_objects acmi))
          (alive_objects acmi)
  = true.

(** The recording fits in a Python list. *)
Definition sized (acmi : Recording) : Prop :=
  Z.of_nat (List.length (removed_objects acmi)) <= PyFloat.max_size.

(** The aircraft raises the death count of [p]. *)
Definition dies (alive_aircraft : list AcmiObject) (p : string) (a : AcmiObject) : bool :=
  match PyStr.truthy (pilot a) with
  | Some q => String.eqb q p && negb (obj_in a alive_aircraft)
  | None => false
  end.

(** The missiles credited to all pilots together. *)
Definition total_fired (ps : pilot_stats) : Z :=
  sum_Z (map missiles_fired (PyDict.values ps)).

(** [missile.json().get('Name', '')] *)
Definition missile_name (missile : AcmiObject) : string :=
  PyStr.get_or (json_Name missile) "".

(** The pilots that can be credited with a missile named [t] of coalition
    [c], in the order of [self.pilot_stats]. *)
Definition eligible (ps : pilot_stats) (c t : string) : list string :=
  filter (fun p =>
            let s := stats_of ps p in
            is_fighter_aircraft (aircraft_type s)
            && String.eqb (coalition s) c
            && can_carry_missile (aircraft_type s) t)
         (PyDict.keys ps).

Definition has_eligible (ps : pilot_stats) (c t : string) : bool :=
  match eligible ps c t with
  | [] => false
  | _ :: _ => true
  end.

(** The sum of a weight over the items of a dictionary. *)
Definition dict_sum {V : Type} (w : string -> V -> Z) (d : PyDict.dict V) : Z :=
  sum_Z (map (fun item => w (fst item) (snd item)) d).

(** Two states that differ only in [missiles_fired] and
    [missile_types_used]. *)
Definition same_profiles (ps ps' : pilot_stats) : Prop :=
  PyDict.keys ps' = PyDict.keys ps
  /\ forall p, with_missiles (stats_of ps' p) 0 []
               = with_missiles (stats_of ps p) 0 [].

(** The missiles that reach a pilot. *)
Definition attributable (ps : pilot_stats) (m : AcmiObject) : bool :=
  has_eligible ps (Acmi.coalition m) (missile_name m).

(** What one pilot gained between two states. *)
Definition gained (ps ps' : pilot_stats) (p : string) : Z :=
  missiles_fired (stats_of ps' p) - missiles_fired (stats_of ps p).

(** The state right after [analyze_pilots]: nothing fired, nothing
    estimated. *)
Definition fresh (ps : pilot_stats) : Prop :=
  forall p,
    missiles_fired (stats_of ps p) = 0
    /\ air_to_air_kills (stats_of ps p) = 0
    /\ missile_types_used (stats_of ps p) = []
    /\ estimated_hit_rate (stats_of ps p) = PyFloat.zero.

(** Two states that differ only in [air_to_air_kills] and
    [estimated_hit_rate]. *)
Definition same_fire (ps ps' : pilot_stats) : Prop :=
  PyDict.keys ps' = PyDict.keys ps
  /\ forall p, with_kills (stats_of ps' p) 0 PyFloat.zero
               = with_kills (stats_of ps p) 0 PyFloat.zero.

(** The pilots of coalition [c] that fired. *)
Definition shooters (ps : pilot_stats) (c : string) : list string :=
  filter (fun q => String.eqb (coalition (stats_of ps q)) c
                   && (missiles_fired (stats_of ps q) >? 0))
         (PyDict.keys ps).

(** The missiles fired by coalition [c]. *)
Definition coalition_total (ps : pilot_stats) (c : string) : Z :=
  sum_Z (map (fun q => missiles_fired (stats_of ps q)) (shooters ps c)).

(** The aircraft of coalition [c] among the removed aircraft. *)
Definition losses_in (removed_aircraft : list AcmiObject) (c : string) : Z :=
  Z.of_nat (List.length
              (filter (fun o => String.eqb (Acmi.coalition o) c)
                      removed_aircraft)).

(** What the kill estimation leaves for pilot [p]: the statistics as they
    were when the pilot did not fire or the enemy lost nothing, and the
    estimate otherwise. *)
Definition outcome (hit_rate : PyFloat.float)
           (removed_aircraft : list AcmiObject)
           (ps : pilot_stats) (p : string) : option PilotStats :=
  let s := stats_of ps p in
  let enemy_losses := losses_in removed_aircraft (enemy_of (coalition s)) in
  if (missiles_fired s =? 0) || (enemy_losses =? 0) then Some s
  else
    match estimated_kills hit_rate (missiles_fired s)
                          (coalition_total ps (coalition s)) enemy_losses with
    | Some kills => Some (with_kills s kills hit_rate)
    | None => None
    end.

(** [math.floor(z * y)] *)
Definition floor_mul (z : Z) (y : PyFloat.float) : option Z :=
  match PyFloat.int_mul z y with
  | Some x => PyFloat.floor x
  | None => None
  end.

(** The side whose losses count for a pilot of coalition [c].  The two
    sides are known by name: the opponent of "Enemies" is "Allies", and
    the opponent of every other coalition ("Allies", or any other name)
    is "Enemies". *)
Definition opponent (c : string) : string :=
  if String.eqb c "Enemies" then "Allies" else "Enemies".

(** The enemy losses of a pilot of coalition [c]: the removed aircraft
    whose coalition is the opponent of [c] by name. *)
Definition enemy_losses (acmi : Recording) (c : string) : Z :=
  losses_in (filter is_plane (removed_objects acmi)) (opponent c).

(** The removed aircraft of the coalitions other than [c]: the losses of
    the other side when the recording has two coalitions, whatever their
    names. *)
Definition other_side_losses (acmi : Recording) (c : string) : Z :=
  Z.of_nat (List.length
              (filter (fun o => is_plane o
                                && negb (String.eqb (Acmi.coalition o) c))
                      (removed_objects acmi))).

(** The removed air-to-air missiles, as [analyze_combat_data] selects them. *)
Definition air_to_air_of (acmi : Recording) : list AcmiObject :=
  filter is_air_to_air_missile (filter is_missile (removed_objects acmi)).

(** The state after [analyze_pilots]. *)
Definition pilots_state (acmi : Recording) : pilot_stats :=
  analyze_pilots []
    (filter is_plane (alive_objects acmi) ++ filter is_plane (removed_objects acmi))
    (filter is_plane (alive_objects acmi)).

(** The state after [estimate_missile_usage]. *)
Definition usage_state (acmi : Recording) : pilot_stats :=
  estimate_missile_usage (pilots_state acmi) (air_to_air_of acmi).

(** The removed munitions that reach no pilot: the name matches no
    air-to-air designator, or no pilot of the coalition is eligible. *)
Definition dropped_munitions (acmi : Recording) : Z :=
  Z.of_nat
    (List.length
       (filter (fun m => is_missile m
                         && negb (is_air_to_air_missile m
                                  && attributable (pilots_state acmi) m))
               (removed_objects acmi))).

(** A pilot that flies no fighter has no missiles, kills or missile
    types. *)
Definition grounded (ps : pilot_stats) : Prop :=
  forall p,
    is_fighter_aircraft (aircraft_type (stats_of ps p)) = false ->
    missiles_fired (stats_of ps p) = 0
    /\ air_to_air_kills (stats_of ps p) = 0
    /\ missile_types_used (stats_of ps p) = [].

End Spec.

Module BasicSpec.
Import Acmi CombatAnalyzer.

(** The kill estimate stays within the missiles fired. *)
Definition kills_bounded (ps : pilot_stats) : Prop :=
  forall q, 0 <= air_to_air_kills (stats_of ps q) <= missiles_fired (stats_of ps q).

(** The aircraft counts as a loss of [p] in [analyze_aircraft]. *)
Definition counted_lost (acmi : Recording) (p : string) (a : AcmiObject) : bool :=
  match PyStr.truthy (pilot a) with
  | Some q => String.eqb q p && obj_in a (removed_objects acmi)
  | None => false
  end.

End BasicSpec.

(** ** Recordings used as examples *)

Module Examples.
Import Acmi.

(** An aircraft with its object id, pilot, coalition and type. *)
Definition aircraft (i : nat) (id p c name : string) : AcmiObject :=
  {| ident := i; is_plane := true; is_missile := false;
     pilot := Some p; coalition := c;
     json_ID := Some id; json_Parent := None; json_Name := Some name;
     json_Country := None; json_Group := None |}.

(** A missile with its launcher reference (if recorded), coalition and
    name. *)
Definition missile (i : nat) (parent : option string) (c name : string)
  : AcmiObject :=
  {| ident := i; is_plane := false; is_missile := true;
     pilot := None; coalition := c;
     json_ID := None; json_Parent := parent; json_Name := Some name;
     json_Country := None; json_Group := None |}.

(** Pilot B survives, pilot A is shot down: B is seen first.  Five
    Sidewinders of one name were fired by their coalition. *)
Definition two_pilots : Recording :=
  {| alive_objects := [aircraft 1 "101" "B" "Allies" "F-16C"];
     removed_objects :=
       [aircraft 2 "102" "A" "Allies" "F-16C";
        missile 3 None "Allies" "AIM-9L"; missile 4 None "Allies" "AIM-9L";
        missile 5 None "Allies" "AIM-9L"; missile 6 None "Allies" "AIM-9L";
        missile 7 None "Allies" "AIM-9L"] |}.

(** One pilot, one Sidewinder, no enemy loss. *)
Definition lone_shooter : Recording :=
  {| alive_objects := [aircraft 1 "101" "A" "Allies" "F-16C"];
     removed_objects := [missile 2 None "Allies" "AIM-9L"] |}.

(** One fighter pilot and a transport of the other side; one missile
    reaches the pilot. *)
Definition all_attributed : Recording :=
  {| alive_objects := [aircraft 1 "101" "A" "Allies" "F-16C";
                       aircraft 2 "102" "T" "Enemies" "C-130"];
     removed_objects := [missile 3 None "Allies" "AIM-9L"] |}.

(** The same with three more munitions: one of a coalition without
    fighter pilots, one that no pilot of its coalition can carry, one of
    an unknown family. *)
Definition some_dropped : Recording :=
  {| alive_objects := [aircraft 1 "101" "A" "Allies" "F-16C";
                       aircraft 2 "102" "T" "Enemies" "C-130"];
     removed_objects := [missile 3 None "Allies" "AIM-9L";
                         missile 4 None "Enemies" "AIM-9L";
                         missile 5 None "Allies" "R-73";
                         missile 6 None "Allies" "FAB-250"] |}.

(** Launcher references recorded: A fired two missiles, B four, and the
    enemy lost one aircraft. *)
Definition with_parents : Recording :=
  {| alive_objects := [aircraft 1 "101" "A" "Allies" "F-16C";
                       aircraft 2 "102" "B" "Allies" "F-16C"];
     removed_objects :=
       [aircraft 3 "103" "E" "Enemies" "MiG-21";
        missile 4 (Some "101") "Allies" "AIM-9L";
        missile 5 (Some "101") "Allies" "AIM-9L";
        missile 6 (Some "102") "Allies" "AIM-9L";
        missile 7 (Some "102") "Allies" "AIM-9L";
        missile 8 (Some "102") "Allies" "AIM-9L";
        missile 9 (Some "102") "Allies" "AIM-9L"] |}.

(** Two shooters, ten missiles and two enemy losses: the scenario of the
    specification. *)
Definition ten_missiles : Recording :=
  {| alive_objects := [aircraft 1 "101" "A" "Allies" "F-16C";
                       aircraft 2 "102" "B" "Allies" "MiG-21"];
     removed_objects :=
       [aircraft 3 "103" "E" "Enemies" "MiG-21";
        aircraft 4 "104" "F" "Enemies" "MiG-23";
        missile 5 None "Allies" "AIM-9L"; missile 6 None "Allies" "AIM-9L";
        missile 7 None "Allies" "AIM-9L"; missile 8 None "Allies" "AIM-9L";
        missile 9 None "Allies" "AIM-9L"; missile 10 None "Allies" "AIM-9L";
        missile 11 None "Allies" "R-73"; missile 12 None "Allies" "R-73";
        missile 13 None "Allies" "R-73"; missile 14 None "Allies" "R-73"] |}.

(** The scenario of the specification under its own coalition names:
    Blue fires ten missiles, six of them credited to A, and Red loses
    two aircraft. *)
Definition blue_red : Recording :=
  {| alive_objects := [aircraft 1 "101" "A" "Blue" "F-16C";
                       aircraft 2 "102" "B" "Blue" "MiG-21"];
     removed_objects :=
       [aircraft 3 "103" "E" "Red" "MiG-21";
        aircraft 4 "104" "F" "Red" "MiG-23";
        missile 5 None "Blue" "AIM-9L"; missile 6 None "Blue" "AIM-9L";
        missile 7 None "Blue" "AIM-9L"; missile 8 None "Blue" "AIM-9L";
        missile 9 None "Blue" "AIM-9L"; missile 10 None "Blue" "AIM-9L";
        missile 11 None "Blue" "R-73"; missile 12 None "Blue" "R-73";
        missile 13 None "Blue" "R-73"; missile 14 None "Blue" "R-73"] |}.

(** Two pilots of one coalition, B seen first, and two groups of
    missiles in mixed order: five AIM-9L and three AIM-7.  One R-73 has
    no eligible pilot and one AIM-9L belongs to a coalition without
    pilots. *)
Definition two_groups : Recording :=
  {| alive_objects := [aircraft 1 "101" "B" "Allies" "F-16C"];
     removed_objects :=
       [aircraft 2 "102" "A" "Allies" "F-4E";
        missile 3 None "Allies" "AIM-9L"; missile 4 None "Allies" "AIM-7";
        missile 5 None "Allies" "R-73"; missile 6 None "Allies" "AIM-9L";
        missile 7 None "Allies" "AIM-9L"; missile 8 None "Enemies" "AIM-9L";
        missile 9 None "Allies" "AIM-7"; missile 10 None "Allies" "AIM-9L";
        missile 11 None "Allies" "AIM-7"; missile 12 None "Allies" "AIM-9L"] |}.

(** An aircraft whose country and group are recorded as well. *)
Definition registered (i : nat) (id p c name nation flight : string)
  : AcmiObject :=
  {| ident := i; is_plane := true; is_missile := false;
     pilot := Some p; coalition := c;
     json_ID := Some id; json_Parent := None; json_Name := Some name;
     json_Country := Some nation; json_Group := Some flight |}.

(** Pilot B flies two aircraft, one of them lost; only the first one
    seen gives the profile. *)
Definition two_aircraft : Recording :=
  {| alive_objects := [registered 1 "101" "B" "Allies" "F-16C" "us" "Viper 1"];
     removed_objects :=
       [registered 2 "102" "A" "Allies" "F-4E" "de" "Rhino 1";
        registered 3 "103" "B" "Enemies" "MiG-21" "ru" "Fishbed 1"] |}.

End Examples.

(** ** Vocabulary of the pilot entries *)

Module PilotSpec.
Import Acmi ImprovedCombatAnalyzer Spec.

(** [all_aircraft] of [analyze_combat_data]: the alive aircraft, then the
    removed ones. *)
Definition all_aircraft (acmi : Recording) : list AcmiObject :=
  filter is_plane (alive_objects acmi) ++ filter is_plane (removed_objects acmi).

(** The pilot names that pass [if not pilot: continue], one for each
    aircraft that has one. *)
Definition named_pilots (aircraft : list AcmiObject) : list string :=
  flat_map (fun a => match PyStr.truthy (pilot a) with
                     | Some p => [p]
                     | None => []
                     end)
           aircraft.

(** Every name once, at the place of its first occurrence. *)
Fixpoint first_seen (names : list string) : list string :=
  match names with
  | [] => []
  | p :: rest => p :: filter (fun q => negb (String.eqb q p)) (first_seen rest)
  end.

(** The aircraft has the pilot name [p], and the name is not empty. *)
Definition flown_by (p : string) (a : AcmiObject) : bool :=
  match PyStr.truthy (pilot a) with
  | Some q => String.eqb q p
  | None => false
  end.

(** The fields written when a pilot is first seen and never again: the
    statistics with the counters and the estimates reset. *)
Definition profile (s : PilotStats) : PilotStats :=
  with_deaths (with_missiles (with_kills s 0 PyFloat.zero) 0 []) 0.

(** The missiles credited to the pilots of coalition [c]. *)
Definition coalition_fired (ps : pilot_stats) (c : string) : Z :=
  sum_Z (map missiles_fired
             (filter (fun s => String.eqb (coalition s) c) (PyDict.values ps))).

(** A recording of fewer than [2^50] removed objects: every count of the
    analysis is then a float without rounding, with room to spare. *)
Definition modest (acmi : Recording) : Prop :=
  Z.of_nat (List.length (removed_objects acmi)) < 2 ^ 50.

End PilotSpec.

(** ** Vocabulary of the apportionment *)

Module ShareSpec.
Import Acmi ImprovedCombatAnalyzer Spec PilotSpec.

(** The removed air-to-air missiles of coalition [c], in the order of the
    recording. *)
Definition munitions_of (acmi : Recording) (c : string) : list AcmiObject :=
  filter (fun m => String.eqb (Acmi.coalition m) c) (air_to_air_of acmi).

(** Their names, each once, in the order in which they are first met. *)
Definition munition_names (acmi : Recording) (c : string) : list string :=
  first_seen (map missile_name (munitions_of acmi c)).

(** The number [N] of missiles in the group of coalition [c] and name
    [t]. *)
Definition group_size (acmi : Recording) (c t : string) : Z :=
  Z.of_nat (List.length
              (filter (fun m => String.eqb (missile_name m) t)
                      (munitions_of acmi c))).

(** The place of [p] in a list of pilots, counted from 0. *)
Fixpoint place (p : string) (pilots : list string) : Z :=
  match pilots with
  | [] => 0
  | q :: rest => if String.eqb q p then 0 else 1 + place p rest
  end.

(** What a group of [n] missiles gives to [p] when it is apportioned
    among the [K] pilots of the list: [n div K], and one more when [p]
    is among the first [n mod K]; nothing when [p] is not in the list. *)
Definition share_of (n : Z) (pilots : list string) (p : string) : Z :=
  if PyStr.mem p pilots then
    let k := Z.of_nat (List.length pilots) in
    n / k + (if place p pilots <? n mod k then 1 else 0)
  else 0.

(** The missiles that reach pilot [p]: the pilot's share of every group
    of the pilot's coalition. *)
Definition apportioned (acmi : Recording) (ps : pilot_stats) (p : string) : Z :=
  let c := coalition (stats_of ps p) in
  sum_Z (map (fun t => share_of (group_size acmi c t) (eligible ps c t) p)
             (munition_names acmi c)).

(** The names of the groups for which [p] is eligible, in the order in
    which the names are first met. *)
Definition recorded_names (acmi : Recording) (ps : pilot_stats) (p : string)
  : list string :=
  let c := coalition (stats_of ps p) in
  filter (fun t => PyStr.mem p (eligible ps c t)) (munition_names acmi c).

(** The munition reaches no pilot: it is no missile, its name holds no
    air-to-air designator, or no pilot of its coalition is eligible. *)
Definition dropped (ps : pilot_stats) (m : AcmiObject) : bool :=
  negb (is_missile m && is_air_to_air_missile m && attributable ps m).

(** The object has a [Name]. *)
Definition has_name (o : AcmiObject) : bool :=
  match json_Name o with
  | Some _ => true
  | None => false
  end.

End ShareSpec.

(** ** Vocabulary of the first analyzer *)

Module LaunchSpec.
Import Acmi CombatAnalyzer.

(** The pilot that [analyze_missiles] credits with a missile: the pilot
    of the first aircraft whose [ID] is the missile's [Parent]. *)
Definition launcher (acmi : Recording) (missile : AcmiObject) : option string :=
  if PyStr.any_in air_to_air_missiles (PyStr.get_or (json_Name missile) "")
  then match PyStr.truthy (json_Parent missile) with
       | Some parent_id => PyStr.truthy (find_pilot_by_object_id acmi parent_id)
       | None => None
       end
  else None.

Definition launched_by (acmi : Recording) (p : string) (missile : AcmiObject)
  : bool :=
  match launcher acmi missile with
  | Some q => String.eqb q p
  | None => false
  end.

(** [min(fired // 2, losses // shooters or 1)] when the pilot fired and
    the enemy lost an aircraft, and the initial 0 otherwise. *)
Definition expected_kills (fired losses shooters : Z) : Z :=
  if (0 <? fired) && (0 <? losses)
  then Z.min (fired / 2) (if losses / shooters =? 0 then 1 else losses / shooters)
  else 0.

(** The estimate of pilot [q], from the state [ps0] that
    [calculate_kill_statistics] starts with. *)
Definition estimate (removed_aircraft : list AcmiObject) (ps0 : pilot_stats)
           (q : string) : Z :=
  expected_kills (missiles_fired (stats_of ps0 q))
    (losses_of removed_aircraft (enemy_of (coalition (stats_of ps0 q))))
    (shooters_in ps0 (coalition (stats_of ps0 q))).

(** A state of the loop of [calculate_kill_statistics]: the entries of
    [ps0], some of them with their estimate. *)
Definition reached (removed_aircraft : list AcmiObject) (ps0 cur : pilot_stats)
  : Prop :=
  PyDict.keys cur = PyDict.keys ps0
  /\ (forall c, shooters_in cur c = shooters_in ps0 c)
  /\ forall q, stats_of cur q = stats_of ps0 q
               \/ stats_of cur q
                  = with_kills (stats_of ps0 q) (estimate removed_aircraft ps0 q).

End LaunchSpec.

(** ** More float operations *)

Module PyNumber.
Import PyFloat.

(** [a / b] on two [int] of any sign: the correctly rounded quotient,
    [ZeroDivisionError] when [b] is 0, [OverflowError] when the quotient
    is too large for a float. *)
Definition truediv (a b : Z) : option float :=
  match b with
  | Z0 => None
  | _ =>
      match a with
      | Z0 => Some (S754_zero (b <? 0))
      | _ =>
          let '(q, e, l) :=
            SFdiv_core_binary prec emax (Z.abs a) 0 (Z.abs b) 0 in
          match binary_round_aux prec emax (xorb (a <? 0) (b <? 0)) q e l with
          | S754_infinity _ => None
          | S754_nan => None
          | f => Some f
          end
      end
  end.

(** [float * int] *)
Definition mul_int (x : float) (z : Z) : option float :=
  match of_int z with
  | Some y => Some (mul x y)
  | None => None
  end.

(** [a / b * 100] *)
Definition percent (a b : Z) : option float :=
  match truediv a b with
  | Some q => mul_int q 100
  | None => None
  end.

End PyNumber.

(** ** [generate_report] of [ImprovedCombatAnalyzer]

    The report is modelled by what it prints, without the layout: the
    pilot section is a list of coalition headers and pilot blocks, the
    summary holds the figures.  The four mission lines copied from
    [global_json()] are left out.  [None] is an exception raised by a
    division. *)

Module Report.
Import Acmi ImprovedCombatAnalyzer.

(** The key of [sorted]:
    [(coalition, -air_to_air_kills, -missiles_fired)], compared as
    tuples. *)
Definition key_compare (a b : PilotStats) : comparison :=
  match String.compare (coalition a) (coalition b) with
  | Eq =>
      match Z.compare (- air_to_air_kills a) (- air_to_air_kills b) with
      | Eq => Z.compare (- missiles_fired a) (- missiles_fired b)
      | c => c
      end
  | c => c
  end.

Definition key_le (a b : PilotStats) : bool :=
  match key_compare a b with
  | Gt => false
  | _ => true
  end.

Definition key_eq (a b : PilotStats) : bool :=
  match key_compare a b with
  | Eq => true
  | _ => false
  end.

(** [sorted] is stable: an item goes before the first item whose key is
    not smaller, and the items are inserted from the last to the first,
    so that items with equal keys keep their order. *)
Fixpoint insert (x : string * PilotStats) (l : list (string * PilotStats))
  : list (string * PilotStats) :=
  match l with
  | [] => [x]
  | y :: l' => if key_le (snd x) (snd y) then x :: y :: l' else y :: insert x l'
  end.

Definition sorted_pilots (ps : pilot_stats) : list (string * PilotStats) :=
  fold_right insert [] ps.

(** What is printed for one pilot. *)
Record PilotBlock : Type := {
  shown : PilotStats;
  status : string;
  kill_death_ratio : PyFloat.float;
  hit_rate_percent : option PyFloat.float
}.

Inductive Line : Type :=
| Header (c : string)
| Pilot (block : PilotBlock).

Definition pilot_block (stats : PilotStats) : option PilotBlock :=
  match PyNumber.truediv (air_to_air_kills stats) (Z.max 1 (deaths stats)) with
  | None => None
  | Some ratio =>
      let status := if survived stats then "SURVIVED" else "KIA" in
      if missiles_fired stats >? 0 then
        match PyNumber.mul_int (estimated_hit_rate stats) 100 with
        | None => None
        | Some rate =>
            Some {| shown := stats; status := status;
                    kill_death_ratio := ratio; hit_rate_percent := Some rate |}
        end
      else
        Some {| shown := stats; status := status;
                kill_death_ratio := ratio; hit_rate_percent := None |}
  end.

(** The loop over [sorted_pilots]; [current_coalition] starts as
    [None]. *)
Fixpoint pilot_lines (current_coalition : option string)
         (pilots : list (string * PilotStats)) : option (list Line) :=
  match pilots with
  | [] => Some []
  | (_, stats) :: rest =>
      let header :=
        match current_coalition with
        | Some c => if String.eqb (coalition stats) c then []
                    else [Header (coalition stats)]
        | None => [Header (coalition stats)]
        end in
      match pilot_block stats with
      | None => None
      | Some block =>
          match pilot_lines (Some (coalition stats)) rest with
          | None => None
          | Some lines => Some (header ++ Pilot block :: lines)
          end
      end
  end.

(** One entry of the coalition breakdown. *)
Record CoalitionLine : Type := {
  name : string;
  totals : CoalitionTotals;
  kd_ratio : option PyFloat.float;
  hit_rate : option PyFloat.float
}.

(** A figure printed under a condition. *)
Definition guarded (A : Type) (condition : bool) (x : option A)
  : option (option A) :=
  if condition then
    match x with
    | Some v => Some (Some v)
    | None => None
    end
  else Some None.

Definition coalition_line (item : string * CoalitionTotals)
  : option CoalitionLine :=
  let (c, data) := item in
  match guarded (c_deaths data >? 0)
                (PyNumber.truediv (c_kills data) (c_deaths data)),
        guarded (c_missiles data >? 0)
                (PyNumber.percent (c_kills data) (c_missiles data)) with
  | Some kd, Some rate =>
      Some {| name := c; totals := data; kd_ratio := kd; hit_rate := rate |}
  | _, _ => None
  end.

Fixpoint coalition_lines (items : list (string * CoalitionTotals))
  : option (list CoalitionLine) :=
  match items with
  | [] => Some []
  | item :: rest =>
      match coalition_line item, coalition_lines rest with
      | Some line, Some lines => Some (line :: lines)
      | _, _ => None
      end
  end.

Record Report : Type := {
  pilot_section : list Line;
  figures : Summary;
  casualties : Z;
  overall_hit_rate : option PyFloat.float;
  breakdown : list CoalitionLine
}.

Definition generate_report (ps : pilot_stats) : option Report :=
  match pilot_lines None (sorted_pilots ps) with
  | None => None
  | Some lines =>
      let s := summary_of ps in
      match guarded (total_missiles s >? 0)
                    (PyNumber.percent (total_kills s) (total_missiles s)) with
      | None => None
      | Some overall =>
          match coalition_lines (coalitions s) with
          | None => None
          | Some cls =>
              Some {| pilot_section := lines; figures := s;
                      casualties := total_pilots s - survivors s;
                      overall_hit_rate := overall; breakdown := cls |}
          end
      end
  end.

(** The update of a coalition's figures for one pilot, and one turn of
    the loop that builds the breakdown ([coalitions_of]). *)
Definition add_pilot (t : CoalitionTotals) (stats : PilotStats)
  : CoalitionTotals :=
  {| c_pilots := c_pilots t + 1;
     c_survivors := if survived stats then c_survivors t + 1 else c_survivors t;
     c_missiles := c_missiles t + missiles_fired stats;
     c_kills := c_kills t + air_to_air_kills stats;
     c_deaths := c_deaths t + deaths stats |}.

Definition breakdown_step (d : PyDict.dict CoalitionTotals) (stats : PilotStats)
  : PyDict.dict CoalitionTotals :=
  let c := coalition stats in
  let d1 := if PyDict.mem d c then d else PyDict.set d c no_totals in
  PyDict.set d1 c (add_pilot (PyDict.get_default no_totals d1 c) stats).

(** The figures of a group of pilots. *)
Definition totals_of (group : list PilotStats) : CoalitionTotals :=
  {| c_pilots := Z.of_nat (List.length group);
     c_survivors := Z.of_nat (List.length (filter survived group));
     c_missiles := sum_Z (map missiles_fired group);
     c_kills := sum_Z (map air_to_air_kills group);
     c_deaths := sum_Z (map deaths group) |}.

(** The coalitions of the headers of the pilot section. *)
Definition headers (lines : list Line) : list string :=
  flat_map (fun line => match line with
                        | Header c => [c]
                        | Pilot _ => []
                        end)
           lines.

(** The pilots of the pilot section. *)
Definition blocks (lines : list Line) : list PilotBlock :=
  flat_map (fun line => match line with
                        | Header _ => []
                        | Pilot b => [b]
                        end)
           lines.

(** Every pilot block stands under the header of its coalition. *)
Fixpoint grouped (current : option string) (lines : list Line) : bool :=
  match lines with
  | [] => true
  | Header c :: rest => grouped (Some c) rest
  | Pilot b :: rest =>
      match current with
      | Some c => String.eqb (coalition (shown b)) c && grouped current rest
      | None => false
      end
  end.

(** The aircraft has a pilot name. *)
Definition named (a : AcmiObject) : bool :=
  match PyStr.truthy (pilot a) with
  | Some _ => true
  | None => false
  end.

End Report.

(** * Properties *)

Unset Implicit Arguments.

(** ** Dictionaries *)

Section DictFacts.
Variable V : Type.
Implicit Types (d : PyDict.dict V) (k : string) (v : V).

Lemma get_set_same d k v : PyDict.get (PyDict.set d k v) k = Some v.
Proof.
  induction d as [|[k' v'] d IH]; simpl.
  - now rewrite String.eqb_refl.
  - destruct (String.eqb k' k) eqn:E; simpl.
    + now rewrite String.eqb_refl.
    + now rewrite E.
Qed.

Lemma get_set_other d k k' v :
  k <> k' -> PyDict.get (PyDict.set d k v) k' = PyDict.get d k'.
Proof.
  intros Hne. induction d as [|[k0 v0] d IH]; simpl.
  - destruct (String.eqb k k') eqn:E; [|reflexivity].
    apply String.eqb_eq in E. contradiction.
  - destruct (String.eqb k0 k) eqn:E; simpl.
    + apply String.eqb_eq in E. subst k0.
      destruct (String.eqb k k') eqn:E'; [|reflexivity].
      apply String.eqb_eq in E'. contradiction.
    + destruct (String.eqb k0 k'); [reflexivity | exact IH].
Qed.

Lemma get_default_set_same (dflt : V) d k v :
  PyDict.get_default dflt (PyDict.set d k v) k = v.
Proof. unfold PyDict.get_default. now rewrite get_set_same. Qed.

Lemma get_default_set_other (dflt : V) d k k' v :
  k <> k' ->
  PyDict.get_default dflt (PyDict.set d k v) k' = PyDict.get_default dflt d k'.
Proof. intros H. unfold PyDict.get_default. now rewrite get_set_other. Qed.

Lemma get_some_in_keys d k v : PyDict.get d k = Some v -> In k (PyDict.keys d).
Proof.
  induction d as [|[k' v'] d IH]; simpl; [discriminate|].
  destruct (String.eqb k' k) eqn:E.
  - apply String.eqb_eq in E. auto.
  - auto.
Qed.

Lemma get_none_not_in_keys d k : PyDict.get d k = None -> ~ In k (PyDict.keys d).
Proof.
  induction d as [|[k' v'] d IH]; simpl; [tauto|].
  destruct (String.eqb k' k) eqn:E; [discriminate|].
  apply String.eqb_neq in E. intros Hn [H|H]; [contradiction|].
  now apply IH.
Qed.

Lemma in_keys_get d k : In k (PyDict.keys d) -> exists v, PyDict.get d k = Some v.
Proof.
  intros Hin. destruct (PyDict.get d k) eqn:E; [eauto|].
  now apply get_none_not_in_keys in E.
Qed.

Lemma mem_true_iff d k : PyDict.mem d k = true <-> In k (PyDict.keys d).
Proof.
  unfold PyDict.mem. split.
  - destruct (PyDict.get d k) eqn:E; [|discriminate].
    intros _. eapply get_some_in_keys; eauto.
  - intros H. apply in_keys_get in H as [v ->]. reflexivity.
Qed.

Lemma keys_set_old d k v :
  In k (PyDict.keys d) -> PyDict.keys (PyDict.set d k v) = PyDict.keys d.
Proof.
  induction d as [|[k' v'] d IH]; simpl; [tauto|].
  intros Hin. destruct (String.eqb k' k) eqn:E; simpl.
  - apply String.eqb_eq in E. now subst.
  - f_equal. apply IH. destruct Hin as [H|H]; [|exact H].
    apply String.eqb_neq in E. contradiction.
Qed.

Lemma keys_set_new d k v :
  ~ In k (PyDict.keys d) -> PyDict.keys (PyDict.set d k v) = PyDict.keys d ++ [k].
Proof.
  induction d as [|[k' v'] d IH]; simpl; [reflexivity|].
  intros Hn. destruct (String.eqb k' k) eqn:E; simpl.
  - apply String.eqb_eq in E. tauto.
  - f_equal. apply IH. tauto.
Qed.

Lemma in_keys_set d k v k' :
  In k' (PyDict.keys (PyDict.set d k v)) <-> k' = k \/ In k' (PyDict.keys d).
Proof.
  destruct (in_dec string_dec k (PyDict.keys d)) as [H|H].
  - rewrite keys_set_old by exact H. split; [tauto|].
    intros [->|H']; assumption.
  - rewrite keys_set_new by exact H. rewrite in_app_iff. simpl.
    split; [intros [H'|[H'|[]]]; auto | intros [H'|H']; auto].
Qed.

Lemma nodup_keys_set d k v :
  NoDup (PyDict.keys d) -> NoDup (PyDict.keys (PyDict.set d k v)).
Proof.
  intros Hnd. destruct (in_dec string_dec k (PyDict.keys d)) as [H|H].
  - now rewrite keys_set_old.
  - rewrite keys_set_new by exact H.
    apply NoDup_app; [exact Hnd | repeat constructor; simpl; tauto |].
    intros x Hx [<-|[]]. contradiction.
Qed.

Lemma get_in d k v : PyDict.get d k = Some v -> In (k, v) d.
Proof.
  induction d as [|[k' v'] d IH]; simpl; [discriminate|].
  destruct (String.eqb k' k) eqn:E.
  - apply String.eqb_eq in E. intros [= ->]. subst. auto.
  - auto.
Qed.

Lemma in_get d k v :
  NoDup (PyDict.keys d) -> In (k, v) d -> PyDict.get d k = Some v.
Proof.
  induction d as [|[k' v'] d IH]; simpl; [tauto|].
  intros Hnd [H|H].
  - injection H as -> ->. now rewrite String.eqb_refl.
  - inversion Hnd as [|? ? Hni Hnd']; subst.
    destruct (String.eqb k' k) eqn:E.
    + apply String.eqb_eq in E. subst. exfalso. apply Hni.
      change k with (fst (k, v)). now apply in_map.
    + now apply IH.
Qed.

End DictFacts.

(** ** Binary64 arithmetic *)

Section Binary64.
Import PyFloat.

Lemma digits2_size p : digits2_pos p = Pos.size p.
Proof. induction p; simpl; congruence. Qed.

Lemma Zdigits2_bounds m : 0 < m -> 2 ^ (Zdigits2 m - 1) <= m < 2 ^ Zdigits2 m.
Proof.
intros H. destruct m as [|p|p]; try lia. simpl Zdigits2. rewrite digits2_size.
split.
- pose proof (Pos.size_le p) as Hle.
  assert (2 ^ Zpos (Pos.size p) <= 2 * Zpos p).
  { rewrite <- Pos2Z.inj_pow. change (2 * Zpos p) with (Zpos (p~0)). lia. }
  replace (Zpos (Pos.size p)) with (Zpos (Pos.size p) - 1 + 1) in H0 by lia.
  rewrite Z.pow_add_r in H0 by lia. lia.
- pose proof (Pos.size_gt p). rewrite <- Pos2Z.inj_pow. lia.
Qed.

Lemma Zdigits2_nonneg m : 0 <= Zdigits2 m.
Proof. destruct m; simpl; lia. Qed.

Lemma Zdigits2_unique m d : 0 < m -> 2 ^ (d - 1) <= m < 2 ^ d -> Zdigits2 m = d.
Proof.
intros Hm [Hlo Hhi]. pose proof (Zdigits2_bounds m Hm) as [Hlo' Hhi'].
pose proof (Zdigits2_nonneg m).
assert (Hd : 0 <= d).
{ destruct (Z.ltb_spec d 0); [|lia]. rewrite Z.pow_neg_r in Hhi by lia. lia. }
destruct (Z.lt_trichotomy (Zdigits2 m) d) as [Hlt|[Heq|Hgt]]; [|exact Heq|].
- assert (2 ^ Zdigits2 m <= 2 ^ (d - 1)) by (apply Z.pow_le_mono_r; lia). lia.
- assert (2 ^ d <= 2 ^ (Zdigits2 m - 1)) by (apply Z.pow_le_mono_r; lia). lia.
Qed.

Lemma shr_1_m mrs : 0 <= shr_m mrs -> shr_m (shr_1 mrs) = shr_m mrs / 2.
Proof.
destruct mrs as [m r s]. simpl. intros Hm.
destruct m as [|p|p]; try lia; [reflexivity|].
destruct p; simpl shr_m.
- rewrite Pos2Z.inj_xI. apply Z.div_unique with 1; lia.
- rewrite Pos2Z.inj_xO. apply Z.div_unique with 0; lia.
- reflexivity.
Qed.

Lemma iter_shr_1_m p : forall mrs, 0 <= shr_m mrs ->
shr_m (iter_pos shr_1 p mrs) = shr_m mrs / 2 ^ Zpos p.
Proof.
induction p as [p IH|p IH|]; intros mrs Hm; simpl iter_pos.
- assert (H1 : 0 <= shr_m (shr_1 mrs)) by (rewrite shr_1_m by lia; apply Z.div_pos; lia).
  assert (H2 : 0 <= shr_m (iter_pos shr_1 p (shr_1 mrs))) by (rewrite IH by lia; apply Z.div_pos; lia).
  rewrite IH, IH, shr_1_m by lia.
  rewrite !Z.div_div by lia. f_equal.
  replace (Zpos p~1) with (1 + Zpos p + Zpos p) by lia.
  rewrite !Z.pow_add_r by lia. change (2 ^ 1) with 2. ring.
- assert (H2 : 0 <= shr_m (iter_pos shr_1 p mrs)) by (rewrite IH by lia; apply Z.div_pos; lia).
  rewrite IH, IH by lia.
  rewrite !Z.div_div by lia. f_equal.
  replace (Zpos p~0) with (Zpos p + Zpos p) by lia.
  rewrite !Z.pow_add_r by lia. ring.
- rewrite shr_1_m by lia. reflexivity.
Qed.


Lemma shr_spec mrs e n : 0 <= shr_m mrs ->
shr_m (fst (shr mrs e n)) = shr_m mrs / 2 ^ Z.max 0 n
/\ snd (shr mrs e n) = e + Z.max 0 n.
Proof.
intros Hm. destruct n as [|p|p]; simpl.
- rewrite Z.div_1_r. split; [reflexivity | lia].
- rewrite iter_shr_1_m by exact Hm. split; reflexivity.
- rewrite Z.div_1_r. split; [reflexivity | lia].
Qed.

Lemma shr_record_of_loc_m m l : shr_m (shr_record_of_loc m l) = m.
Proof. destruct l as [|[]]; reflexivity. Qed.

Lemma shr_fexp_spec m e l : 0 <= m ->
let n := Z.max 0 (fexp prec emax (Zdigits2 m + e) - e) in
shr_m (fst (shr_fexp prec emax m e l)) = m / 2 ^ n
/\ snd (shr_fexp prec emax m e l) = e + n.
Proof.
intros Hm n. unfold shr_fexp.
pose proof (shr_spec (shr_record_of_loc m l) e
              (fexp prec emax (Zdigits2 m + e) - e)) as H.
rewrite shr_record_of_loc_m in H. apply H. exact Hm.
Qed.

Lemma round_nearest_even_bounds m l :
m <= round_nearest_even m l <= m + 1.
Proof.
destruct l as [|[]]; simpl; try lia. destruct (Z.even m); lia.
Qed.

Lemma bra_unfold sx mx ex lx : 0 <= mx ->
let n1 := Z.max 0 (fexp prec emax (Zdigits2 mx + ex) - ex) in
let m1 := mx / 2 ^ n1 in
let e1 := ex + n1 in
exists r, m1 <= r <= m1 + 1 /\
let n2 := Z.max 0 (fexp prec emax (Zdigits2 r + e1) - e1) in
binary_round_aux prec emax sx mx ex lx =
  match r / 2 ^ n2 with
  | Z0 => S754_zero sx
  | Zpos m => if (e1 + n2) <=? emax - prec
              then S754_finite sx m (e1 + n2) else S754_infinity sx
  | Zneg _ => S754_nan
  end.
Proof.
intros Hm n1 m1 e1. unfold binary_round_aux.
pose proof (shr_fexp_spec mx ex lx Hm) as [H1 H2]. fold n1 in H1, H2.
destruct (shr_fexp prec emax mx ex lx) as [mrs' e'] eqn:E1. simpl in H1, H2.
set (r := round_nearest_even (shr_m mrs') (loc_of_shr_record mrs')).
assert (Hr : m1 <= r <= m1 + 1).
{ unfold r, m1. rewrite <- H1. apply round_nearest_even_bounds. }
assert (Hm1 : 0 <= m1) by (apply Z.div_pos; lia).
exists r. split; [exact Hr|].
set (n2 := Z.max 0 (fexp prec emax (Zdigits2 r + e1) - e1)).
pose proof (shr_fexp_spec r e' loc_Exact ltac:(lia)) as [H3 H4].
destruct (shr_fexp prec emax r e' loc_Exact) as [mrs'' e''] eqn:E2.
simpl in H3, H4. subst e'. fold e1 in H3, H4. fold n2 in H3, H4.
rewrite H3, H4. reflexivity.
Qed.

Lemma Zdigits2_le m d : 0 <= m -> 0 <= d -> m < 2 ^ d -> Zdigits2 m <= d.
Proof.
intros Hm Hd Hlt. destruct (Z.eq_dec m 0) as [->|Hne]; [simpl; lia|].
pose proof (Zdigits2_bounds m ltac:(lia)) as [Hlo _].
destruct (Z.le_gt_cases (Zdigits2 m) d) as [H|H]; [exact H|].
assert (2 ^ d <= 2 ^ (Zdigits2 m - 1)) by (apply Z.pow_le_mono_r; lia). lia.
Qed.

Lemma Zdigits2_ge m d : 0 < m -> 2 ^ (d - 1) <= m -> d <= Zdigits2 m.
Proof.
intros Hm Hle. pose proof (Zdigits2_bounds m Hm) as [_ Hhi].
pose proof (Zdigits2_nonneg m).
destruct (Z.le_gt_cases d (Zdigits2 m)) as [Hc|Hc]; [exact Hc|].
assert (2 ^ Zdigits2 m <= 2 ^ (d - 1)) by (apply Z.pow_le_mono_r; lia). lia.
Qed.

Lemma Zdigits2_pos m : 0 < m -> 0 < Zdigits2 m.
Proof. destruct m; simpl; lia. Qed.

(** Digits after a right shift that leaves something. *)
Lemma Zdigits2_div_le m n :
0 <= m -> 0 <= n -> 0 < m / 2 ^ n -> Zdigits2 (m / 2 ^ n) + n <= Zdigits2 m.
Proof.
intros Hm Hn Hq.
assert (Hp : 0 < 2 ^ n) by (apply Z.pow_pos_nonneg; lia).
assert (Hge : 2 ^ n <= m).
{ destruct (Z.le_gt_cases (2 ^ n) m); [assumption|].
  rewrite Z.div_small in Hq by lia. lia. }
assert (Hm0 : 0 < m) by lia.
pose proof (Zdigits2_bounds m Hm0) as [_ Hhi].
assert (Hdn : n < Zdigits2 m).
{ destruct (Z.lt_ge_cases n (Zdigits2 m)); [assumption|].
  assert (2 ^ Zdigits2 m <= 2 ^ n) by (apply Z.pow_le_mono_r; lia). lia. }
enough (Zdigits2 (m / 2 ^ n) <= Zdigits2 m - n) by lia.
apply Zdigits2_le; try lia.
apply Z.div_lt_upper_bound; [lia|].
rewrite <- Z.pow_add_r by lia. now replace (n + (Zdigits2 m - n)) with (Zdigits2 m) by lia.
Qed.

Lemma Zdigits2_succ_le m r : 0 < m -> r <= m + 1 -> 0 <= r -> Zdigits2 r <= Zdigits2 m + 1.
Proof.
intros Hm Hr H0. pose proof (Zdigits2_bounds m Hm) as [_ Hhi].
pose proof (Zdigits2_nonneg m).
apply Zdigits2_le; try lia.
rewrite Z.pow_add_r by lia. change (2 ^ 1) with 2. lia.
Qed.

Lemma fexp_le e b : e <= b -> -1074 <= b -> fexp prec emax e <= b.
Proof. unfold fexp, emin, prec, emax. lia. Qed.

Lemma bra_below mx ex lx b :
0 <= mx -> ex <= 971 -> Zdigits2 mx + ex <= b -> -1074 <= b -> b <= 1023 ->
below (binary_round_aux prec emax false mx ex lx) (b + 1).
Proof.
intros Hm Hex Hb Hlo Hhi.
destruct (bra_unfold false mx ex lx Hm) as (r & Hr & ->).
set (n1 := Z.max 0 (fexp prec emax (Zdigits2 mx + ex) - ex)) in *.
set (m1 := mx / 2 ^ n1) in *. set (e1 := ex + n1) in *.
set (n2 := Z.max 0 (fexp prec emax (Zdigits2 r + e1) - e1)).
assert (Hn1 : 0 <= n1) by (unfold n1; lia).
assert (Hn2 : 0 <= n2) by (unfold n2; lia).
assert (Hm1 : 0 <= m1) by (apply Z.div_pos; [lia | apply Z.pow_pos_nonneg; lia]).
assert (Hr0 : 0 <= r) by lia.
assert (He1 : e1 <= 971).
{ unfold e1, n1. pose proof (fexp_le (Zdigits2 mx + ex) 1023 ltac:(lia) ltac:(lia)).
  unfold fexp, emin, prec, emax in *. lia. }
(* magnitude of the rounded mantissa *)
assert (Hmag : 0 < r -> Zdigits2 r + e1 <= b + 1).
{ intros Hrpos. destruct (Z.eq_dec m1 0) as [Hz|Hnz].
  - assert (r = 1) by lia. subst r. simpl Zdigits2.
    unfold e1. destruct (Z.eq_dec n1 0) as [Hn0|Hn0].
    + rewrite Hn0. unfold m1 in Hz. rewrite Hn0, Z.div_1_r in Hz. subst mx.
      simpl in Hb. lia.
    + assert (ex + n1 = fexp prec emax (Zdigits2 mx + ex)) by (unfold n1 in *; lia).
      pose proof (fexp_le (Zdigits2 mx + ex) b Hb Hlo). lia.
  - assert (Hd : Zdigits2 m1 + n1 <= Zdigits2 mx)
      by (apply Zdigits2_div_le; fold m1; lia).
    pose proof (Zdigits2_succ_le m1 r ltac:(lia) ltac:(lia) Hr0).
    unfold e1. lia. }
destruct (r / 2 ^ n2) as [|m|m] eqn:Eq.
- reflexivity.
- assert (Hq : 0 < r / 2 ^ n2) by lia.
  assert (Hrpos : 0 < r).
  { destruct (Z.eq_dec r 0) as [->|]; [rewrite Z.div_0_l in Hq; lia | lia]. }
  specialize (Hmag Hrpos).
  pose proof (Zdigits2_div_le r n2 Hr0 Hn2 Hq) as Hd. rewrite Eq in Hd.
  assert (He2 : e1 + n2 <= 971).
  { unfold n2. pose proof (fexp_le (Zdigits2 r + e1) 1024 ltac:(lia) ltac:(lia)).
    unfold fexp, emin, prec, emax in *. lia. }
  unfold emax, prec. replace (1024 - 53) with 971 by reflexivity.
  destruct (Z.leb_spec (e1 + n2) 971); [|lia].
  split; [reflexivity | lia].
- assert (0 <= r / 2 ^ n2) by (apply Z.div_pos; [lia | apply Z.pow_pos_nonneg; lia]).
  lia.
Qed.

(** ** Shifts as scaled values *)

Lemma shiftl_mono a b e : a <= b -> Z.shiftl a e <= Z.shiftl b e.
Proof.
intros H. destruct (Z.le_gt_cases 0 e).
- rewrite !Z.shiftl_mul_pow2 by lia.
  apply Z.mul_le_mono_nonneg_r; [apply Z.pow_nonneg; lia | exact H].
- rewrite !Z.shiftl_div_pow2 by lia.
  apply Z.div_le_mono; [apply Z.pow_pos_nonneg; lia | exact H].
Qed.

Lemma shiftl_div_le a n e :
0 <= a -> 0 <= n -> Z.shiftl (a / 2 ^ n) (e + n) <= Z.shiftl a e.
Proof.
intros Ha Hn.
assert (Hp : 0 < 2 ^ n) by (apply Z.pow_pos_nonneg; lia).
pose proof (Z.mul_div_le a (2 ^ n) Hp) as Hmd.
destruct (Z.le_gt_cases 0 e) as [He|He].
- rewrite !Z.shiftl_mul_pow2 by lia.
  rewrite Z.pow_add_r by lia.
  assert (0 <= 2 ^ e) by (apply Z.pow_nonneg; lia). nia.
- destruct (Z.le_gt_cases 0 (e + n)) as [Hen|Hen].
  + rewrite Z.shiftl_mul_pow2 by lia. rewrite (Z.shiftl_div_pow2 a e) by lia.
    assert (Hpe : 0 < 2 ^ (- e)) by (apply Z.pow_pos_nonneg; lia).
    apply Z.div_le_lower_bound; [exact Hpe|].
    assert (Hsplit : 2 ^ n = 2 ^ (- e) * 2 ^ (e + n)).
    { rewrite <- Z.pow_add_r by lia. f_equal. lia. }
    set (q := a / 2 ^ n) in *. rewrite Hsplit in Hmd.
    set (u := 2 ^ (- e)) in *. set (w := 2 ^ (e + n)) in *. lia.
  + rewrite !Z.shiftl_div_pow2 by lia.
    rewrite Z.div_div by (try apply Z.pow_pos_nonneg; lia).
    rewrite <- Z.pow_add_r by lia.
    replace (n + - (e + n)) with (- e) by lia. lia.
Qed.

Lemma shiftl_scale a k e :
0 <= a -> 0 <= k -> Z.shiftl (a * 2 ^ k) (e - k) = Z.shiftl a e.
Proof.
intros Ha Hk.
assert (Hp : 0 < 2 ^ k) by (apply Z.pow_pos_nonneg; lia).
destruct (Z.le_gt_cases 0 (e - k)) as [H1|H1].
- rewrite !Z.shiftl_mul_pow2 by lia.
  rewrite <- Z.mul_assoc, <- Z.pow_add_r by lia. do 2 f_equal. lia.
- destruct (Z.le_gt_cases 0 e) as [He|He].
  + rewrite Z.shiftl_div_pow2 by lia. rewrite Z.shiftl_mul_pow2 by lia.
    replace (2 ^ k) with (2 ^ e * 2 ^ (- (e - k))).
    * rewrite Z.mul_assoc. apply Z.div_mul.
      apply Z.pow_nonzero; lia.
    * rewrite <- Z.pow_add_r by lia. f_equal. lia.
  + rewrite !Z.shiftl_div_pow2 by lia.
    replace (2 ^ (- (e - k))) with (2 ^ (- e) * 2 ^ k).
    * apply Z.div_mul_cancel_r; apply Z.pow_nonzero; lia.
    * rewrite <- Z.pow_add_r by lia. f_equal. lia.
Qed.

(** The value of a rounded result is at most one unit in the last place
  above the truncated input. *)
Lemma bra_value sx mx ex lx s m e :
0 <= mx ->
binary_round_aux prec emax sx mx ex lx = S754_finite s m e ->
let n1 := Z.max 0 (fexp prec emax (Zdigits2 mx + ex) - ex) in
Z.shiftl (Zpos m) e <= Z.shiftl (mx / 2 ^ n1 + 1) (ex + n1).
Proof.
intros Hm Hbra n1.
destruct (bra_unfold sx mx ex lx Hm) as (r & Hr & Heq).
fold n1 in Hr, Heq. rewrite Heq in Hbra.
set (n2 := Z.max 0 (fexp prec emax (Zdigits2 r + (ex + n1)) - (ex + n1))) in *.
assert (Hm1 : 0 <= mx / 2 ^ n1)
  by (apply Z.div_pos; [lia | apply Z.pow_pos_nonneg; unfold n1; lia]).
destruct (r / 2 ^ n2) as [|q|q] eqn:Eq; try discriminate.
destruct (ex + n1 + n2 <=? emax - prec); try discriminate.
injection Hbra as _ <- <-.
rewrite <- Eq.
eapply Z.le_trans; [apply shiftl_div_le; unfold n2; lia|].
apply shiftl_mono. lia.
Qed.

Lemma fexp_normal e : -1021 <= e -> fexp prec emax e = e - 53.
Proof. unfold fexp, emin, prec, emax. lia. Qed.

(** Rounding a mantissa of at least 53 bits gives a normal number. *)
Lemma bra_normal sx mx ex lx :
2 ^ 52 <= mx -> -1074 <= ex -> Zdigits2 mx + ex <= 1023 ->
let d := Zdigits2 mx in
exists m e,
  binary_round_aux prec emax sx mx ex lx = S754_finite sx m e
  /\ 2 ^ 52 <= Zpos m < 2 ^ 53
  /\ ex + d - 53 <= e <= ex + d - 52
  /\ Z.shiftl (Zpos m) e <= Z.shiftl (mx / 2 ^ (d - 53) + 1) (ex + d - 53).
Proof.
intros Hmx Hex Hmag d.
assert (Hpos : 0 < mx) by (assert (0 < 2 ^ 52) by reflexivity; lia).
pose proof (Zdigits2_bounds mx Hpos) as [Hlo Hhi]. fold d in Hlo, Hhi.
assert (Hd : 53 <= d) by (apply Zdigits2_ge; [exact Hpos | exact Hmx]).
assert (Hn1 : Z.max 0 (fexp prec emax (Zdigits2 mx + ex) - ex) = d - 53).
{ fold d. rewrite fexp_normal by lia. lia. }
destruct (bra_unfold sx mx ex lx ltac:(lia)) as (r & Hr & Heq).
pose proof (fun s m e H => bra_value sx mx ex lx s m e ltac:(lia) H) as Hval.
cbv zeta in Hval, Heq. rewrite Hn1 in Hr, Heq, Hval.
set (m1 := mx / 2 ^ (d - 53)) in *.
set (e1 := ex + (d - 53)) in *.
assert (Hp : 0 < 2 ^ (d - 53)) by (apply Z.pow_pos_nonneg; lia).
assert (Hsplit : 2 ^ d = 2 ^ (d - 53) * 2 ^ 53).
{ rewrite <- Z.pow_add_r by lia. f_equal. lia. }
assert (Hsplit' : 2 ^ (d - 1) = 2 ^ (d - 53) * 2 ^ 52).
{ rewrite <- Z.pow_add_r by lia. f_equal. lia. }
assert (Hm1 : 2 ^ 52 <= m1 < 2 ^ 53).
{ unfold m1. split.
  - apply Z.div_le_lower_bound; [exact Hp | lia].
  - apply Z.div_lt_upper_bound; [exact Hp | lia]. }
assert (Hcases : r < 2 ^ 53 \/ r = 2 ^ 53) by lia.
destruct Hcases as [Hlt|Heq53].
- assert (Hdr : Zdigits2 r = 53)
    by (apply Zdigits2_unique; [|change (53 - 1) with 52]; lia).
  rewrite Hdr, fexp_normal in Heq by (unfold e1; lia).
  replace (Z.max 0 (53 + e1 - 53 - e1)) with 0 in Heq by lia.
  change (2 ^ 0) with 1 in Heq. rewrite Z.div_1_r, Z.add_0_r in Heq.
  destruct r as [|q|q]; try (exfalso; lia).
  assert (Hle : (e1 <=? emax - prec) = true)
    by (apply Z.leb_le; unfold emax, prec, e1; lia).
  rewrite Hle in Heq. exists q, e1.
  split; [exact Heq|]. split; [lia|]. split; [unfold e1; lia|].
  replace (ex + d - 53) with e1 by (unfold e1; lia). eapply Hval; eauto.
- assert (Hdr : Zdigits2 r = 54) by (subst r; reflexivity).
  rewrite Hdr, fexp_normal in Heq by (unfold e1; lia).
  replace (Z.max 0 (54 + e1 - 53 - e1)) with 1 in Heq by lia.
  rewrite Heq53 in Heq. change (2 ^ 53 / 2 ^ 1) with (Zpos (2 ^ 52)) in Heq.
  assert (Hle : (e1 + 1 <=? emax - prec) = true)
    by (apply Z.leb_le; unfold emax, prec, e1; lia).
  rewrite Hle in Heq. exists (2 ^ 52)%positive, (e1 + 1).
  split; [exact Heq|]. split; [split; [reflexivity | reflexivity]|].
  split; [unfold e1; lia|].
  replace (ex + d - 53) with e1 by (unfold e1; lia). eapply Hval; eauto.
Qed.

Lemma iter_xO_pow p d : Zpos (Pos.iter xO p d) = Zpos p * 2 ^ Zpos d.
Proof.
rewrite <- Z.shiftl_mul_pow2 by lia. simpl.
apply (Pos.iter_swap_gen _ _ Zpos xO (Z.mul 2)). reflexivity.
Qed.

Lemma shl_align_spec mx ex ex' :
snd (shl_align mx ex ex') = Z.min ex ex'
/\ Zpos (fst (shl_align mx ex ex')) = Zpos mx * 2 ^ (ex - Z.min ex ex').
Proof.
unfold shl_align. destruct (ex' - ex) as [|k|k] eqn:E; simpl.
- replace (Z.min ex ex') with ex by lia. rewrite Z.sub_diag. simpl. lia.
- replace (Z.min ex ex') with ex by lia. rewrite Z.sub_diag. simpl. lia.
- replace (Z.min ex ex') with ex' by lia. split; [reflexivity|].
  rewrite iter_xO_pow. replace (ex - ex') with (Zpos k) by lia. reflexivity.
Qed.

Lemma Zdigits2_mono a b : 0 <= a -> a <= b -> Zdigits2 a <= Zdigits2 b.
Proof.
intros Ha Hab. destruct (Z.eq_dec b 0) as [->|Hb].
- replace a with 0 by lia. lia.
- pose proof (Zdigits2_bounds b ltac:(lia)) as [_ Hhi].
  apply Zdigits2_le; [lia | apply Zdigits2_nonneg | lia].
Qed.

Lemma Zdigits2_mul_pow2 a k : 0 < a -> 0 <= k -> Zdigits2 (a * 2 ^ k) = Zdigits2 a + k.
Proof.
intros Ha Hk. pose proof (Zdigits2_bounds a Ha) as [Hlo Hhi].
pose proof (Zdigits2_pos a Ha).
assert (Hp : 0 < 2 ^ k) by (apply Z.pow_pos_nonneg; lia).
apply Zdigits2_unique; [nia|].
replace (Zdigits2 a + k - 1) with (Zdigits2 a - 1 + k) by lia.
rewrite !Z.pow_add_r by lia. nia.
Qed.

Lemma Zdigits2_mul a b : 0 <= a -> 0 <= b -> Zdigits2 (a * b) <= Zdigits2 a + Zdigits2 b.
Proof.
intros Ha Hb.
destruct (Z.eq_dec a 0) as [->|Hna]; [pose proof (Zdigits2_nonneg b); simpl; lia|].
destruct (Z.eq_dec b 0) as [->|Hnb];
  [rewrite Z.mul_0_r; pose proof (Zdigits2_nonneg a); simpl; lia|].
pose proof (Zdigits2_bounds a ltac:(lia)) as [_ Ha'].
pose proof (Zdigits2_bounds b ltac:(lia)) as [_ Hb'].
pose proof (Zdigits2_nonneg a). pose proof (Zdigits2_nonneg b).
apply Zdigits2_le; [nia | lia |].
rewrite Z.pow_add_r by lia. nia.
Qed.

Lemma shiftl_pred a e : 0 <= a -> Z.shiftl a (e - 1) = Z.shiftl a e / 2.
Proof.
intros Ha. destruct (Z.le_gt_cases 1 e).
- rewrite !Z.shiftl_mul_pow2 by lia.
  replace e with (e - 1 + 1) at 2 by lia.
  rewrite Z.pow_add_r by lia. change (2 ^ 1) with 2.
  rewrite Z.mul_assoc, Z.div_mul by lia. reflexivity.
- rewrite !Z.shiftl_div_pow2 by lia.
  rewrite Z.div_div by (try apply Z.pow_pos_nonneg; lia).
  replace (- (e - 1)) with (- e + 1) by lia.
  rewrite Z.pow_add_r by lia. reflexivity.
Qed.

(** [float(z)] for a positive [z]: a normal number, at most [2 z]. *)
Lemma of_int_spec z :
0 < z -> Zdigits2 z <= 1000 ->
exists m e,
  of_int z = Some (S754_finite false m e)
  /\ 2 ^ 52 <= Zpos m < 2 ^ 53
  /\ Zdigits2 z - 53 <= e <= Zdigits2 z - 52
  /\ Z.shiftl (Zpos m) e <= 2 * z.
Proof.
intros Hz Hd. destruct z as [|p|p]; try lia.
unfold of_int, binary_normalize, binary_round.
set (d := Zdigits2 (Zpos p)) in *.
change (Zpos (digits2_pos p)) with d.
pose proof (Zdigits2_pos (Zpos p) Hz) as Hdpos. fold d in Hdpos.
pose proof (Zdigits2_bounds (Zpos p) Hz) as [Hlo Hhi]. fold d in Hlo, Hhi.
rewrite Z.add_0_r, fexp_normal by lia.
pose proof (shl_align_spec p 0 (d - 53)) as [Hez Hmz].
destruct (shl_align p 0 (d - 53)) as [mz ez]. cbn [fst snd] in Hez, Hmz. subst ez.
set (ez := Z.min 0 (d - 53)) in *. rewrite Z.sub_0_l in Hmz.
assert (Hdz : Zdigits2 (Zpos mz) = d - ez).
{ rewrite Hmz, Zdigits2_mul_pow2 by (unfold ez; lia). fold d. lia. }
assert (Hmz52 : 2 ^ 52 <= Zpos mz).
{ pose proof (Zdigits2_bounds (Zpos mz) ltac:(lia)) as [Hl _].
  rewrite Hdz in Hl.
  assert (2 ^ 52 <= 2 ^ (d - ez - 1)) by (apply Z.pow_le_mono_r; unfold ez; lia).
  lia. }
destruct (bra_normal false (Zpos mz) ez loc_Exact Hmz52
            ltac:(unfold ez; lia) ltac:(rewrite Hdz; lia))
  as (m & e & Heq & Hm & He & Hv).
rewrite Heq. exists m, e. rewrite Hdz in He, Hv.
split; [reflexivity|]. split; [exact Hm|]. split; [lia|].
eapply Z.le_trans; [exact Hv|].
replace (ez + (d - ez) - 53) with (d - 53) by lia.
destruct (Z.le_gt_cases d 53) as [Hc|Hc].
- (* the conversion is exact *)
  replace ez with (d - 53) in * by (unfold ez; lia).
  replace (d - (d - 53) - 53) with 0 by lia.
  change (2 ^ 0) with 1. rewrite Z.div_1_r, Hmz.
  rewrite Z.shiftl_div_pow2 by lia.
  assert (Hp : 0 < 2 ^ (- (d - 53))) by (apply Z.pow_pos_nonneg; lia).
  apply Z.div_le_upper_bound; [exact Hp|]. nia.
- replace ez with 0 in * by (unfold ez; lia).
  rewrite Z.sub_0_r in *. rewrite Z.pow_0_r, Z.mul_1_r in Hmz. rewrite Hmz.
  rewrite Z.shiftl_mul_pow2 by lia.
  assert (Hp : 0 < 2 ^ (d - 53)) by (apply Z.pow_pos_nonneg; lia).
  pose proof (Z.mul_div_le (Zpos p) (2 ^ (d - 53)) Hp).
  assert (2 ^ (d - 53) <= 2 ^ (d - 1)) by (apply Z.pow_le_mono_r; lia).
  nia.
Qed.

Lemma below_mono f b b' : below f b -> b <= b' -> below f b'.
Proof. destruct f; simpl; intuition lia. Qed.

Lemma of_int_below z :
0 <= z -> Zdigits2 z <= 1000 ->
exists f, of_int z = Some f /\ below f (Zdigits2 z + 1).
Proof.
intros Hz Hd. destruct (Z.eq_dec z 0) as [->|Hnz].
- exists (S754_zero false). split; reflexivity.
- destruct (of_int_spec z ltac:(lia) Hd) as (m & e & Heq & Hm & He & _).
  exists (S754_finite false m e). split; [exact Heq|].
  split; [reflexivity|].
  assert (Zdigits2 (Zpos m) = 53)
    by (apply Zdigits2_unique; [|change (53 - 1) with 52]; lia).
  lia.
Qed.

Lemma mul_below x y bx b_y :
below x bx -> below y b_y -> -1074 <= bx + b_y -> bx + b_y <= 972 ->
below (mul x y) (bx + b_y + 1).
Proof.
intros Hx Hy Hlo Hhi. unfold mul.
destruct x as [sx| |  |sx mx ex], y as [sy| | |sy my ey];
  unfold below in Hx, Hy; try contradiction; try (subst; reflexivity).
- destruct Hy as [-> _]. subst. reflexivity.
- destruct Hx as [-> _]. subst. reflexivity.
- destruct Hx as [-> Hx], Hy as [-> Hy]. cbn [SFmul xorb].
  change (Zpos (mx * my)) with (Zpos mx * Zpos my).
  pose proof (Zdigits2_mul (Zpos mx) (Zpos my) ltac:(lia) ltac:(lia)).
  pose proof (Zdigits2_pos (Zpos mx) ltac:(lia)).
  pose proof (Zdigits2_pos (Zpos my) ltac:(lia)).
  apply bra_below; lia.
Qed.

Lemma int_truediv_below a b :
0 < a -> 0 < b -> Zdigits2 a <= 1000 -> Zdigits2 b <= 1000 ->
exists f, int_truediv a b = Some f /\ below f (Zdigits2 a + 1).
Proof.
intros Ha Hb Hda Hdb. destruct a as [|pa|pa], b as [|pb|pb]; try lia.
unfold int_truediv, SFdiv_core_binary.
set (d1 := Zdigits2 (Zpos pa)) in *. set (d2 := Zdigits2 (Zpos pb)) in *.
pose proof (Zdigits2_pos (Zpos pa) Ha) as Hd1. fold d1 in Hd1.
pose proof (Zdigits2_pos (Zpos pb) Hb) as Hd2. fold d2 in Hd2.
rewrite !Z.add_0_r, Z.sub_0_r.
set (e' := Z.min (fexp prec emax (d1 - d2)) 0).
assert (He' : -1074 <= e' <= 0) by (unfold e', fexp, emin, prec, emax; lia).
set (m' := match 0 - e' with
           | Zpos _ => Z.shiftl (Zpos pa) (0 - e')
           | Z0 => Zpos pa
           | Zneg _ => 0
           end).
assert (Hm' : m' = Zpos pa * 2 ^ (- e')).
{ unfold m'. rewrite Z.sub_0_l. destruct (- e') as [|k|k] eqn:E; try lia.
  now rewrite Z.shiftl_mul_pow2 by lia. }
pose proof (Z.div_eucl_eq m' (Zpos pb) ltac:(lia)) as Heucl.
pose proof (Z.mod_pos_bound m' (Zpos pb) ltac:(lia)) as Hr.
unfold Z.modulo in Hr.
destruct (Z.div_eucl m' (Zpos pb)) as [q r] eqn:Eqr.
assert (Hp : 0 < 2 ^ (- e')) by (apply Z.pow_pos_nonneg; lia).
assert (Hq0 : 0 <= q) by nia.
assert (Hqm : q <= m') by nia.
assert (Hdq : Zdigits2 q + e' <= d1).
{ pose proof (Zdigits2_mono q m' Hq0 Hqm) as Hmono.
  rewrite Hm', Zdigits2_mul_pow2 in Hmono by lia. fold d1 in Hmono. lia. }
pose proof (bra_below q e' (new_location (Zpos pb) r) d1
              Hq0 ltac:(lia) Hdq ltac:(lia) ltac:(lia)) as Hbelow.
destruct (binary_round_aux prec emax false q e' (new_location (Zpos pb) r))
  as [s| | |s m e] eqn:Ebra; simpl in Hbelow; try contradiction.
- eexists. split; [reflexivity | exact Hbelow].
- eexists. split; [reflexivity | exact Hbelow].
Qed.

Lemma to_int_below f b :
below f b -> exists k, to_int f = Some k /\ floor f = Some k /\ 0 <= k.
Proof.
destruct f as [s| | |s m e]; simpl; try contradiction.
- intros _. exists 0. repeat split; lia.
- intros [-> _]. exists (Z.shiftl (Zpos m) e). repeat split.
  apply Z.shiftl_nonneg. lia.
Qed.

Lemma lit_0_3_below : below lit_0_3 (-1).
Proof. split; reflexivity. Qed.

(** [int(z * 0.3) <= z]. *)
Lemma int_mul_lit_le z :
0 < z -> Zdigits2 z <= 900 ->
exists f k, int_mul z lit_0_3 = Some f /\ to_int f = Some k /\ 0 <= k <= z.
Proof.
intros Hz Hd.
destruct (of_int_spec z Hz ltac:(lia)) as (ma & ea & Heq & Hma & Hea & Hv).
unfold int_mul. rewrite Heq. unfold mul, lit_0_3. cbn [SFmul xorb].
set (m03 := 5404319552844595%positive).
change (Zpos (ma * m03)) with (Zpos ma * Zpos m03).
set (mx := Zpos ma * Zpos m03).
assert (Hm03 : 2 ^ 52 <= Zpos m03 < 2 ^ 53) by (unfold m03; lia).
assert (Hmx : 2 ^ 104 <= mx < 2 ^ 106).
{ unfold mx. change (2 ^ 104) with (2 ^ 52 * 2 ^ 52).
  change (2 ^ 106) with (2 ^ 53 * 2 ^ 53). nia. }
assert (Hdx : 105 <= Zdigits2 mx <= 106).
{ split.
  - apply Zdigits2_ge; [|change (105 - 1) with 104]; lia.
  - apply Zdigits2_le; lia. }
destruct (bra_normal false mx (ea + -54) loc_Exact
            ltac:(assert (2 ^ 52 <= 2 ^ 104) by (apply Z.pow_le_mono_r; lia); lia)
            ltac:(pose proof (Zdigits2_pos z Hz); lia) ltac:(lia))
  as (m & e & Hbra & Hm & He & Hval).
rewrite Hbra. exists (S754_finite false m e), (Z.shiftl (Zpos m) e).
split; [reflexivity|]. split; [reflexivity|].
split; [apply Z.shiftl_nonneg; lia|].
eapply Z.le_trans; [exact Hval|].
set (dx := Zdigits2 mx) in *.
set (k := 106 - dx).
assert (Hp : 0 < 2 ^ (dx - 53)) by (apply Z.pow_pos_nonneg; lia).
assert (Hbound : mx / 2 ^ (dx - 53) + 1 <= Zpos ma * 2 ^ k).
{ enough (mx / 2 ^ (dx - 53) < Zpos ma * 2 ^ k) by lia.
  apply Z.div_lt_upper_bound; [exact Hp|].
  assert (Hs : 2 ^ (dx - 53) * (Zpos ma * 2 ^ k) = Zpos ma * 2 ^ 53).
  { rewrite Z.mul_comm, <- Z.mul_assoc, <- Z.pow_add_r by (unfold k; lia).
    do 2 f_equal. unfold k. lia. }
  rewrite Hs. unfold mx. nia. }
eapply Z.le_trans; [apply shiftl_mono; exact Hbound|].
replace (ea + -54 + dx - 53) with (ea - 1 - k) by (unfold k; lia).
rewrite shiftl_scale by (unfold k; lia).
rewrite shiftl_pred by lia.
apply Z.div_le_upper_bound; lia.
Qed.

End Binary64.

(** ** Apportionment of one missile type *)

Section Apportionment.
Import Acmi ImprovedCombatAnalyzer Spec.

Lemma sum_Z_acc (xs : list Z) (a : Z) : fold_left Z.add xs a = a + sum_Z xs.
Proof.
  unfold sum_Z. revert a. induction xs as [|x xs IH]; intros a; simpl.
  - lia.
  - rewrite IH, (IH x). lia.
Qed.

Lemma sum_Z_cons (x : Z) (xs : list Z) : sum_Z (x :: xs) = x + sum_Z xs.
Proof. unfold sum_Z at 1. simpl. now rewrite sum_Z_acc. Qed.

Lemma sum_Z_app (xs ys : list Z) : sum_Z (xs ++ ys) = sum_Z xs + sum_Z ys.
Proof.
  induction xs as [|x xs IH]; simpl.
  - reflexivity.
  - rewrite !sum_Z_cons, IH. lia.
Qed.

Lemma stats_of_credit_same ps p t n :
  stats_of (credit ps p t n) p
  = with_missiles (stats_of ps p) (missiles_fired (stats_of ps p) + n)
      (if PyStr.mem t (missile_types_used (stats_of ps p))
       then missile_types_used (stats_of ps p)
       else missile_types_used (stats_of ps p) ++ [t]).
Proof. unfold credit, stats_of. now rewrite get_default_set_same. Qed.

Lemma stats_of_credit_other ps p q t n :
  p <> q -> stats_of (credit ps p t n) q = stats_of ps q.
Proof. intros H. unfold credit, stats_of. now rewrite get_default_set_other. Qed.

Lemma keys_credit ps p t n q :
  In q (PyDict.keys (credit ps p t n)) <-> q = p \/ In q (PyDict.keys ps).
Proof. unfold credit. apply in_keys_set. Qed.

(** Pilots outside the list are left alone by the crediting loop. *)
Lemma distribute_other cps : forall ps i t per r q,
  ~ In q cps -> stats_of (distribute ps i cps t per r) q = stats_of ps q.
Proof.
  induction cps as [|p cps IH]; intros ps i t per r q Hq; simpl.
  - reflexivity.
  - rewrite IH by (simpl in Hq; tauto).
    apply stats_of_credit_other. simpl in Hq. intros ->. tauto.
Qed.

(** The pilot at position [j] receives the quotient, and one more when
    its index is below the remainder. *)
Lemma distribute_nth cps : forall ps i t per r j p,
  NoDup cps -> nth_error cps j = Some p ->
  missiles_fired (stats_of (distribute ps i cps t per r) p)
  = missiles_fired (stats_of ps p) + per
    + (if i + Z.of_nat j <? r then 1 else 0).
Proof.
  induction cps as [|p0 cps IH]; intros ps i t per r j p Hnd Hj.
  - destruct j; discriminate.
  - inversion Hnd as [|? ? Hni Hnd']; subst. destruct j as [|j]; simpl in Hj.
    + injection Hj as ->. simpl.
      rewrite distribute_other by exact Hni.
      rewrite stats_of_credit_same. simpl. rewrite Z.add_0_r.
      destruct (i <? r); lia.
    + simpl. rewrite (IH _ _ _ _ _ j p Hnd' Hj).
      rewrite stats_of_credit_other.
      * replace (i + 1 + Z.of_nat j) with (i + Z.of_nat (S j)) by lia.
        reflexivity.
      * intros ->. apply Hni. eapply nth_error_In; eauto.
Qed.

Lemma distribute_gain_sum cps : forall ps i t per r,
  NoDup cps -> 0 <= i ->
  sum_Z (map (gained ps (distribute ps i cps t per r)) cps)
  = Z.of_nat (List.length cps) * per
    + Z.max 0 (Z.min (r - i) (Z.of_nat (List.length cps))).
Proof.
  induction cps as [|p cps IH]; intros ps i t per r Hnd Hi.
  - simpl. unfold sum_Z. simpl. lia.
  - inversion Hnd as [|? ? Hni Hnd']; subst.
    cbn [map]. rewrite sum_Z_cons.
    assert (Hp : gained ps (distribute ps i (p :: cps) t per r) p
                 = per + (if i <? r then 1 else 0)).
    { unfold gained.
      rewrite (distribute_nth _ ps i t per r 0%nat p Hnd eq_refl).
      simpl. rewrite Z.add_0_r. lia. }
    rewrite Hp. cbn [distribute].
    set (ps1 := credit ps p t (if i <? r then per + 1 else per)).
    assert (Hrest : map (gained ps (distribute ps1 (i + 1) cps t per r)) cps
                    = map (gained ps1 (distribute ps1 (i + 1) cps t per r)) cps).
    { apply map_ext_in. intros q Hq. unfold gained. f_equal. f_equal.
      symmetry. apply stats_of_credit_other. intros ->. contradiction. }
    rewrite Hrest, IH by (auto; lia).
    cbn [List.length]. rewrite Nat2Z.inj_succ.
    destruct (Z.ltb_spec i r); lia.
Qed.

End Apportionment.

Section ApportionmentClaims.
Import Acmi ImprovedCombatAnalyzer Examples Spec.

Lemma remainder_clamp (count k : Z) :
  0 < k -> Z.max 0 (Z.min (count mod k - 0) k) = count mod k.
Proof. intros Hk. pose proof (Z.mod_pos_bound count k Hk). lia. Qed.

(** C1. Apportionment exactness.  For a missile type with [K >= 1]
    capable pilots and a count of [N] missiles, the crediting loop adds [N div K]
    to every capable pilot's [missiles_fired], one more to exactly those
    whose index in the list of capable pilots is below [N mod K], so
    that the additions sum to [N]; no other pilot is touched. *)
Theorem apportionment_exact :
  forall (ps : pilot_stats) (pilots : list string) (missile_type : string)
         (count : Z),
    NoDup pilots ->
    (1 <= List.length (capable_pilots_of ps pilots missile_type))%nat ->
    let capable := capable_pilots_of ps pilots missile_type in
    let k := Z.of_nat (List.length capable) in
    let ps' := distribute_type pilots ps (missile_type, count) in
    (forall j p, nth_error capable j = Some p ->
       missiles_fired (stats_of ps' p)
       = missiles_fired (stats_of ps p) + count / k
         + (if Z.of_nat j <? count mod k then 1 else 0))
    /\ sum_Z (map (gained ps ps') capable) = count
    /\ (forall q, ~ In q capable -> stats_of ps' q = stats_of ps q).
Proof.
  intros ps pilots t count Hnd Hk capable k ps'.
  assert (Hndc : NoDup capable) by (apply NoDup_filter; exact Hnd).
  assert (Hps' : ps' = distribute ps 0 capable t (count / k) (count mod k)).
  { unfold ps', distribute_type. fold capable. fold k.
    unfold capable in *.
    destruct (capable_pilots_of ps pilots t); [simpl in Hk; lia | reflexivity]. }
  assert (Hkpos : 0 < k) by (unfold k, capable; lia).
  rewrite Hps'. repeat split.
  - intros j p Hj. now rewrite (distribute_nth _ _ _ _ _ _ j p Hndc Hj).
  - rewrite distribute_gain_sum by (auto; lia). fold k.
    rewrite remainder_clamp by exact Hkpos.
    pose proof (Z.div_mod count k). lia.
  - intros q Hq. now apply distribute_other.
Qed.

Lemma apportionment_exact_witness :
  sum_Z (map (gained (pilots_state two_pilots)
                     (distribute_type ["B"; "A"] (pilots_state two_pilots)
                                      ("AIM-9L", 5)))
             (capable_pilots_of (pilots_state two_pilots) ["B"; "A"] "AIM-9L"))
  = 5.
Proof.
  refine (proj1 (proj2 (apportionment_exact (pilots_state two_pilots)
                          ["B"; "A"] "AIM-9L" 5 _ _))).
  - repeat constructor; simpl; intuition discriminate.
  - vm_compute. lia.
Defined.

End ApportionmentClaims.

Section DictMore.
Variable V : Type.
Implicit Types (d : PyDict.dict V) (k : string) (v : V).

Lemma get_default_in_keys (dflt : V) d k :
  NoDup (PyDict.keys d) -> In k (PyDict.keys d) ->
  In (k, PyDict.get_default dflt d k) d.
Proof.
  intros Hnd Hin. apply in_keys_get in Hin as [v Hv].
  unfold PyDict.get_default. rewrite Hv. now apply get_in.
Qed.

Lemma items_via_keys (dflt : V) d :
  NoDup (PyDict.keys d) ->
  d = map (fun k => (k, PyDict.get_default dflt d k)) (PyDict.keys d).
Proof.
  induction d as [|[k v] d IH]; intros Hnd; simpl; [reflexivity|].
  inversion Hnd as [|? ? Hni Hnd']; subst.
  unfold PyDict.get_default at 1. simpl. rewrite String.eqb_refl. f_equal.
  rewrite (IH Hnd') at 1. apply map_ext_in. intros k' Hk'.
  unfold PyDict.get_default. simpl.
  destruct (String.eqb k k') eqn:E; [|reflexivity].
  apply String.eqb_eq in E. subst. contradiction.
Qed.

Lemma set_same_value d k v :
  PyDict.get d k = Some v -> PyDict.set d k v = d.
Proof.
  induction d as [|[k' v'] d IH]; simpl; [discriminate|].
  destruct (String.eqb k' k) eqn:E.
  - apply String.eqb_eq in E. intros [= ->]. now subst.
  - intros H. now rewrite IH.
Qed.

Lemma length_set_old d k v :
  In k (PyDict.keys d) -> List.length (PyDict.set d k v) = List.length d.
Proof.
  intros H. rewrite <- (length_map fst (PyDict.set d k v)), <- (length_map fst d).
  change (map fst (PyDict.set d k v)) with (PyDict.keys (PyDict.set d k v)).
  now rewrite keys_set_old.
Qed.

End DictMore.

Section AnalyzePilots.
Import Acmi ImprovedCombatAnalyzer Spec.

Lemma partitioned_spec acmi :
  partitioned acmi ->
  forall a r, In a (alive_objects acmi) -> In r (removed_objects acmi) ->
              ident a <> ident r.
Proof.
  unfold partitioned. intros H a r Ha Hr Heq.
  rewrite forallb_forall in H. specialize (H a Ha).
  rewrite forallb_forall in H. specialize (H r Hr).
  apply Nat.eqb_eq in Heq. rewrite Heq in H. discriminate.
Qed.

Lemma truthy_some o p : PyStr.truthy o = Some p -> o = Some p /\ p <> "".
Proof.
  unfold PyStr.truthy. destruct o as [s|]; [|discriminate].
  destruct (String.eqb s "") eqn:E; [discriminate|].
  intros [= ->]. split; [reflexivity|]. now apply String.eqb_neq.
Qed.

Lemma truthy_of_some p : p <> "" -> PyStr.truthy (Some p) = Some p.
Proof.
  intros H. unfold PyStr.truthy. apply String.eqb_neq in H. now rewrite H.
Qed.

Lemma stats_of_missing ps p : ~ In p (PyDict.keys ps) -> stats_of ps p = default_stats.
Proof.
  intros H. unfold stats_of, PyDict.get_default.
  destruct (PyDict.get ps p) eqn:E; [|reflexivity].
  apply get_some_in_keys in E. contradiction.
Qed.

Lemma stats_of_set_same ps p s : stats_of (PyDict.set ps p s) p = s.
Proof. apply get_default_set_same. Qed.

Lemma stats_of_set_other ps p q s : p <> q -> stats_of (PyDict.set ps p s) q = stats_of ps q.
Proof. apply get_default_set_other. Qed.

Lemma analyze_pilot_deaths alive_aircraft alive_pilots ps a p :
  deaths (stats_of (analyze_pilot alive_aircraft alive_pilots ps a) p)
  = deaths (stats_of ps p) + (if dies alive_aircraft p a then 1 else 0).
Proof.
  unfold analyze_pilot, dies.
  destruct (PyStr.truthy (pilot a)) as [q|]; [|lia].
  set (ps1 := if PyDict.mem ps q then ps
              else PyDict.set ps q (new_stats q a alive_pilots)).
  assert (H1 : deaths (stats_of ps1 p) = deaths (stats_of ps p)).
  { unfold ps1. destruct (PyDict.mem ps q) eqn:Em; [reflexivity|].
    destruct (String.eqb q p) eqn:E.
    - apply String.eqb_eq in E. subst q. rewrite stats_of_set_same.
      rewrite stats_of_missing; [reflexivity|].
      intros Hin. apply mem_true_iff in Hin. congruence.
    - apply String.eqb_neq in E. now rewrite stats_of_set_other. }
  destruct (obj_in a alive_aircraft); simpl.
  - rewrite andb_false_r. lia.
  - rewrite andb_true_r. destruct (String.eqb q p) eqn:E.
    + apply String.eqb_eq in E. subst q. rewrite stats_of_set_same. simpl. lia.
    + apply String.eqb_neq in E. rewrite stats_of_set_other by exact E. lia.
Qed.

Lemma analyze_pilots_deaths alive_aircraft alive_pilots l : forall ps p,
  deaths (stats_of (fold_left (analyze_pilot alive_aircraft alive_pilots) l ps) p)
  = deaths (stats_of ps p)
    + Z.of_nat (List.length (filter (dies alive_aircraft p) l)).
Proof.
  induction l as [|a l IH]; intros ps p; simpl; [lia|].
  rewrite IH, analyze_pilot_deaths.
  destruct (dies alive_aircraft p a); simpl List.length; lia.
Qed.

Lemma obj_in_self a l : In a l -> obj_in a l = true.
Proof.
  intros H. unfold obj_in. apply existsb_exists. exists a.
  split; [exact H | apply Nat.eqb_refl].
Qed.

Lemma obj_in_false a l :
  (forall b, In b l -> ident b <> ident a) -> obj_in a l = false.
Proof.
  intros H. unfold obj_in. destruct (existsb _ l) eqn:E; [|reflexivity].
  apply existsb_exists in E as (b & Hb & Heq). apply Nat.eqb_eq in Heq.
  exfalso. eapply H; eauto.
Qed.

Lemma filter_none {A} (f : A -> bool) l :
  (forall x, In x l -> f x = false) -> filter f l = [].
Proof.
  induction l as [|x l IH]; intros H; simpl; [reflexivity|].
  rewrite (H x (or_introl eq_refl)). apply IH. intros y Hy. apply H. now right.
Qed.

Lemma filter_filter {A} (f g : A -> bool) l :
  filter f (filter g l) = filter (fun x => g x && f x) l.
Proof.
  induction l as [|x l IH]; simpl; [reflexivity|].
  destruct (g x); simpl; [destruct (f x)|]; now rewrite IH.
Qed.

(** Deaths after [analyze_pilots] on a partitioned recording. *)
Lemma analyze_pilots_lost acmi p :
  partitioned acmi -> p <> "" ->
  deaths (stats_of (analyze_pilots []
                      (filter is_plane (alive_objects acmi)
                       ++ filter is_plane (removed_objects acmi))
                      (filter is_plane (alive_objects acmi))) p)
  = lost_aircraft acmi p.
Proof.
  intros Hpart0 Hp. pose proof (partitioned_spec acmi Hpart0) as Hpart.
  unfold analyze_pilots. rewrite analyze_pilots_deaths.
  rewrite filter_app, length_app.
  set (alive_aircraft := filter is_plane (alive_objects acmi)).
  rewrite (filter_none (dies alive_aircraft p) alive_aircraft).
  2:{ intros a Ha. unfold dies. destruct (PyStr.truthy (pilot a)); [|reflexivity].
      rewrite (obj_in_self a _ Ha). apply andb_false_r. }
  simpl. unfold lost_aircraft. f_equal. f_equal.
  rewrite filter_filter. apply filter_ext_in. intros r Hr.
  destruct (is_plane r) eqn:Epl; simpl; [|reflexivity].
  unfold dies, pilot_is.
  rewrite (obj_in_false r alive_aircraft).
  2:{ intros b Hb. apply filter_In in Hb as [Hb _]. now apply Hpart. }
  unfold PyStr.truthy. destruct (pilot r) as [q|]; [|reflexivity].
  destruct (String.eqb q "") eqn:Eq.
  - apply String.eqb_eq in Eq. subst q.
    symmetry. apply String.eqb_neq. congruence.
  - cbn [negb]. apply andb_true_r.
Qed.

End AnalyzePilots.

Section DictSum.
Import ImprovedCombatAnalyzer Spec.
Variable V : Type.
Variable w : string -> V -> Z.
Implicit Types (d : PyDict.dict V) (k : string) (v : V).

Lemma dict_sum_nil : dict_sum w [] = 0.
Proof. reflexivity. Qed.

Lemma dict_sum_cons k v d : dict_sum w ((k, v) :: d) = w k v + dict_sum w d.
Proof. unfold dict_sum. simpl. now rewrite sum_Z_cons. Qed.

Lemma dict_sum_set d k v :
  dict_sum w (PyDict.set d k v)
  = dict_sum w d + w k v
    - match PyDict.get d k with Some old => w k old | None => 0 end.
Proof.
  induction d as [|[k' v'] d IH]; simpl.
  - rewrite dict_sum_cons, dict_sum_nil. lia.
  - destruct (String.eqb k' k) eqn:E.
    + apply String.eqb_eq in E. subst k'. rewrite !dict_sum_cons. lia.
    + rewrite !dict_sum_cons, IH. lia.
Qed.

End DictSum.

Section Grouping.
Import Acmi ImprovedCombatAnalyzer Spec.

(** Summing a weight over the groups is summing it over the missiles. *)
Lemma group_by_coalition_sum (phi : string -> AcmiObject -> Z) missiles :
  dict_sum (fun c ms => sum_Z (map (phi c) ms)) (group_by_coalition missiles)
  = sum_Z (map (fun m => phi (Acmi.coalition m) m) missiles).
Proof.
  unfold group_by_coalition.
  set (step := fun (d : PyDict.dict (list AcmiObject)) missile =>
                 PyDict.set d (Acmi.coalition missile)
                   (PyDict.get_default [] d (Acmi.coalition missile) ++ [missile])).
  set (W := fun c ms => sum_Z (map (phi c) ms)).
  enough (H : forall l d,
             dict_sum W (fold_left step l d)
             = dict_sum W d + sum_Z (map (fun m => phi (Acmi.coalition m) m) l)).
  { rewrite H, dict_sum_nil. lia. }
  induction l as [|m l IH]; intros d; simpl.
  - change (sum_Z []) with 0. lia.
  - rewrite IH, sum_Z_cons. unfold step. rewrite dict_sum_set.
    unfold PyDict.get_default.
    destruct (PyDict.get d (Acmi.coalition m)) as [old|]; unfold W.
    + rewrite map_app, sum_Z_app. cbn [map]. rewrite sum_Z_cons.
      change (sum_Z []) with 0. lia.
    + cbn [map app]. rewrite sum_Z_cons. change (sum_Z []) with 0. lia.
Qed.

Lemma count_by_name_sum (w : string -> Z) missiles :
  dict_sum (fun t n => w t * n) (count_by_name missiles)
  = sum_Z (map (fun m => w (missile_name m)) missiles).
Proof.
  unfold count_by_name. fold missile_name.
  set (step := fun (d : PyDict.dict Z) missile =>
                 PyDict.set d (missile_name missile)
                   (PyDict.get_default 0 d (missile_name missile) + 1)).
  change (fold_left _ missiles []) with (fold_left step missiles []).
  enough (H : forall l d,
             dict_sum (fun t n => w t * n) (fold_left step l d)
             = dict_sum (fun t n => w t * n) d
               + sum_Z (map (fun m => w (missile_name m)) l)).
  { rewrite H, dict_sum_nil. lia. }
  induction l as [|m l IH]; intros d; simpl.
  - change (sum_Z []) with 0. lia.
  - rewrite IH, sum_Z_cons. unfold step. rewrite dict_sum_set.
    unfold PyDict.get_default.
    destruct (PyDict.get d (missile_name m)) as [old|]; lia.
Qed.

Lemma count_by_name_nonneg missiles :
  Forall (fun item : string * Z => 0 <= snd item) (count_by_name missiles).
Proof.
  unfold count_by_name.
  set (step := fun (d : PyDict.dict Z) missile =>
                 PyDict.set d (PyStr.get_or (json_Name missile) "")
                   (PyDict.get_default 0 d (PyStr.get_or (json_Name missile) "") + 1)).
  enough (H : forall l d,
             Forall (fun item : string * Z => 0 <= snd item) d ->
             Forall (fun item : string * Z => 0 <= snd item) (fold_left step l d)).
  { apply H. constructor. }
  induction l as [|m l IH]; intros d Hd; simpl; [exact Hd|].
  apply IH. unfold step.
  set (k := PyStr.get_or (json_Name m) "").
  assert (Hv : 0 <= PyDict.get_default 0 d k + 1).
  { unfold PyDict.get_default. destruct (PyDict.get d k) as [v|] eqn:E; [|lia].
    apply get_in in E. rewrite Forall_forall in Hd. specialize (Hd _ E).
    simpl in Hd. lia. }
  generalize dependent (PyDict.get_default 0 d k + 1). intros v Hv.
  clear -Hd Hv. induction d as [|[k' v'] d IHd]; simpl.
  - repeat constructor. exact Hv.
  - inversion Hd; subst. destruct (String.eqb k' k); constructor; auto.
Qed.

End Grouping.

Section Usage.
Import Acmi ImprovedCombatAnalyzer Spec.

Lemma can_carry_is_fighter a t :
  can_carry_missile a t = true -> is_fighter_aircraft a = true.
Proof.
  unfold can_carry_missile, is_fighter_aircraft, PyStr.any_in. simpl.
  destruct (PyStr.contains a "F-16"), (PyStr.contains a "F-4"),
    (PyStr.contains a "F-18"), (PyStr.contains a "FA-18"),
    (PyStr.contains a "MiG-21"), (PyStr.contains a "MiG-23"),
    (PyStr.contains a "MiG-25"), (PyStr.contains a "Su-27");
    simpl; try reflexivity; intros H; try discriminate H;
    rewrite ?andb_false_r in H; discriminate H.
Qed.

Lemma fighters_by_coalition_get ps c :
  PyDict.get_default [] (fighters_by_coalition ps) c
  = map fst (filter (fun item : string * PilotStats =>
                       is_fighter_aircraft (aircraft_type (snd item))
                       && String.eqb (coalition (snd item)) c)
                    ps).
Proof.
  unfold fighters_by_coalition.
  set (step := fun (d : PyDict.dict (list string)) (item : string * PilotStats) =>
                 let (p, stats) := item in
                 if is_fighter_aircraft (aircraft_type stats)
                 then PyDict.set d (coalition stats)
                        (PyDict.get_default [] d (coalition stats) ++ [p])
                 else d).
  set (sel := fun item : string * PilotStats =>
                is_fighter_aircraft (aircraft_type (snd item))
                && String.eqb (coalition (snd item)) c).
  enough (H : forall l d,
             PyDict.get_default [] (fold_left step l d) c
             = PyDict.get_default [] d c ++ map fst (filter sel l)).
  { now rewrite H. }
  induction l as [|[p s] l IH]; intros d; simpl.
  - now rewrite app_nil_r.
  - rewrite IH. unfold sel at 2. simpl.
    destruct (is_fighter_aircraft (aircraft_type s)); simpl; [|reflexivity].
    destruct (String.eqb (coalition s) c) eqn:E.
    + apply String.eqb_eq in E. subst c.
      rewrite get_default_set_same. simpl. now rewrite <- app_assoc.
    + apply String.eqb_neq in E. now rewrite get_default_set_other.
Qed.

Lemma map_fst_filter (f : PilotStats -> bool) ps :
  NoDup (PyDict.keys ps) ->
  map fst (filter (fun item : string * PilotStats => f (snd item)) ps)
  = filter (fun p => f (stats_of ps p)) (PyDict.keys ps).
Proof.
  intros Hnd.
  enough (H : forall l, (forall p s, In (p, s) l -> stats_of ps p = s) ->
             map fst (filter (fun item : string * PilotStats => f (snd item)) l)
             = filter (fun p => f (stats_of ps p)) (map fst l)).
  { apply H. intros p s Hin. unfold stats_of, PyDict.get_default.
    now rewrite (in_get _ ps p s Hnd Hin). }
  induction l as [|[p s] l IH]; intros Hl; simpl; [reflexivity|].
  rewrite (Hl p s (or_introl eq_refl)).
  destruct (f s); simpl; rewrite IH; auto; intros; apply Hl; now right.
Qed.

Lemma same_profiles_refl ps : same_profiles ps ps.
Proof. split; reflexivity. Qed.

Lemma same_profiles_trans ps1 ps2 ps3 :
  same_profiles ps1 ps2 -> same_profiles ps2 ps3 -> same_profiles ps1 ps3.
Proof.
  intros [K1 P1] [K2 P2]. split; [congruence|].
  intros p. now rewrite P2, P1.
Qed.

Lemma same_profiles_type ps ps' p :
  same_profiles ps ps' ->
  aircraft_type (stats_of ps' p) = aircraft_type (stats_of ps p)
  /\ coalition (stats_of ps' p) = coalition (stats_of ps p).
Proof.
  intros [_ H]. specialize (H p).
  split; [apply (f_equal aircraft_type) in H | apply (f_equal coalition) in H];
    exact H.
Qed.

Lemma same_profiles_credit ps p t n :
  In p (PyDict.keys ps) -> same_profiles ps (credit ps p t n).
Proof.
  intros Hin. split.
  - unfold credit. now apply keys_set_old.
  - intros q. destruct (string_dec p q) as [<-|Hne].
    + now rewrite stats_of_credit_same.
    + now rewrite stats_of_credit_other.
Qed.

Lemma same_profiles_distribute cps : forall ps i t per r,
  (forall p, In p cps -> In p (PyDict.keys ps)) ->
  same_profiles ps (distribute ps i cps t per r).
Proof.
  induction cps as [|p cps IH]; intros ps i t per r Hin; simpl.
  - apply same_profiles_refl.
  - set (n := if i <? r then per + 1 else per).
    pose proof (same_profiles_credit ps p t n (Hin p (or_introl eq_refl))) as H.
    eapply same_profiles_trans; [exact H|]. apply IH.
    intros q Hq. destruct H as [-> _]. apply Hin. now right.
Qed.

Lemma eligible_in_keys ps c t p : In p (eligible ps c t) -> In p (PyDict.keys ps).
Proof. unfold eligible. intros H. now apply filter_In in H. Qed.

Lemma capable_eligible ps0 ps c t :
  NoDup (PyDict.keys ps0) -> same_profiles ps0 ps ->
  capable_pilots_of ps (PyDict.get_default [] (fighters_by_coalition ps0) c) t
  = eligible ps0 c t.
Proof.
  intros Hnd Hsame. rewrite fighters_by_coalition_get.
  rewrite (map_fst_filter
             (fun s => is_fighter_aircraft (aircraft_type s)
                       && String.eqb (coalition s) c) ps0 Hnd).
  unfold capable_pilots_of, eligible. rewrite filter_filter.
  apply filter_ext. intros p.
  destruct (same_profiles_type ps0 ps p Hsame) as [-> _]. reflexivity.
Qed.

Lemma total_fired_dict_sum ps :
  total_fired ps = dict_sum (fun _ s => missiles_fired s) ps.
Proof. unfold total_fired, dict_sum, PyDict.values. now rewrite map_map. Qed.

Lemma total_fired_credit ps p t n :
  In p (PyDict.keys ps) -> total_fired (credit ps p t n) = total_fired ps + n.
Proof.
  intros Hin. rewrite !total_fired_dict_sum. unfold credit.
  rewrite dict_sum_set. unfold stats_of, PyDict.get_default.
  apply in_keys_get in Hin as [s Hs]. rewrite Hs. simpl. lia.
Qed.

Lemma total_fired_distribute cps : forall ps i t per r,
  (forall p, In p cps -> In p (PyDict.keys ps)) -> 0 <= i ->
  total_fired (distribute ps i cps t per r)
  = total_fired ps + Z.of_nat (List.length cps) * per
    + Z.max 0 (Z.min (r - i) (Z.of_nat (List.length cps))).
Proof.
  induction cps as [|p cps IH]; intros ps i t per r Hin Hi.
  - simpl. lia.
  - cbn [distribute]. set (n := if i <? r then per + 1 else per).
    pose proof (same_profiles_credit ps p t n (Hin p (or_introl eq_refl))) as [Hk _].
    rewrite IH; [|intros q Hq; rewrite Hk; apply Hin; now right | lia].
    rewrite total_fired_credit by (apply Hin; now left).
    cbn [List.length]. rewrite Nat2Z.inj_succ. unfold n.
    destruct (Z.ltb_spec i r); lia.
Qed.

Lemma has_eligible_false ps c t : has_eligible ps c t = false -> eligible ps c t = [].
Proof. unfold has_eligible. now destruct (eligible ps c t). Qed.

(** One missile type of one coalition: the count is credited when the
    type has an eligible pilot, and dropped otherwise. *)
Lemma distribute_type_total ps0 ps c t n :
  NoDup (PyDict.keys ps0) -> same_profiles ps0 ps ->
  let ps' := distribute_type (PyDict.get_default [] (fighters_by_coalition ps0) c)
                             ps (t, n) in
  same_profiles ps0 ps'
  /\ total_fired ps' = total_fired ps + (if has_eligible ps0 c t then n else 0).
Proof.
  intros Hnd Hsame ps'. unfold ps', distribute_type.
  rewrite (capable_eligible ps0 ps c t Hnd Hsame).
  unfold has_eligible.
  destruct (eligible ps0 c t) as [|p0 cps] eqn:E; [split; [exact Hsame | lia]|].
  assert (Hin : forall p, In p (p0 :: cps) -> In p (PyDict.keys ps)).
  { intros p Hp. destruct Hsame as [-> _]. apply (eligible_in_keys ps0 c t).
    now rewrite E. }
  split.
  - eapply same_profiles_trans; [exact Hsame|].
    now apply same_profiles_distribute.
  - rewrite total_fired_distribute by (auto; lia).
    set (k := Z.of_nat (List.length (p0 :: cps))).
    assert (Hk : 0 < k) by (unfold k; simpl List.length; lia).
    rewrite remainder_clamp by exact Hk.
    pose proof (Z.div_mod n k). lia.
Qed.

Lemma distribute_types_total ps0 c jobs : forall ps,
  NoDup (PyDict.keys ps0) -> same_profiles ps0 ps ->
  let ps' := fold_left
               (distribute_type (PyDict.get_default [] (fighters_by_coalition ps0) c))
               jobs ps in
  same_profiles ps0 ps'
  /\ total_fired ps'
     = total_fired ps
       + dict_sum (fun t n => (if has_eligible ps0 c t then 1 else 0) * n) jobs.
Proof.
  induction jobs as [|[t n] jobs IH]; intros ps Hnd Hsame; cbv zeta; cbn [fold_left].
  - split; [exact Hsame|]. rewrite dict_sum_nil. lia.
  - destruct (distribute_type_total ps0 ps c t n Hnd Hsame) as [Hs Ht].
    destruct (IH _ Hnd Hs) as [Hs' Ht']. cbv zeta in Hs', Ht'.
    split; [exact Hs'|]. rewrite Ht', Ht, dict_sum_cons.
    destruct (has_eligible ps0 c t); lia.
Qed.

Lemma sum_indicator {A} (f : A -> bool) l :
  sum_Z (map (fun x => if f x then 1 else 0) l) = Z.of_nat (List.length (filter f l)).
Proof.
  induction l as [|x l IH]; [reflexivity|].
  cbn [map filter]. rewrite sum_Z_cons, IH.
  destruct (f x); cbn [List.length]; lia.
Qed.

Lemma distribute_coalition_total ps0 ps c missiles :
  NoDup (PyDict.keys ps0) -> same_profiles ps0 ps ->
  let ps' := distribute_coalition (fighters_by_coalition ps0) ps (c, missiles) in
  same_profiles ps0 ps'
  /\ total_fired ps'
     = total_fired ps
       + sum_Z (map (fun m => if has_eligible ps0 c (missile_name m) then 1 else 0)
                    missiles).
Proof.
  intros Hnd Hsame ps'. unfold ps', distribute_coalition.
  destruct (PyDict.get_default [] (fighters_by_coalition ps0) c) as [|p0 pilots] eqn:E.
  - split; [exact Hsame|].
    assert (Hno : forall t, has_eligible ps0 c t = false).
    { intros t. unfold has_eligible.
      rewrite <- (capable_eligible ps0 ps0 c t Hnd (same_profiles_refl ps0)), E.
      reflexivity. }
    rewrite (map_ext _ (fun _ => 0)) by (intros m; now rewrite Hno).
    clear. induction missiles as [|m l IH]; [change (sum_Z (map _ [])) with 0; lia|].
    cbn [map]. rewrite sum_Z_cons. lia.
  - rewrite <- E.
    destruct (distribute_types_total ps0 c (count_by_name missiles) ps Hnd Hsame)
      as [Hs Ht].
    split; [exact Hs|]. rewrite Ht. f_equal.
    rewrite (count_by_name_sum (fun t => if has_eligible ps0 c t then 1 else 0)).
    reflexivity.
Qed.

(** Conservation: what [estimate_missile_usage] adds to the pilots is the
    number of missiles that have an eligible pilot. *)
Lemma estimate_missile_usage_total ps air_to_air :
  NoDup (PyDict.keys ps) ->
  same_profiles ps (estimate_missile_usage ps air_to_air)
  /\ total_fired (estimate_missile_usage ps air_to_air)
     = total_fired ps
       + Z.of_nat (List.length (filter (attributable ps) air_to_air)).
Proof.
  intros Hnd. unfold estimate_missile_usage.
  set (W := fun c ms =>
              sum_Z (map (fun m => if has_eligible ps c (missile_name m)
                                   then 1 else 0) ms)).
  enough (H : forall groups cur,
             same_profiles ps cur ->
             same_profiles ps
               (fold_left (distribute_coalition (fighters_by_coalition ps)) groups cur)
             /\ total_fired
                  (fold_left (distribute_coalition (fighters_by_coalition ps)) groups cur)
                = total_fired cur + dict_sum W groups).
  { destruct (H (group_by_coalition air_to_air) ps (same_profiles_refl ps))
      as [Hs Ht].
    split; [exact Hs|]. rewrite Ht. f_equal. unfold W.
    rewrite (group_by_coalition_sum
               (fun c m => if has_eligible ps c (missile_name m) then 1 else 0)).
    apply (sum_indicator (attributable ps)). }
  induction groups as [|[c ms] groups IH]; intros cur Hsame; cbn [fold_left].
  - split; [exact Hsame|]. rewrite dict_sum_nil. lia.
  - destruct (distribute_coalition_total ps cur c ms Hnd Hsame) as [Hs Ht].
    destruct (IH _ Hs) as [Hs' Ht'].
    split; [exact Hs'|]. rewrite Ht', Ht, dict_sum_cons. unfold W at 2. lia.
Qed.

End Usage.

Section Folds.
Variables A B : Type.
Variable f : A -> B -> A.
Variables Inv P : A -> Prop.
Hypothesis Inv_step : forall a y, Inv a -> Inv (f a y).

Lemma fold_left_inv l : forall a, Inv a -> Inv (fold_left f l a).
Proof. induction l as [|y l IH]; intros a Ha; simpl; auto. Qed.

(** A property set by the step for [x] and kept by every step holds at
    the end of a loop that visits [x]. *)
Lemma fold_left_after l x :
  (forall a, Inv a -> P (f a x)) ->
  (forall a y, Inv a -> P a -> P (f a y)) ->
  In x l -> forall a, Inv a -> P (fold_left f l a).
Proof.
  intros Hset Hkeep. induction l as [|y l IH]; intros Hin a Ha; [destruct Hin|].
  simpl. destruct Hin as [->|Hin].
  - assert (Hgen : forall l' b, Inv b -> P b -> P (fold_left f l' b)).
    { induction l' as [|z l' IH']; intros b Hb Hp; simpl; auto. }
    apply Hgen; auto.
  - apply IH; auto.
Qed.

End Folds.

Section Pointwise.
Import Acmi ImprovedCombatAnalyzer Spec.

Lemma credit_types_mono ps p q t n x :
  In x (missile_types_used (stats_of ps q)) ->
  In x (missile_types_used (stats_of (credit ps p t n) q)).
Proof.
  intros H. destruct (string_dec p q) as [<-|Hne].
  - rewrite stats_of_credit_same. simpl.
    destruct (PyStr.mem t (missile_types_used (stats_of ps p)));
      [exact H | apply in_or_app; now left].
  - now rewrite stats_of_credit_other.
Qed.

Lemma mem_true_in x xs : PyStr.mem x xs = true -> In x xs.
Proof.
  unfold PyStr.mem. intros H. apply existsb_exists in H as (y & Hy & E).
  apply String.eqb_eq in E. now subst.
Qed.

Lemma credit_types_same ps p t n :
  In t (missile_types_used (stats_of (credit ps p t n) p)).
Proof.
  rewrite stats_of_credit_same. simpl.
  destruct (PyStr.mem t (missile_types_used (stats_of ps p))) eqn:E.
  - now apply mem_true_in.
  - apply in_or_app. right. now left.
Qed.

Lemma distribute_types_mono cps : forall ps i t per r q x,
  In x (missile_types_used (stats_of ps q)) ->
  In x (missile_types_used (stats_of (distribute ps i cps t per r) q)).
Proof.
  induction cps as [|p cps IH]; intros ps i t per r q x H; simpl; [exact H|].
  apply IH. now apply credit_types_mono.
Qed.

Lemma distribute_types_in cps : forall ps i t per r p,
  In p cps ->
  In t (missile_types_used (stats_of (distribute ps i cps t per r) p)).
Proof.
  induction cps as [|p0 cps IH]; intros ps i t per r p Hin; [destruct Hin|].
  simpl. destruct Hin as [->|Hin].
  - apply distribute_types_mono. apply credit_types_same.
  - now apply IH.
Qed.

Lemma credit_fired_mono ps p q t n :
  0 <= n ->
  missiles_fired (stats_of ps q) <= missiles_fired (stats_of (credit ps p t n) q).
Proof.
  intros Hn. destruct (string_dec p q) as [<-|Hne].
  - rewrite stats_of_credit_same. simpl. lia.
  - rewrite stats_of_credit_other by exact Hne. lia.
Qed.

Lemma distribute_fired_mono cps : forall ps i t per r q,
  0 <= per ->
  missiles_fired (stats_of ps q)
  <= missiles_fired (stats_of (distribute ps i cps t per r) q).
Proof.
  induction cps as [|p cps IH]; intros ps i t per r q Hper; simpl; [lia|].
  eapply Z.le_trans; [|apply IH; exact Hper].
  apply credit_fired_mono. destruct (i <? r); lia.
Qed.

Lemma distribute_type_fired_mono pilots ps t n q :
  0 <= n ->
  missiles_fired (stats_of ps q)
  <= missiles_fired (stats_of (distribute_type pilots ps (t, n)) q).
Proof.
  intros Hn. unfold distribute_type.
  destruct (capable_pilots_of ps pilots t) as [|p0 cps]; [lia|].
  apply distribute_fired_mono. apply Z.div_pos; [exact Hn|].
  simpl List.length. lia.
Qed.

Lemma distribute_type_types_mono pilots ps job q x :
  In x (missile_types_used (stats_of ps q)) ->
  In x (missile_types_used (stats_of (distribute_type pilots ps job) q)).
Proof.
  intros H. destruct job as [t n]. unfold distribute_type.
  destruct (capable_pilots_of ps pilots t) as [|p0 cps]; [exact H|].
  now apply distribute_types_mono.
Qed.

Lemma distribute_type_other pilots ps job q :
  (forall t, ~ In q (capable_pilots_of ps pilots t)) ->
  stats_of (distribute_type pilots ps job) q = stats_of ps q.
Proof.
  intros H. destruct job as [t n]. unfold distribute_type.
  specialize (H t).
  destruct (capable_pilots_of ps pilots t) as [|p0 cps]; [reflexivity|].
  now apply distribute_other.
Qed.

Lemma not_capable ps pilots t q :
  is_fighter_aircraft (aircraft_type (stats_of ps q)) = false ->
  ~ In q (capable_pilots_of ps pilots t).
Proof.
  intros Hnf Hin. unfold capable_pilots_of in Hin. apply filter_In in Hin as [_ Hc].
  apply can_carry_is_fighter in Hc. congruence.
Qed.

(** A pilot that flies no fighter is left alone by the whole step. *)
Lemma nonfighter_untouched ps air_to_air q :
  is_fighter_aircraft (aircraft_type (stats_of ps q)) = false ->
  stats_of (estimate_missile_usage ps air_to_air) q = stats_of ps q.
Proof.
  intros Hnf. unfold estimate_missile_usage.
  apply (fold_left_inv _ _ (distribute_coalition (fighters_by_coalition ps))
           (fun cur => stats_of cur q = stats_of ps q)); [|reflexivity].
  intros cur [c ms] Hcur. unfold distribute_coalition.
  destruct (PyDict.get_default [] (fighters_by_coalition ps) c) as [|p0 pilots];
    [exact Hcur|].
  apply (fold_left_inv _ _ (distribute_type (p0 :: pilots))
           (fun cur => stats_of cur q = stats_of ps q)); [|exact Hcur].
  intros cur' job Hcur'. rewrite distribute_type_other; [exact Hcur'|].
  intros t. apply not_capable. now rewrite Hcur'.
Qed.

(** Nobody loses missiles. *)
Lemma estimate_missile_usage_mono ps air_to_air q :
  missiles_fired (stats_of ps q)
  <= missiles_fired (stats_of (estimate_missile_usage ps air_to_air) q).
Proof.
  unfold estimate_missile_usage.
  apply (fold_left_inv _ _ (distribute_coalition (fighters_by_coalition ps))
           (fun cur => missiles_fired (stats_of ps q)
                       <= missiles_fired (stats_of cur q))); [|lia].
  intros cur [c ms] Hcur. unfold distribute_coalition.
  destruct (PyDict.get_default [] (fighters_by_coalition ps) c) as [|p0 pilots];
    [exact Hcur|].
  pose proof (count_by_name_nonneg ms) as Hjobs.
  revert cur Hcur. induction (count_by_name ms) as [|[t n] jobs IH];
    intros cur Hcur; cbn [fold_left]; [exact Hcur|].
  inversion Hjobs as [|? ? Hn Hrest]; subst. apply IH; [exact Hrest|].
  eapply Z.le_trans; [exact Hcur|].
  apply distribute_type_fired_mono. exact Hn.
Qed.

End Pointwise.

Section Membership.
Import Acmi ImprovedCombatAnalyzer Spec.

Lemma group_by_coalition_get missiles c :
  PyDict.get_default [] (group_by_coalition missiles) c
  = filter (fun m => String.eqb (Acmi.coalition m) c) missiles.
Proof.
  unfold group_by_coalition.
  set (step := fun (d : PyDict.dict (list AcmiObject)) missile =>
                 PyDict.set d (Acmi.coalition missile)
                   (PyDict.get_default [] d (Acmi.coalition missile) ++ [missile])).
  enough (H : forall l d,
             PyDict.get_default [] (fold_left step l d) c
             = PyDict.get_default [] d c
               ++ filter (fun m => String.eqb (Acmi.coalition m) c) l).
  { now rewrite H. }
  induction l as [|m l IH]; intros d; simpl.
  - now rewrite app_nil_r.
  - rewrite IH. unfold step.
    destruct (String.eqb (Acmi.coalition m) c) eqn:E.
    + apply String.eqb_eq in E. subst c. rewrite get_default_set_same.
      now rewrite <- app_assoc.
    + apply String.eqb_neq in E. now rewrite get_default_set_other.
Qed.

Lemma count_by_name_get missiles t :
  PyDict.get_default 0 (count_by_name missiles) t
  = Z.of_nat (List.length (filter (fun m => String.eqb (missile_name m) t) missiles)).
Proof.
  unfold count_by_name. fold missile_name.
  set (step := fun (d : PyDict.dict Z) missile =>
                 PyDict.set d (missile_name missile)
                   (PyDict.get_default 0 d (missile_name missile) + 1)).
  change (fold_left _ missiles []) with (fold_left step missiles []).
  enough (H : forall l d,
             PyDict.get_default 0 (fold_left step l d) t
             = PyDict.get_default 0 d t
               + Z.of_nat (List.length
                             (filter (fun m => String.eqb (missile_name m) t) l))).
  { now rewrite H. }
  induction l as [|m l IH]; intros d; simpl.
  - lia.
  - rewrite IH. unfold step.
    destruct (String.eqb (missile_name m) t) eqn:E.
    + apply String.eqb_eq in E. subst t. rewrite get_default_set_same.
      cbn [List.length]. lia.
    + apply String.eqb_neq in E. rewrite get_default_set_other by exact E. lia.
Qed.

Lemma group_by_coalition_in missiles m :
  In m missiles ->
  exists ms, In (Acmi.coalition m, ms) (group_by_coalition missiles) /\ In m ms.
Proof.
  intros Hin. pose proof (group_by_coalition_get missiles (Acmi.coalition m)) as H.
  assert (Hm : In m (filter (fun m' => String.eqb (Acmi.coalition m') (Acmi.coalition m))
                            missiles)).
  { apply filter_In. split; [exact Hin | apply String.eqb_refl]. }
  unfold PyDict.get_default in H.
  destruct (PyDict.get (group_by_coalition missiles) (Acmi.coalition m)) as [ms|] eqn:E.
  - exists ms. split; [now apply get_in | now rewrite H].
  - rewrite <- H in Hm. destruct Hm.
Qed.

Lemma count_by_name_in missiles m :
  In m missiles -> exists n, In (missile_name m, n) (count_by_name missiles).
Proof.
  intros Hin. pose proof (count_by_name_get missiles (missile_name m)) as H.
  assert (Hm : In m (filter (fun m' => String.eqb (missile_name m') (missile_name m))
                            missiles)).
  { apply filter_In. split; [exact Hin | apply String.eqb_refl]. }
  unfold PyDict.get_default in H.
  destruct (PyDict.get (count_by_name missiles) (missile_name m)) as [n|] eqn:E.
  - exists n. now apply get_in.
  - destruct (filter _ missiles); [destruct Hm | simpl in H; lia].
Qed.

Lemma eligible_in_pilots ps c t p :
  NoDup (PyDict.keys ps) ->
  In p (eligible ps c t) ->
  In p (PyDict.get_default [] (fighters_by_coalition ps) c).
Proof.
  intros Hnd Hin.
  rewrite <- (capable_eligible ps ps c t Hnd (same_profiles_refl ps)) in Hin.
  unfold capable_pilots_of in Hin. now apply filter_In in Hin.
Qed.

Lemma distribute_coalition_types_mono cp ps item q x :
  In x (missile_types_used (stats_of ps q)) ->
  In x (missile_types_used (stats_of (distribute_coalition cp ps item) q)).
Proof.
  intros H. destruct item as [c ms]. unfold distribute_coalition.
  destruct (PyDict.get_default [] cp c) as [|p0 pilots]; [exact H|].
  apply (fold_left_inv _ _ (distribute_type (p0 :: pilots))
           (fun cur => In x (missile_types_used (stats_of cur q)))); [|exact H].
  intros cur job Hcur. now apply distribute_type_types_mono.
Qed.

(** Every pilot eligible for a missile has its name on record. *)
Lemma usage_records_type ps air_to_air m p :
  NoDup (PyDict.keys ps) -> In m air_to_air ->
  In p (eligible ps (Acmi.coalition m) (missile_name m)) ->
  In (missile_name m)
     (missile_types_used (stats_of (estimate_missile_usage ps air_to_air) p)).
Proof.
  intros Hnd Hm Hp. unfold estimate_missile_usage.
  destruct (group_by_coalition_in air_to_air m Hm) as (ms & Hgroup & Hms).
  destruct (count_by_name_in ms m Hms) as (n & Hjob).
  set (c := Acmi.coalition m) in *. set (t := missile_name m) in *.
  apply (fold_left_after _ _ (distribute_coalition (fighters_by_coalition ps))
           (same_profiles ps)
           (fun cur => In t (missile_types_used (stats_of cur p))))
    with (x := (c, ms)).
  - intros cur [c' ms'] Hcur.
    exact (proj1 (distribute_coalition_total ps cur c' ms' Hnd Hcur)).
  - intros cur Hcur. unfold distribute_coalition.
    pose proof (eligible_in_pilots ps c t p Hnd Hp) as Hpil.
    destruct (PyDict.get_default [] (fighters_by_coalition ps) c)
      as [|p0 pilots] eqn:E; [destruct Hpil|]. rewrite <- E.
    apply (fold_left_after _ _
             (distribute_type (PyDict.get_default [] (fighters_by_coalition ps) c))
             (same_profiles ps)
             (fun cur => In t (missile_types_used (stats_of cur p))))
      with (x := (t, n)).
    + intros cur' [t' n'] Hcur'.
      exact (proj1 (distribute_type_total ps cur' c t' n' Hnd Hcur')).
    + intros cur' Hcur'. unfold distribute_type.
      rewrite (capable_eligible ps cur' c t Hnd Hcur').
      destruct (eligible ps c t) as [|e0 es] eqn:Ee; [destruct Hp|].
      now apply distribute_types_in.
    + intros cur' job _ H. now apply distribute_type_types_mono.
    + exact Hjob.
    + exact Hcur.
  - intros cur item _ H. now apply distribute_coalition_types_mono.
  - exact Hgroup.
  - apply same_profiles_refl.
Qed.

End Membership.

Section FreshState.
Import Acmi ImprovedCombatAnalyzer Spec.

Lemma analyze_pilot_wf alive_aircraft alive_pilots ps a :
  NoDup (PyDict.keys ps) ->
  NoDup (PyDict.keys (analyze_pilot alive_aircraft alive_pilots ps a)).
Proof.
  intros Hnd. unfold analyze_pilot.
  destruct (PyStr.truthy (pilot a)) as [q|]; [|exact Hnd].
  assert (H1 : NoDup (PyDict.keys (if PyDict.mem ps q then ps
                                   else PyDict.set ps q (new_stats q a alive_pilots)))).
  { destruct (PyDict.mem ps q); [exact Hnd | now apply nodup_keys_set]. }
  destruct (negb (obj_in a alive_aircraft)); [now apply nodup_keys_set | exact H1].
Qed.

Lemma analyze_pilot_keys alive_aircraft alive_pilots ps a :
  (forall p, In p (PyDict.keys ps) -> p <> "") ->
  forall p, In p (PyDict.keys (analyze_pilot alive_aircraft alive_pilots ps a)) ->
            p <> "".
Proof.
  intros Hk p. unfold analyze_pilot.
  destruct (PyStr.truthy (pilot a)) as [q|] eqn:Et; [|apply Hk].
  apply truthy_some in Et as [_ Hq].
  assert (H1 : forall p, In p (PyDict.keys
                                 (if PyDict.mem ps q then ps
                                  else PyDict.set ps q (new_stats q a alive_pilots))) ->
                         p <> "").
  { intros p'. destruct (PyDict.mem ps q); [apply Hk|].
    rewrite in_keys_set. intros [->|H]; auto. }
  destruct (negb (obj_in a alive_aircraft)); [|apply H1].
  rewrite in_keys_set. intros [->|H]; auto.
Qed.

Lemma fresh_default : fresh [].
Proof. intros p. repeat split. Qed.

Lemma analyze_pilot_fresh alive_aircraft alive_pilots ps a :
  fresh ps -> fresh (analyze_pilot alive_aircraft alive_pilots ps a).
Proof.
  intros Hf. unfold analyze_pilot.
  destruct (PyStr.truthy (pilot a)) as [q|]; [|exact Hf].
  set (ps1 := if PyDict.mem ps q then ps
              else PyDict.set ps q (new_stats q a alive_pilots)).
  assert (H1 : fresh ps1).
  { unfold ps1. destruct (PyDict.mem ps q); [exact Hf|].
    intros p. destruct (string_dec q p) as [<-|Hne].
    - rewrite stats_of_set_same. repeat split.
    - rewrite stats_of_set_other by exact Hne. apply Hf. }
  destruct (negb (obj_in a alive_aircraft)); [|exact H1].
  intros p. destruct (string_dec q p) as [<-|Hne].
  - rewrite stats_of_set_same. simpl. apply H1.
  - rewrite stats_of_set_other by exact Hne. apply H1.
Qed.

Lemma analyze_pilots_state all_aircraft alive_aircraft :
  let ps := analyze_pilots [] all_aircraft alive_aircraft in
  NoDup (PyDict.keys ps)
  /\ (forall p, In p (PyDict.keys ps) -> p <> "")
  /\ fresh ps.
Proof.
  unfold analyze_pilots.
  set (step := analyze_pilot alive_aircraft (alive_pilots_of alive_aircraft)).
  apply (fold_left_inv _ _ step
           (fun ps => NoDup (PyDict.keys ps)
                      /\ (forall p, In p (PyDict.keys ps) -> p <> "")
                      /\ fresh ps)).
  - intros ps a (Hnd & Hk & Hf). unfold step. split; [|split].
    + now apply analyze_pilot_wf.
    + now apply analyze_pilot_keys.
    + now apply analyze_pilot_fresh.
  - split; [constructor | split; [intros p []| apply fresh_default]].
Qed.

End FreshState.

Section Kills.
Import Acmi ImprovedCombatAnalyzer Spec.
Variable h : PyFloat.float.

Lemma count_losses_get removed_aircraft c :
  PyDict.get_default 0 (count_losses removed_aircraft) c
  = losses_in removed_aircraft c.
Proof.
  unfold count_losses, losses_in.
  set (step := fun (d : PyDict.dict Z) aircraft =>
                 PyDict.set d (Acmi.coalition aircraft)
                   (PyDict.get_default 0 d (Acmi.coalition aircraft) + 1)).
  enough (H : forall l d,
             PyDict.get_default 0 (fold_left step l d) c
             = PyDict.get_default 0 d c
               + Z.of_nat (List.length
                             (filter (fun o => String.eqb (Acmi.coalition o) c) l))).
  { now rewrite H. }
  induction l as [|a l IH]; intros d; simpl.
  - lia.
  - rewrite IH. unfold step.
    destruct (String.eqb (Acmi.coalition a) c) eqn:E.
    + apply String.eqb_eq in E. subst c. rewrite get_default_set_same.
      cbn [List.length]. lia.
    + apply String.eqb_neq in E. rewrite get_default_set_other by exact E. lia.
Qed.

Lemma shooters_of_keys ps c :
  NoDup (PyDict.keys ps) -> shooters_of ps c = shooters ps c.
Proof.
  intros Hnd. unfold shooters_of, shooters.
  apply (map_fst_filter
           (fun s => String.eqb (coalition s) c && (missiles_fired s >? 0)) ps Hnd).
Qed.

Lemma total_missiles_of_sum ps l :
  total_missiles_of ps l = sum_Z (map (fun q => missiles_fired (stats_of ps q)) l).
Proof.
  unfold total_missiles_of.
  enough (H : forall a, fold_left (fun acc p => acc + missiles_fired (stats_of ps p)) l a
                        = a + sum_Z (map (fun q => missiles_fired (stats_of ps q)) l)).
  { rewrite H. lia. }
  induction l as [|p l IH]; intros a; simpl.
  - change (sum_Z []) with 0. lia.
  - rewrite IH, sum_Z_cons. lia.
Qed.

Lemma same_fire_refl ps : same_fire ps ps.
Proof. split; reflexivity. Qed.

Lemma same_fire_trans ps1 ps2 ps3 :
  same_fire ps1 ps2 -> same_fire ps2 ps3 -> same_fire ps1 ps3.
Proof.
  intros [K1 P1] [K2 P2]. split; [congruence|]. intros p. now rewrite P2, P1.
Qed.

Lemma same_fire_fields ps ps' p :
  same_fire ps ps' ->
  missiles_fired (stats_of ps' p) = missiles_fired (stats_of ps p)
  /\ coalition (stats_of ps' p) = coalition (stats_of ps p).
Proof.
  intros [_ H]. specialize (H p).
  split; [apply (f_equal missiles_fired) in H | apply (f_equal coalition) in H];
    exact H.
Qed.

Lemma same_fire_set ps p k r :
  In p (PyDict.keys ps) ->
  same_fire ps (PyDict.set ps p (with_kills (stats_of ps p) k r)).
Proof.
  intros Hin. split; [now apply keys_set_old|].
  intros q. destruct (string_dec p q) as [<-|Hne].
  - now rewrite stats_of_set_same.
  - now rewrite stats_of_set_other.
Qed.

Lemma shooters_same_fire ps ps' c :
  same_fire ps ps' -> shooters ps' c = shooters ps c.
Proof.
  intros Hs. unfold shooters. destruct Hs as [Hk Hp]. rewrite Hk.
  apply filter_ext. intros q.
  destruct (same_fire_fields ps ps' q (conj Hk Hp)) as [-> ->]. reflexivity.
Qed.

Lemma coalition_total_same_fire ps ps' c :
  same_fire ps ps' -> coalition_total ps' c = coalition_total ps c.
Proof.
  intros Hs. unfold coalition_total. rewrite (shooters_same_fire ps ps' c Hs).
  f_equal. apply map_ext. intros q.
  now destruct (same_fire_fields ps ps' q Hs) as [-> _].
Qed.

(** One turn of the loop, in terms of [outcome]. *)
Lemma estimate_kills_outcome removed_aircraft ps p :
  NoDup (PyDict.keys ps) -> In p (PyDict.keys ps) ->
  0 <= missiles_fired (stats_of ps p) ->
  estimate_kills h (count_losses removed_aircraft) ps p
  = match outcome h removed_aircraft ps p with
    | Some s => Some (PyDict.set ps p s)
    | None => None
    end.
Proof.
  intros Hnd Hin Hm. unfold estimate_kills, outcome.
  rewrite count_losses_get.
  set (s := stats_of ps p) in *.
  assert (Hself : PyDict.set ps p s = ps).
  { apply set_same_value. unfold s, stats_of, PyDict.get_default.
    apply in_keys_get in Hin as [v Hv]. now rewrite Hv. }
  destruct (missiles_fired s =? 0) eqn:E0; simpl; [now rewrite Hself|].
  destruct (losses_in removed_aircraft (enemy_of (coalition s)) =? 0) eqn:EL;
    [now rewrite Hself|].
  rewrite shooters_of_keys by exact Hnd.
  assert (Hp : In p (shooters ps (coalition s))).
  { unfold shooters. apply filter_In. split; [exact Hin|]. fold s.
    rewrite String.eqb_refl. simpl. apply Z.gtb_lt.
    apply Z.eqb_neq in E0. lia. }
  rewrite total_missiles_of_sum. fold (coalition_total ps (coalition s)).
  destruct (shooters ps (coalition s)) as [|q0 qs] eqn:Esh; [destruct Hp|].
  assert (Hpos : (missiles_fired s >? 0) = true).
  { apply Z.gtb_lt. apply Z.eqb_neq in E0. lia. }
  rewrite Hpos. unfold coalition_total. rewrite Esh.
  destruct (estimated_kills _ _ _ _); reflexivity.
Qed.

(** The loop visits every pilot once and leaves it its [outcome]. *)
Lemma estimate_all_outcome removed_aircraft ps0 l : forall cur,
  NoDup (PyDict.keys ps0) ->
  (forall p, 0 <= missiles_fired (stats_of ps0 p)) ->
  NoDup l -> (forall p, In p l -> In p (PyDict.keys ps0)) ->
  same_fire ps0 cur ->
  (forall p, In p l -> stats_of cur p = stats_of ps0 p) ->
  match estimate_all h (count_losses removed_aircraft) cur l with
  | Some ps' =>
      same_fire ps0 ps'
      /\ (forall q, ~ In q l -> stats_of ps' q = stats_of cur q)
      /\ (forall p, In p l ->
                    outcome h removed_aircraft ps0 p = Some (stats_of ps' p))
  | None => exists p, In p l /\ outcome h removed_aircraft ps0 p = None
  end.
Proof.
  induction l as [|p l IH]; intros cur Hnd Hm Hl Hkeys Hsame Hcur.
  - simpl. split; [exact Hsame|]. split; [reflexivity | intros p []].
  - inversion Hl as [|? ? Hni Hl']; subst. cbn [estimate_all].
    assert (Hpk : In p (PyDict.keys cur)).
    { destruct Hsame as [-> _]. apply Hkeys. now left. }
    assert (Hndc : NoDup (PyDict.keys cur)) by (destruct Hsame as [-> _]; exact Hnd).
    assert (Hout : outcome h removed_aircraft cur p
                   = outcome h removed_aircraft ps0 p).
    { unfold outcome. rewrite (Hcur p (or_introl eq_refl)).
      now rewrite (coalition_total_same_fire ps0 cur _ Hsame). }
    rewrite (estimate_kills_outcome removed_aircraft cur p Hndc Hpk)
      by (rewrite (Hcur p (or_introl eq_refl)); apply Hm).
    rewrite Hout.
    destruct (outcome h removed_aircraft ps0 p) as [s|] eqn:Eo;
      [|exists p; split; [now left | exact Eo]].
    assert (Hs : exists k r, s = with_kills (stats_of cur p) k r).
    { unfold outcome in Eo. rewrite <- (Hcur p (or_introl eq_refl)) in Eo.
      destruct (_ || _) in Eo.
      - injection Eo as <-. exists (air_to_air_kills (stats_of cur p)),
          (estimated_hit_rate (stats_of cur p)). now destruct (stats_of cur p).
      - destruct (estimated_kills _ _ _ _) in Eo; [|discriminate].
        injection Eo as <-. eauto. }
    destruct Hs as (k & r & ->).
    set (cur' := PyDict.set cur p (with_kills (stats_of cur p) k r)).
    assert (Hsame' : same_fire ps0 cur').
    { eapply same_fire_trans; [exact Hsame|]. now apply same_fire_set. }
    specialize (IH cur' Hnd Hm Hl' (fun q Hq => Hkeys q (or_intror Hq)) Hsame').
    assert (Hcur' : forall q, In q l -> stats_of cur' q = stats_of ps0 q).
    { intros q Hq. unfold cur'. rewrite stats_of_set_other.
      - apply Hcur. now right.
      - intros ->. contradiction. }
    specialize (IH Hcur').
    destruct (estimate_all h (count_losses removed_aircraft) cur' l) as [ps'|].
    + destruct IH as (Hsf & Hother & Hin). split; [exact Hsf|]. split.
      * intros q Hq. rewrite Hother by (intros H; apply Hq; now right).
        unfold cur'. apply stats_of_set_other. intros ->. apply Hq. now left.
      * intros q [<-|Hq]; [|now apply Hin].
        rewrite Hother by exact Hni. unfold cur'. rewrite stats_of_set_same.
        exact Eo.
    + destruct IH as (q & Hq & Hnone). exists q. split; [now right | exact Hnone].
Qed.

End Kills.

Section KillArithmetic.
Import PyFloat ImprovedCombatAnalyzer Spec.

Lemma digits_max_size z : 0 <= z -> z <= max_size -> Zdigits2 z <= 63.
Proof.
  intros H0 H. apply Zdigits2_le; [exact H0 | lia | unfold max_size in H; lia].
Qed.

(** [floor(z * y)] for a non-negative [z] within range and a finite
    non-negative [y]: defined, non-negative, and what [int] returns. *)
Lemma floor_mul_below z y :
  0 <= z -> z <= max_size -> below y 64 ->
  exists x k, int_mul z y = Some x /\ to_int x = Some k
              /\ floor_mul z y = Some k /\ 0 <= k.
Proof.
  intros H0 Hz Hy.
  destruct (of_int_below z H0 ltac:(pose proof (digits_max_size z H0 Hz); lia))
    as (fz & Hfz & Hbz).
  pose proof (digits_max_size z H0 Hz) as Hd.
  assert (Hb : below (mul fz y) (64 + 64 + 1)).
  { apply mul_below; [eapply below_mono; [exact Hbz | lia] | exact Hy | lia | lia]. }
  destruct (to_int_below _ _ Hb) as (k & Hk & Hfl & Hk0).
  exists (mul fz y), k. unfold floor_mul, int_mul. rewrite Hfz.
  repeat split; assumption.
Qed.

Lemma floor_mul_zero y : below y 64 -> floor_mul 0 y = Some 0.
Proof.
  intros Hy. unfold floor_mul, int_mul. simpl.
  destruct y as [s| | |s m e]; simpl in Hy; try contradiction; reflexivity.
Qed.

(** The numeric core of the estimate with the source's hit rate, on
    counts that fit a Python list. *)
Lemma estimated_kills_defined fired total losses :
  0 < fired -> fired <= total -> total <= max_size ->
  0 <= losses -> losses <= max_size ->
  exists share a b,
    int_truediv fired total = Some share
    /\ below share 64
    /\ floor_mul fired lit_0_3 = Some a
    /\ floor_mul losses share = Some b
    /\ 0 <= a <= fired /\ 0 <= b
    /\ estimated_kills lit_0_3 fired total losses = Some (Z.min a b).
Proof.
  intros Hf Hft Ht Hl0 Hl.
  pose proof (digits_max_size fired ltac:(lia) ltac:(lia)) as Hdf.
  pose proof (digits_max_size total ltac:(lia) ltac:(lia)) as Hdt.
  destruct (int_truediv_below fired total Hf ltac:(lia) ltac:(lia) ltac:(lia))
    as (share & Hshare & Hbs).
  assert (Hbs' : below share 64) by (eapply below_mono; [exact Hbs | lia]).
  destruct (int_mul_lit_le fired Hf ltac:(lia)) as (x & a & Hx & Ha & Hale).
  destruct (floor_mul_below losses share Hl0 Hl Hbs') as (y & b & Hy & Hb & Hfb & Hb0).
  exists share, a, b. unfold estimated_kills. rewrite Hshare, Hx, Hy, Ha, Hb.
  repeat split; try assumption; try lia.
  unfold floor_mul. rewrite Hx.
  destruct x as [s| | |s m e]; simpl in Ha |- *; try discriminate.
  - exact Ha.
  - destruct s; [|exact Ha].
    (* a negative product is impossible: both factors are positive *)
    exfalso. unfold int_mul in Hx.
    destruct (of_int_below fired ltac:(lia) ltac:(lia)) as (ff & Hff & Hbf).
    rewrite Hff in Hx. injection Hx as Hx.
    pose proof (Zdigits2_nonneg fired) as Hdn.
    pose proof (mul_below ff lit_0_3 _ _ Hbf lit_0_3_below ltac:(lia) ltac:(lia)) as Hm.
    rewrite Hx in Hm. simpl in Hm. destruct Hm as [Hm _]. discriminate.
Qed.

End KillArithmetic.

Section Sums.
Import ImprovedCombatAnalyzer Spec.
Variable A : Type.
Variable g : A -> Z.
Hypothesis g_nonneg : forall x, 0 <= g x.

Lemma sum_Z_nonneg l : 0 <= sum_Z (map g l).
Proof.
  induction l as [|x l IH]; [change (sum_Z (map g [])) with 0; lia|].
  cbn [map]. rewrite sum_Z_cons. pose proof (g_nonneg x). lia.
Qed.

Lemma sum_Z_filter_le (f : A -> bool) l :
  sum_Z (map g (filter f l)) <= sum_Z (map g l).
Proof.
  induction l as [|x l IH]; [simpl; lia|].
  cbn [map filter]. pose proof (g_nonneg x).
  destruct (f x); cbn [map]; rewrite ?sum_Z_cons; lia.
Qed.

Lemma sum_Z_member_le x l : In x l -> g x <= sum_Z (map g l).
Proof.
  induction l as [|y l IH]; intros Hin; [destruct Hin|].
  cbn [map]. rewrite sum_Z_cons. destruct Hin as [->|Hin].
  - pose proof (sum_Z_nonneg l). lia.
  - pose proof (g_nonneg y). specialize (IH Hin). lia.
Qed.

End Sums.

Section Pipeline.
Import Acmi ImprovedCombatAnalyzer Spec.

Lemma analyze_combat_data_unfold h acmi :
  analyze_combat_data_with h acmi
  = calculate_kill_estimates_with h (usage_state acmi)
      (filter is_plane (removed_objects acmi)).
Proof. reflexivity. Qed.

Lemma pilots_state_facts acmi :
  NoDup (PyDict.keys (pilots_state acmi))
  /\ (forall p, In p (PyDict.keys (pilots_state acmi)) -> p <> "")
  /\ fresh (pilots_state acmi).
Proof. apply analyze_pilots_state. Qed.

Lemma usage_same_profiles acmi : same_profiles (pilots_state acmi) (usage_state acmi).
Proof.
  apply estimate_missile_usage_total. apply pilots_state_facts.
Qed.

Lemma usage_state_wf acmi : NoDup (PyDict.keys (usage_state acmi)).
Proof.
  destruct (usage_same_profiles acmi) as [-> _]. apply pilots_state_facts.
Qed.

Lemma usage_fired_nonneg acmi p : 0 <= missiles_fired (stats_of (usage_state acmi) p).
Proof.
  destruct (pilots_state_facts acmi) as (_ & _ & Hf).
  destruct (Hf p) as [H0 _].
  pose proof (estimate_missile_usage_mono (pilots_state acmi) (air_to_air_of acmi) p).
  unfold usage_state. lia.
Qed.

Lemma usage_kills_zero acmi p :
  air_to_air_kills (stats_of (usage_state acmi) p) = 0
  /\ estimated_hit_rate (stats_of (usage_state acmi) p) = PyFloat.zero.
Proof.
  destruct (usage_same_profiles acmi) as [_ H]. specialize (H p).
  destruct (pilots_state_facts acmi) as (_ & _ & Hf).
  destruct (Hf p) as (_ & Hk & _ & Hr).
  split.
  - apply (f_equal air_to_air_kills) in H. simpl in H. congruence.
  - apply (f_equal estimated_hit_rate) in H. simpl in H. congruence.
Qed.

Lemma total_fired_keys ps :
  NoDup (PyDict.keys ps) ->
  total_fired ps = sum_Z (map (fun q => missiles_fired (stats_of ps q)) (PyDict.keys ps)).
Proof.
  intros Hnd. unfold total_fired, PyDict.values.
  rewrite (items_via_keys _ default_stats ps Hnd) at 1.
  now rewrite !map_map.
Qed.

Lemma total_fired_fresh ps : fresh ps -> NoDup (PyDict.keys ps) -> total_fired ps = 0.
Proof.
  intros Hf Hnd. rewrite (total_fired_keys ps Hnd). clear Hnd.
  induction (PyDict.keys ps) as [|k l IH]; [reflexivity|].
  cbn [map]. rewrite sum_Z_cons, IH. destruct (Hf k) as [-> _]. reflexivity.
Qed.

Lemma filter_length_le {A} (f : A -> bool) l :
  (List.length (filter f l) <= List.length l)%nat.
Proof.
  induction l as [|x l IH]; simpl; [lia|]. destruct (f x); simpl; lia.
Qed.

(** The missiles credited never exceed the removed objects. *)
Lemma usage_total_bound acmi :
  total_fired (usage_state acmi)
  = Z.of_nat (List.length (filter (attributable (pilots_state acmi))
                                  (air_to_air_of acmi)))
  /\ total_fired (usage_state acmi)
     <= Z.of_nat (List.length (removed_objects acmi)).
Proof.
  destruct (pilots_state_facts acmi) as (Hnd & _ & Hf).
  destruct (estimate_missile_usage_total (pilots_state acmi) (air_to_air_of acmi) Hnd)
    as [_ Ht].
  rewrite (total_fired_fresh _ Hf Hnd) in Ht. fold (usage_state acmi) in Ht.
  split; [rewrite Ht; lia|]. rewrite Ht.
  pose proof (filter_length_le (attributable (pilots_state acmi)) (air_to_air_of acmi)).
  unfold air_to_air_of in *.
  pose proof (filter_length_le is_air_to_air_missile
                (filter is_missile (removed_objects acmi))).
  pose proof (filter_length_le is_missile (removed_objects acmi)).
  lia.
Qed.

Lemma coalition_total_bounds acmi p :
  In p (PyDict.keys (usage_state acmi)) ->
  0 < missiles_fired (stats_of (usage_state acmi) p) ->
  missiles_fired (stats_of (usage_state acmi) p)
  <= coalition_total (usage_state acmi) (coalition (stats_of (usage_state acmi) p))
  /\ coalition_total (usage_state acmi) (coalition (stats_of (usage_state acmi) p))
     <= total_fired (usage_state acmi).
Proof.
  intros Hin Hpos. set (ps := usage_state acmi) in *.
  pose proof (usage_fired_nonneg acmi) as Hnn. fold ps in Hnn.
  unfold coalition_total. split.
  - apply (sum_Z_member_le _ (fun q => missiles_fired (stats_of ps q)) Hnn p).
    unfold shooters. apply filter_In. split; [exact Hin|].
    rewrite String.eqb_refl. simpl. apply Z.gtb_lt. lia.
  - rewrite (total_fired_keys ps (usage_state_wf acmi)).
    apply (sum_Z_filter_le _ (fun q => missiles_fired (stats_of ps q)) Hnn).
Qed.

Lemma enemy_losses_bound acmi c :
  0 <= enemy_losses acmi c
  /\ enemy_losses acmi c <= Z.of_nat (List.length (removed_objects acmi)).
Proof.
  unfold enemy_losses, losses_in. split; [lia|].
  pose proof (filter_length_le (fun o => String.eqb (Acmi.coalition o) (opponent c))
                (filter is_plane (removed_objects acmi))).
  pose proof (filter_length_le is_plane (removed_objects acmi)).
  lia.
Qed.

(** With the source's hit rate, no conversion fails on a recording that
    fits a Python list. *)
Lemma outcome_defined acmi p :
  sized acmi -> In p (PyDict.keys (usage_state acmi)) ->
  exists s, outcome PyFloat.lit_0_3 (filter is_plane (removed_objects acmi))
                    (usage_state acmi) p = Some s.
Proof.
  intros Hsz Hin. unfold outcome.
  set (ps := usage_state acmi) in *. set (s := stats_of ps p).
  change (losses_in (filter is_plane (removed_objects acmi)) (enemy_of (coalition s)))
    with (enemy_losses acmi (coalition s)).
  destruct ((missiles_fired s =? 0) || (enemy_losses acmi (coalition s) =? 0)) eqn:E;
    [eauto|].
  apply orb_false_iff in E as [E0 EL].
  apply Z.eqb_neq in E0. apply Z.eqb_neq in EL.
  pose proof (usage_fired_nonneg acmi p) as Hnn. fold ps in Hnn. fold s in Hnn.
  destruct (coalition_total_bounds acmi p Hin ltac:(fold ps; fold s; lia)) as [H1 H2].
  fold ps in H1, H2. fold s in H1, H2.
  destruct (usage_total_bound acmi) as [_ H3]. fold ps in H3.
  destruct (enemy_losses_bound acmi (coalition s)) as [H4 H5].
  unfold sized in Hsz.
  destruct (estimated_kills_defined (missiles_fired s)
              (coalition_total ps (coalition s)) (enemy_losses acmi (coalition s))
              ltac:(lia) H1 ltac:(lia) H4 ltac:(lia))
    as (share & a & b & _ & _ & _ & _ & _ & _ & Hk).
  rewrite Hk. eauto.
Qed.

(** The analysis returns on every recording that fits a Python list. *)
Lemma analyze_defined acmi :
  sized acmi -> exists ps, analyze_combat_data acmi = Some ps.
Proof.
  intros Hsz. unfold analyze_combat_data. rewrite analyze_combat_data_unfold.
  unfold calculate_kill_estimates_with.
  pose proof (estimate_all_outcome PyFloat.lit_0_3
                (filter is_plane (removed_objects acmi)) (usage_state acmi)
                (PyDict.keys (usage_state acmi)) (usage_state acmi)
                (usage_state_wf acmi) (usage_fired_nonneg acmi)
                (usage_state_wf acmi) (fun p H => H)
                (same_fire_refl _) (fun p _ => eq_refl)) as H.
  destruct (estimate_all _ _ _ _) as [ps|]; [eauto|].
  destruct H as (p & Hin & Hnone).
  destruct (outcome_defined acmi p Hsz Hin) as [s Hs]. congruence.
Qed.

(** Whatever the hit rate, a returned result keeps the keys and the
    missile data and gives every pilot its [outcome]. *)
Lemma analyze_result h acmi ps :
  analyze_combat_data_with h acmi = Some ps ->
  same_fire (usage_state acmi) ps
  /\ forall p, In p (PyDict.keys (usage_state acmi)) ->
       outcome h (filter is_plane (removed_objects acmi)) (usage_state acmi) p
       = Some (stats_of ps p).
Proof.
  rewrite analyze_combat_data_unfold. unfold calculate_kill_estimates_with.
  intros Hrun.
  pose proof (estimate_all_outcome h
                (filter is_plane (removed_objects acmi)) (usage_state acmi)
                (PyDict.keys (usage_state acmi)) (usage_state acmi)
                (usage_state_wf acmi) (usage_fired_nonneg acmi)
                (usage_state_wf acmi) (fun p H => H)
                (same_fire_refl _) (fun p _ => eq_refl)) as H.
  rewrite Hrun in H. destruct H as (Hsf & _ & Hout). split; assumption.
Qed.

End Pipeline.

Section Final.
Import Acmi ImprovedCombatAnalyzer Spec.

(** The final state of a pilot, from the state before the estimation. *)
Lemma final_stats h acmi ps p :
  analyze_combat_data_with h acmi = Some ps ->
  In p (PyDict.keys ps) ->
  let s2 := stats_of (usage_state acmi) p in
  let losses := enemy_losses acmi (coalition s2) in
  PyDict.keys ps = PyDict.keys (usage_state acmi)
  /\ missiles_fired (stats_of ps p) = missiles_fired s2
  /\ coalition (stats_of ps p) = coalition s2
  /\ coalition_total ps (coalition s2) = coalition_total (usage_state acmi) (coalition s2)
  /\ (if (missiles_fired s2 =? 0) || (losses =? 0)
      then stats_of ps p = s2
      else exists kills,
          estimated_kills h (missiles_fired s2)
            (coalition_total (usage_state acmi) (coalition s2)) losses = Some kills
          /\ stats_of ps p = with_kills s2 kills h).
Proof.
  intros Hrun Hin s2 losses.
  destruct (analyze_result h acmi ps Hrun) as [Hsf Hout].
  destruct (same_fire_fields _ _ p Hsf) as [Hm Hc].
  assert (Hk : PyDict.keys ps = PyDict.keys (usage_state acmi)) by apply Hsf.
  split; [exact Hk|]. split; [exact Hm|]. split; [exact Hc|].
  split; [now apply coalition_total_same_fire|].
  rewrite Hk in Hin. specialize (Hout p Hin). unfold outcome in Hout.
  fold s2 in Hout.
  change (losses_in (filter is_plane (removed_objects acmi)) (enemy_of (coalition s2)))
    with losses in Hout.
  destruct ((missiles_fired s2 =? 0) || (losses =? 0)).
  - now injection Hout as <-.
  - destruct (estimated_kills _ _ _ _) as [k|]; [|discriminate].
    injection Hout as <-. eauto.
Qed.

Lemma final_fired_bounds acmi ps p :
  sized acmi -> analyze_combat_data acmi = Some ps ->
  In p (PyDict.keys ps) -> 0 < missiles_fired (stats_of ps p) ->
  let s := stats_of ps p in
  missiles_fired s <= coalition_total ps (coalition s)
  /\ coalition_total ps (coalition s) <= PyFloat.max_size
  /\ 0 <= enemy_losses acmi (coalition s) <= PyFloat.max_size.
Proof.
  intros Hsz Hrun Hin Hpos. cbv zeta.
  pose proof (final_stats _ acmi ps p Hrun Hin) as H. cbv zeta in H.
  destruct H as (Hk & Hm & Hc & Ht & _).
  rewrite Hc, Ht, Hm. rewrite Hk in Hin. rewrite Hm in Hpos.
  destruct (coalition_total_bounds acmi p Hin Hpos) as [H1 H2].
  destruct (usage_total_bound acmi) as [_ H3].
  destruct (enemy_losses_bound acmi (coalition (stats_of (usage_state acmi) p)))
    as [H4 H5].
  unfold sized in Hsz. lia.
Qed.

(** A pilot that fired: the two bounds are defined and the estimate is
    their minimum (which is 0 when the enemy lost nothing). *)
Lemma final_kills acmi ps p :
  sized acmi -> analyze_combat_data acmi = Some ps ->
  In p (PyDict.keys ps) -> 0 < missiles_fired (stats_of ps p) ->
  let s := stats_of ps p in
  let losses := enemy_losses acmi (coalition s) in
  exists share bound_a bound_b,
    PyFloat.int_truediv (missiles_fired s) (coalition_total ps (coalition s))
    = Some share
    /\ floor_mul (missiles_fired s) PyFloat.lit_0_3 = Some bound_a
    /\ floor_mul losses share = Some bound_b
    /\ 0 <= bound_a <= missiles_fired s
    /\ 0 <= bound_b
    /\ air_to_air_kills s = Z.min bound_a bound_b
    /\ (losses = 0 -> bound_b = 0)
    /\ estimated_hit_rate s
       = (if losses =? 0 then PyFloat.zero else PyFloat.lit_0_3).
Proof.
  intros Hsz Hrun Hin Hpos. cbv zeta.
  pose proof (final_fired_bounds acmi ps p Hsz Hrun Hin Hpos) as Hb. cbv zeta in Hb.
  destruct Hb as (H1 & H2 & H3 & H4).
  pose proof (final_stats _ acmi ps p Hrun Hin) as Hf. cbv zeta in Hf.
  destruct Hf as (_ & Hm & Hc & Ht & Hfin).
  rewrite <- Hm, <- Hc in Hfin. rewrite <- Hc in Ht. rewrite <- Ht in Hfin.
  set (s := stats_of ps p) in *.
  set (losses := enemy_losses acmi (coalition s)) in *.
  destruct (estimated_kills_defined (missiles_fired s)
              (coalition_total ps (coalition s)) losses
              Hpos H1 H2 H3 H4)
    as (share & a & b & Hshare & Hbs & Ha & Hb & Hale & Hb0 & Hk).
  exists share, a, b. split; [exact Hshare|]. split; [exact Ha|]. split; [exact Hb|].
  split; [exact Hale|]. split; [exact Hb0|].
  assert (E0 : (missiles_fired s =? 0) = false) by (apply Z.eqb_neq; lia).
  rewrite E0 in Hfin. cbn [orb] in Hfin.
  destruct (usage_kills_zero acmi p) as [Hz Hr].
  destruct (Z.eqb_spec losses 0) as [HL|HL].
  - rewrite Hfin, Hz, Hr.
    rewrite HL, (floor_mul_zero share Hbs) in Hb. injection Hb as <-.
    split; [lia|]. split; reflexivity.
  - destruct Hfin as (k & Hk' & Hfin). rewrite Hk in Hk'. injection Hk' as <-.
    rewrite Hfin. simpl. split; [reflexivity|]. split; [contradiction | reflexivity].
Qed.

(** A pilot that did not fire keeps what [analyze_pilots] gave it. *)
Lemma final_idle h acmi ps p :
  analyze_combat_data_with h acmi = Some ps ->
  In p (PyDict.keys ps) -> missiles_fired (stats_of ps p) = 0 ->
  stats_of ps p = stats_of (usage_state acmi) p
  /\ air_to_air_kills (stats_of ps p) = 0
  /\ estimated_hit_rate (stats_of ps p) = PyFloat.zero.
Proof.
  intros Hrun Hin Hzero.
  pose proof (final_stats _ acmi ps p Hrun Hin) as Hf. cbv zeta in Hf.
  destruct Hf as (_ & Hm & _ & _ & Hfin).
  rewrite <- Hm, Hzero in Hfin. cbn [Z.eqb orb] in Hfin.
  destruct (usage_kills_zero acmi p) as [Hz Hr].
  rewrite Hfin. auto.
Qed.

End Final.

Section Basic.
Import Acmi CombatAnalyzer Spec BasicSpec.

Lemma basic_stats_of_missing ps p :
  ~ In p (PyDict.keys ps) -> stats_of ps p = default_stats.
Proof.
  intros H. unfold stats_of, PyDict.get_default.
  destruct (PyDict.get ps p) eqn:E; [|reflexivity].
  apply get_some_in_keys in E. contradiction.
Qed.

Lemma basic_stats_of_set_same ps p s : stats_of (PyDict.set ps p s) p = s.
Proof. apply get_default_set_same. Qed.

Lemma basic_stats_of_set_other ps p q s :
  p <> q -> stats_of (PyDict.set ps p s) q = stats_of ps q.
Proof. apply get_default_set_other. Qed.

(** The state of one pilot after a turn of [analyze_aircraft]. *)
Lemma analyze_plane_stats acmi ps a p :
  deaths (stats_of (analyze_plane acmi ps a) p)
  = deaths (stats_of ps p) + (if counted_lost acmi p a then 1 else 0)
  /\ missiles_fired (stats_of (analyze_plane acmi ps a) p)
     = missiles_fired (stats_of ps p)
  /\ air_to_air_kills (stats_of (analyze_plane acmi ps a) p)
     = air_to_air_kills (stats_of ps p).
Proof.
  unfold analyze_plane, counted_lost.
  destruct (PyStr.truthy (pilot a)) as [q|]; [|repeat split; lia].
  set (ps1 := if PyDict.mem ps q then ps else PyDict.set ps q (new_stats q a)).
  assert (H1 : deaths (stats_of ps1 p) = deaths (stats_of ps p)
               /\ missiles_fired (stats_of ps1 p) = missiles_fired (stats_of ps p)
               /\ air_to_air_kills (stats_of ps1 p) = air_to_air_kills (stats_of ps p)).
  { unfold ps1. destruct (PyDict.mem ps q) eqn:Em; [repeat split|].
    destruct (string_dec q p) as [<-|Hne].
    - rewrite basic_stats_of_set_same, basic_stats_of_missing; [repeat split|].
      intros Hin. apply mem_true_iff in Hin. congruence.
    - rewrite basic_stats_of_set_other by exact Hne. repeat split. }
  destruct H1 as (Hd & Hm & Hk).
  destruct (obj_in a (removed_objects acmi)).
  - destruct (string_dec q p) as [<-|Hne].
    + rewrite basic_stats_of_set_same, String.eqb_refl. simpl. repeat split; lia.
    + rewrite basic_stats_of_set_other by exact Hne.
      apply String.eqb_neq in Hne. rewrite Hne. simpl. repeat split; lia.
  - rewrite andb_false_r. repeat split; lia.
Qed.

Lemma analyze_aircraft_stats acmi l : forall ps p,
  deaths (stats_of (analyze_aircraft acmi ps l) p)
  = deaths (stats_of ps p)
    + Z.of_nat (List.length (filter (counted_lost acmi p) l))
  /\ missiles_fired (stats_of (analyze_aircraft acmi ps l) p)
     = missiles_fired (stats_of ps p)
  /\ air_to_air_kills (stats_of (analyze_aircraft acmi ps l) p)
     = air_to_air_kills (stats_of ps p).
Proof.
  unfold analyze_aircraft.
  induction l as [|a l IH]; intros ps p; cbn [fold_left filter].
  - simpl. repeat split; lia.
  - destruct (IH (analyze_plane acmi ps a) p) as (Hd & Hm & Hk).
    destruct (analyze_plane_stats acmi ps a p) as (Hd' & Hm' & Hk').
    rewrite Hd, Hm, Hk, Hd', Hm', Hk'.
    destruct (counted_lost acmi p a); cbn [List.length]; repeat split; lia.
Qed.

Lemma analyze_aircraft_lost acmi p :
  partitioned acmi -> p <> "" ->
  deaths (stats_of (analyze_aircraft acmi [] (aircraft_of acmi)) p)
  = lost_aircraft acmi p.
Proof.
  intros Hpart0 Hp. pose proof (partitioned_spec acmi Hpart0) as Hpart.
  destruct (analyze_aircraft_stats acmi (aircraft_of acmi) [] p) as (-> & _ & _).
  unfold aircraft_of, all_objects. rewrite !filter_app, length_app.
  rewrite (filter_none (counted_lost acmi p) (filter is_plane (alive_objects acmi))).
  2:{ intros a Ha. apply filter_In in Ha as [Ha _]. unfold counted_lost.
      destruct (PyStr.truthy (pilot a)); [|reflexivity].
      rewrite (obj_in_false a (removed_objects acmi)); [apply andb_false_r|].
      intros r Hr Heq. exact (Hpart a r Ha Hr (eq_sym Heq)). }
  simpl. unfold lost_aircraft. f_equal. f_equal.
  rewrite filter_filter. apply filter_ext_in. intros r Hr.
  destruct (is_plane r); cbn [andb]; [|reflexivity].
  unfold counted_lost, pilot_is. rewrite (obj_in_self r _ Hr).
  unfold PyStr.truthy. destruct (pilot r) as [q|]; [|reflexivity].
  destruct (String.eqb q "") eqn:Eq.
  - apply String.eqb_eq in Eq. subst q.
    symmetry. apply String.eqb_neq. congruence.
  - apply andb_true_r.
Qed.

Lemma analyze_missile_stats acmi ps m p :
  deaths (stats_of (analyze_missile acmi ps m) p) = deaths (stats_of ps p)
  /\ missiles_fired (stats_of ps p)
     <= missiles_fired (stats_of (analyze_missile acmi ps m) p)
  /\ air_to_air_kills (stats_of (analyze_missile acmi ps m) p)
     = air_to_air_kills (stats_of ps p).
Proof.
  unfold analyze_missile.
  destruct (PyStr.any_in _ _); [|repeat split; lia].
  destruct (PyStr.truthy (json_Parent m)) as [parent_id|]; [|repeat split; lia].
  destruct (PyStr.truthy (find_pilot_by_object_id acmi parent_id)) as [q|];
    [|repeat split; lia].
  destruct (string_dec q p) as [<-|Hne].
  - rewrite basic_stats_of_set_same. simpl. repeat split; lia.
  - rewrite basic_stats_of_set_other by exact Hne. repeat split; lia.
Qed.

Lemma analyze_missiles_stats acmi l : forall ps p,
  deaths (stats_of (analyze_missiles acmi ps l) p) = deaths (stats_of ps p)
  /\ missiles_fired (stats_of ps p)
     <= missiles_fired (stats_of (analyze_missiles acmi ps l) p)
  /\ air_to_air_kills (stats_of (analyze_missiles acmi ps l) p)
     = air_to_air_kills (stats_of ps p).
Proof.
  unfold analyze_missiles.
  induction l as [|m l IH]; intros ps p; cbn [fold_left].
  - repeat split; lia.
  - destruct (IH (analyze_missile acmi ps m) p) as (Hd & Hm & Hk).
    destruct (analyze_missile_stats acmi ps m p) as (Hd' & Hm' & Hk').
    rewrite Hd, Hk, Hd', Hk'. repeat split; lia.
Qed.

Lemma analyze_plane_keys acmi ps a :
  (forall p, In p (PyDict.keys ps) -> p <> "") ->
  forall p, In p (PyDict.keys (analyze_plane acmi ps a)) -> p <> "".
Proof.
  intros Hk p. unfold analyze_plane.
  destruct (PyStr.truthy (pilot a)) as [q|] eqn:Et; [|apply Hk].
  apply truthy_some in Et as [_ Hq].
  assert (H1 : forall p, In p (PyDict.keys
                                 (if PyDict.mem ps q then ps
                                  else PyDict.set ps q (new_stats q a))) ->
                         p <> "").
  { intros p'. destruct (PyDict.mem ps q); [apply Hk|].
    rewrite in_keys_set. intros [->|H]; auto. }
  destruct (obj_in a (removed_objects acmi)); [|apply H1].
  rewrite in_keys_set. intros [->|H]; auto.
Qed.

Lemma analyze_missile_keys acmi ps m :
  (forall p, In p (PyDict.keys ps) -> p <> "") ->
  forall p, In p (PyDict.keys (analyze_missile acmi ps m)) -> p <> "".
Proof.
  intros Hk p. unfold analyze_missile.
  destruct (PyStr.any_in _ _); [|apply Hk].
  destruct (PyStr.truthy (json_Parent m)) as [parent_id|]; [|apply Hk].
  destruct (PyStr.truthy (find_pilot_by_object_id acmi parent_id)) as [q|] eqn:Et;
    [|apply Hk].
  apply truthy_some in Et as [_ Hq].
  rewrite in_keys_set. intros [->|H]; auto.
Qed.

(** One turn of [calculate_kill_statistics]. *)
Lemma basic_estimate_kills removed_aircraft ps p :
  In p (PyDict.keys ps) -> kills_bounded ps ->
  exists ps',
    estimate_kills removed_aircraft ps p = Some ps'
    /\ PyDict.keys ps' = PyDict.keys ps
    /\ kills_bounded ps'
    /\ forall q, deaths (stats_of ps' q) = deaths (stats_of ps q).
Proof.
  intros Hin Hb. unfold estimate_kills.
  set (s := stats_of ps p).
  destruct (missiles_fired s >? 0) eqn:Em; [|exists ps; auto].
  cbn [andb]. rewrite andb_true_r.
  destruct (losses_of removed_aircraft (enemy_of (coalition s)) >? 0) eqn:El;
    [|exists ps; auto].
  assert (Hk : shooters_in ps (coalition s) <> 0).
  { unfold shooters_in.
    assert (Hs : In s (filter (fun s' => String.eqb (coalition s') (coalition s)
                                         && (missiles_fired s' >? 0))
                              (PyDict.values ps))).
    { apply filter_In. split.
      - unfold s, stats_of, PyDict.get_default.
        apply in_keys_get in Hin as [v Hv]. rewrite Hv.
        apply get_in in Hv. unfold PyDict.values.
        change v with (snd (p, v)). now apply in_map.
      - now rewrite String.eqb_refl, Em. }
    destruct (filter _ (PyDict.values ps)); [destruct Hs | simpl; lia]. }
  apply Z.eqb_neq in Hk. rewrite Hk.
  eexists. split; [reflexivity|]. split; [now apply keys_set_old|].
  apply Z.gtb_lt in Em. split.
  - intros q. destruct (string_dec p q) as [<-|Hne].
    + rewrite basic_stats_of_set_same. simpl. fold s.
      pose proof (Z.div_pos (missiles_fired s) 2 ltac:(lia) ltac:(lia)).
      assert (missiles_fired s / 2 <= missiles_fired s)
        by (apply Z.div_le_upper_bound; lia).
      lia.
    + rewrite basic_stats_of_set_other by exact Hne. apply Hb.
  - intros q. destruct (string_dec p q) as [<-|Hne].
    + now rewrite basic_stats_of_set_same.
    + now rewrite basic_stats_of_set_other.
Qed.

Lemma basic_estimate_all removed_aircraft l : forall ps,
  (forall p, In p l -> In p (PyDict.keys ps)) -> kills_bounded ps ->
  exists ps',
    estimate_all removed_aircraft ps l = Some ps'
    /\ PyDict.keys ps' = PyDict.keys ps
    /\ kills_bounded ps'
    /\ forall q, deaths (stats_of ps' q) = deaths (stats_of ps q).
Proof.
  induction l as [|p l IH]; intros ps Hl Hb; cbn [estimate_all].
  - exists ps. auto.
  - destruct (basic_estimate_kills removed_aircraft ps p (Hl p (or_introl eq_refl)) Hb)
      as (ps1 & -> & Hk1 & Hb1 & Hd1).
    destruct (IH ps1) as (ps' & Hrun & Hk' & Hb' & Hd').
    + intros q Hq. rewrite Hk1. apply Hl. now right.
    + exact Hb1.
    + exists ps'. split; [exact Hrun|]. split; [congruence|]. split; [exact Hb'|].
      intros q. now rewrite Hd', Hd1.
Qed.

(** The first analyzer: it returns, deaths are the removed aircraft of the
    pilot, and the estimate stays within the missiles fired. *)
Lemma basic_run acmi :
  exists ps,
    run_analysis acmi = Some ps
    /\ kills_bounded ps
    /\ (forall p, In p (PyDict.keys ps) -> p <> "")
    /\ (partitioned acmi ->
        forall p, p <> "" -> deaths (stats_of ps p) = lost_aircraft acmi p).
Proof.
  unfold run_analysis, calculate_kill_statistics.
  set (ps1 := analyze_aircraft acmi [] (aircraft_of acmi)).
  set (ps2 := analyze_missiles acmi ps1 (missiles_of acmi)).
  assert (Hb2 : kills_bounded ps2).
  { intros q.
    destruct (analyze_aircraft_stats acmi (aircraft_of acmi) [] q) as (_ & Hm1 & Hk1).
    destruct (analyze_missiles_stats acmi (missiles_of acmi) ps1 q) as (_ & Hm2 & Hk2).
    fold ps1 in Hm1, Hk1. fold ps2 in Hm2, Hk2.
    rewrite Hk2, Hk1. simpl in *. lia. }
  assert (Hkeys2 : forall p, In p (PyDict.keys ps2) -> p <> "").
  { unfold ps2, analyze_missiles.
    apply (fold_left_inv _ _ (analyze_missile acmi)
             (fun ps => forall p, In p (PyDict.keys ps) -> p <> "")).
    - intros ps m H. now apply analyze_missile_keys.
    - unfold ps1, analyze_aircraft.
      apply (fold_left_inv _ _ (analyze_plane acmi)
               (fun ps => forall p, In p (PyDict.keys ps) -> p <> "")).
      + intros ps a H. now apply analyze_plane_keys.
      + intros p []. }
  destruct (basic_estimate_all (filter is_plane (removed_objects acmi))
              (PyDict.keys ps2) ps2 (fun p H => H) Hb2)
    as (ps & Hrun & Hk & Hb & Hd).
  exists ps. split; [exact Hrun|]. split; [exact Hb|]. split.
  - intros p Hp. apply Hkeys2. now rewrite <- Hk.
  - intros Hpart p Hp. rewrite Hd.
    destruct (analyze_missiles_stats acmi (missiles_of acmi) ps1 p) as (Hd2 & _ & _).
    fold ps2 in Hd2. rewrite Hd2. now apply analyze_aircraft_lost.
Qed.

End Basic.

Section MoreFacts.
Import Acmi ImprovedCombatAnalyzer Spec.

Lemma eligible_ext ps ps' c t :
  PyDict.keys ps' = PyDict.keys ps ->
  (forall p, aircraft_type (stats_of ps' p) = aircraft_type (stats_of ps p)
             /\ coalition (stats_of ps' p) = coalition (stats_of ps p)) ->
  eligible ps' c t = eligible ps c t.
Proof.
  intros Hk Hp. unfold eligible. rewrite Hk. apply filter_ext. intros p.
  cbv zeta. now destruct (Hp p) as [-> ->].
Qed.

(** The final state has the keys and the identity fields of the state
    after [analyze_pilots]. *)
Lemma final_profiles h acmi ps :
  analyze_combat_data_with h acmi = Some ps ->
  PyDict.keys ps = PyDict.keys (pilots_state acmi)
  /\ forall p,
      aircraft_type (stats_of ps p) = aircraft_type (stats_of (pilots_state acmi) p)
      /\ coalition (stats_of ps p) = coalition (stats_of (pilots_state acmi) p)
      /\ deaths (stats_of ps p) = deaths (stats_of (pilots_state acmi) p)
      /\ missiles_fired (stats_of ps p) = missiles_fired (stats_of (usage_state acmi) p)
      /\ missile_types_used (stats_of ps p)
         = missile_types_used (stats_of (usage_state acmi) p).
Proof.
  intros Hrun. destruct (analyze_result h acmi ps Hrun) as [[Hk Hp] _].
  destruct (usage_same_profiles acmi) as [Hk' Hp'].
  split; [congruence|]. intros p. specialize (Hp p). specialize (Hp' p).
  repeat split.
  - apply (f_equal aircraft_type) in Hp, Hp'. simpl in *. congruence.
  - apply (f_equal coalition) in Hp, Hp'. simpl in *. congruence.
  - apply (f_equal deaths) in Hp, Hp'. simpl in *. congruence.
  - apply (f_equal missiles_fired) in Hp. exact Hp.
  - apply (f_equal missile_types_used) in Hp. exact Hp.
Qed.

Lemma final_eligible h acmi ps c t :
  analyze_combat_data_with h acmi = Some ps ->
  eligible ps c t = eligible (pilots_state acmi) c t.
Proof.
  intros Hrun. destruct (final_profiles h acmi ps Hrun) as [Hk Hp].
  apply eligible_ext; [exact Hk|]. intros p.
  destruct (Hp p) as (H1 & H2 & _). auto.
Qed.

Lemma final_total h acmi ps :
  analyze_combat_data_with h acmi = Some ps ->
  total_fired ps = total_fired (usage_state acmi).
Proof.
  intros Hrun. destruct (final_profiles h acmi ps Hrun) as [Hk Hp].
  destruct (usage_same_profiles acmi) as [Hk' _].
  assert (Hnd : NoDup (PyDict.keys ps)).
  { rewrite Hk. apply pilots_state_facts. }
  rewrite (total_fired_keys ps Hnd), (total_fired_keys _ (usage_state_wf acmi)).
  rewrite Hk, Hk'. f_equal. apply map_ext. intros p.
  now destruct (Hp p) as (_ & _ & _ & -> & _).
Qed.

(** The kill estimation leaves a pilot that did not fire as it was. *)
Lemma estimate_kills_idle h losses ps p ps' q :
  estimate_kills h losses ps p = Some ps' ->
  missiles_fired (stats_of ps q) = 0 ->
  stats_of ps' q = stats_of ps q.
Proof.
  unfold estimate_kills. intros Hrun Hq.
  destruct (string_dec p q) as [->|Hne].
  - rewrite Hq in Hrun. cbn [Z.eqb] in Hrun. now injection Hrun as <-.
  - destruct (missiles_fired (stats_of ps p) =? 0); [now injection Hrun as <-|].
    destruct (_ =? 0); [now injection Hrun as <-|].
    destruct (shooters_of ps _); [now injection Hrun as <-|].
    destruct (estimated_kills _ _ _ _); [|discriminate].
    injection Hrun as <-. now apply stats_of_set_other.
Qed.

Lemma estimate_all_idle h losses l : forall ps ps' q,
  estimate_all h losses ps l = Some ps' ->
  missiles_fired (stats_of ps q) = 0 ->
  stats_of ps' q = stats_of ps q.
Proof.
  induction l as [|p l IH]; intros ps ps' q Hrun Hq; cbn [estimate_all] in Hrun.
  - now injection Hrun as <-.
  - destruct (estimate_kills h losses ps p) as [ps1|] eqn:E; [|discriminate].
    pose proof (estimate_kills_idle h losses ps p ps1 q E Hq) as H1.
    rewrite (IH ps1 ps' q Hrun) by (now rewrite H1). exact H1.
Qed.

Lemma distribute_aircraft_type l : forall ps i t per r p,
  aircraft_type (stats_of (distribute ps i l t per r) p)
  = aircraft_type (stats_of ps p).
Proof.
  induction l as [|q l IH]; intros ps i t per r p; simpl; [reflexivity|].
  rewrite IH. destruct (string_dec q p) as [->|Hne].
  - now rewrite stats_of_credit_same.
  - now rewrite stats_of_credit_other.
Qed.

(** No step changes the aircraft type of a pilot. *)
Lemma usage_aircraft_type ps air_to_air p :
  aircraft_type (stats_of (estimate_missile_usage ps air_to_air) p)
  = aircraft_type (stats_of ps p).
Proof.
  unfold estimate_missile_usage.
  apply (fold_left_inv _ _ (distribute_coalition (fighters_by_coalition ps))
           (fun st => aircraft_type (stats_of st p)
                      = aircraft_type (stats_of ps p))); [|reflexivity].
  intros st [c ms] Hst. unfold distribute_coalition.
  destruct (PyDict.get_default [] (fighters_by_coalition ps) c)
    as [|p0 pilots]; [exact Hst|].
  apply (fold_left_inv _ _ (distribute_type (p0 :: pilots))
           (fun st => aircraft_type (stats_of st p)
                      = aircraft_type (stats_of ps p))); [|exact Hst].
  intros st' [t n] Hst'. unfold distribute_type.
  destruct (capable_pilots_of st' (p0 :: pilots) t) as [|c0 cs]; [exact Hst'|].
  now rewrite distribute_aircraft_type.
Qed.

Lemma estimate_all_aircraft_type h losses l : forall ps ps' p,
  estimate_all h losses ps l = Some ps' ->
  aircraft_type (stats_of ps' p) = aircraft_type (stats_of ps p).
Proof.
  induction l as [|q l IH]; intros ps ps' p Hrun; cbn [estimate_all] in Hrun.
  - now injection Hrun as <-.
  - destruct (estimate_kills h losses ps q) as [ps1|] eqn:E1; [|discriminate].
    rewrite (IH ps1 ps' p Hrun). unfold estimate_kills in E1.
    destruct (_ =? 0); [now injection E1 as <-|].
    destruct (_ =? 0); [now injection E1 as <-|].
    destruct (shooters_of ps _); [now injection E1 as <-|].
    destruct (estimated_kills _ _ _ _); [|discriminate].
    injection E1 as <-. destruct (string_dec q p) as [->|Hne].
    + now rewrite stats_of_set_same.
    + now rewrite stats_of_set_other.
Qed.

End MoreFacts.

Section Claims.
Import Acmi ImprovedCombatAnalyzer Examples Spec.

(** The scenario of the specification under the coalition names Blue and
    Red: A fired 6 of Blue's 10 missiles and Red, the only other
    coalition, lost 2 aircraft, so that both bounds of the formula are 1.
    The analysis credits A with no kill: for a pilot of Blue it counts
    the losses of a coalition named "Enemies", and there is none. *)
Lemma kill_estimate_enemy_counterexample :
  exists ps share,
    analyze_combat_data blue_red = Some ps
    /\ coalition (stats_of ps "A") = "Blue"
    /\ missiles_fired (stats_of ps "A") = 6
    /\ coalition_total ps "Blue" = 10
    /\ other_side_losses blue_red "Blue" = 2
    /\ losses_in (filter is_plane (removed_objects blue_red)) "Red" = 2
    /\ PyFloat.int_truediv 6 10 = Some share
    /\ floor_mul 6 PyFloat.lit_0_3 = Some 1
    /\ floor_mul 2 share = Some 1
    /\ air_to_air_kills (stats_of ps "A") = 0
    /\ air_to_air_kills (stats_of ps "A") <> Z.max 0 (Z.min 1 1)
    /\ enemy_losses blue_red "Blue" = 0.
Proof.
  eexists. eexists. split; [vm_compute; reflexivity|].
  repeat split; try (vm_compute; reflexivity). discriminate.
Qed.

(** C2 (amended).  Kill estimate.  On a recording that fits a Python
    list the analysis returns, and for every pilot that fired, with
    [share] the float quotient of the pilot's missiles by the missiles of
    the coalition's shooters and [losses] the removed aircraft of the
    coalition named "Allies" when the pilot's coalition is "Enemies" and
    of the coalition named "Enemies" otherwise, [air_to_air_kills] is
    [max 0 (min (floor (fired * 0.3)) (floor (losses * share)))], in
    binary64 arithmetic; it is 0 when that coalition lost nothing. *)
Theorem kill_estimate_formula :
  forall acmi : Recording,
    sized acmi ->
    exists ps,
      analyze_combat_data acmi = Some ps
      /\ forall p,
          In p (PyDict.keys ps) -> 0 < missiles_fired (stats_of ps p) ->
          let s := stats_of ps p in
          let losses := enemy_losses acmi (coalition s) in
          exists share bound_a bound_b,
            PyFloat.int_truediv (missiles_fired s)
                                (coalition_total ps (coalition s)) = Some share
            /\ floor_mul (missiles_fired s) PyFloat.lit_0_3 = Some bound_a
            /\ floor_mul losses share = Some bound_b
            /\ air_to_air_kills s = Z.max 0 (Z.min bound_a bound_b)
            /\ (losses = 0 -> air_to_air_kills s = 0).
Proof.
  intros acmi Hsz. destruct (analyze_defined acmi Hsz) as [ps Hrun].
  exists ps. split; [exact Hrun|]. intros p Hin Hpos. cbv zeta.
  pose proof (final_kills acmi ps p Hsz Hrun Hin Hpos) as H. cbv zeta in H.
  destruct H as (share & a & b & Hs & Ha & Hb & Hale & Hb0 & Hk & Hz & _).
  exists share, a, b. repeat split; try assumption.
  - rewrite Hk. lia.
  - intros HL. rewrite Hk, (Hz HL). lia.
Qed.

Lemma kill_estimate_formula_witness :
  sized ten_missiles
  /\ exists ps,
      analyze_combat_data ten_missiles = Some ps
      /\ forall p,
          In p (PyDict.keys ps) -> 0 < missiles_fired (stats_of ps p) ->
          exists share bound_a bound_b,
            PyFloat.int_truediv (missiles_fired (stats_of ps p))
              (coalition_total ps (coalition (stats_of ps p))) = Some share
            /\ floor_mul (missiles_fired (stats_of ps p)) PyFloat.lit_0_3
               = Some bound_a
            /\ floor_mul (enemy_losses ten_missiles (coalition (stats_of ps p))) share
               = Some bound_b
            /\ air_to_air_kills (stats_of ps p) = Z.max 0 (Z.min bound_a bound_b)
            /\ (enemy_losses ten_missiles (coalition (stats_of ps p)) = 0 ->
                air_to_air_kills (stats_of ps p) = 0).
Proof.
  assert (Hsz : sized ten_missiles) by (unfold sized, PyFloat.max_size; simpl; lia).
  split; [exact Hsz | exact (kill_estimate_formula ten_missiles Hsz)].
Defined.

(** C3 (amended).  After attribution every pilot has
    [0 <= air_to_air_kills <= missiles_fired], in both analyzers.  In
    [ImprovedCombatAnalyzer] the estimate is moreover at most
    [floor (losses * share)] whenever the pilot's share of the coalition's
    missiles is defined. *)
Theorem kill_bounds :
  forall acmi : Recording,
    sized acmi ->
    (exists ps,
        analyze_combat_data acmi = Some ps
        /\ forall p,
            In p (PyDict.keys ps) ->
            let s := stats_of ps p in
            0 <= air_to_air_kills s <= missiles_fired s
            /\ forall share,
                PyFloat.int_truediv (missiles_fired s)
                                    (coalition_total ps (coalition s)) = Some share ->
                exists bound,
                  floor_mul (enemy_losses acmi (coalition s)) share = Some bound
                  /\ air_to_air_kills s <= bound)
    /\ (exists ps,
           CombatAnalyzer.run_analysis acmi = Some ps
           /\ forall p,
               In p (PyDict.keys ps) ->
               0 <= CombatAnalyzer.air_to_air_kills (CombatAnalyzer.stats_of ps p)
               <= CombatAnalyzer.missiles_fired (CombatAnalyzer.stats_of ps p)).
Proof.
  intros acmi Hsz. split.
  - destruct (analyze_defined acmi Hsz) as [ps Hrun].
    exists ps. split; [exact Hrun|]. intros p Hin. cbv zeta.
    destruct (final_profiles _ acmi ps Hrun) as [_ Hp].
    destruct (Hp p) as (_ & _ & _ & Hm & _).
    pose proof (usage_fired_nonneg acmi p) as Hnn. rewrite <- Hm in Hnn.
    destruct (Z.eq_dec (missiles_fired (stats_of ps p)) 0) as [Hz|Hnz].
    + destruct (final_idle _ acmi ps p Hrun Hin Hz) as (_ & Hk & _).
      rewrite Hk, Hz. split; [lia|]. intros share Hshare.
      assert (Hb : PyFloat.below share 64).
      { unfold PyFloat.int_truediv in Hshare.
        destruct (coalition_total ps (coalition (stats_of ps p)));
          try discriminate. injection Hshare as <-. reflexivity. }
      destruct (enemy_losses_bound acmi (coalition (stats_of ps p))) as [H1 H2].
      destruct (floor_mul_below _ share H1 ltac:(unfold sized in Hsz; lia) Hb)
        as (x & k & _ & _ & Hfl & Hk0).
      exists k. split; [exact Hfl | exact Hk0].
    + pose proof (final_kills acmi ps p Hsz Hrun Hin ltac:(lia)) as H.
      cbv zeta in H.
      destruct H as (share0 & a & b & Hs & Ha & Hb & Hale & Hb0 & Hk & _).
      rewrite Hk. split; [lia|]. intros share Hshare.
      rewrite Hs in Hshare. injection Hshare as <-.
      exists b. split; [exact Hb | lia].
  - destruct (basic_run acmi) as (ps & Hrun & Hb & _).
    exists ps. split; [exact Hrun|]. intros p _. apply Hb.
Qed.

Lemma kill_bounds_witness :
  sized with_parents
  /\ exists ps,
      CombatAnalyzer.run_analysis with_parents = Some ps
      /\ forall p,
          In p (PyDict.keys ps) ->
          0 <= CombatAnalyzer.air_to_air_kills (CombatAnalyzer.stats_of ps p)
          <= CombatAnalyzer.missiles_fired (CombatAnalyzer.stats_of ps p).
Proof.
  assert (Hsz : sized with_parents) by (unfold sized, PyFloat.max_size; simpl; lia).
  split; [exact Hsz | exact (proj2 (kill_bounds with_parents Hsz))].
Defined.

(** The first analyzer estimates at least one kill for every shooter once
    the enemy lost an aircraft: pilot A fired 2 of the coalition's 6
    missiles, the enemy lost 1 aircraft, A is credited 1 kill although
    [floor (1 * (2 / 6)) = 0]. *)
Lemma kill_bounds_share_counterexample :
  exists ps share,
    CombatAnalyzer.run_analysis with_parents = Some ps
    /\ CombatAnalyzer.missiles_fired (CombatAnalyzer.stats_of ps "A") = 2
    /\ CombatAnalyzer.missiles_fired (CombatAnalyzer.stats_of ps "B") = 4
    /\ CombatAnalyzer.losses_of (filter is_plane (removed_objects with_parents))
         (CombatAnalyzer.enemy_of
            (CombatAnalyzer.coalition (CombatAnalyzer.stats_of ps "A"))) = 1
    /\ PyFloat.int_truediv 2 (2 + 4) = Some share
    /\ floor_mul 1 share = Some 0
    /\ CombatAnalyzer.air_to_air_kills (CombatAnalyzer.stats_of ps "A") = 1.
Proof.
  eexists. eexists. split; [vm_compute; reflexivity|].
  repeat split; vm_compute; reflexivity.
Qed.

(** C5. Deaths.  On a recording whose alive and removed objects are
    distinct, the [deaths] of every pilot is the number of removed
    aircraft with that pilot, whatever the hit rate and whatever missiles
    were recorded, and every pilot named by a removed aircraft has an
    entry that holds this number; both analyzers agree on it. *)
Theorem deaths_ground_truth :
  forall acmi : Recording,
    partitioned acmi ->
    (forall hit_rate ps,
        analyze_combat_data_with hit_rate acmi = Some ps ->
        (forall p,
            In p (PyDict.keys ps) ->
            deaths (stats_of ps p) = lost_aircraft acmi p)
        /\ (forall p,
               p <> "" -> 0 < lost_aircraft acmi p ->
               exists s, PyDict.get ps p = Some s
                         /\ deaths s = lost_aircraft acmi p))
    /\ (sized acmi -> exists ps, analyze_combat_data acmi = Some ps)
    /\ (exists ps,
           CombatAnalyzer.run_analysis acmi = Some ps
           /\ (forall p,
                  In p (PyDict.keys ps) ->
                  CombatAnalyzer.deaths (CombatAnalyzer.stats_of ps p)
                  = lost_aircraft acmi p)
           /\ (forall p,
                  p <> "" -> 0 < lost_aircraft acmi p ->
                  exists s, PyDict.get ps p = Some s
                            /\ CombatAnalyzer.deaths s = lost_aircraft acmi p)).
Proof.
  intros acmi Hpart. split; [|split].
  - intros h ps Hrun.
    destruct (final_profiles h acmi ps Hrun) as [Hk Hp].
    assert (Hd : forall p, p <> "" -> deaths (stats_of ps p) = lost_aircraft acmi p).
    { intros p Hne. destruct (Hp p) as (_ & _ & -> & _).
      now apply analyze_pilots_lost. }
    split.
    + intros p Hin. apply Hd.
      destruct (pilots_state_facts acmi) as (_ & Hne & _).
      apply Hne. now rewrite <- Hk.
    + intros p Hne Hpos. specialize (Hd p Hne).
      unfold stats_of, PyDict.get_default in Hd.
      destruct (PyDict.get ps p) as [s|]; [eauto|].
      cbn in Hd. lia.
  - apply analyze_defined.
  - destruct (basic_run acmi) as (ps & Hrun & _ & Hne & Hd).
    exists ps. split; [exact Hrun|]. split.
    + intros p Hin. apply Hd; [exact Hpart | now apply Hne].
    + intros p Hp Hpos. specialize (Hd Hpart p Hp).
      unfold CombatAnalyzer.stats_of, PyDict.get_default in Hd.
      destruct (PyDict.get ps p) as [s|]; [eauto|].
      cbn in Hd. lia.
Qed.

Lemma deaths_ground_truth_witness :
  partitioned two_pilots
  /\ (forall hit_rate ps,
         analyze_combat_data_with hit_rate two_pilots = Some ps ->
         (forall p,
             In p (PyDict.keys ps) ->
             deaths (stats_of ps p) = lost_aircraft two_pilots p)
         /\ (forall p,
                p <> "" -> 0 < lost_aircraft two_pilots p ->
                exists s, PyDict.get ps p = Some s
                          /\ deaths s = lost_aircraft two_pilots p))
  /\ 0 < lost_aircraft two_pilots "A".
Proof.
  assert (Hp : partitioned two_pilots) by reflexivity.
  split; [exact Hp|].
  split; [exact (proj1 (deaths_ground_truth two_pilots Hp)) | reflexivity].
Defined.

(** C10. Pilots without a fighter.  A pilot whose aircraft type matches no
    entry of the fighter list ends the analysis with no missiles, no
    kills and no missile types; the apportionment keeps this and so does
    the kill estimation. *)
Theorem non_fighters_stay_empty :
  (forall acmi : Recording,
      sized acmi ->
      exists ps, analyze_combat_data acmi = Some ps /\ grounded ps)
  /\ (forall ps air_to_air,
         grounded ps -> grounded (estimate_missile_usage ps air_to_air))
  /\ (forall ps removed_aircraft ps',
         grounded ps ->
         calculate_kill_estimates ps removed_aircraft = Some ps' ->
         grounded ps').
Proof.
  assert (Husage : forall ps air_to_air,
             grounded ps -> grounded (estimate_missile_usage ps air_to_air)).
  { intros ps air_to_air Hg p Hnf. rewrite usage_aircraft_type in Hnf.
    rewrite (nonfighter_untouched ps air_to_air p Hnf). now apply Hg. }
  assert (Hkills : forall ps removed_aircraft ps',
             grounded ps ->
             calculate_kill_estimates ps removed_aircraft = Some ps' ->
             grounded ps').
  { intros ps removed_aircraft ps' Hg Hrun p Hnf.
    unfold calculate_kill_estimates, calculate_kill_estimates_with in Hrun.
    rewrite (estimate_all_aircraft_type _ _ _ ps ps' p Hrun) in Hnf.
    destruct (Hg p Hnf) as (H1 & H2 & H3).
    rewrite (estimate_all_idle _ _ _ ps ps' p Hrun H1). auto. }
  split; [|split; [exact Husage | exact Hkills]].
  intros acmi Hsz. destruct (analyze_defined acmi Hsz) as [ps Hrun].
  exists ps. split; [exact Hrun|].
  unfold analyze_combat_data in Hrun. rewrite analyze_combat_data_unfold in Hrun.
  apply (Hkills (usage_state acmi) (filter is_plane (removed_objects acmi)) ps);
    [|exact Hrun].
  apply Husage. intros p _.
  destruct (pilots_state_facts acmi) as (_ & _ & Hf).
  destruct (Hf p) as (H1 & H2 & H3 & _). auto.
Qed.

Lemma non_fighters_stay_empty_witness :
  sized all_attributed
  /\ exists ps, analyze_combat_data all_attributed = Some ps /\ grounded ps.
Proof.
  assert (Hsz : sized all_attributed) by (unfold sized, PyFloat.max_size; simpl; lia).
  split; [exact Hsz | exact (proj1 non_fighters_stay_empty all_attributed Hsz)].
Defined.

End Claims.

Section Claims2.
Import Acmi ImprovedCombatAnalyzer Examples Spec.

(** The recording of pilots A and B: B, seen first, receives 3 of the 5
    missiles and A receives 2, although "A" < "B". *)
Lemma remainder_order_counterexample :
  String.ltb "A" "B" = true
  /\ List.length (air_to_air_of two_pilots) = 5%nat
  /\ eligible (pilots_state two_pilots) "Allies" "AIM-9L" = ["B"; "A"]
  /\ exists ps,
      analyze_combat_data two_pilots = Some ps
      /\ missiles_fired (stats_of ps "A") = 2
      /\ missiles_fired (stats_of ps "B") = 3.
Proof.
  split; [reflexivity|]. split; [reflexivity|]. split; [reflexivity|].
  eexists. split; [vm_compute; reflexivity|]. split; reflexivity.
Qed.

(** The three extra munitions of [some_dropped] change nothing in the
    result of the analysis: no figure computed from it counts them. *)
Lemma dropped_munitions_counterexample :
  dropped_munitions all_attributed = 0
  /\ dropped_munitions some_dropped = 3
  /\ analyze_combat_data some_dropped = analyze_combat_data all_attributed
  /\ option_map summary_of (analyze_combat_data some_dropped)
     = option_map summary_of (analyze_combat_data all_attributed).
Proof. repeat split; vm_compute; reflexivity. Qed.

(** The pilot credited with an AIM-9L has "AIM-9L" on record, not the
    family label "Sidewinder" of the table. *)
Lemma family_label_counterexample :
  PyDict.get air_to_air_missiles "AIM-9L" = Some "Sidewinder"
  /\ exists ps,
      analyze_combat_data lone_shooter = Some ps
      /\ missiles_fired (stats_of ps "A") = 1
      /\ missile_types_used (stats_of ps "A") = ["AIM-9L"]
      /\ ~ In "Sidewinder" (missile_types_used (stats_of ps "A")).
Proof.
  split; [reflexivity|]. eexists. split; [vm_compute; reflexivity|].
  split; [reflexivity|]. split; [reflexivity|].
  simpl. intros [H|[]]. discriminate H.
Qed.

(** The pilot fired a missile, the enemy lost nothing: the recorded hit
    rate is 0.0, not 0.3. *)
Lemma hit_rate_counterexample :
  exists ps,
    analyze_combat_data lone_shooter = Some ps
    /\ 0 < missiles_fired (stats_of ps "A")
    /\ estimated_hit_rate (stats_of ps "A") = PyFloat.zero
    /\ estimated_hit_rate (stats_of ps "A") <> PyFloat.lit_0_3.
Proof.
  eexists. split; [vm_compute; reflexivity|].
  split; [reflexivity|]. split; [reflexivity|]. discriminate.
Qed.

(** C8 (amended).  After the analysis [estimated_hit_rate] is 0.3 for
    every pilot that fired and whose enemy lost an aircraft, and 0.0
    (never 0.3) for every other pilot.  The enemy of a pilot is the
    coalition named "Allies" when the pilot's coalition is "Enemies",
    and the coalition named "Enemies" otherwise. *)
Theorem hit_rate_recorded :
  forall acmi : Recording,
    sized acmi ->
    exists ps,
      analyze_combat_data acmi = Some ps
      /\ forall p,
          In p (PyDict.keys ps) ->
          let s := stats_of ps p in
          estimated_hit_rate s
          = if (0 <? missiles_fired s) && (0 <? enemy_losses acmi (coalition s))
            then PyFloat.lit_0_3 else PyFloat.zero.
Proof.
  intros acmi Hsz. destruct (analyze_defined acmi Hsz) as [ps Hrun].
  exists ps. split; [exact Hrun|]. intros p Hin. cbv zeta.
  destruct (final_profiles _ acmi ps Hrun) as [_ Hp].
  destruct (Hp p) as (_ & _ & _ & Hm & _).
  pose proof (usage_fired_nonneg acmi p) as Hnn. rewrite <- Hm in Hnn.
  destruct (Z.eq_dec (missiles_fired (stats_of ps p)) 0) as [Hz|Hnz].
  - destruct (final_idle _ acmi ps p Hrun Hin Hz) as (_ & _ & ->).
    rewrite Hz. reflexivity.
  - pose proof (final_kills acmi ps p Hsz Hrun Hin ltac:(lia)) as H.
    cbv zeta in H. destruct H as (_ & _ & _ & _ & _ & _ & _ & _ & _ & _ & ->).
    destruct (enemy_losses_bound acmi (coalition (stats_of ps p))) as [H1 _].
    assert (E : (0 <? missiles_fired (stats_of ps p)) = true)
      by (apply Z.ltb_lt; lia).
    rewrite E. cbn [andb].
    destruct (Z.eqb_spec (enemy_losses acmi (coalition (stats_of ps p))) 0) as [->|Hne].
    + reflexivity.
    + assert (E' : (0 <? enemy_losses acmi (coalition (stats_of ps p))) = true)
        by (apply Z.ltb_lt; lia).
      now rewrite E'.
Qed.

Lemma hit_rate_recorded_witness :
  sized ten_missiles
  /\ exists ps,
      analyze_combat_data ten_missiles = Some ps
      /\ forall p,
          In p (PyDict.keys ps) ->
          estimated_hit_rate (stats_of ps p)
          = if (0 <? missiles_fired (stats_of ps p))
               && (0 <? enemy_losses ten_missiles (coalition (stats_of ps p)))
            then PyFloat.lit_0_3 else PyFloat.zero.
Proof.
  assert (Hsz : sized ten_missiles)
    by (unfold sized, PyFloat.max_size; simpl; lia).
  split; [exact Hsz | exact (hit_rate_recorded ten_missiles Hsz)].
Defined.

(** C9. Only removed munitions take part.  An object that is not an
    aircraft and is still alive at the end of the recording changes
    nothing in the result: no pilot's [missiles_fired] and no total
    computed from the result depends on it. *)
Theorem alive_munitions_ignored :
  forall (before after removed : list AcmiObject) (m : AcmiObject),
    is_plane m = false ->
    analyze_combat_data
      {| alive_objects := before ++ m :: after; removed_objects := removed |}
    = analyze_combat_data
        {| alive_objects := before ++ after; removed_objects := removed |}.
Proof.
  intros before after removed m Hm.
  unfold analyze_combat_data, analyze_combat_data_with. cbn [alive_objects removed_objects].
  rewrite !filter_app. cbn [filter]. rewrite Hm. reflexivity.
Qed.

Lemma alive_munitions_ignored_witness :
  analyze_combat_data
    {| alive_objects :=
         [aircraft 1 "101" "A" "Allies" "F-16C"]
           ++ missile 9 None "Allies" "AIM-9L" :: [];
       removed_objects := removed_objects lone_shooter |}
  = analyze_combat_data
      {| alive_objects := [aircraft 1 "101" "A" "Allies" "F-16C"] ++ [];
         removed_objects := removed_objects lone_shooter |}.
Proof.
  apply (alive_munitions_ignored [aircraft 1 "101" "A" "Allies" "F-16C"] []
           (removed_objects lone_shooter) (missile 9 None "Allies" "AIM-9L")).
  reflexivity.
Defined.

End Claims2.

(** ** The pilot entries *)

Section PilotEntries.
Import Acmi ImprovedCombatAnalyzer Examples Spec PilotSpec.

Lemma mem_false_not_in x xs : PyStr.mem x xs = false -> ~ In x xs.
Proof.
  unfold PyStr.mem. intros H Hin.
  assert (E : existsb (String.eqb x) xs = true).
  { apply existsb_exists. exists x. split; [exact Hin | apply String.eqb_refl]. }
  congruence.
Qed.

Lemma mem_in_true x xs : In x xs -> PyStr.mem x xs = true.
Proof.
  intros Hin. unfold PyStr.mem. apply existsb_exists.
  exists x. split; [exact Hin | apply String.eqb_refl].
Qed.

(** The keys after one aircraft. *)
Lemma analyze_pilot_keys_step alive_aircraft alive_pilots ps a :
  PyDict.keys (analyze_pilot alive_aircraft alive_pilots ps a)
  = match PyStr.truthy (pilot a) with
    | Some p => if PyStr.mem p (PyDict.keys ps) then PyDict.keys ps
                else PyDict.keys ps ++ [p]
    | None => PyDict.keys ps
    end.
Proof.
  unfold analyze_pilot. destruct (PyStr.truthy (pilot a)) as [p|]; [|reflexivity].
  set (ps1 := if PyDict.mem ps p then ps
              else PyDict.set ps p (new_stats p a alive_pilots)).
  assert (H1 : PyDict.keys ps1
               = if PyStr.mem p (PyDict.keys ps) then PyDict.keys ps
                 else PyDict.keys ps ++ [p]).
  { unfold ps1. destruct (PyDict.mem ps p) eqn:Em.
    - apply mem_true_iff in Em. now rewrite (mem_in_true _ _ Em).
    - assert (Hn : ~ In p (PyDict.keys ps)).
      { intros Hin. apply mem_true_iff in Hin. congruence. }
      rewrite keys_set_new by exact Hn.
      destruct (PyStr.mem p (PyDict.keys ps)) eqn:E; [|reflexivity].
      apply mem_true_in in E. contradiction. }
  assert (Hin1 : In p (PyDict.keys ps1)).
  { rewrite H1. destruct (PyStr.mem p (PyDict.keys ps)) eqn:E.
    - now apply mem_true_in.
    - apply in_or_app. right. now left. }
  destruct (negb (obj_in a alive_aircraft)); [|exact H1].
  now rewrite keys_set_old.
Qed.

Lemma first_seen_fold names : forall acc,
  fold_left (fun acc p => if PyStr.mem p acc then acc else acc ++ [p]) names acc
  = acc ++ filter (fun q => negb (PyStr.mem q acc)) (first_seen names).
Proof.
  induction names as [|p rest IH]; intros acc; cbn [fold_left first_seen filter].
  - now rewrite app_nil_r.
  - rewrite IH. destruct (PyStr.mem p acc) eqn:Em; cbn [negb].
    + f_equal. rewrite filter_filter. apply filter_ext. intros q.
      destruct (String.eqb q p) eqn:E; cbn [negb andb]; [|reflexivity].
      apply String.eqb_eq in E. subst q. now rewrite Em.
    + rewrite <- app_assoc. cbn [app]. do 2 f_equal.
      rewrite filter_filter. apply filter_ext. intros q.
      unfold PyStr.mem. rewrite existsb_app. cbn [existsb].
      rewrite orb_false_r, negb_orb. apply andb_comm.
Qed.

Lemma analyze_pilots_keys all alive :
  PyDict.keys (analyze_pilots [] all alive) = first_seen (named_pilots all).
Proof.
  unfold analyze_pilots.
  set (step := analyze_pilot alive (alive_pilots_of alive)).
  enough (H : forall l ps,
             PyDict.keys (fold_left step l ps)
             = fold_left (fun acc p => if PyStr.mem p acc then acc else acc ++ [p])
                         (named_pilots l) (PyDict.keys ps)).
  { rewrite H, first_seen_fold. cbn [PyDict.keys map app].
    rewrite <- (filter_ext (fun _ => true)) by reflexivity.
    clear. induction (first_seen (named_pilots all)) as [|x l IH];
      cbn [filter]; congruence. }
  induction l as [|a l IH]; intros ps; cbn [fold_left named_pilots flat_map];
    [reflexivity|].
  rewrite IH. unfold step. rewrite analyze_pilot_keys_step.
  rewrite fold_left_app.
  destruct (PyStr.truthy (pilot a)) as [p|]; reflexivity.
Qed.

Lemma first_seen_in names p : In p (first_seen names) <-> In p names.
Proof.
  induction names as [|q rest IH]; cbn [first_seen]; [tauto|].
  split.
  - intros [->|H]; [now left|]. apply filter_In in H as [H _]. right. now apply IH.
  - intros [->|H]; [now left|].
    destruct (string_dec p q) as [->|Hne]; [now left|]. right.
    apply filter_In. split; [now apply IH|].
    apply String.eqb_neq in Hne. now rewrite Hne.
Qed.

Lemma named_pilots_in aircraft p :
  In p (named_pilots aircraft)
  <-> p <> "" /\ exists a, In a aircraft /\ pilot a = Some p.
Proof.
  unfold named_pilots. rewrite in_flat_map. split.
  - intros (a & Ha & Hp). destruct (PyStr.truthy (pilot a)) as [q|] eqn:Et;
      [|destruct Hp].
    destruct Hp as [<-|[]]. apply truthy_some in Et as [Hq Hne]. eauto.
  - intros (Hne & a & Ha & Hp). exists a. split; [exact Ha|].
    rewrite Hp, (truthy_of_some p Hne). now left.
Qed.

Lemma alive_pilots_of_first_seen alive :
  alive_pilots_of alive = first_seen (named_pilots alive).
Proof.
  unfold alive_pilots_of.
  enough (H : forall l acc,
             fold_left (fun acc aircraft =>
                          match PyStr.truthy (pilot aircraft) with
                          | Some p => if PyStr.mem p acc then acc else acc ++ [p]
                          | None => acc
                          end) l acc
             = fold_left (fun acc p => if PyStr.mem p acc then acc else acc ++ [p])
                         (named_pilots l) acc).
  { rewrite H, first_seen_fold. cbn [app].
    rewrite <- (filter_ext (fun _ => true)) by reflexivity.
    clear. induction (first_seen (named_pilots alive)) as [|x l IH];
      cbn [filter]; congruence. }
  induction l as [|a l IH]; intros acc; cbn [fold_left named_pilots flat_map];
    [reflexivity|].
  rewrite IH, fold_left_app.
  destruct (PyStr.truthy (pilot a)) as [p|]; reflexivity.
Qed.

Lemma flown_by_spec p a :
  flown_by p a = true <-> p <> "" /\ pilot a = Some p.
Proof.
  unfold flown_by. split.
  - destruct (PyStr.truthy (pilot a)) as [q|] eqn:Et; [|discriminate].
    intros E. apply String.eqb_eq in E. subst q.
    apply truthy_some in Et as [H1 H2]. auto.
  - intros [Hne Hp]. rewrite Hp, (truthy_of_some p Hne). apply String.eqb_refl.
Qed.

Lemma profile_with_deaths s d : profile (with_deaths s d) = profile s.
Proof. reflexivity. Qed.

Lemma analyze_pilot_mem alive_aircraft alive_pilots ps a p :
  PyDict.mem (analyze_pilot alive_aircraft alive_pilots ps a) p
  = PyDict.mem ps p || flown_by p a.
Proof.
  apply eq_true_iff_eq. rewrite orb_true_iff, !mem_true_iff.
  rewrite analyze_pilot_keys_step. unfold flown_by.
  destruct (PyStr.truthy (pilot a)) as [q|].
  - destruct (PyStr.mem q (PyDict.keys ps)) eqn:Em.
    + split; [tauto|]. intros [H|H]; [exact H|].
      apply String.eqb_eq in H. subst q. now apply mem_true_in.
    + rewrite in_app_iff. cbn [In]. rewrite String.eqb_eq. tauto.
  - split; [tauto|]. intros [H|H]; [exact H | discriminate].
Qed.

(** The profile of one pilot after one aircraft. *)
Lemma analyze_pilot_profile alive_aircraft alive_pilots ps a p :
  profile (stats_of (analyze_pilot alive_aircraft alive_pilots ps a) p)
  = if flown_by p a && negb (PyDict.mem ps p)
    then profile (new_stats p a alive_pilots)
    else profile (stats_of ps p).
Proof.
  unfold analyze_pilot, flown_by.
  destruct (PyStr.truthy (pilot a)) as [q|]; [|reflexivity].
  set (ps1 := if PyDict.mem ps q then ps
              else PyDict.set ps q (new_stats q a alive_pilots)).
  assert (H1 : profile (stats_of ps1 p)
               = if String.eqb q p && negb (PyDict.mem ps p)
                 then profile (new_stats p a alive_pilots)
                 else profile (stats_of ps p)).
  { unfold ps1. destruct (String.eqb q p) eqn:E.
    - apply String.eqb_eq in E. subst q.
      destruct (PyDict.mem ps p); cbn [negb andb]; [reflexivity|].
      now rewrite stats_of_set_same.
    - cbn [andb]. apply String.eqb_neq in E.
      destruct (PyDict.mem ps q); [reflexivity|].
      now rewrite stats_of_set_other. }
  destruct (negb (obj_in a alive_aircraft)); [|exact H1].
  destruct (string_dec q p) as [->|Hne].
  - now rewrite stats_of_set_same, profile_with_deaths.
  - now rewrite stats_of_set_other.
Qed.

Lemma analyze_pilots_profile alive_aircraft alive_pilots l : forall ps p,
  profile (stats_of (fold_left (analyze_pilot alive_aircraft alive_pilots) l ps) p)
  = if PyDict.mem ps p then profile (stats_of ps p)
    else match find (flown_by p) l with
         | Some a => profile (new_stats p a alive_pilots)
         | None => profile (stats_of ps p)
         end.
Proof.
  induction l as [|a l IH]; intros ps p; cbn [fold_left find].
  - now destruct (PyDict.mem ps p).
  - rewrite IH, analyze_pilot_mem, analyze_pilot_profile.
    destruct (PyDict.mem ps p); cbn [orb negb andb].
    + now rewrite andb_false_r.
    + rewrite andb_true_r. destruct (flown_by p a); [reflexivity|].
      destruct (find (flown_by p) l); reflexivity.
Qed.

(** The estimation steps keep the profile. *)
Lemma final_profile h acmi ps p :
  analyze_combat_data_with h acmi = Some ps ->
  profile (stats_of ps p) = profile (stats_of (pilots_state acmi) p).
Proof.
  intros Hrun. destruct (analyze_result h acmi ps Hrun) as [[_ Hsf] _].
  destruct (usage_same_profiles acmi) as [_ Hsp].
  specialize (Hsf p). specialize (Hsp p). unfold profile.
  rewrite Hsf.
  change (with_missiles (with_kills (stats_of (usage_state acmi) p) 0 PyFloat.zero) 0 [])
    with (with_kills (with_missiles (stats_of (usage_state acmi) p) 0 []) 0 PyFloat.zero).
  now rewrite Hsp.
Qed.

Lemma find_flown_by p l a :
  find (flown_by p) l = Some a -> In a l /\ p <> "" /\ pilot a = Some p.
Proof.
  intros H. apply find_some in H as [Hin Hf].
  apply flown_by_spec in Hf. tauto.
Qed.

Lemma in_named_find p l :
  In p (named_pilots l) -> exists a, find (flown_by p) l = Some a.
Proof.
  intros H. apply named_pilots_in in H as (Hne & a & Ha & Hp).
  destruct (find (flown_by p) l) as [b|] eqn:E; [eauto|].
  exfalso. pose proof (find_none _ _ E a Ha) as Hf.
  assert (flown_by p a = true) by (apply flown_by_spec; auto). congruence.
Qed.

Lemma pilots_state_keys acmi :
  PyDict.keys (pilots_state acmi) = first_seen (named_pilots (all_aircraft acmi)).
Proof. apply analyze_pilots_keys. Qed.

Lemma pilots_state_profile acmi p a :
  find (flown_by p) (all_aircraft acmi) = Some a ->
  profile (stats_of (pilots_state acmi) p)
  = profile (new_stats p a (alive_pilots_of (filter is_plane (alive_objects acmi)))).
Proof.
  intros Hf. unfold pilots_state, analyze_pilots.
  rewrite analyze_pilots_profile. fold (all_aircraft acmi). now rewrite Hf.
Qed.

(** X1. One entry for every pilot name.  The keys of the result are the
    non-empty pilot names of the aircraft of the recording, each once, in
    the order in which the names are first met (alive aircraft first):
    an aircraft without a pilot name and an object that is no aircraft
    give no entry. *)
Theorem pilot_entries :
  forall acmi : Recording,
    sized acmi ->
    exists ps,
      analyze_combat_data acmi = Some ps
      /\ PyDict.keys ps = first_seen (named_pilots (all_aircraft acmi))
      /\ NoDup (PyDict.keys ps)
      /\ forall p,
          In p (PyDict.keys ps)
          <-> p <> "" /\ exists a, In a (all_aircraft acmi) /\ pilot a = Some p.
Proof.
  intros acmi Hsz. destruct (analyze_defined acmi Hsz) as [ps Hrun].
  exists ps. split; [exact Hrun|].
  destruct (final_profiles _ acmi ps Hrun) as [Hk _].
  split; [rewrite Hk; apply pilots_state_keys|].
  split; [rewrite Hk; apply pilots_state_facts|].
  intros p. rewrite Hk, pilots_state_keys, first_seen_in. apply named_pilots_in.
Qed.

Lemma pilot_entries_witness :
  sized two_pilots
  /\ exists ps,
      analyze_combat_data two_pilots = Some ps
      /\ PyDict.keys ps = first_seen (named_pilots (all_aircraft two_pilots))
      /\ NoDup (PyDict.keys ps)
      /\ forall p,
          In p (PyDict.keys ps)
          <-> p <> "" /\ exists a, In a (all_aircraft two_pilots) /\ pilot a = Some p.
Proof.
  assert (Hsz : sized two_pilots) by (unfold sized, PyFloat.max_size; simpl; lia).
  split; [exact Hsz | exact (pilot_entries two_pilots Hsz)].
Defined.

(** X2. The profile comes from the first aircraft.  The name and the
    coalition of an entry are those of the first aircraft with that
    pilot name (alive aircraft first), its group is the [Group] of that
    aircraft or "Unknown", and its aircraft type and country are the
    [Name] and the [Country] of that aircraft when the recording gives
    them; a later aircraft of the same pilot changes none of them. *)
Theorem profile_of_first_aircraft :
  forall acmi : Recording,
    sized acmi ->
    exists ps,
      analyze_combat_data acmi = Some ps
      /\ forall p a,
          find (flown_by p) (all_aircraft acmi) = Some a ->
          pilot_name (stats_of ps p) = p
          /\ coalition (stats_of ps p) = Acmi.coalition a
          /\ group (stats_of ps p) = PyStr.get_or (json_Group a) "Unknown"
          /\ (forall name, json_Name a = Some name ->
                           aircraft_type (stats_of ps p) = name)
          /\ (forall nation, json_Country a = Some nation ->
                             country (stats_of ps p) = nation).
Proof.
  intros acmi Hsz. destruct (analyze_defined acmi Hsz) as [ps Hrun].
  exists ps. split; [exact Hrun|]. intros p a Hf.
  pose proof (final_profile _ acmi ps p Hrun) as H.
  rewrite (pilots_state_profile acmi p a Hf) in H.
  split; [exact (f_equal pilot_name H)|].
  split; [exact (f_equal coalition H)|].
  split; [exact (f_equal group H)|]. split.
  - intros name Hname. apply (f_equal aircraft_type) in H. cbn in H.
    now rewrite Hname in H.
  - intros nation Hnation. apply (f_equal country) in H. cbn in H.
    now rewrite Hnation in H.
Qed.

Lemma profile_of_first_aircraft_witness :
  sized two_aircraft
  /\ exists ps,
      analyze_combat_data two_aircraft = Some ps
      /\ pilot_name (stats_of ps "B") = "B"
      /\ coalition (stats_of ps "B") = "Allies"
      /\ group (stats_of ps "B") = "Viper 1"
      /\ aircraft_type (stats_of ps "B") = "F-16C"
      /\ country (stats_of ps "B") = "us".
Proof.
  assert (Hsz : sized two_aircraft) by (unfold sized, PyFloat.max_size; simpl; lia).
  split; [exact Hsz|].
  destruct (profile_of_first_aircraft two_aircraft Hsz) as (ps & Hrun & Hprofile).
  exists ps. split; [exact Hrun|].
  destruct (Hprofile "B" (registered 1 "101" "B" "Allies" "F-16C" "us" "Viper 1")
                     eq_refl)
    as (Hn & Hc & Hg & Ht & Hco).
  split; [exact Hn|]. split; [exact Hc|]. split; [exact Hg|].
  split; [now apply Ht | now apply Hco].
Defined.

Lemma lost_aircraft_pos acmi p a :
  In a (removed_objects acmi) -> is_plane a = true -> pilot a = Some p ->
  1 <= lost_aircraft acmi p.
Proof.
  intros Hin Hpl Hp. unfold lost_aircraft.
  assert (H : In a (filter (fun o => is_plane o && pilot_is p o) (removed_objects acmi))).
  { apply filter_In. split; [exact Hin|]. unfold pilot_is.
    now rewrite Hpl, Hp, String.eqb_refl. }
  destruct (filter _ (removed_objects acmi)); [destruct H | simpl List.length; lia].
Qed.

Lemma final_survived h acmi ps p :
  analyze_combat_data_with h acmi = Some ps ->
  In p (PyDict.keys ps) ->
  (survived (stats_of ps p) = true
   <-> exists a, In a (alive_objects acmi) /\ is_plane a = true /\ pilot a = Some p).
Proof.
  intros Hrun Hin.
  destruct (final_profiles _ acmi ps Hrun) as [Hk Hp].
  rewrite Hk, pilots_state_keys, first_seen_in in Hin.
  destruct (in_named_find p _ Hin) as [a0 Hf].
  pose proof (final_profile _ acmi ps p Hrun) as H.
  rewrite (pilots_state_profile acmi p a0 Hf) in H.
  apply (f_equal survived) in H. cbn in H.
  apply named_pilots_in in Hin as (Hne & _).
  rewrite H, alive_pilots_of_first_seen. split.
  - intros Hm. apply mem_true_in, first_seen_in, named_pilots_in in Hm.
    destruct Hm as (_ & b & Hb & Hpb). apply filter_In in Hb as [Hb Hpl]. eauto.
  - intros (b & Hb & Hpl & Hpb). apply mem_in_true, first_seen_in, named_pilots_in.
    split; [exact Hne|]. exists b. split; [|exact Hpb].
    apply filter_In. auto.
Qed.

(** On a partitioned recording a pilot that did not survive lost an
    aircraft. *)
Lemma final_casualty h acmi ps p :
  analyze_combat_data_with h acmi = Some ps ->
  partitioned acmi -> In p (PyDict.keys ps) ->
  survived (stats_of ps p) = false -> 1 <= deaths (stats_of ps p).
Proof.
  intros Hrun Hpart Hin Hs.
  pose proof (final_survived h acmi ps p Hrun Hin) as Hiff.
  destruct (final_profiles _ acmi ps Hrun) as [Hk Hp].
  rewrite Hk, pilots_state_keys, first_seen_in in Hin.
  apply named_pilots_in in Hin as (Hne & a & Ha & Hpa).
  destruct (Hp p) as (_ & _ & -> & _).
  unfold pilots_state.
  rewrite (analyze_pilots_lost acmi p Hpart Hne).
  unfold all_aircraft in Ha. apply in_app_or in Ha as [Ha|Ha];
    apply filter_In in Ha as [Ha Hpl].
  - exfalso. assert (survived (stats_of ps p) = true) by (apply Hiff; eauto).
    congruence.
  - now apply (lost_aircraft_pos acmi p a).
Qed.

(** X3. The survival flag.  An entry has [survived] set exactly when an
    alive aircraft has the pilot's name, whatever happened to other
    aircraft of the same pilot; on a recording whose alive and removed
    objects are distinct, a pilot that did not survive has at least one
    death. *)
Theorem survived_flag :
  forall acmi : Recording,
    sized acmi ->
    exists ps,
      analyze_combat_data acmi = Some ps
      /\ forall p,
          In p (PyDict.keys ps) ->
          (survived (stats_of ps p) = true
           <-> exists a, In a (alive_objects acmi) /\ is_plane a = true
                         /\ pilot a = Some p)
          /\ (partitioned acmi -> survived (stats_of ps p) = false ->
              1 <= deaths (stats_of ps p)).
Proof.
  intros acmi Hsz. destruct (analyze_defined acmi Hsz) as [ps Hrun].
  exists ps. split; [exact Hrun|]. intros p Hin. split.
  - now apply (final_survived _ acmi ps p Hrun).
  - intros Hpart. now apply (final_casualty _ acmi ps p Hrun).
Qed.

Lemma survived_flag_witness :
  sized two_pilots
  /\ exists ps,
      analyze_combat_data two_pilots = Some ps
      /\ forall p,
          In p (PyDict.keys ps) ->
          (survived (stats_of ps p) = true
           <-> exists a, In a (alive_objects two_pilots) /\ is_plane a = true
                         /\ pilot a = Some p)
          /\ (partitioned two_pilots -> survived (stats_of ps p) = false ->
              1 <= deaths (stats_of ps p)).
Proof.
  assert (Hsz : sized two_pilots) by (unfold sized, PyFloat.max_size; simpl; lia).
  split; [exact Hsz | exact (survived_flag two_pilots Hsz)].
Defined.

End PilotEntries.

(** ** The three tables of aircraft and missiles *)

Section Tables.
Import Acmi ImprovedCombatAnalyzer Examples Spec PilotSpec.

Lemma any_in_app ks1 ks2 s :
  PyStr.any_in (ks1 ++ ks2) s = PyStr.any_in ks1 s || PyStr.any_in ks2 s.
Proof. unfold PyStr.any_in. apply existsb_app. Qed.

(** X4. The tables agree.  An aircraft type that can carry some missile
    type is a fighter, and a missile type that some aircraft can carry is
    an air-to-air missile: the capability table names no aircraft
    outside the fighter list and no missile outside the missile table. *)
Theorem carriers_are_fighters :
  forall aircraft_type missile_type : string,
    can_carry_missile aircraft_type missile_type = true ->
    is_fighter_aircraft aircraft_type = true
    /\ PyStr.any_in (PyDict.keys air_to_air_missiles) missile_type = true.
Proof.
  intros a t H. unfold can_carry_missile in H. cbv zeta in H.
  unfold is_fighter_aircraft. cbv zeta.
  change ["F-16"; "F-4"; "F-18"; "FA-18"; "MiG-21"; "MiG-23"; "MiG-25"; "Su-27"]
    with (["F-16"; "F-4"; "F-18"; "FA-18"] ++ ["MiG-21"; "MiG-23"; "MiG-25"; "Su-27"]).
  change (PyDict.keys air_to_air_missiles)
    with (["AIM_120"; "AIM-9L"; "AIM-9M"; "AIM-9X"; "AIM-7"]
            ++ ["R-27"; "R-73"; "R-77"; "P_24R"]).
  rewrite !any_in_app.
  destruct (PyStr.any_in ["F-16"; "F-4"; "F-18"; "FA-18"] a),
    (PyStr.any_in ["MiG-21"; "MiG-23"; "MiG-25"; "Su-27"] a),
    (PyStr.any_in ["AIM_120"; "AIM-9L"; "AIM-9M"; "AIM-9X"; "AIM-7"] t),
    (PyStr.any_in ["R-27"; "R-73"; "R-77"; "P_24R"] t);
    cbn [andb orb] in *; split; try reflexivity; discriminate H.
Qed.

Lemma carriers_are_fighters_witness :
  is_fighter_aircraft "F-16C" = true
  /\ PyStr.any_in (PyDict.keys air_to_air_missiles) "AIM-9L" = true.
Proof.
  apply (carriers_are_fighters "F-16C" "AIM-9L"). reflexivity.
Defined.

End Tables.

(** ** Invariants of [estimate_missile_usage] *)

Section UsageInvariants.
Import Acmi ImprovedCombatAnalyzer Examples Spec PilotSpec.

Lemma fold_left_inv_in {A B} (f : A -> B -> A) (Inv : A -> Prop) l :
  (forall a y, In y l -> Inv a -> Inv (f a y)) ->
  forall a, Inv a -> Inv (fold_left f l a).
Proof.
  induction l as [|y l IH]; intros Hstep a Ha; cbn [fold_left]; [exact Ha|].
  apply IH.
  - intros b z Hz. apply Hstep. now right.
  - apply Hstep; [now left | exact Ha].
Qed.

Lemma in_set_items {V} (d : PyDict.dict V) k v k' v' :
  In (k', v') (PyDict.set d k v) -> (k' = k /\ v' = v) \/ In (k', v') d.
Proof.
  induction d as [|[k0 v0] d IH]; cbn [PyDict.set].
  - intros [H|[]]. injection H as <- <-. now left.
  - destruct (String.eqb k0 k).
    + intros [H|H]; [injection H as <- <-; now left | right; now right].
    + intros [H|H]; [right; now left|].
      destruct (IH H) as [H'|H']; [now left | right; now right].
Qed.

Lemma group_by_coalition_items missiles c ms :
  In (c, ms) (group_by_coalition missiles) ->
  forall m, In m ms -> In m missiles /\ Acmi.coalition m = c.
Proof.
  unfold group_by_coalition.
  set (step := fun (d : PyDict.dict (list AcmiObject)) missile =>
                 PyDict.set d (Acmi.coalition missile)
                   (PyDict.get_default [] d (Acmi.coalition missile) ++ [missile])).
  set (Inv := fun d : PyDict.dict (list AcmiObject) =>
                forall c ms, In (c, ms) d ->
                  forall m, In m ms -> In m missiles /\ Acmi.coalition m = c).
  enough (H : Inv (fold_left step missiles [])) by (apply H).
  apply fold_left_inv_in; [|intros c0 ms0 []].
  intros d y Hy Hd c0 ms0 Hin m Hm. unfold step in Hin.
  apply in_set_items in Hin as [[-> ->]|Hin]; [|now apply (Hd c0 ms0)].
  apply in_app_or in Hm as [Hm|[<-|[]]]; [|auto].
  unfold PyDict.get_default in Hm.
  destruct (PyDict.get d (Acmi.coalition y)) as [old|] eqn:E; [|destruct Hm].
  apply get_in in E. now apply (Hd _ old).
Qed.

Lemma count_by_name_items missiles t n :
  In (t, n) (count_by_name missiles) ->
  exists m, In m missiles /\ missile_name m = t.
Proof.
  intros Hin.
  assert (Hk : In t (PyDict.keys (count_by_name missiles))).
  { unfold PyDict.keys. change t with (fst (t, n)). now apply in_map. }
  clear Hin. revert Hk. unfold count_by_name. fold missile_name.
  set (step := fun (d : PyDict.dict Z) missile =>
                 PyDict.set d (missile_name missile)
                   (PyDict.get_default 0 d (missile_name missile) + 1)).
  change (fold_left _ missiles []) with (fold_left step missiles []).
  set (Inv := fun d : PyDict.dict Z =>
                In t (PyDict.keys d) -> exists m, In m missiles /\ missile_name m = t).
  enough (H : Inv (fold_left step missiles [])) by (apply H).
  apply fold_left_inv_in; [|intros []].
  intros d y Hy Hd Hin. unfold step in Hin.
  apply in_keys_set in Hin as [->|Hin]; [eauto | now apply Hd].
Qed.

Lemma eligible_spec ps c t p :
  In p (eligible ps c t)
  <-> In p (PyDict.keys ps)
      /\ is_fighter_aircraft (aircraft_type (stats_of ps p)) = true
      /\ coalition (stats_of ps p) = c
      /\ can_carry_missile (aircraft_type (stats_of ps p)) t = true.
Proof.
  unfold eligible. rewrite filter_In. cbv zeta.
  rewrite !andb_true_iff, String.eqb_eq. tauto.
Qed.

Lemma distribute_invariant ps (Inv : pilot_stats -> Prop) c t cps :
  (forall cur p n,
      same_profiles ps cur -> Inv cur -> In p (eligible ps c t) ->
      Inv (credit cur p t n)) ->
  forall cur i per r,
    (forall p, In p cps -> In p (eligible ps c t)) ->
    same_profiles ps cur -> Inv cur ->
    same_profiles ps (distribute cur i cps t per r)
    /\ Inv (distribute cur i cps t per r).
Proof.
  intros Hstep. induction cps as [|p cps IH]; intros cur i per r Hsub Hsame Hinv;
    cbn [distribute].
  - split; assumption.
  - assert (Hp : In p (eligible ps c t)) by (apply Hsub; now left).
    assert (Hin : In p (PyDict.keys cur)).
    { destruct Hsame as [-> _]. now apply (eligible_in_keys ps c t). }
    apply IH.
    + intros q Hq. apply Hsub. now right.
    + eapply same_profiles_trans; [exact Hsame | now apply same_profiles_credit].
    + now apply Hstep.
Qed.

(** A property kept by every crediting of an eligible pilot is kept by
    the whole step. *)
Lemma usage_invariant ps air_to_air (Inv : pilot_stats -> Prop) :
  NoDup (PyDict.keys ps) ->
  (forall cur m p n,
      same_profiles ps cur -> Inv cur -> In m air_to_air ->
      In p (eligible ps (Acmi.coalition m) (missile_name m)) ->
      Inv (credit cur p (missile_name m) n)) ->
  Inv ps -> Inv (estimate_missile_usage ps air_to_air).
Proof.
  intros Hnd Hstep H0. unfold estimate_missile_usage.
  set (J := fun cur => same_profiles ps cur /\ Inv cur).
  enough (HJ : J (fold_left (distribute_coalition (fighters_by_coalition ps))
                            (group_by_coalition air_to_air) ps)) by (apply HJ).
  apply fold_left_inv_in; [|split; [apply same_profiles_refl | exact H0]].
  intros cur [c ms] Hgroup HJ. unfold distribute_coalition.
  destruct (PyDict.get_default [] (fighters_by_coalition ps) c)
    as [|p0 pilots] eqn:Ep; [exact HJ|]. rewrite <- Ep.
  pose proof (group_by_coalition_items air_to_air c ms Hgroup) as Hms.
  apply fold_left_inv_in; [|exact HJ].
  intros cur' [t n] Hjob [Hsame Hinv]. unfold distribute_type.
  rewrite (capable_eligible ps cur' c t Hnd Hsame).
  destruct (count_by_name_items ms t n Hjob) as (m & Hm & Ht).
  destruct (Hms m Hm) as [Hair Hc].
  destruct (eligible ps c t) as [|e0 es] eqn:Ee; [split; assumption|].
  rewrite <- Ee.
  apply (distribute_invariant ps Inv c t (eligible ps c t)); auto.
  intros cur0 p k Hs0 Hi0 Hp. rewrite <- Ht.
  apply Hstep; try assumption. now rewrite Hc, Ht.
Qed.

Lemma credit_types ps p t n q :
  missile_types_used (stats_of (credit ps p t n) q)
  = if String.eqb p q
    then (if PyStr.mem t (missile_types_used (stats_of ps p))
          then missile_types_used (stats_of ps p)
          else missile_types_used (stats_of ps p) ++ [t])
    else missile_types_used (stats_of ps q).
Proof.
  destruct (String.eqb p q) eqn:E.
  - apply String.eqb_eq in E. subst q. now rewrite stats_of_credit_same.
  - apply String.eqb_neq in E. now rewrite stats_of_credit_other.
Qed.

(** No missile type is listed twice. *)
Lemma usage_types_nodup ps air_to_air :
  NoDup (PyDict.keys ps) ->
  (forall q, NoDup (missile_types_used (stats_of ps q))) ->
  forall q, NoDup (missile_types_used
                     (stats_of (estimate_missile_usage ps air_to_air) q)).
Proof.
  intros Hnd H0.
  apply (usage_invariant ps air_to_air
           (fun cur => forall q, NoDup (missile_types_used (stats_of cur q))));
    [exact Hnd | | exact H0].
  intros cur m p n _ Hinv _ _ q. rewrite credit_types.
  destruct (String.eqb p q); [|apply Hinv].
  destruct (PyStr.mem (missile_name m) (missile_types_used (stats_of cur p))) eqn:E;
    [apply Hinv|].
  apply mem_false_not_in in E.
  apply NoDup_app; [apply Hinv | repeat constructor; simpl; tauto |].
  intros x Hx [<-|[]]. contradiction.
Qed.

(** A listed type is the name of a missile of the pilot's coalition that
    the pilot's aircraft can carry. *)
Lemma usage_types_sound ps air_to_air :
  NoDup (PyDict.keys ps) ->
  (forall q, missile_types_used (stats_of ps q) = []) ->
  forall q t,
    In t (missile_types_used (stats_of (estimate_missile_usage ps air_to_air) q)) ->
    can_carry_missile (aircraft_type (stats_of ps q)) t = true
    /\ exists m, In m air_to_air /\ missile_name m = t
                 /\ Acmi.coalition m = coalition (stats_of ps q).
Proof.
  intros Hnd H0.
  apply (usage_invariant ps air_to_air
           (fun cur => forall q t,
                In t (missile_types_used (stats_of cur q)) ->
                can_carry_missile (aircraft_type (stats_of ps q)) t = true
                /\ exists m, In m air_to_air /\ missile_name m = t
                             /\ Acmi.coalition m = coalition (stats_of ps q)));
    [exact Hnd | | intros q t; rewrite H0; intros []].
  intros cur m p n _ Hinv Hm Hp q t. rewrite credit_types.
  destruct (String.eqb p q) eqn:E; [|apply Hinv].
  apply String.eqb_eq in E. subst q.
  assert (Hnew : can_carry_missile (aircraft_type (stats_of ps p)) (missile_name m) = true
                 /\ exists m', In m' air_to_air /\ missile_name m' = missile_name m
                               /\ Acmi.coalition m' = coalition (stats_of ps p)).
  { apply eligible_spec in Hp as (_ & _ & Hc & Hcarry).
    split; [exact Hcarry|]. exists m. auto. }
  destruct (PyStr.mem (missile_name m) (missile_types_used (stats_of cur p)));
    [apply Hinv|].
  intros Hin. apply in_app_or in Hin as [Hin|[<-|[]]]; [now apply Hinv | exact Hnew].
Qed.

(** A pilot credited with missiles has a type on record. *)
Lemma usage_types_nonempty ps air_to_air :
  NoDup (PyDict.keys ps) -> fresh ps ->
  forall q,
    missile_types_used (stats_of (estimate_missile_usage ps air_to_air) q) = [] ->
    missiles_fired (stats_of (estimate_missile_usage ps air_to_air) q) = 0.
Proof.
  intros Hnd Hf.
  apply (usage_invariant ps air_to_air
           (fun cur => forall q,
                missile_types_used (stats_of cur q) = [] ->
                missiles_fired (stats_of cur q) = 0));
    [exact Hnd | | intros q _; apply Hf].
  intros cur m p n _ Hinv _ _ q. rewrite credit_types.
  destruct (String.eqb p q) eqn:E.
  - destruct (PyStr.mem (missile_name m) (missile_types_used (stats_of cur p))) eqn:Em.
    + intros Hnil. apply mem_true_in in Em. rewrite Hnil in Em. destruct Em.
    + intros Hnil. apply (f_equal (@List.length string)) in Hnil.
      rewrite length_app in Hnil. simpl in Hnil. lia.
  - apply String.eqb_neq in E. rewrite stats_of_credit_other by exact E. apply Hinv.
Qed.

(** X5. No missile type is listed twice.  After the analysis the
    [missile_types_used] of every pilot holds each missile name at most
    once, however many groups of missiles were credited to the pilot. *)
Theorem missile_types_distinct :
  forall acmi : Recording,
    sized acmi ->
    exists ps,
      analyze_combat_data acmi = Some ps
      /\ forall p, NoDup (missile_types_used (stats_of ps p)).
Proof.
  intros acmi Hsz. destruct (analyze_defined acmi Hsz) as [ps Hrun].
  exists ps. split; [exact Hrun|]. intros p.
  destruct (final_profiles _ acmi ps Hrun) as [_ Hp].
  destruct (Hp p) as (_ & _ & _ & _ & ->).
  destruct (pilots_state_facts acmi) as (Hnd & _ & Hf).
  apply usage_types_nodup; [exact Hnd|].
  intros q. destruct (Hf q) as (_ & _ & -> & _). constructor.
Qed.

Lemma missile_types_distinct_witness :
  sized ten_missiles
  /\ exists ps,
      analyze_combat_data ten_missiles = Some ps
      /\ forall p, NoDup (missile_types_used (stats_of ps p)).
Proof.
  assert (Hsz : sized ten_missiles)
    by (unfold sized, PyFloat.max_size; simpl; lia).
  split; [exact Hsz | exact (missile_types_distinct ten_missiles Hsz)].
Defined.

(** X6. What a listed missile type means.  Every name in a pilot's
    [missile_types_used] is the name of a removed air-to-air missile of
    the pilot's own coalition that the pilot's aircraft type can carry;
    and a pilot credited with at least one missile has at least one name
    on record. *)
Theorem missile_types_sound :
  forall acmi : Recording,
    sized acmi ->
    exists ps,
      analyze_combat_data acmi = Some ps
      /\ forall p,
          (forall t,
              In t (missile_types_used (stats_of ps p)) ->
              can_carry_missile (aircraft_type (stats_of ps p)) t = true
              /\ exists m, In m (air_to_air_of acmi) /\ missile_name m = t
                           /\ Acmi.coalition m = coalition (stats_of ps p))
          /\ (0 < missiles_fired (stats_of ps p) ->
              missile_types_used (stats_of ps p) <> []).
Proof.
  intros acmi Hsz. destruct (analyze_defined acmi Hsz) as [ps Hrun].
  exists ps. split; [exact Hrun|]. intros p.
  destruct (final_profiles _ acmi ps Hrun) as [_ Hp].
  destruct (Hp p) as (Ha & Hc & _ & Hm & Ht).
  destruct (pilots_state_facts acmi) as (Hnd & _ & Hf).
  rewrite Ht, Ha, Hc, Hm. split.
  - intros t Hin. apply (usage_types_sound (pilots_state acmi) (air_to_air_of acmi) Hnd);
      [|exact Hin].
    intros q. now destruct (Hf q) as (_ & _ & -> & _).
  - intros Hpos Hnil.
    pose proof (usage_types_nonempty (pilots_state acmi) (air_to_air_of acmi)
                  Hnd Hf p Hnil) as Hz.
    unfold usage_state in Hpos. lia.
Qed.

Lemma missile_types_sound_witness :
  sized ten_missiles
  /\ exists ps,
      analyze_combat_data ten_missiles = Some ps
      /\ forall p,
          (forall t,
              In t (missile_types_used (stats_of ps p)) ->
              can_carry_missile (aircraft_type (stats_of ps p)) t = true
              /\ exists m, In m (air_to_air_of ten_missiles) /\ missile_name m = t
                           /\ Acmi.coalition m = coalition (stats_of ps p))
          /\ (0 < missiles_fired (stats_of ps p) ->
              missile_types_used (stats_of ps p) <> []).
Proof.
  assert (Hsz : sized ten_missiles)
    by (unfold sized, PyFloat.max_size; simpl; lia).
  split; [exact Hsz | exact (missile_types_sound ten_missiles Hsz)].
Defined.

End UsageInvariants.

(** ** Conservation of the missiles of one coalition *)

Section CoalitionConservation.
Import Acmi ImprovedCombatAnalyzer Examples Spec PilotSpec.
Variable c0 : string.

Lemma coalition_fired_dict_sum ps :
  coalition_fired ps c0
  = dict_sum (fun _ s => if String.eqb (coalition s) c0 then missiles_fired s else 0) ps.
Proof.
  unfold coalition_fired, dict_sum, PyDict.values.
  induction ps as [|[k s] ps IH]; [reflexivity|].
  cbn [map filter fst snd]. rewrite sum_Z_cons.
  destruct (String.eqb (coalition s) c0); cbn [map].
  - rewrite sum_Z_cons. unfold PyDict.dict in *. lia.
  - unfold PyDict.dict in *. lia.
Qed.

Lemma coalition_fired_credit ps p t n :
  In p (PyDict.keys ps) ->
  coalition_fired (credit ps p t n) c0
  = coalition_fired ps c0
    + (if String.eqb (coalition (stats_of ps p)) c0 then n else 0).
Proof.
  intros Hin. rewrite !coalition_fired_dict_sum. unfold credit.
  rewrite dict_sum_set. unfold stats_of, PyDict.get_default.
  apply in_keys_get in Hin as [s Hs]. rewrite Hs. cbn [coalition with_missiles missiles_fired].
  destruct (String.eqb (coalition s) c0); lia.
Qed.

Lemma coalition_fired_distribute c cps : forall ps i t per r,
  (forall p, In p cps -> In p (PyDict.keys ps) /\ coalition (stats_of ps p) = c) ->
  0 <= i ->
  coalition_fired (distribute ps i cps t per r) c0
  = coalition_fired ps c0
    + (if String.eqb c c0
       then Z.of_nat (List.length cps) * per
            + Z.max 0 (Z.min (r - i) (Z.of_nat (List.length cps)))
       else 0).
Proof.
  induction cps as [|p cps IH]; intros ps i t per r Hin Hi.
  - cbn [distribute List.length]. destruct (String.eqb c c0); lia.
  - cbn [distribute]. set (n := if i <? r then per + 1 else per).
    destruct (Hin p (or_introl eq_refl)) as [Hp Hc].
    pose proof (same_profiles_credit ps p t n Hp) as Hsame.
    rewrite IH; [| |lia].
    + rewrite coalition_fired_credit by exact Hp. rewrite Hc.
      cbn [List.length]. rewrite Nat2Z.inj_succ. unfold n.
      destruct (String.eqb c c0); [|lia].
      destruct (Z.ltb_spec i r); lia.
    + intros q Hq. destruct (Hin q (or_intror Hq)) as [Hq1 Hq2].
      destruct Hsame as [Hk _]. rewrite Hk. split; [exact Hq1|].
      destruct (same_profiles_type ps (credit ps p t n) q
                  (same_profiles_credit ps p t n Hp)) as [_ ->].
      exact Hq2.
Qed.

Lemma coalition_fired_type ps0 ps c t n :
  NoDup (PyDict.keys ps0) -> same_profiles ps0 ps ->
  coalition_fired
    (distribute_type (PyDict.get_default [] (fighters_by_coalition ps0) c) ps (t, n)) c0
  = coalition_fired ps c0
    + (if String.eqb c c0 && has_eligible ps0 c t then n else 0).
Proof.
  intros Hnd Hsame. unfold distribute_type.
  rewrite (capable_eligible ps0 ps c t Hnd Hsame). unfold has_eligible.
  destruct (eligible ps0 c t) as [|p0 cps] eqn:E;
    [rewrite andb_false_r; lia|]. rewrite andb_true_r.
  rewrite (coalition_fired_distribute c).
  - destruct (String.eqb c c0); [|lia].
    set (k := Z.of_nat (List.length (p0 :: cps))).
    assert (Hk : 0 < k) by (unfold k; simpl List.length; lia).
    rewrite remainder_clamp by exact Hk.
    pose proof (Z.div_mod n k). lia.
  - intros p Hp. rewrite <- E in Hp. apply eligible_spec in Hp as (Hin & _ & Hc & _).
    destruct Hsame as [Hk Hs]. rewrite Hk. split; [exact Hin|].
    destruct (same_profiles_type ps0 ps p (conj Hk Hs)) as [_ ->]. exact Hc.
  - lia.
Qed.

Lemma coalition_fired_types ps0 c jobs : forall ps,
  NoDup (PyDict.keys ps0) -> same_profiles ps0 ps ->
  coalition_fired
    (fold_left (distribute_type (PyDict.get_default [] (fighters_by_coalition ps0) c))
               jobs ps) c0
  = coalition_fired ps c0
    + dict_sum (fun t n => (if String.eqb c c0 && has_eligible ps0 c t then 1 else 0) * n)
               jobs.
Proof.
  induction jobs as [|[t n] jobs IH]; intros ps Hnd Hsame; cbn [fold_left].
  - rewrite dict_sum_nil. lia.
  - destruct (distribute_type_total ps0 ps c t n Hnd Hsame) as [Hs _].
    rewrite (IH _ Hnd Hs), (coalition_fired_type ps0 ps c t n Hnd Hsame), dict_sum_cons.
    destruct (String.eqb c c0 && has_eligible ps0 c t); lia.
Qed.

Lemma sum_Z_zero {A} (l : list A) : sum_Z (map (fun _ => 0) l) = 0.
Proof.
  induction l as [|x l IH]; [reflexivity|]. cbn [map]. rewrite sum_Z_cons. lia.
Qed.

Lemma coalition_fired_group ps0 ps c missiles :
  NoDup (PyDict.keys ps0) -> same_profiles ps0 ps ->
  coalition_fired (distribute_coalition (fighters_by_coalition ps0) ps (c, missiles)) c0
  = coalition_fired ps c0
    + sum_Z (map (fun m => if String.eqb c c0 && has_eligible ps0 c (missile_name m)
                           then 1 else 0) missiles).
Proof.
  intros Hnd Hsame. unfold distribute_coalition.
  destruct (PyDict.get_default [] (fighters_by_coalition ps0) c) as [|p0 pilots] eqn:E.
  - assert (Hno : forall t, has_eligible ps0 c t = false).
    { intros t. unfold has_eligible.
      rewrite <- (capable_eligible ps0 ps0 c t Hnd (same_profiles_refl ps0)), E.
      reflexivity. }
    rewrite (map_ext _ (fun _ => 0))
      by (intros m; now rewrite Hno, andb_false_r).
    rewrite sum_Z_zero. lia.
  - rewrite <- E. rewrite (coalition_fired_types ps0 c _ ps Hnd Hsame). f_equal.
    apply (count_by_name_sum
             (fun t => if String.eqb c c0 && has_eligible ps0 c t then 1 else 0)).
Qed.

(** What the step adds to the pilots of one coalition is the number of
    missiles of that coalition that have an eligible pilot. *)
Lemma coalition_fired_usage ps air_to_air :
  NoDup (PyDict.keys ps) ->
  coalition_fired (estimate_missile_usage ps air_to_air) c0
  = coalition_fired ps c0
    + Z.of_nat (List.length
                  (filter (fun m => String.eqb (Acmi.coalition m) c0 && attributable ps m)
                          air_to_air)).
Proof.
  intros Hnd. unfold estimate_missile_usage.
  set (W := fun c ms =>
              sum_Z (map (fun m => if String.eqb c c0 && has_eligible ps c (missile_name m)
                                   then 1 else 0) ms)).
  enough (H : forall groups cur,
             same_profiles ps cur ->
             coalition_fired
               (fold_left (distribute_coalition (fighters_by_coalition ps)) groups cur) c0
             = coalition_fired cur c0 + dict_sum W groups).
  { rewrite (H _ ps (same_profiles_refl ps)). f_equal. unfold W.
    rewrite (group_by_coalition_sum
               (fun c m => if String.eqb c c0 && has_eligible ps c (missile_name m)
                           then 1 else 0)).
    apply (sum_indicator
             (fun m => String.eqb (Acmi.coalition m) c0 && attributable ps m)). }
  induction groups as [|[c ms] groups IH]; intros cur Hsame; cbn [fold_left].
  - rewrite dict_sum_nil. lia.
  - destruct (distribute_coalition_total ps cur c ms Hnd Hsame) as [Hs _].
    rewrite (IH _ Hs), (coalition_fired_group ps cur c ms Hnd Hsame), dict_sum_cons.
    unfold W at 2. lia.
Qed.

Lemma dict_sum_keys {V} (w : string -> V -> Z) (dflt : V) (d : PyDict.dict V) :
  NoDup (PyDict.keys d) ->
  dict_sum w d = sum_Z (map (fun k => w k (PyDict.get_default dflt d k)) (PyDict.keys d)).
Proof.
  intros Hnd. unfold dict_sum.
  rewrite (items_via_keys _ dflt d Hnd) at 1. now rewrite map_map.
Qed.

End CoalitionConservation.

Section CoalitionClaims.
Import Acmi ImprovedCombatAnalyzer Examples Spec PilotSpec.

(** X7. No missile crosses sides.  For every coalition, the missiles
    credited to the pilots of the coalition add up to the number of
    removed air-to-air missiles of that same coalition that have an
    eligible pilot. *)
Theorem coalition_missiles_conserved :
  forall acmi : Recording,
    sized acmi ->
    exists ps,
      analyze_combat_data acmi = Some ps
      /\ forall c,
          coalition_fired ps c
          = Z.of_nat (List.length
                        (filter (fun m => String.eqb (Acmi.coalition m) c
                                          && attributable ps m)
                                (air_to_air_of acmi))).
Proof.
  intros acmi Hsz. destruct (analyze_defined acmi Hsz) as [ps Hrun].
  exists ps. split; [exact Hrun|]. intros c.
  destruct (final_profiles _ acmi ps Hrun) as [Hk Hp].
  destruct (usage_same_profiles acmi) as [Hk' _].
  destruct (pilots_state_facts acmi) as (Hnd & _ & Hf).
  assert (Hnd' : NoDup (PyDict.keys ps)) by (rewrite Hk; exact Hnd).
  assert (E1 : coalition_fired ps c = coalition_fired (usage_state acmi) c).
  { rewrite !coalition_fired_dict_sum.
    rewrite (dict_sum_keys _ default_stats ps Hnd').
    rewrite (dict_sum_keys _ default_stats _ (usage_state_wf acmi)).
    rewrite Hk, Hk'. f_equal. apply map_ext. intros q.
    fold (stats_of ps q). fold (stats_of (usage_state acmi) q).
    destruct (Hp q) as (_ & Hc & _ & Hm & _).
    destruct (same_profiles_type _ _ q (usage_same_profiles acmi)) as [_ Hc'].
    now rewrite Hc, Hm, Hc'. }
  assert (E0 : coalition_fired (pilots_state acmi) c = 0).
  { rewrite coalition_fired_dict_sum.
    rewrite (dict_sum_keys _ default_stats _ Hnd).
    rewrite (map_ext _ (fun _ => 0)); [apply sum_Z_zero|].
    intros q. fold (stats_of (pilots_state acmi) q).
    destruct (Hf q) as (-> & _). now destruct (String.eqb _ c). }
  rewrite E1. unfold usage_state.
  rewrite (coalition_fired_usage c _ _ Hnd), E0. cbn [Z.add].
  do 2 f_equal. apply filter_ext. intros m. f_equal.
  unfold attributable, has_eligible.
  now rewrite (final_eligible _ acmi ps _ _ Hrun).
Qed.

Lemma coalition_missiles_conserved_witness :
  sized some_dropped
  /\ exists ps,
      analyze_combat_data some_dropped = Some ps
      /\ forall c,
          coalition_fired ps c
          = Z.of_nat (List.length
                        (filter (fun m => String.eqb (Acmi.coalition m) c
                                          && attributable ps m)
                                (air_to_air_of some_dropped))).
Proof.
  assert (Hsz : sized some_dropped)
    by (unfold sized, PyFloat.max_size; simpl; lia).
  split; [exact Hsz | exact (coalition_missiles_conserved some_dropped Hsz)].
Defined.

End CoalitionClaims.

(** ** The first analyzer *)

Section BasicEntries.
Import Acmi CombatAnalyzer Examples Spec BasicSpec PilotSpec LaunchSpec.

Lemma analyze_plane_keys_step acmi ps a :
  PyDict.keys (analyze_plane acmi ps a)
  = match PyStr.truthy (pilot a) with
    | Some p => if PyStr.mem p (PyDict.keys ps) then PyDict.keys ps
                else PyDict.keys ps ++ [p]
    | None => PyDict.keys ps
    end.
Proof.
  unfold analyze_plane. destruct (PyStr.truthy (pilot a)) as [p|]; [|reflexivity].
  set (ps1 := if PyDict.mem ps p then ps else PyDict.set ps p (new_stats p a)).
  assert (H1 : PyDict.keys ps1
               = if PyStr.mem p (PyDict.keys ps) then PyDict.keys ps
                 else PyDict.keys ps ++ [p]).
  { unfold ps1. destruct (PyDict.mem ps p) eqn:Em.
    - apply mem_true_iff in Em. now rewrite (mem_in_true _ _ Em).
    - assert (Hn : ~ In p (PyDict.keys ps)).
      { intros Hin. apply mem_true_iff in Hin. congruence. }
      rewrite keys_set_new by exact Hn.
      destruct (PyStr.mem p (PyDict.keys ps)) eqn:E; [|reflexivity].
      apply mem_true_in in E. contradiction. }
  assert (Hin1 : In p (PyDict.keys ps1)).
  { rewrite H1. destruct (PyStr.mem p (PyDict.keys ps)) eqn:E.
    - now apply mem_true_in.
    - apply in_or_app. right. now left. }
  destruct (obj_in a (removed_objects acmi)); [|exact H1].
  now rewrite keys_set_old.
Qed.

Lemma analyze_aircraft_keys acmi l :
  PyDict.keys (analyze_aircraft acmi [] l) = first_seen (named_pilots l).
Proof.
  unfold analyze_aircraft.
  enough (H : forall l ps,
             PyDict.keys (fold_left (analyze_plane acmi) l ps)
             = fold_left (fun acc p => if PyStr.mem p acc then acc else acc ++ [p])
                         (named_pilots l) (PyDict.keys ps)).
  { rewrite H, first_seen_fold. cbn [PyDict.keys map app].
    rewrite <- (filter_ext (fun _ => true)) by reflexivity.
    clear. induction (first_seen (named_pilots l)) as [|x l' IH];
      cbn [filter]; congruence. }
  clear l. induction l as [|a l IH]; intros ps; cbn [fold_left named_pilots flat_map];
    [reflexivity|].
  rewrite IH, analyze_plane_keys_step, fold_left_app.
  destruct (PyStr.truthy (pilot a)) as [p|]; reflexivity.
Qed.

(** The name of an entry is its key, as long as no entry is made by the
    [defaultdict]. *)
Lemma analyze_plane_names acmi ps a :
  (forall p, In p (PyDict.keys ps) -> pilot_name (stats_of ps p) = p) ->
  forall p, In p (PyDict.keys (analyze_plane acmi ps a)) ->
            pilot_name (stats_of (analyze_plane acmi ps a) p) = p.
Proof.
  intros Hn p. unfold analyze_plane.
  destruct (PyStr.truthy (pilot a)) as [q|]; [|apply Hn].
  set (ps1 := if PyDict.mem ps q then ps else PyDict.set ps q (new_stats q a)).
  assert (H1 : forall p, In p (PyDict.keys ps1) -> pilot_name (stats_of ps1 p) = p).
  { unfold ps1. intros p'. destruct (PyDict.mem ps q); [apply Hn|].
    rewrite in_keys_set. destruct (string_dec q p') as [<-|Hne].
    - intros _. now rewrite basic_stats_of_set_same.
    - rewrite basic_stats_of_set_other by exact Hne.
      intros [->|H]; [contradiction | now apply Hn]. }
  destruct (obj_in a (removed_objects acmi)); [|apply H1].
  rewrite in_keys_set. destruct (string_dec q p) as [<-|Hne].
  - intros _. rewrite basic_stats_of_set_same. cbn [pilot_name with_deaths].
    apply H1. unfold ps1. destruct (PyDict.mem ps q) eqn:Em.
    + now apply mem_true_iff.
    + apply in_keys_set. now left.
  - rewrite basic_stats_of_set_other by exact Hne.
    intros [->|H]; [contradiction | now apply H1].
Qed.

Lemma find_pilot_named acmi object_id q :
  PyStr.truthy (find_pilot_by_object_id acmi object_id) = Some q ->
  In q (named_pilots (aircraft_of acmi)).
Proof.
  unfold find_pilot_by_object_id. intros H.
  destruct (find _ (all_objects acmi)) as [obj|] eqn:E; [|discriminate H].
  apply find_some in E as [Hin Hf].
  apply truthy_some in H as [Hp Hne].
  apply named_pilots_in. split; [exact Hne|]. exists obj. split; [|exact Hp].
  unfold aircraft_of. apply filter_In. split; [exact Hin|].
  destruct (json_ID obj); [|discriminate Hf].
  now apply andb_true_iff in Hf as [_ Hf].
Qed.

Lemma launcher_named acmi m q :
  launcher acmi m = Some q -> In q (named_pilots (aircraft_of acmi)).
Proof.
  unfold launcher. destruct (PyStr.any_in _ _); [|discriminate].
  destruct (PyStr.truthy (json_Parent m)) as [parent_id|]; [|discriminate].
  apply find_pilot_named.
Qed.

Lemma analyze_missile_launcher acmi ps m :
  analyze_missile acmi ps m
  = match launcher acmi m with
    | Some q => PyDict.set ps q (with_missile (stats_of ps q) (missile_name m))
    | None => ps
    end.
Proof.
  unfold analyze_missile, launcher, missile_name. cbv zeta.
  destruct (PyStr.any_in _ _); [|reflexivity].
  destruct (PyStr.truthy (json_Parent m)) as [parent_id|]; [|reflexivity].
  destruct (PyStr.truthy (find_pilot_by_object_id acmi parent_id)); reflexivity.
Qed.

(** The state of one pilot after the missiles. *)
Lemma analyze_missiles_launched acmi l : forall ps p,
  let mine := filter (launched_by acmi p) l in
  missiles_fired (stats_of (analyze_missiles acmi ps l) p)
  = missiles_fired (stats_of ps p) + Z.of_nat (List.length mine)
  /\ missiles_fired_list (stats_of (analyze_missiles acmi ps l) p)
     = missiles_fired_list (stats_of ps p) ++ map missile_name mine.
Proof.
  unfold analyze_missiles.
  induction l as [|m l IH]; intros ps p; cbv zeta; cbn [fold_left filter].
  - cbn [List.length map]. rewrite app_nil_r. split; [lia | reflexivity].
  - destruct (IH (analyze_missile acmi ps m) p) as [Hn Hl]. cbv zeta in Hn, Hl.
    rewrite Hn, Hl. rewrite analyze_missile_launcher. unfold launched_by.
    destruct (launcher acmi m) as [q|]; [|split; reflexivity].
    destruct (String.eqb q p) eqn:E.
    + apply String.eqb_eq in E. subst q. rewrite basic_stats_of_set_same.
      cbn [missiles_fired missiles_fired_list with_missile List.length map].
      rewrite <- app_assoc. split; [lia | reflexivity].
    + apply String.eqb_neq in E. rewrite basic_stats_of_set_other by exact E.
      split; reflexivity.
Qed.

Lemma analyze_missiles_entries acmi l : forall ps,
  (forall q, In q (named_pilots (aircraft_of acmi)) -> In q (PyDict.keys ps)) ->
  (forall p, In p (PyDict.keys ps) -> pilot_name (stats_of ps p) = p) ->
  PyDict.keys (analyze_missiles acmi ps l) = PyDict.keys ps
  /\ forall p, In p (PyDict.keys ps) ->
               pilot_name (stats_of (analyze_missiles acmi ps l) p) = p.
Proof.
  unfold analyze_missiles.
  induction l as [|m l IH]; intros ps Hall Hn; cbn [fold_left]; [split; auto|].
  assert (Hk : PyDict.keys (analyze_missile acmi ps m) = PyDict.keys ps).
  { rewrite analyze_missile_launcher.
    destruct (launcher acmi m) as [q|] eqn:E; [|reflexivity].
    apply keys_set_old, Hall. now apply (launcher_named acmi m). }
  assert (Hn' : forall p, In p (PyDict.keys ps) ->
                          pilot_name (stats_of (analyze_missile acmi ps m) p) = p).
  { intros p Hp. rewrite analyze_missile_launcher.
    destruct (launcher acmi m) as [q|]; [|now apply Hn].
    destruct (string_dec q p) as [->|Hne].
    - rewrite basic_stats_of_set_same. cbn [pilot_name with_missile]. now apply Hn.
    - rewrite basic_stats_of_set_other by exact Hne. now apply Hn. }
  destruct (IH (analyze_missile acmi ps m)) as [Hk2 Hn2].
  - intros q Hq. rewrite Hk. now apply Hall.
  - intros p Hp. rewrite Hk in Hp. now apply Hn'.
  - split; [congruence|]. intros p Hp. apply Hn2. now rewrite Hk.
Qed.

End BasicEntries.

Section BasicKills.
Import Acmi CombatAnalyzer Examples Spec BasicSpec PilotSpec LaunchSpec.

Lemma filter_length_set {V} (f : V -> bool) (d : PyDict.dict V) k v v' :
  PyDict.get d k = Some v -> f v' = f v ->
  List.length (filter f (PyDict.values (PyDict.set d k v')))
  = List.length (filter f (PyDict.values d)).
Proof.
  intros Hget Hf. induction d as [|[k0 v0] d IH]; [discriminate Hget|].
  cbn [PyDict.get] in Hget. cbn [PyDict.set].
  destruct (String.eqb k0 k).
  - injection Hget as ->. unfold PyDict.values. cbn [map filter snd].
    rewrite Hf. now destruct (f v).
  - unfold PyDict.values in *. cbn [map filter snd].
    destruct (f v0); cbn [List.length]; now rewrite (IH Hget).
Qed.

Lemma shooters_in_set ps p k c :
  In p (PyDict.keys ps) ->
  shooters_in (PyDict.set ps p (with_kills (stats_of ps p) k)) c = shooters_in ps c.
Proof.
  intros Hin. unfold shooters_in. f_equal.
  apply in_keys_get in Hin as [s Hs].
  apply (filter_length_set _ ps p s); [exact Hs|].
  unfold stats_of, PyDict.get_default. now rewrite Hs.
Qed.

Lemma shooters_in_pos ps p :
  In p (PyDict.keys ps) -> 0 < missiles_fired (stats_of ps p) ->
  1 <= shooters_in ps (coalition (stats_of ps p)).
Proof.
  intros Hin Hpos. unfold shooters_in. set (s := stats_of ps p).
  assert (Hs : In s (filter (fun s' => String.eqb (coalition s') (coalition s)
                                       && (missiles_fired s' >? 0))
                            (PyDict.values ps))).
  { apply filter_In. split.
    - unfold s, stats_of, PyDict.get_default.
      apply in_keys_get in Hin as [v Hv]. rewrite Hv.
      apply get_in in Hv. unfold PyDict.values.
      change v with (snd (p, v)). now apply in_map.
    - rewrite String.eqb_refl. cbn [andb]. apply Z.gtb_lt. exact Hpos. }
  destruct (filter _ (PyDict.values ps)); [destruct Hs | simpl List.length; lia].
Qed.

Lemma expected_kills_nonneg fired losses shooters :
  0 <= losses -> 1 <= shooters ->
  0 <= expected_kills fired losses shooters
  /\ (0 <= fired -> 2 * expected_kills fired losses shooters <= fired)
  /\ expected_kills fired losses shooters <= losses.
Proof.
  intros HL HK. unfold expected_kills.
  destruct (Z.ltb_spec 0 fired) as [Hf|Hf]; cbn [andb]; [|lia].
  destruct (Z.ltb_spec 0 losses) as [Hl|Hl]; [|lia].
  pose proof (Z.div_pos fired 2 ltac:(lia) ltac:(lia)) as H1.
  pose proof (Z.mul_div_le fired 2 ltac:(lia)) as H2.
  pose proof (Z.div_pos losses shooters ltac:(lia) ltac:(lia)) as H3.
  assert (H4 : losses / shooters <= losses)
    by (apply Z.div_le_upper_bound; nia).
  destruct (Z.eqb_spec (losses / shooters) 0); lia.
Qed.

Section Loop.
Variable removed_aircraft : list AcmiObject.
Variable ps0 : pilot_stats.
Hypothesis kills_zero : forall q, air_to_air_kills (stats_of ps0 q) = 0.

Lemma with_kills_zero q : with_kills (stats_of ps0 q) 0 = stats_of ps0 q.
Proof.
  pose proof (kills_zero q) as H. destruct (stats_of ps0 q). cbn in *. now subst.
Qed.

Lemma basic_step cur p :
  reached removed_aircraft ps0 cur -> In p (PyDict.keys ps0) ->
  exists cur',
    estimate_kills removed_aircraft cur p = Some cur'
    /\ reached removed_aircraft ps0 cur'
    /\ stats_of cur' p = with_kills (stats_of ps0 p) (estimate removed_aircraft ps0 p)
    /\ forall q, q <> p -> stats_of cur' q = stats_of cur q.
Proof.
  intros (Hk & Hsh & Hst) Hin.
  assert (Hs : missiles_fired (stats_of cur p) = missiles_fired (stats_of ps0 p)
               /\ coalition (stats_of cur p) = coalition (stats_of ps0 p)
               /\ forall k, with_kills (stats_of cur p) k = with_kills (stats_of ps0 p) k).
  { destruct (Hst p) as [->| ->]; repeat split. }
  destruct Hs as (Hm & Hc & Hw).
  unfold estimate_kills. cbv zeta. rewrite Hm, Hc.
  set (s0 := stats_of ps0 p) in *.
  set (L := losses_of removed_aircraft (enemy_of (coalition s0))).
  assert (HL : 0 <= L) by (unfold L, losses_of; lia).
  assert (Hidle : (0 <? missiles_fired s0) && (0 <? L) = false ->
                  stats_of cur p = with_kills s0 (estimate removed_aircraft ps0 p)).
  { intros E. unfold estimate, expected_kills. fold s0. fold L. rewrite E.
    unfold s0. rewrite with_kills_zero. fold s0.
    destruct (Hst p) as [H|H]; [exact H|].
    rewrite H. unfold estimate, expected_kills. fold s0. fold L. rewrite E.
    unfold s0. apply with_kills_zero. }
  destruct (Z.gtb_spec (missiles_fired s0) 0) as [Hf|Hf].
  2:{ exists cur. split; [reflexivity|]. split; [repeat split; assumption|].
      split; [|reflexivity]. apply Hidle.
      destruct (Z.ltb_spec 0 (missiles_fired s0)); [lia | reflexivity]. }
  destruct (Z.gtb_spec L 0) as [Hl|Hl]; cbn [andb].
  2:{ exists cur. split; [reflexivity|]. split; [repeat split; assumption|].
      split; [|reflexivity]. apply Hidle.
      destruct (Z.ltb_spec 0 L); [lia | apply andb_false_r]. }
  rewrite Hsh.
  pose proof (shooters_in_pos ps0 p Hin ltac:(fold s0; lia)) as HK. fold s0 in HK.
  set (K := shooters_in ps0 (coalition s0)) in *.
  destruct (Z.eqb_spec K 0) as [HK0|_]; [lia|].
  eexists. split; [reflexivity|].
  assert (Hval : Z.max 0 (Z.min (missiles_fired s0 / 2)
                                (if L / K =? 0 then 1 else L / K))
                 = estimate removed_aircraft ps0 p).
  { unfold estimate, expected_kills. fold s0. fold L. fold K.
    destruct (Z.ltb_spec 0 (missiles_fired s0)); [|lia].
    destruct (Z.ltb_spec 0 L); [|lia]. cbn [andb].
    pose proof (Z.div_pos (missiles_fired s0) 2 ltac:(lia) ltac:(lia)).
    pose proof (Z.div_pos L K ltac:(lia) ltac:(lia)).
    destruct (Z.eqb_spec (L / K) 0); lia. }
  rewrite Hval, Hw.
  assert (Hinc : In p (PyDict.keys cur)) by (rewrite Hk; exact Hin).
  split; [|split].
  - split; [|split].
    + rewrite keys_set_old by exact Hinc. exact Hk.
    + intros c. rewrite <- Hsh, <- (Hw (estimate removed_aircraft ps0 p)). now apply shooters_in_set.
    + intros q. destruct (string_dec p q) as [<-|Hne].
      * right. apply basic_stats_of_set_same.
      * rewrite basic_stats_of_set_other by exact Hne. apply Hst.
  - apply basic_stats_of_set_same.
  - intros q Hne. apply basic_stats_of_set_other. congruence.
Qed.

Lemma basic_loop l : forall cur,
  reached removed_aircraft ps0 cur -> (forall q, In q l -> In q (PyDict.keys ps0)) ->
  exists ps,
    estimate_all removed_aircraft cur l = Some ps
    /\ reached removed_aircraft ps0 ps
    /\ forall q,
        In q l \/ stats_of cur q = with_kills (stats_of ps0 q) (estimate removed_aircraft ps0 q) ->
        stats_of ps q = with_kills (stats_of ps0 q) (estimate removed_aircraft ps0 q).
Proof.
  induction l as [|p l IH]; intros cur Hr Hl; cbn [estimate_all].
  - exists cur. split; [reflexivity|]. split; [exact Hr|].
    intros q [[]|H]. exact H.
  - destruct (basic_step cur p Hr (Hl p (or_introl eq_refl)))
      as (cur' & -> & Hr' & Hp & Hother).
    destruct (IH cur' Hr' (fun q Hq => Hl q (or_intror Hq))) as (ps & Hrun & Hrp & Hfin).
    exists ps. split; [exact Hrun|]. split; [exact Hrp|].
    intros q Hq. apply Hfin.
    destruct (string_dec q p) as [->|Hne]; [right; exact Hp|].
    destruct Hq as [[Hq|Hq]|Hq]; [congruence | now left |].
    right. now rewrite Hother.
Qed.

(** The whole loop of [calculate_kill_statistics]. *)
Lemma basic_estimation :
  exists ps,
    estimate_all removed_aircraft ps0 (PyDict.keys ps0) = Some ps
    /\ PyDict.keys ps = PyDict.keys ps0
    /\ (forall c, shooters_in ps c = shooters_in ps0 c)
    /\ forall q, stats_of ps q = with_kills (stats_of ps0 q)
                                   (if PyDict.mem ps0 q then estimate removed_aircraft ps0 q else 0).
Proof.
  assert (Hr0 : reached removed_aircraft ps0 ps0) by (repeat split; auto).
  destruct (basic_loop (PyDict.keys ps0) ps0 Hr0 (fun q H => H))
    as (ps & Hrun & (Hk & Hsh & Hst) & Hfin).
  exists ps. split; [exact Hrun|]. split; [exact Hk|]. split; [exact Hsh|].
  intros q. destruct (PyDict.mem ps0 q) eqn:Em.
  - apply Hfin. left. now apply mem_true_iff.
  - assert (Hn : ~ In q (PyDict.keys ps0)).
    { intros H. apply mem_true_iff in H. congruence. }
    rewrite with_kills_zero.
    rewrite (basic_stats_of_missing ps0 q Hn).
    apply basic_stats_of_missing. now rewrite Hk.
Qed.

End Loop.

End BasicKills.

Section BasicClaims.
Import Acmi CombatAnalyzer Examples Spec BasicSpec PilotSpec LaunchSpec.

(** The state that [calculate_kill_statistics] starts with. *)
Lemma basic_before acmi :
  let ps1 := analyze_aircraft acmi [] (aircraft_of acmi) in
  let ps2 := analyze_missiles acmi ps1 (missiles_of acmi) in
  PyDict.keys ps2 = first_seen (named_pilots (aircraft_of acmi))
  /\ (forall p, In p (PyDict.keys ps2) -> pilot_name (stats_of ps2 p) = p)
  /\ (forall p, air_to_air_kills (stats_of ps2 p) = 0)
  /\ (forall p,
         missiles_fired (stats_of ps2 p)
         = Z.of_nat (List.length (filter (launched_by acmi p) (missiles_of acmi)))
         /\ missiles_fired_list (stats_of ps2 p)
            = map missile_name (filter (launched_by acmi p) (missiles_of acmi))).
Proof.
  intros ps1 ps2.
  assert (Hk1 : PyDict.keys ps1 = first_seen (named_pilots (aircraft_of acmi)))
    by apply analyze_aircraft_keys.
  assert (Hn1 : forall p, In p (PyDict.keys ps1) -> pilot_name (stats_of ps1 p) = p).
  { unfold ps1, analyze_aircraft.
    apply (fold_left_inv _ _ (analyze_plane acmi)
             (fun ps => forall p, In p (PyDict.keys ps) -> pilot_name (stats_of ps p) = p)).
    - intros ps a H. now apply analyze_plane_names.
    - intros p []. }
  destruct (analyze_missiles_entries acmi (missiles_of acmi) ps1) as [Hk2 Hn2];
    [intros q Hq; rewrite Hk1; now apply first_seen_in | exact Hn1 |].
  fold ps2 in Hk2, Hn2.
  split; [congruence|]. split; [intros p Hp; apply Hn2; now rewrite <- Hk2|].
  split.
  - intros p.
    destruct (analyze_aircraft_stats acmi (aircraft_of acmi) [] p) as (_ & _ & Hk).
    destruct (analyze_missiles_stats acmi (missiles_of acmi) ps1 p) as (_ & _ & Hk').
    fold ps1 in Hk. fold ps2 in Hk'. rewrite Hk', Hk. reflexivity.
  - intros p.
    destruct (analyze_aircraft_stats acmi (aircraft_of acmi) [] p) as (_ & Hm & _).
    fold ps1 in Hm.
    pose proof (analyze_missiles_launched acmi (missiles_of acmi) ps1 p) as H.
    cbv zeta in H. fold ps2 in H. destruct H as [Hf Hl].
    assert (Hl1 : missiles_fired_list (stats_of ps1 p) = []).
    { unfold ps1, analyze_aircraft.
      apply (fold_left_inv _ _ (analyze_plane acmi)
               (fun ps => missiles_fired_list (stats_of ps p) = [])); [|reflexivity].
      intros ps a H. unfold analyze_plane.
      destruct (PyStr.truthy (pilot a)) as [q|]; [|exact H].
      set (ps' := if PyDict.mem ps q then ps else PyDict.set ps q (new_stats q a)).
      assert (H' : missiles_fired_list (stats_of ps' p) = []).
      { unfold ps'. destruct (PyDict.mem ps q); [exact H|].
        destruct (string_dec q p) as [->|Hne].
        - now rewrite basic_stats_of_set_same.
        - now rewrite basic_stats_of_set_other. }
      destruct (obj_in a (removed_objects acmi)); [|exact H'].
      destruct (string_dec q p) as [->|Hne].
      - rewrite basic_stats_of_set_same. exact H'.
      - now rewrite basic_stats_of_set_other. }
    rewrite Hf, Hl, Hm, Hl1. split; reflexivity.
Qed.

(** The result of [run_analysis], from the state before the estimation. *)
Lemma basic_after acmi :
  let ps2 := analyze_missiles acmi (analyze_aircraft acmi [] (aircraft_of acmi))
                              (missiles_of acmi) in
  let removed_aircraft := filter is_plane (removed_objects acmi) in
  exists ps,
    run_analysis acmi = Some ps
    /\ PyDict.keys ps = PyDict.keys ps2
    /\ (forall c, shooters_in ps c = shooters_in ps2 c)
    /\ forall q, stats_of ps q
                 = with_kills (stats_of ps2 q)
                     (if PyDict.mem ps2 q then estimate removed_aircraft ps2 q else 0).
Proof.
  intros ps2 removed_aircraft.
  destruct (basic_before acmi) as (_ & _ & Hz & _). cbv zeta in Hz. fold ps2 in Hz.
  exact (basic_estimation removed_aircraft ps2 Hz).
Qed.

(** X8. The entries of the first analyzer.  [run_analysis] makes one
    entry for every non-empty pilot name of an aircraft, in first-seen
    order, and the name stored in an entry is its key: crediting a
    missile never makes the [defaultdict] create an entry, because a
    launcher found through [Parent] is the pilot of an aircraft. *)
Theorem basic_pilot_entries :
  forall acmi : Recording,
    exists ps,
      run_analysis acmi = Some ps
      /\ PyDict.keys ps = first_seen (named_pilots (aircraft_of acmi))
      /\ forall p, In p (PyDict.keys ps) -> pilot_name (stats_of ps p) = p.
Proof.
  intros acmi. pose proof (basic_after acmi) as H. cbv zeta in H.
  destruct H as (ps & Hrun & Hk & _ & Hst).
  pose proof (basic_before acmi) as H. cbv zeta in H. destruct H as (Hk2 & Hn2 & _).
  exists ps. split; [exact Hrun|]. split; [congruence|].
  intros p Hp. rewrite Hst. cbn [pilot_name with_kills]. apply Hn2. now rewrite <- Hk.
Qed.

Lemma basic_pilot_entries_witness :
  exists ps,
    run_analysis with_parents = Some ps
    /\ PyDict.keys ps = first_seen (named_pilots (aircraft_of with_parents))
    /\ forall p, In p (PyDict.keys ps) -> pilot_name (stats_of ps p) = p.
Proof. exact (basic_pilot_entries with_parents). Defined.

(** X9. Launches of the first analyzer.  A pilot's [missiles_fired] is
    the number of air-to-air missiles, alive or removed, whose [Parent]
    is the [ID] of an aircraft flown by the pilot (the first aircraft
    with that [ID]), and [missiles_fired_list] holds the names of these
    missiles in the order of the recording. *)
Theorem launches_counted :
  forall acmi : Recording,
    exists ps,
      run_analysis acmi = Some ps
      /\ forall p,
          missiles_fired (stats_of ps p)
          = Z.of_nat (List.length (filter (launched_by acmi p) (missiles_of acmi)))
          /\ missiles_fired_list (stats_of ps p)
             = map missile_name (filter (launched_by acmi p) (missiles_of acmi)).
Proof.
  intros acmi. pose proof (basic_after acmi) as H. cbv zeta in H.
  destruct H as (ps & Hrun & _ & _ & Hst).
  pose proof (basic_before acmi) as H. cbv zeta in H. destruct H as (_ & _ & _ & Hl).
  exists ps. split; [exact Hrun|]. intros p. rewrite Hst.
  cbn [missiles_fired missiles_fired_list with_kills]. apply Hl.
Qed.

Lemma launches_counted_witness :
  exists ps,
    run_analysis with_parents = Some ps
    /\ forall p,
        missiles_fired (stats_of ps p)
        = Z.of_nat (List.length (filter (launched_by with_parents p)
                                        (missiles_of with_parents)))
        /\ missiles_fired_list (stats_of ps p)
           = map missile_name (filter (launched_by with_parents p)
                                      (missiles_of with_parents)).
Proof. exact (launches_counted with_parents). Defined.

(** X10. The estimate of the first analyzer.  [run_analysis] never
    divides by zero: a pilot that fired is one of the shooters of its
    coalition.  Every pilot ends with
    [min(fired // 2, losses // shooters or 1)] kills when the pilot fired
    and the enemy lost an aircraft, and with 0 otherwise; the estimate
    is at most half the missiles fired and at most the enemy losses, so
    that the [max(0, ...)] of the source changes nothing. *)
Theorem basic_kill_estimate :
  forall acmi : Recording,
    exists ps,
      run_analysis acmi = Some ps
      /\ forall p,
          In p (PyDict.keys ps) ->
          let s := stats_of ps p in
          let losses := losses_of (filter is_plane (removed_objects acmi))
                                  (enemy_of (coalition s)) in
          let shooters := shooters_in ps (coalition s) in
          (0 < missiles_fired s -> 1 <= shooters)
          /\ air_to_air_kills s = expected_kills (missiles_fired s) losses shooters
          /\ 0 <= 2 * air_to_air_kills s <= missiles_fired s
          /\ air_to_air_kills s <= losses.
Proof.
  intros acmi. pose proof (basic_after acmi) as H. cbv zeta in H.
  destruct H as (ps & Hrun & Hk & Hsh & Hst).
  pose proof (basic_before acmi) as H. cbv zeta in H. destruct H as (_ & _ & _ & Hl).
  exists ps. split; [exact Hrun|]. intros p Hp. cbv zeta.
  set (ps2 := analyze_missiles acmi (analyze_aircraft acmi [] (aircraft_of acmi))
                               (missiles_of acmi)) in *.
  assert (Hp2 : In p (PyDict.keys ps2)) by (rewrite <- Hk; exact Hp).
  rewrite Hst, Hsh. apply mem_true_iff in Hp2. rewrite Hp2.
  cbn [missiles_fired coalition air_to_air_kills with_kills].
  apply mem_true_iff in Hp2.
  assert (Hf : 0 <= missiles_fired (stats_of ps2 p)) by (destruct (Hl p) as [-> _]; lia).
  set (s := stats_of ps2 p) in *.
  set (L := losses_of (filter is_plane (removed_objects acmi)) (enemy_of (coalition s))).
  assert (HL : 0 <= L) by (unfold L, losses_of; lia).
  assert (HK : 0 < missiles_fired s -> 1 <= shooters_in ps2 (coalition s)).
  { intros Hpos. now apply shooters_in_pos. }
  split; [exact HK|]. unfold estimate. fold s. fold L.
  split; [reflexivity|].
  destruct (Z.ltb_spec 0 (missiles_fired s)) as [Hpos|Hle].
  - destruct (expected_kills_nonneg (missiles_fired s) L
                (shooters_in ps2 (coalition s)) HL (HK Hpos)) as (H1 & H2 & H3).
    specialize (H2 Hf). lia.
  - unfold expected_kills.
    destruct (Z.ltb_spec 0 (missiles_fired s)); [lia|]. cbn [andb]. lia.
Qed.

Lemma basic_kill_estimate_witness :
  exists ps,
    run_analysis with_parents = Some ps
    /\ forall p,
        In p (PyDict.keys ps) ->
        (0 < missiles_fired (stats_of ps p) ->
         1 <= shooters_in ps (coalition (stats_of ps p)))
        /\ air_to_air_kills (stats_of ps p)
           = expected_kills (missiles_fired (stats_of ps p))
               (losses_of (filter is_plane (removed_objects with_parents))
                          (enemy_of (coalition (stats_of ps p))))
               (shooters_in ps (coalition (stats_of ps p)))
        /\ 0 <= 2 * air_to_air_kills (stats_of ps p) <= missiles_fired (stats_of ps p)
        /\ air_to_air_kills (stats_of ps p)
           <= losses_of (filter is_plane (removed_objects with_parents))
                        (enemy_of (coalition (stats_of ps p))).
Proof. exact (basic_kill_estimate with_parents). Defined.

End BasicClaims.

(** ** The coalition breakdown *)

Section Breakdown.
Import Acmi ImprovedCombatAnalyzer Examples Spec PilotSpec Report.

Lemma sum_Z_snoc xs x : sum_Z (xs ++ [x]) = sum_Z xs + x.
Proof. rewrite sum_Z_app, sum_Z_cons. change (sum_Z []) with 0. lia. Qed.

Lemma coalitions_of_fold ps :
  coalitions_of ps = fold_left breakdown_step (PyDict.values ps) [].
Proof. reflexivity. Qed.

Lemma totals_of_snoc group s :
  totals_of (group ++ [s]) = add_pilot (totals_of group) s.
Proof.
  unfold totals_of, add_pilot. cbn [c_pilots c_survivors c_missiles c_kills c_deaths].
  rewrite filter_app, !length_app, !map_app. cbn [filter map].
  rewrite !sum_Z_snoc.
  f_equal; try (cbn [List.length]; lia).
  destruct (survived s); cbn [List.length]; lia.
Qed.

Lemma breakdown_step_get d stats c group :
  PyDict.get_default no_totals d c = totals_of group ->
  PyDict.get_default no_totals (breakdown_step d stats) c
  = totals_of (group ++ (if String.eqb (coalition stats) c then [stats] else [])).
Proof.
  intros Hg. unfold breakdown_step. cbv zeta.
  set (c1 := coalition stats).
  set (d1 := if PyDict.mem d c1 then d else PyDict.set d c1 no_totals).
  assert (H1 : PyDict.get_default no_totals d1 c = PyDict.get_default no_totals d c).
  { unfold d1. destruct (PyDict.mem d c1) eqn:Em; [reflexivity|].
    destruct (string_dec c1 c) as [<-|Hne].
    - rewrite get_default_set_same. unfold PyDict.get_default, PyDict.mem in *.
      now destruct (PyDict.get d c1).
    - now rewrite get_default_set_other. }
  destruct (String.eqb c1 c) eqn:E.
  - apply String.eqb_eq in E. subst c. rewrite get_default_set_same, H1, Hg.
    now rewrite totals_of_snoc.
  - apply String.eqb_neq in E. rewrite get_default_set_other by exact E.
    now rewrite app_nil_r, H1.
Qed.

Lemma coalitions_of_get ps c :
  PyDict.get_default no_totals (coalitions_of ps) c
  = totals_of (filter (fun s => String.eqb (coalition s) c) (PyDict.values ps)).
Proof.
  rewrite coalitions_of_fold.
  enough (H : forall l d group,
             PyDict.get_default no_totals d c = totals_of group ->
             PyDict.get_default no_totals (fold_left breakdown_step l d) c
             = totals_of (group ++ filter (fun s => String.eqb (coalition s) c) l)).
  { apply (H (PyDict.values ps) [] []). reflexivity. }
  induction l as [|s l IH]; intros d group Hg; cbn [fold_left filter].
  - now rewrite app_nil_r.
  - rewrite (IH _ (group ++ if String.eqb (coalition s) c then [s] else [])).
    + destruct (String.eqb (coalition s) c); now rewrite <- app_assoc.
    + now apply breakdown_step_get.
Qed.

Lemma breakdown_step_keys d stats c :
  In c (PyDict.keys (breakdown_step d stats))
  <-> c = coalition stats \/ In c (PyDict.keys d).
Proof.
  unfold breakdown_step. cbv zeta. rewrite in_keys_set.
  destruct (PyDict.mem d (coalition stats)); [tauto|].
  rewrite in_keys_set. tauto.
Qed.

Lemma coalitions_of_keys ps c :
  In c (PyDict.keys (coalitions_of ps))
  <-> exists s, In s (PyDict.values ps) /\ coalition s = c.
Proof.
  rewrite coalitions_of_fold.
  enough (H : forall l d,
             In c (PyDict.keys (fold_left breakdown_step l d))
             <-> In c (PyDict.keys d) \/ exists s, In s l /\ coalition s = c).
  { rewrite H. cbn [PyDict.keys map In]. tauto. }
  induction l as [|s l IH]; intros d; cbn [fold_left].
  - split; [tauto|]. intros [H|(s & [] & _)]. exact H.
  - rewrite IH, breakdown_step_keys. split.
    + intros [[->|H]|(s' & Hs & Hc)]; eauto.
      * right. exists s. split; [now left | reflexivity].
      * right. exists s'. split; [now right | exact Hc].
    + intros [H|(s' & [<-|Hs] & Hc)]; eauto.
Qed.

Lemma coalitions_of_nodup ps : NoDup (PyDict.keys (coalitions_of ps)).
Proof.
  rewrite coalitions_of_fold.
  apply (fold_left_inv _ _ breakdown_step
           (fun d => NoDup (PyDict.keys d))); [|constructor].
  intros d s Hd. unfold breakdown_step. cbv zeta.
  apply nodup_keys_set. destruct (PyDict.mem d (coalition s)); [exact Hd|].
  now apply nodup_keys_set.
Qed.

(** A figure of the breakdown, summed over the coalitions, is the figure
    summed over the pilots. *)
Lemma breakdown_sum (g : CoalitionTotals -> Z) (inc : PilotStats -> Z) ps :
  g no_totals = 0 ->
  (forall t s, g (add_pilot t s) = g t + inc s) ->
  dict_sum (fun _ t => g t) (coalitions_of ps) = sum_Z (map inc (PyDict.values ps)).
Proof.
  intros H0 Hadd. rewrite coalitions_of_fold.
  enough (H : forall l d,
             dict_sum (fun _ t => g t) (fold_left breakdown_step l d)
             = dict_sum (fun _ t => g t) d + sum_Z (map inc l)).
  { rewrite H, dict_sum_nil. lia. }
  induction l as [|s l IH]; intros d; cbn [fold_left map].
  - change (sum_Z []) with 0. lia.
  - rewrite IH, sum_Z_cons. unfold breakdown_step. cbv zeta.
    set (c := coalition s). rewrite dict_sum_set, Hadd.
    destruct (PyDict.mem d c) eqn:Em.
    + unfold PyDict.mem in Em. unfold PyDict.get_default.
      destruct (PyDict.get d c); [lia | discriminate].
    + rewrite get_set_same, dict_sum_set, get_default_set_same.
      unfold PyDict.mem in Em. destruct (PyDict.get d c); [discriminate | lia].
Qed.

(** X11. The coalition breakdown.  For every summary, the figures of a
    coalition are those of the pilots of that coalition (pilots,
    survivors, missiles, kills, deaths), the breakdown lists every
    coalition of a pilot once, and each figure summed over the
    coalitions is the corresponding total of the summary. *)
Theorem breakdown_adds_up :
  forall ps : pilot_stats,
    (forall c,
        PyDict.get_default no_totals (coalitions (summary_of ps)) c
        = totals_of (filter (fun s => String.eqb (coalition s) c) (PyDict.values ps)))
    /\ NoDup (PyDict.keys (coalitions (summary_of ps)))
    /\ (forall c,
           In c (PyDict.keys (coalitions (summary_of ps)))
           <-> exists s, In s (PyDict.values ps) /\ coalition s = c)
    /\ dict_sum (fun _ t => c_pilots t) (coalitions (summary_of ps))
       = total_pilots (summary_of ps)
    /\ dict_sum (fun _ t => c_survivors t) (coalitions (summary_of ps))
       = survivors (summary_of ps)
    /\ dict_sum (fun _ t => c_missiles t) (coalitions (summary_of ps))
       = total_missiles (summary_of ps)
    /\ dict_sum (fun _ t => c_kills t) (coalitions (summary_of ps))
       = total_kills (summary_of ps)
    /\ dict_sum (fun _ t => c_deaths t) (coalitions (summary_of ps))
       = total_deaths (summary_of ps).
Proof.
  intros ps. cbn [coalitions total_pilots survivors total_missiles total_kills
                  total_deaths summary_of].
  split; [apply coalitions_of_get|]. split; [apply coalitions_of_nodup|].
  split; [apply coalitions_of_keys|].
  split; [|split; [|split; [|split]]].
  - rewrite (breakdown_sum c_pilots (fun _ => 1)); [|reflexivity|reflexivity].
    unfold PyDict.values. rewrite map_map.
    clear. induction ps as [|x l IH]; [reflexivity|].
    cbn [map List.length]. rewrite sum_Z_cons, IH. lia.
  - apply (breakdown_sum c_survivors (fun s => if survived s then 1 else 0));
      [reflexivity|].
    intros t s. cbn [c_survivors add_pilot]. destruct (survived s); lia.
  - now apply (breakdown_sum c_missiles missiles_fired).
  - now apply (breakdown_sum c_kills air_to_air_kills).
  - now apply (breakdown_sum c_deaths deaths).
Qed.

End Breakdown.

(** ** The aircraft lost *)

Section Losses.
Import Acmi ImprovedCombatAnalyzer Examples Spec PilotSpec Report.

Lemma total_deaths_dict_sum ps :
  total_deaths (summary_of ps) = dict_sum (fun _ s => deaths s) ps.
Proof.
  cbn [total_deaths summary_of]. unfold dict_sum, PyDict.values. now rewrite map_map.
Qed.

Lemma deaths_sum_step alive_aircraft alive_pilots ps a :
  dict_sum (fun _ s => deaths s) (analyze_pilot alive_aircraft alive_pilots ps a)
  = dict_sum (fun _ s => deaths s) ps
    + (if named a && negb (obj_in a alive_aircraft) then 1 else 0).
Proof.
  unfold analyze_pilot, named.
  destruct (PyStr.truthy (pilot a)) as [q|]; cbn [andb]; [|lia].
  set (ps1 := if PyDict.mem ps q then ps
              else PyDict.set ps q (new_stats q a alive_pilots)).
  assert (H1 : dict_sum (fun _ s => deaths s) ps1 = dict_sum (fun _ s => deaths s) ps
               /\ exists s1, PyDict.get ps1 q = Some s1).
  { unfold ps1, PyDict.mem. destruct (PyDict.get ps q) as [s|] eqn:E.
    - split; [reflexivity | eauto].
    - split; [|rewrite get_set_same; eauto].
      rewrite dict_sum_set, E. cbn [deaths new_stats]. lia. }
  destruct H1 as [H1 (s1 & Hs1)].
  destruct (negb (obj_in a alive_aircraft)); [|lia].
  rewrite dict_sum_set, Hs1, H1. unfold stats_of, PyDict.get_default. rewrite Hs1.
  cbn [deaths with_deaths]. lia.
Qed.

Lemma deaths_sum_fold alive_aircraft alive_pilots l : forall ps,
  dict_sum (fun _ s => deaths s)
           (fold_left (analyze_pilot alive_aircraft alive_pilots) l ps)
  = dict_sum (fun _ s => deaths s) ps
    + Z.of_nat (List.length
                  (filter (fun a => named a && negb (obj_in a alive_aircraft)) l)).
Proof.
  induction l as [|a l IH]; intros ps; cbn [fold_left filter].
  - cbn [List.length]. lia.
  - rewrite IH, deaths_sum_step.
    destruct (named a && negb (obj_in a alive_aircraft)); cbn [List.length]; lia.
Qed.

Lemma values_via_keys ps :
  NoDup (PyDict.keys ps) -> PyDict.values ps = map (stats_of ps) (PyDict.keys ps).
Proof.
  intros Hnd. unfold PyDict.values.
  rewrite (items_via_keys _ default_stats ps Hnd) at 1. rewrite map_map.
  reflexivity.
Qed.

Lemma sum_Z_le_pointwise {A} (f g : A -> Z) l :
  (forall x, In x l -> f x <= g x) -> sum_Z (map f l) <= sum_Z (map g l).
Proof.
  induction l as [|x l IH]; intros H; [cbn; lia|].
  cbn [map]. rewrite !sum_Z_cons.
  pose proof (H x (or_introl eq_refl)).
  assert (sum_Z (map f l) <= sum_Z (map g l))
    by (apply IH; intros y Hy; apply H; now right).
  lia.
Qed.

Lemma sum_Z_ones {A} (l : list A) : sum_Z (map (fun _ => 1) l) = Z.of_nat (List.length l).
Proof.
  induction l as [|x l IH]; [reflexivity|].
  cbn [map List.length]. rewrite sum_Z_cons, IH. lia.
Qed.

(** The deaths of all pilots together, on every recording. *)
Lemma final_total_deaths h acmi ps :
  analyze_combat_data_with h acmi = Some ps ->
  total_deaths (summary_of ps)
  = Z.of_nat
      (List.length
         (filter (fun a => named a
                           && negb (obj_in a (filter is_plane (alive_objects acmi))))
                 (all_aircraft acmi))).
Proof.
  intros Hrun. destruct (final_profiles _ acmi ps Hrun) as [Hk Hp].
  destruct (pilots_state_facts acmi) as (Hnd & _).
  assert (Hnd' : NoDup (PyDict.keys ps)) by (rewrite Hk; exact Hnd).
  rewrite total_deaths_dict_sum.
  rewrite (dict_sum_keys _ default_stats ps Hnd').
  transitivity (dict_sum (fun _ s => deaths s) (pilots_state acmi)).
  - rewrite (dict_sum_keys _ default_stats _ Hnd), Hk. f_equal.
    apply map_ext. intros q. fold (stats_of ps q). fold (stats_of (pilots_state acmi) q).
    now destruct (Hp q) as (_ & _ & -> & _).
  - unfold pilots_state, analyze_pilots. rewrite deaths_sum_fold.
    rewrite dict_sum_nil. reflexivity.
Qed.

Lemma lost_on_partitioned acmi :
  partitioned acmi ->
  filter (fun a => named a && negb (obj_in a (filter is_plane (alive_objects acmi))))
         (all_aircraft acmi)
  = filter (fun a => is_plane a && named a) (removed_objects acmi).
Proof.
  intros Hpart0. pose proof (partitioned_spec acmi Hpart0) as Hpart.
  unfold all_aircraft. rewrite filter_app.
  set (alive_aircraft := filter is_plane (alive_objects acmi)).
  rewrite (filter_none _ alive_aircraft).
  2:{ intros a Ha. rewrite (obj_in_self a _ Ha). apply andb_false_r. }
  cbn [app]. rewrite filter_filter. apply filter_ext_in. intros r Hr.
  destruct (is_plane r); cbn [andb]; [|reflexivity].
  rewrite (obj_in_false r alive_aircraft); [apply andb_true_r|].
  intros b Hb. apply filter_In in Hb as [Hb _]. now apply Hpart.
Qed.

Lemma lost_bound acmi :
  (List.length
     (filter (fun a => named a && negb (obj_in a (filter is_plane (alive_objects acmi))))
             (all_aircraft acmi))
   <= List.length (filter is_plane (removed_objects acmi)))%nat.
Proof.
  unfold all_aircraft. rewrite filter_app, length_app.
  set (alive_aircraft := filter is_plane (alive_objects acmi)).
  rewrite (filter_none _ alive_aircraft).
  2:{ intros a Ha. rewrite (obj_in_self a _ Ha). apply andb_false_r. }
  cbn [List.length Nat.add]. apply filter_length_le.
Qed.

Lemma final_deaths_nonneg h acmi ps p :
  analyze_combat_data_with h acmi = Some ps -> 0 <= deaths (stats_of ps p).
Proof.
  intros Hrun. destruct (final_profiles _ acmi ps Hrun) as [_ Hp].
  destruct (Hp p) as (_ & _ & -> & _).
  unfold pilots_state, analyze_pilots. rewrite analyze_pilots_deaths.
  cbn. lia.
Qed.

(** X12. The aircraft lost.  The "Total Aircraft Lost" of the summary
    never exceeds the number of removed aircraft.  On a recording whose
    alive and removed objects are distinct it is the number of removed
    aircraft that have a pilot name (a removed aircraft without one is
    not counted), and the casualties (pilots that did not survive) are
    at most as many. *)
Theorem aircraft_lost_total :
  forall acmi : Recording,
    sized acmi ->
    exists ps,
      analyze_combat_data acmi = Some ps
      /\ 0 <= total_deaths (summary_of ps)
         <= Z.of_nat (List.length (filter is_plane (removed_objects acmi)))
      /\ (partitioned acmi ->
          total_deaths (summary_of ps)
          = Z.of_nat (List.length (filter (fun a => is_plane a && named a)
                                          (removed_objects acmi)))
          /\ total_pilots (summary_of ps) - survivors (summary_of ps)
             <= total_deaths (summary_of ps)).
Proof.
  intros acmi Hsz. destruct (analyze_defined acmi Hsz) as [ps Hrun].
  exists ps. split; [exact Hrun|].
  pose proof (final_total_deaths _ acmi ps Hrun) as Ht.
  split; [rewrite Ht; pose proof (lost_bound acmi); lia|].
  intros Hpart. split; [now rewrite Ht, (lost_on_partitioned acmi Hpart)|].
  destruct (final_profiles _ acmi ps Hrun) as [Hk _].
  destruct (pilots_state_facts acmi) as (Hnd & _).
  assert (Hnd' : NoDup (PyDict.keys ps)) by (rewrite Hk; exact Hnd).
  cbn [total_pilots survivors total_deaths summary_of].
  rewrite (values_via_keys ps Hnd'), !map_map.
  replace (Z.of_nat (List.length ps)) with (sum_Z (map (fun _ : string => 1) (PyDict.keys ps))).
  2:{ rewrite sum_Z_ones. unfold PyDict.keys. now rewrite length_map. }
  enough (H : sum_Z (map (fun _ : string => 1) (PyDict.keys ps))
              <= sum_Z (map (fun k => (if survived (stats_of ps k) then 1 else 0)
                                      + deaths (stats_of ps k)) (PyDict.keys ps))).
  { assert (Hsplit : forall l : list string,
               sum_Z (map (fun k => (if survived (stats_of ps k) then 1 else 0)
                                    + deaths (stats_of ps k)) l)
               = sum_Z (map (fun k => if survived (stats_of ps k) then 1 else 0) l)
                 + sum_Z (map (fun k => deaths (stats_of ps k)) l)).
    { induction l as [|x l IH]; [reflexivity|].
      cbn [map]. rewrite !sum_Z_cons, IH. lia. }
    rewrite Hsplit in H. lia. }
  apply sum_Z_le_pointwise. intros p Hp.
  pose proof (final_deaths_nonneg _ acmi ps p Hrun) as Hd.
  destruct (survived (stats_of ps p)) eqn:Es; [lia|].
  pose proof (final_casualty _ acmi ps p Hrun Hpart Hp Es). lia.
Qed.

Lemma aircraft_lost_total_witness :
  sized two_pilots
  /\ exists ps,
      analyze_combat_data two_pilots = Some ps
      /\ 0 <= total_deaths (summary_of ps)
         <= Z.of_nat (List.length (filter is_plane (removed_objects two_pilots)))
      /\ (partitioned two_pilots ->
          total_deaths (summary_of ps)
          = Z.of_nat (List.length (filter (fun a => is_plane a && named a)
                                          (removed_objects two_pilots)))
          /\ total_pilots (summary_of ps) - survivors (summary_of ps)
             <= total_deaths (summary_of ps)).
Proof.
  assert (Hsz : sized two_pilots) by (unfold sized, PyFloat.max_size; simpl; lia).
  split; [exact Hsz | exact (aircraft_lost_total two_pilots Hsz)].
Defined.

End Losses.

(** ** The order of the pilot section *)

Section Ordering.
Import Acmi ImprovedCombatAnalyzer Examples Spec PilotSpec Report.

Lemma ascii_compare_refl a : Ascii.compare a a = Eq.
Proof. unfold Ascii.compare. apply N.compare_refl. Qed.

Lemma string_compare_refl s : String.compare s s = Eq.
Proof.
  induction s as [|a s IH]; [reflexivity|].
  cbn [String.compare]. now rewrite ascii_compare_refl.
Qed.

Lemma string_compare_lt_trans s1 : forall s2 s3,
  String.compare s1 s2 = Lt -> String.compare s2 s3 = Lt ->
  String.compare s1 s3 = Lt.
Proof.
  induction s1 as [|a s1 IH]; intros [|b s2] [|c s3]; cbn [String.compare];
    try discriminate; try reflexivity.
  unfold Ascii.compare.
  destruct (N.compare_spec (N_of_ascii a) (N_of_ascii b)) as [Hab|Hab|Hab];
    try discriminate;
    destruct (N.compare_spec (N_of_ascii b) (N_of_ascii c)) as [Hbc|Hbc|Hbc];
    try discriminate; intros H1 H2.
  - rewrite Hab, Hbc, N.compare_refl. now apply (IH s2).
  - rewrite Hab. now apply N.compare_lt_iff in Hbc as ->.
  - rewrite <- Hbc. now apply N.compare_lt_iff in Hab as ->.
  - assert (Hac : (N_of_ascii a < N_of_ascii c)%N) by (eapply N.lt_trans; eauto).
    now apply N.compare_lt_iff in Hac as ->.
Qed.

(** The order of the keys, spelled out. *)
Lemma key_le_spec a b :
  key_le a b = true
  <-> String.ltb (coalition a) (coalition b) = true
      \/ (coalition a = coalition b
          /\ (air_to_air_kills b < air_to_air_kills a
              \/ (air_to_air_kills a = air_to_air_kills b
                  /\ missiles_fired b <= missiles_fired a))).
Proof.
  unfold key_le, key_compare, String.ltb.
  destruct (String.compare (coalition a) (coalition b)) eqn:E.
  - apply String.compare_eq_iff in E.
    destruct (Z.compare_spec (- air_to_air_kills a) (- air_to_air_kills b));
      [destruct (Z.compare_spec (- missiles_fired a) (- missiles_fired b))| |];
      split; try (intros _; right; split; [exact E|]; lia); try discriminate;
      intros [H'|[_ H']]; try discriminate; lia.
  - split; [now left | reflexivity].
  - split; [discriminate|]. intros [H|[H _]]; [discriminate|].
    rewrite H, string_compare_refl in E. discriminate.
Qed.

Lemma key_eq_spec a b :
  key_eq a b = true
  <-> coalition a = coalition b /\ air_to_air_kills a = air_to_air_kills b
      /\ missiles_fired a = missiles_fired b.
Proof.
  unfold key_eq, key_compare.
  destruct (String.compare (coalition a) (coalition b)) eqn:E.
  - apply String.compare_eq_iff in E.
    destruct (Z.compare_spec (- air_to_air_kills a) (- air_to_air_kills b));
      [destruct (Z.compare_spec (- missiles_fired a) (- missiles_fired b))| |];
      split; try discriminate; try (intros _; repeat split; [exact E|lia|lia]);
      intros (_ & H1 & H2); lia.
  - split; [discriminate|]. intros (H & _).
    rewrite H, string_compare_refl in E. discriminate.
  - split; [discriminate|]. intros (H & _).
    rewrite H, string_compare_refl in E. discriminate.
Qed.

Lemma key_le_total a b : key_le a b = false -> key_le b a = true.
Proof.
  intros H. apply key_le_spec.
  assert (Hn : ~ (key_le a b = true)) by congruence.
  rewrite key_le_spec in Hn. unfold String.ltb in *.
  rewrite String.compare_antisym.
  destruct (String.compare (coalition a) (coalition b)) eqn:E; cbn [CompOpp].
  - apply String.compare_eq_iff in E. right. split; [now symmetry|].
    assert (~ (air_to_air_kills b < air_to_air_kills a
               \/ (air_to_air_kills a = air_to_air_kills b
                   /\ missiles_fired b <= missiles_fired a))) by tauto.
    lia.
  - exfalso. apply Hn. now left.
  - now left.
Qed.

Lemma key_le_trans a b c :
  key_le a b = true -> key_le b c = true -> key_le a c = true.
Proof.
  rewrite !key_le_spec. unfold String.ltb.
  intros [H1|[E1 H1]] [H2|[E2 H2]].
  - left. destruct (String.compare (coalition a) (coalition b)) eqn:Eab;
      try discriminate.
    destruct (String.compare (coalition b) (coalition c)) eqn:Ebc; try discriminate.
    now rewrite (string_compare_lt_trans _ _ _ Eab Ebc).
  - left. now rewrite <- E2.
  - left. now rewrite E1.
  - right. split; [congruence | lia].
Qed.

Lemma key_le_coalition a b :
  key_le a b = true -> String.leb (coalition a) (coalition b) = true.
Proof.
  rewrite key_le_spec. unfold String.ltb, String.leb.
  intros [H|[-> _]].
  - now destruct (String.compare (coalition a) (coalition b)).
  - now rewrite string_compare_refl.
Qed.

Lemma insert_perm x l : Permutation (insert x l) (x :: l).
Proof.
  induction l as [|y l IH]; cbn [insert]; [reflexivity|].
  destruct (key_le (snd x) (snd y)); [reflexivity|].
  rewrite IH. apply perm_swap.
Qed.

Lemma sorted_pilots_perm ps : Permutation (sorted_pilots ps) ps.
Proof.
  unfold sorted_pilots. induction ps as [|x l IH]; cbn [fold_right]; [reflexivity|].
  rewrite insert_perm. now constructor.
Qed.

Lemma insert_sorted x l :
  StronglySorted (fun a b => key_le (snd a) (snd b) = true) l ->
  StronglySorted (fun a b => key_le (snd a) (snd b) = true) (insert x l).
Proof.
  induction l as [|y l IH]; intros Hs; cbn [insert].
  - repeat constructor.
  - inversion Hs as [|? ? Hs' Hall]; subst.
    destruct (key_le (snd x) (snd y)) eqn:E.
    + constructor; [exact Hs|]. constructor; [exact E|].
      rewrite Forall_forall in *. intros z Hz.
      eapply key_le_trans; [exact E | now apply Hall].
    + constructor; [now apply IH|].
      rewrite Forall_forall in *. intros z Hz.
      apply (Permutation_in _ (insert_perm x l)) in Hz.
      destruct Hz as [<-|Hz]; [now apply key_le_total | now apply Hall].
Qed.

Lemma sorted_pilots_sorted ps :
  StronglySorted (fun a b => key_le (snd a) (snd b) = true) (sorted_pilots ps).
Proof.
  unfold sorted_pilots. induction ps as [|x l IH]; cbn [fold_right];
    [constructor | now apply insert_sorted].
Qed.

Lemma insert_stable k x l :
  filter (fun y => key_eq k (snd y)) (insert x l)
  = filter (fun y => key_eq k (snd y)) (x :: l).
Proof.
  induction l as [|y l IH]; cbn [insert]; [reflexivity|].
  destruct (key_le (snd x) (snd y)) eqn:E; [reflexivity|].
  cbn [filter] in *. rewrite IH.
  destruct (key_eq k (snd x)) eqn:Ex, (key_eq k (snd y)) eqn:Ey; try reflexivity.
  exfalso. apply key_eq_spec in Ex as (Hx1 & Hx2 & Hx3).
  apply key_eq_spec in Ey as (Hy1 & Hy2 & Hy3).
  assert (H : key_le (snd x) (snd y) = true).
  { apply key_le_spec. right. split; [congruence|]. right. split; lia. }
  congruence.
Qed.

Lemma sorted_pilots_stable k ps :
  filter (fun y => key_eq k (snd y)) (sorted_pilots ps)
  = filter (fun y => key_eq k (snd y)) ps.
Proof.
  unfold sorted_pilots. induction ps as [|x l IH]; cbn [fold_right]; [reflexivity|].
  rewrite insert_stable. cbn [filter]. now rewrite IH.
Qed.

(** X13. The order of the pilot section.  Every entry of [pilot_stats]
    appears once; the entries are in the order of their coalition
    (strings compared character by character), within a coalition by
    decreasing kills, then by decreasing missiles fired; entries equal on
    all three keep the order of [pilot_stats]. *)
Theorem report_order :
  forall ps : pilot_stats,
    Permutation (sorted_pilots ps) ps
    /\ StronglySorted (fun a b => key_le (snd a) (snd b) = true) (sorted_pilots ps)
    /\ (forall k,
           filter (fun y => key_eq k (snd y)) (sorted_pilots ps)
           = filter (fun y => key_eq k (snd y)) ps)
    /\ (forall a b,
           key_le a b = true
           <-> String.ltb (coalition a) (coalition b) = true
               \/ (coalition a = coalition b
                   /\ (air_to_air_kills b < air_to_air_kills a
                       \/ (air_to_air_kills a = air_to_air_kills b
                           /\ missiles_fired b <= missiles_fired a))))
    /\ (forall a b,
           key_eq a b = true
           <-> coalition a = coalition b
               /\ air_to_air_kills a = air_to_air_kills b
               /\ missiles_fired a = missiles_fired b).
Proof.
  intros ps. split; [apply sorted_pilots_perm|].
  split; [apply sorted_pilots_sorted|].
  split; [intros k; apply sorted_pilots_stable|].
  split; [apply key_le_spec | apply key_eq_spec].
Qed.

End Ordering.

(** ** The report is defined *)

Section ReportDefined.
Import Acmi ImprovedCombatAnalyzer Examples Spec PilotSpec Report.

Lemma truediv_int_truediv a b :
  0 <= a -> 0 < b -> PyNumber.truediv a b = PyFloat.int_truediv a b.
Proof.
  intros Ha Hb. destruct a as [|pa|pa], b as [|pb|pb]; try lia; reflexivity.
Qed.

Lemma truediv_defined a b :
  0 <= a -> 0 < b -> a <= PyFloat.max_size -> b <= PyFloat.max_size ->
  exists f, PyNumber.truediv a b = Some f.
Proof.
  intros Ha Hb Ha' Hb'. rewrite truediv_int_truediv by assumption.
  destruct (Z.eq_dec a 0) as [->|Hnz].
  - destruct b; try lia. eexists. reflexivity.
  - pose proof (digits_max_size a Ha Ha').
    pose proof (digits_max_size b ltac:(lia) Hb').
    destruct (int_truediv_below a b ltac:(lia) Hb ltac:(lia) ltac:(lia)) as (f & Hf & _).
    eauto.
Qed.

Lemma mul_int_100 x : exists f, PyNumber.mul_int x 100 = Some f.
Proof.
  unfold PyNumber.mul_int.
  destruct (PyFloat.of_int 100) as [y|] eqn:E; [eauto|].
  vm_compute in E. discriminate E.
Qed.

Lemma percent_defined a b :
  0 <= a -> 0 < b -> a <= PyFloat.max_size -> b <= PyFloat.max_size ->
  exists f, PyNumber.percent a b = Some f.
Proof.
  intros Ha Hb Ha' Hb'. unfold PyNumber.percent.
  destruct (truediv_defined a b Ha Hb Ha' Hb') as [q ->]. apply mul_int_100.
Qed.

Lemma guarded_defined {A} (condition : bool) (x : option A) :
  (condition = true -> exists v, x = Some v) ->
  exists r, guarded condition x = Some r.
Proof.
  intros H. unfold guarded. destruct condition; [|eauto].
  destruct (H eq_refl) as [v ->]. eauto.
Qed.

Lemma pilot_block_defined s :
  0 <= air_to_air_kills s -> air_to_air_kills s <= PyFloat.max_size ->
  deaths s <= PyFloat.max_size ->
  exists b, pilot_block s = Some b /\ shown b = s.
Proof.
  intros Hk Hk' Hd. unfold pilot_block.
  destruct (truediv_defined (air_to_air_kills s) (Z.max 1 (deaths s))
              Hk ltac:(lia) Hk'
              ltac:(unfold PyFloat.max_size in *; lia)) as [ratio ->].
  destruct (missiles_fired s >? 0).
  - destruct (mul_int_100 (estimated_hit_rate s)) as [rate ->].
    eexists. split; reflexivity.
  - eexists. split; reflexivity.
Qed.

Lemma pilot_lines_defined l : forall cur,
  (forall x, In x l -> exists b, pilot_block (snd x) = Some b /\ shown b = snd x) ->
  exists lines,
    pilot_lines cur l = Some lines
    /\ map shown (blocks lines) = map snd l.
Proof.
  induction l as [|[k s] l IH]; intros cur H; cbn [pilot_lines].
  - exists []. split; reflexivity.
  - destruct (H (k, s) (or_introl eq_refl)) as (b & Hb & Hs). cbn [snd] in Hb, Hs.
    rewrite Hb.
    destruct (IH (Some (coalition s)) (fun x Hx => H x (or_intror Hx)))
      as (lines & -> & Hl).
    eexists. split; [reflexivity|].
    unfold blocks. rewrite flat_map_app. cbn [flat_map app map snd].
    fold (blocks lines). rewrite map_app. cbn [map]. rewrite Hl, Hs.
    destruct cur as [c|]; [destruct (String.eqb (coalition s) c)|]; reflexivity.
Qed.

Lemma coalition_lines_defined items :
  (forall c data, In (c, data) items ->
     0 <= c_kills data <= PyFloat.max_size
     /\ c_deaths data <= PyFloat.max_size
     /\ c_missiles data <= PyFloat.max_size) ->
  exists lines, coalition_lines items = Some lines.
Proof.
  induction items as [|[c data] items IH]; intros H; cbn [coalition_lines];
    [eauto|].
  destruct (H c data (or_introl eq_refl)) as (Hk & Hd & Hm).
  destruct (IH (fun c' d' Hin => H c' d' (or_intror Hin))) as [lines ->].
  unfold coalition_line.
  destruct (guarded_defined (c_deaths data >? 0)
              (PyNumber.truediv (c_kills data) (c_deaths data))) as [kd ->].
  { intros Hpos. apply Z.gtb_lt in Hpos. apply truediv_defined; lia. }
  destruct (guarded_defined (c_missiles data >? 0)
              (PyNumber.percent (c_kills data) (c_missiles data))) as [rate ->].
  { intros Hpos. apply Z.gtb_lt in Hpos. apply percent_defined; lia. }
  eauto.
Qed.

Lemma sum_filter_values ps (f : PilotStats -> bool) (g : PilotStats -> Z) :
  NoDup (PyDict.keys ps) ->
  sum_Z (map g (filter f (PyDict.values ps)))
  = sum_Z (map (fun k => if f (stats_of ps k) then g (stats_of ps k) else 0)
               (PyDict.keys ps)).
Proof.
  intros Hnd. rewrite (values_via_keys ps Hnd). clear Hnd.
  induction (PyDict.keys ps) as [|k l IH]; [reflexivity|].
  cbn [map filter]. rewrite sum_Z_cons.
  destruct (f (stats_of ps k)); cbn [map]; [rewrite sum_Z_cons|]; lia.
Qed.

Lemma sum_values ps (g : PilotStats -> Z) :
  NoDup (PyDict.keys ps) ->
  sum_Z (map g (PyDict.values ps))
  = sum_Z (map (fun k => g (stats_of ps k)) (PyDict.keys ps)).
Proof. intros Hnd. now rewrite (values_via_keys ps Hnd), map_map. Qed.

(** The report is defined as soon as the counters are in range. *)
Lemma report_defined_of_bounds ps :
  NoDup (PyDict.keys ps) ->
  (forall p, 0 <= air_to_air_kills (stats_of ps p) <= missiles_fired (stats_of ps p)) ->
  (forall p, 0 <= deaths (stats_of ps p)) ->
  total_missiles (summary_of ps) <= PyFloat.max_size ->
  total_deaths (summary_of ps) <= PyFloat.max_size ->
  exists r, generate_report ps = Some r
            /\ map shown (blocks (pilot_section r)) = map snd (sorted_pilots ps).
Proof.
  intros Hnd Hk Hd Htm Htd.
  cbn [total_missiles total_deaths summary_of] in Htm, Htd.
  rewrite (sum_values ps _ Hnd) in Htm. rewrite (sum_values ps _ Hnd) in Htd.
  assert (Hf_le : forall p, missiles_fired (stats_of ps p) <= PyFloat.max_size).
  { intros p. destruct (in_dec string_dec p (PyDict.keys ps)) as [Hin|Hn].
    - pose proof (sum_Z_member_le _ (fun k => missiles_fired (stats_of ps k))
                    (fun k => ltac:(specialize (Hk k); lia)) p (PyDict.keys ps) Hin).
      cbv beta in *. lia.
    - rewrite (stats_of_missing ps p Hn). cbn. unfold PyFloat.max_size. lia. }
  assert (Hd_le : forall p, deaths (stats_of ps p) <= PyFloat.max_size).
  { intros p. destruct (in_dec string_dec p (PyDict.keys ps)) as [Hin|Hn].
    - pose proof (sum_Z_member_le _ (fun k => deaths (stats_of ps k)) Hd
                    p (PyDict.keys ps) Hin).
      cbv beta in *. lia.
    - rewrite (stats_of_missing ps p Hn). cbn. unfold PyFloat.max_size. lia. }
  assert (Hitem : forall x, In x ps -> snd x = stats_of ps (fst x)).
  { intros [k s] Hin. cbn [fst snd]. unfold stats_of, PyDict.get_default.
    now rewrite (in_get _ ps k s Hnd Hin). }
  unfold generate_report.
  destruct (pilot_lines_defined (sorted_pilots ps) None) as (lines & -> & Hl).
  { intros x Hx. apply (Permutation_in _ (sorted_pilots_perm ps)) in Hx.
    rewrite (Hitem x Hx). specialize (Hk (fst x)). specialize (Hf_le (fst x)).
    apply pilot_block_defined; [lia | lia | apply Hd_le]. }
  cbv zeta. cbn [total_missiles total_kills summary_of coalitions].
  assert (Hgroup : forall f : PilotStats -> bool,
             0 <= sum_Z (map air_to_air_kills (filter f (PyDict.values ps)))
             /\ sum_Z (map air_to_air_kills (filter f (PyDict.values ps)))
                <= sum_Z (map missiles_fired (filter f (PyDict.values ps)))
             /\ sum_Z (map missiles_fired (filter f (PyDict.values ps)))
                <= PyFloat.max_size
             /\ sum_Z (map deaths (filter f (PyDict.values ps))) <= PyFloat.max_size).
  { intros f. rewrite !(sum_filter_values ps f _ Hnd). split; [|split; [|split]].
    - apply (sum_Z_nonneg _ (fun k => if f (stats_of ps k)
                                      then air_to_air_kills (stats_of ps k) else 0)).
      intros k. destruct (f (stats_of ps k)); [apply Hk | lia].
    - apply sum_Z_le_pointwise. intros k _.
      destruct (f (stats_of ps k)); [apply Hk | lia].
    - eapply Z.le_trans; [|exact Htm]. apply sum_Z_le_pointwise. intros k _.
      destruct (f (stats_of ps k)); [lia|]. specialize (Hk k). lia.
    - eapply Z.le_trans; [|exact Htd]. apply sum_Z_le_pointwise. intros k _.
      destruct (f (stats_of ps k)); [lia | apply Hd]. }
  assert (Hall : 0 <= sum_Z (map air_to_air_kills (PyDict.values ps))
                 /\ sum_Z (map air_to_air_kills (PyDict.values ps))
                    <= sum_Z (map missiles_fired (PyDict.values ps))
                 /\ sum_Z (map missiles_fired (PyDict.values ps)) <= PyFloat.max_size).
  { rewrite !(sum_values ps _ Hnd). split; [|split; [|exact Htm]].
    - apply (sum_Z_nonneg _ (fun k => air_to_air_kills (stats_of ps k))).
      intros k. apply Hk.
    - apply sum_Z_le_pointwise. intros k _. apply Hk. }
  destruct (guarded_defined
              (sum_Z (map missiles_fired (PyDict.values ps)) >? 0)
              (PyNumber.percent (sum_Z (map air_to_air_kills (PyDict.values ps)))
                                (sum_Z (map missiles_fired (PyDict.values ps)))))
    as [overall ->].
  { intros Hpos. apply Z.gtb_lt in Hpos. apply percent_defined; lia. }
  destruct (coalition_lines_defined (coalitions_of ps)) as [cls ->].
  { intros c data Hin.
    pose proof (in_get _ (coalitions_of ps) c data (coalitions_of_nodup ps) Hin) as Hg.
    pose proof (coalitions_of_get ps c) as Hc.
    unfold PyDict.get_default in Hc. rewrite Hg in Hc. subst data.
    cbn [c_kills c_deaths c_missiles totals_of].
    destruct (Hgroup (fun s => String.eqb (coalition s) c)) as (H1 & H2 & H3 & H4).
    lia. }
  eexists. split; [reflexivity|]. exact Hl.
Qed.

(** The counters of a result of the analysis are in range. *)
Lemma final_kill_range acmi ps p :
  sized acmi -> analyze_combat_data acmi = Some ps ->
  0 <= air_to_air_kills (stats_of ps p) <= missiles_fired (stats_of ps p).
Proof.
  intros Hsz Hrun.
  destruct (final_profiles _ acmi ps Hrun) as [Hkeys Hp].
  destruct (Hp p) as (_ & _ & _ & Hm & _).
  pose proof (usage_fired_nonneg acmi p) as Hnn. rewrite <- Hm in Hnn.
  destruct (in_dec string_dec p (PyDict.keys ps)) as [Hin|Hn].
  - destruct (Z.eq_dec (missiles_fired (stats_of ps p)) 0) as [Hz|Hnz].
    + destruct (final_idle _ acmi ps p Hrun Hin Hz) as (_ & Hk & _). lia.
    + pose proof (final_kills acmi ps p Hsz Hrun Hin ltac:(lia)) as H.
      cbv zeta in H.
      destruct H as (share0 & a & b & _ & _ & _ & Hale & Hb0 & Hk & _). lia.
  - rewrite (stats_of_missing ps p Hn). cbn. lia.
Qed.

Lemma final_report acmi ps :
  sized acmi -> analyze_combat_data acmi = Some ps ->
  exists r, generate_report ps = Some r
            /\ map shown (blocks (pilot_section r)) = map snd (sorted_pilots ps).
Proof.
  intros Hsz Hrun.
  destruct (final_profiles _ acmi ps Hrun) as [Hk _].
  destruct (pilots_state_facts acmi) as (Hnd & _).
  apply report_defined_of_bounds.
  - rewrite Hk. exact Hnd.
  - intros p. now apply (final_kill_range acmi).
  - intros p. exact (final_deaths_nonneg _ acmi ps p Hrun).
  - change (total_missiles (summary_of ps)) with (total_fired ps).
    rewrite (final_total _ acmi ps Hrun).
    destruct (usage_total_bound acmi) as [_ H]. unfold sized in Hsz. lia.
  - rewrite (final_total_deaths _ acmi ps Hrun).
    pose proof (lost_bound acmi).
    pose proof (filter_length_le is_plane (removed_objects acmi)).
    unfold sized in Hsz. lia.
Qed.

(** X14. The report never fails.  On the result of the analysis of a
    recording that fits a Python list, [generate_report] raises no
    [ZeroDivisionError] and no [OverflowError]: the kill/death ratio of a
    pilot divides by [max(1, deaths)], and every other ratio is printed
    only when its divisor is positive.  The pilot blocks are the entries
    in sorted order. *)
Theorem report_defined :
  forall acmi : Recording,
    sized acmi ->
    exists ps r,
      analyze_combat_data acmi = Some ps
      /\ generate_report ps = Some r
      /\ map shown (blocks (pilot_section r)) = map snd (sorted_pilots ps).
Proof.
  intros acmi Hsz. destruct (analyze_defined acmi Hsz) as [ps Hrun].
  destruct (final_report acmi ps Hsz Hrun) as (r & Hr & Hb).
  exists ps, r. auto.
Qed.

Lemma report_defined_witness :
  sized ten_missiles
  /\ exists ps r,
      analyze_combat_data ten_missiles = Some ps
      /\ generate_report ps = Some r
      /\ map shown (blocks (pilot_section r)) = map snd (sorted_pilots ps).
Proof.
  assert (Hsz : sized ten_missiles)
    by (unfold sized, PyFloat.max_size; simpl; lia).
  split; [exact Hsz | exact (report_defined ten_missiles Hsz)].
Defined.

End ReportDefined.

(** ** The coalition headers *)

Section Headers.
Import Acmi ImprovedCombatAnalyzer Examples Spec PilotSpec Report.

Lemma pilot_block_shown s b : pilot_block s = Some b -> shown b = s.
Proof.
  unfold pilot_block. destruct (PyNumber.truediv _ _); [|discriminate].
  destruct (missiles_fired s >? 0).
  - destruct (PyNumber.mul_int _ _); [|discriminate]. now intros [= <-].
  - now intros [= <-].
Qed.

Lemma pilot_lines_grouped l : forall cur lines,
  pilot_lines cur l = Some lines -> grouped cur lines = true.
Proof.
  induction l as [|[k s] l IH]; intros cur lines; cbn [pilot_lines].
  - now intros [= <-].
  - destruct (pilot_block s) as [b|] eqn:Eb; [|discriminate].
    destruct (pilot_lines (Some (coalition s)) l) as [rest|] eqn:El; [|discriminate].
    intros [= <-]. apply IH in El. apply pilot_block_shown in Eb.
    destruct cur as [c|].
    + destruct (String.eqb (coalition s) c) eqn:E; cbn [app grouped].
      * apply String.eqb_eq in E. subst c. now rewrite Eb, String.eqb_refl, El.
      * now rewrite Eb, String.eqb_refl, El.
    + cbn [app grouped]. now rewrite Eb, String.eqb_refl, El.
Qed.

Lemma pilot_lines_headers l : forall cur lines,
  StronglySorted (fun a b => key_le (snd a) (snd b) = true) l ->
  (forall c x, cur = Some c -> In x l -> String.leb c (coalition (snd x)) = true) ->
  pilot_lines cur l = Some lines ->
  NoDup (headers lines)
  /\ forall h,
      In h (headers lines)
      <-> (exists x, In x l /\ coalition (snd x) = h) /\ cur <> Some h.
Proof.
  induction l as [|[k s] l IH]; intros cur lines Hs Hcur; cbn [pilot_lines].
  - intros [= <-]. split; [constructor|]. intros h. cbn. split; [tauto|].
    intros [(x & [] & _) _].
  - destruct (pilot_block s) as [b|]; [|discriminate].
    destruct (pilot_lines (Some (coalition s)) l) as [rest|] eqn:El; [|discriminate].
    intros [= <-]. inversion Hs as [|? ? Hs' Hall]; subst.
    rewrite Forall_forall in Hall.
    destruct (IH (Some (coalition s)) rest Hs') as [Hnd Hin]; [|exact El|].
    { intros c x [= <-] Hx. apply key_le_coalition. now apply (Hall x). }
    assert (Hrest : forall h, In h (headers rest) ->
                              String.leb (coalition s) h = true /\ h <> coalition s).
    { intros h Hh. apply Hin in Hh as [(x & Hx & <-) Hne]. split.
      - apply key_le_coalition. now apply (Hall x).
      - congruence. }
    assert (Hsame : cur = Some (coalition s) ->
                    NoDup (headers rest)
                    /\ forall h, In h (headers rest)
                                 <-> (exists x, In x ((k, s) :: l) /\ coalition (snd x) = h)
                                     /\ cur <> Some h).
    { intros ->. split; [exact Hnd|]. intros h. rewrite Hin. split.
      - intros [(x & Hx & Hc) Hne]. split; [exists x; split; [now right | exact Hc]|exact Hne].
      - intros [(x & [<-|Hx] & Hc) Hne]; [cbn [snd] in Hc; congruence|].
        split; [eauto | exact Hne]. }
    assert (Hnew : cur <> Some (coalition s) ->
                   NoDup (coalition s :: headers rest)
                   /\ forall h, In h (coalition s :: headers rest)
                                <-> (exists x, In x ((k, s) :: l) /\ coalition (snd x) = h)
                                    /\ cur <> Some h).
    { intros Hne. split.
      - constructor; [|exact Hnd]. intros Hh. now destruct (Hrest _ Hh).
      - intros h. cbn [In]. rewrite Hin. split.
        + intros [<-|[(x & Hx & Hc) Hh]].
          * split; [exists (k, s); split; [now left | reflexivity] | exact Hne].
          * split; [exists x; split; [now right | exact Hc]|].
            intros ->. apply Hh. f_equal. subst h.
            apply String.leb_antisym.
            -- apply key_le_coalition. now apply (Hall x).
            -- apply (Hcur _ (k, s) eq_refl). now left.
        + intros [(x & [<-|Hx] & Hc) Hh]; [now left|].
          destruct (string_dec (coalition s) h) as [Heq|Hd]; [now left|].
          right. split; [eauto | congruence]. }
    unfold headers. rewrite flat_map_app. cbn [flat_map app]. fold (headers rest).
    destruct cur as [c|].
    + destruct (String.eqb (coalition s) c) eqn:E; cbn [flat_map app].
      * apply String.eqb_eq in E. subst c. now apply Hsame.
      * apply String.eqb_neq in E. apply Hnew. congruence.
    + cbn [flat_map app]. apply Hnew. discriminate.
Qed.

(** X15. One header for each coalition.  In every report that
    [generate_report] produces for pilots whose coalitions are strings
    (the pilots of this model; a coalition [None] would equal the
    initial [current_coalition] and get no header), the pilot section
    has exactly one header for each coalition that has a pilot, and
    every pilot block stands under the header of the pilot's coalition:
    sorting by coalition first keeps the pilots of a coalition
    together. *)
Theorem report_headers :
  forall (ps : pilot_stats) (r : Report),
    generate_report ps = Some r ->
    NoDup (headers (pilot_section r))
    /\ (forall c,
           In c (headers (pilot_section r))
           <-> exists s, In s (PyDict.values ps) /\ coalition s = c)
    /\ grouped None (pilot_section r) = true.
Proof.
  intros ps r Hr. unfold generate_report in Hr.
  destruct (pilot_lines None (sorted_pilots ps)) as [lines|] eqn:El; [|discriminate].
  cbv zeta in Hr. destruct (guarded _ _); [|discriminate].
  destruct (coalition_lines _); [|discriminate].
  injection Hr as <-. cbn [pilot_section].
  destruct (pilot_lines_headers (sorted_pilots ps) None lines
              (sorted_pilots_sorted ps) ltac:(discriminate) El) as [Hnd Hin].
  split; [exact Hnd|]. split; [|now apply (pilot_lines_grouped (sorted_pilots ps))].
  intros c. rewrite Hin. unfold PyDict.values. split.
  - intros [(x & Hx & Hc) _]. exists (snd x). split; [|exact Hc].
    apply in_map. now apply (Permutation_in _ (sorted_pilots_perm ps)).
  - intros (s & Hs & Hc). apply in_map_iff in Hs as (x & <- & Hx).
    split; [|discriminate]. exists x. split; [|exact Hc].
    apply (Permutation_in _ (Permutation_sym (sorted_pilots_perm ps))). exact Hx.
Qed.

Lemma report_headers_witness :
  exists r,
    generate_report (pilots_state two_pilots) = Some r
    /\ NoDup (headers (pilot_section r))
    /\ (forall c,
           In c (headers (pilot_section r))
           <-> exists s, In s (PyDict.values (pilots_state two_pilots))
                         /\ coalition s = c)
    /\ grouped None (pilot_section r) = true.
Proof.
  eexists. split; [vm_compute; reflexivity|].
  apply (report_headers (pilots_state two_pilots)). vm_compute. reflexivity.
Defined.

End Headers.

(** ** Exact conversions and the share of a pilot *)

Section Binary64More.
Import PyFloat.

(** A mantissa of 53 bits is not rounded. *)
Lemma bra_exact sx p ex :
  2 ^ 52 <= Zpos p < 2 ^ 53 -> -1074 <= ex <= 971 ->
  binary_round_aux prec emax sx (Zpos p) ex loc_Exact = S754_finite sx p ex.
Proof.
  intros Hp Hex.
  assert (Hd : Zdigits2 (Zpos p) = 53)
    by (apply Zdigits2_unique; [|change (53 - 1) with 52]; lia).
  unfold binary_round_aux, shr_fexp. rewrite Hd.
  rewrite fexp_normal by lia.
  replace (53 + ex - 53 - ex) with 0 by lia.
  cbn [shr shr_record_of_loc shr_m loc_of_shr_record round_nearest_even].
  rewrite Hd, fexp_normal by lia.
  replace (53 + ex - 53 - ex) with 0 by lia.
  cbn [shr shr_record_of_loc shr_m].
  assert (Hle : (ex <=? emax - prec) = true) by (apply Z.leb_le; unfold emax, prec; lia).
  now rewrite Hle.
Qed.

(** [float(z)] is exact below [2^53]. *)
Lemma of_int_exact z :
  0 < z < 2 ^ 53 ->
  exists m e,
    of_int z = Some (S754_finite false m e)
    /\ 2 ^ 52 <= Zpos m < 2 ^ 53
    /\ e = Zdigits2 z - 53
    /\ Zpos m = z * 2 ^ (- e).
Proof.
  intros [Hz Hz']. destruct z as [|p|p]; try lia.
  unfold of_int, binary_normalize, binary_round.
  set (d := Zdigits2 (Zpos p)) in *.
  change (Zpos (digits2_pos p)) with d.
  pose proof (Zdigits2_pos (Zpos p) Hz) as Hdpos. fold d in Hdpos.
  assert (Hd53 : d <= 53) by (apply Zdigits2_le; lia).
  pose proof (Zdigits2_bounds (Zpos p) Hz) as [Hlo Hhi]. fold d in Hlo, Hhi.
  rewrite Z.add_0_r, fexp_normal by lia.
  pose proof (shl_align_spec p 0 (d - 53)) as [Hez Hmz].
  destruct (shl_align p 0 (d - 53)) as [mz ez]. cbn [fst snd] in Hez, Hmz. subst ez.
  replace (Z.min 0 (d - 53)) with (d - 53) in * by lia.
  rewrite Z.sub_0_l in Hmz.
  assert (Hdz : Zdigits2 (Zpos mz) = 53).
  { rewrite Hmz, Zdigits2_mul_pow2 by lia. fold d. lia. }
  pose proof (Zdigits2_bounds (Zpos mz) ltac:(lia)) as Hb. rewrite Hdz in Hb.
  change (53 - 1) with 52 in Hb.
  rewrite (bra_exact false mz (d - 53) Hb ltac:(lia)).
  exists mz, (d - 53). repeat split; lia.
Qed.

(** Rounding a mantissa of at least 53 bits, in units of the last place
    of the truncated mantissa. *)
Lemma bra_normal_units sx mx ex lx :
  2 ^ 52 <= mx -> -1074 <= ex -> Zdigits2 mx + ex <= 1023 ->
  let d := Zdigits2 mx in
  let e1 := ex + d - 53 in
  exists m e,
    binary_round_aux prec emax sx mx ex lx = S754_finite sx m e
    /\ 2 ^ 52 <= Zpos m < 2 ^ 53
    /\ e1 <= e <= e1 + 1
    /\ Zpos m * 2 ^ (e - e1) <= mx / 2 ^ (d - 53) + 1.
Proof.
  intros Hmx Hex Hmag d e1.
  assert (Hpos : 0 < mx) by (assert (0 < 2 ^ 52) by reflexivity; lia).
  pose proof (Zdigits2_bounds mx Hpos) as [Hlo Hhi]. fold d in Hlo, Hhi.
  assert (Hd : 53 <= d) by (apply Zdigits2_ge; [exact Hpos | exact Hmx]).
  assert (Hn1 : Z.max 0 (fexp prec emax (Zdigits2 mx + ex) - ex) = d - 53).
  { fold d. rewrite fexp_normal by lia. lia. }
  destruct (bra_unfold sx mx ex lx ltac:(lia)) as (r & Hr & Heq).
  cbv zeta in Heq. rewrite Hn1 in Hr, Heq.
  set (m1 := mx / 2 ^ (d - 53)) in *.
  replace (ex + (d - 53)) with e1 in Heq by (unfold e1; lia).
  assert (Hp : 0 < 2 ^ (d - 53)) by (apply Z.pow_pos_nonneg; lia).
  assert (Hsplit : 2 ^ d = 2 ^ (d - 53) * 2 ^ 53).
  { rewrite <- Z.pow_add_r by lia. f_equal. lia. }
  assert (Hsplit' : 2 ^ (d - 1) = 2 ^ (d - 53) * 2 ^ 52).
  { rewrite <- Z.pow_add_r by lia. f_equal. lia. }
  assert (Hm1 : 2 ^ 52 <= m1 < 2 ^ 53).
  { unfold m1. split.
    - apply Z.div_le_lower_bound; [exact Hp | lia].
    - apply Z.div_lt_upper_bound; [exact Hp | lia]. }
  assert (Hcases : r < 2 ^ 53 \/ r = 2 ^ 53) by lia.
  destruct Hcases as [Hlt|Heq53].
  - assert (Hdr : Zdigits2 r = 53)
      by (apply Zdigits2_unique; [|change (53 - 1) with 52]; lia).
    rewrite Hdr, fexp_normal in Heq by (unfold e1; lia).
    replace (Z.max 0 (53 + e1 - 53 - e1)) with 0 in Heq by lia.
    change (2 ^ 0) with 1 in Heq. rewrite Z.div_1_r, Z.add_0_r in Heq.
    destruct r as [|q|q]; try (exfalso; lia).
    assert (Hle : (e1 <=? emax - prec) = true)
      by (apply Z.leb_le; unfold emax, prec, e1; lia).
    rewrite Hle in Heq. exists q, e1.
    split; [exact Heq|]. split; [lia|]. split; [lia|].
    rewrite Z.sub_diag. change (2 ^ 0) with 1. lia.
  - assert (Hdr : Zdigits2 r = 54) by (subst r; reflexivity).
    rewrite Hdr, fexp_normal in Heq by (unfold e1; lia).
    replace (Z.max 0 (54 + e1 - 53 - e1)) with 1 in Heq by lia.
    rewrite Heq53 in Heq. change (2 ^ 53 / 2 ^ 1) with (Zpos (2 ^ 52)) in Heq.
    assert (Hle : (e1 + 1 <=? emax - prec) = true)
      by (apply Z.leb_le; unfold emax, prec, e1; lia).
    rewrite Hle in Heq. exists (2 ^ 52)%positive, (e1 + 1).
    split; [exact Heq|]. split; [split; [reflexivity | reflexivity]|].
    split; [lia|].
    replace (e1 + 1 - e1) with 1 by lia.
    assert (E : Zpos (2 ^ 52) * 2 ^ 1 = 2 ^ 53) by reflexivity.
    rewrite E, <- Heq53. lia.
Qed.

Lemma div_eucl_pair x y : Z.div_eucl x y = (x / y, x mod y).
Proof. unfold Z.div, Z.modulo. now destruct (Z.div_eucl x y). Qed.

Lemma new_location_zero n : new_location n 0 = loc_Exact.
Proof.
  unfold new_location, new_location_even, new_location_odd.
  now destruct (Z.even n).
Qed.

(** [a / a] is [1.0]. *)
Lemma int_truediv_same p :
  int_truediv (Zpos p) (Zpos p) = Some (S754_finite false (2 ^ 52) (-52)).
Proof.
  unfold int_truediv, SFdiv_core_binary.
  rewrite !Z.add_0_r, Z.sub_0_r, Z.sub_diag.
  change (Z.min (fexp prec emax 0) 0) with (-53).
  change (0 - -53) with 53. cbv iota.
  rewrite div_eucl_pair, Z.shiftl_mul_pow2 by lia.
  rewrite Z.mul_comm, Z.div_mul, Z.mod_mul by lia.
  rewrite new_location_zero. reflexivity.
Qed.

(** The share of a pilot in the missiles of the coalition is at most
    [1.0]. *)
Lemma share_at_most_one a b :
  0 < a -> a <= b -> Zdigits2 b <= 900 ->
  exists ms es,
    int_truediv a b = Some (S754_finite false ms es)
    /\ 2 ^ 52 <= Zpos ms < 2 ^ 53
    /\ -953 <= es <= 0
    /\ Zpos ms <= 2 ^ (- es).
Proof.
  intros Ha Hab Hdb. destruct a as [|pa|pa], b as [|pb|pb]; try lia.
  destruct (Pos.eq_dec pa pb) as [->|Hne].
  { rewrite int_truediv_same. exists (2 ^ 52)%positive, (-52).
    split; [reflexivity|]. split; [split; reflexivity|]. split; [lia|].
    apply Z.le_refl. }
  assert (Hlt : Zpos pa < Zpos pb) by lia. clear Hab Hne.
  unfold int_truediv, SFdiv_core_binary.
  set (d1 := Zdigits2 (Zpos pa)) in *. set (d2 := Zdigits2 (Zpos pb)) in *.
  pose proof (Zdigits2_pos (Zpos pa) Ha) as Hd1. fold d1 in Hd1.
  pose proof (Zdigits2_bounds (Zpos pa) Ha) as [Hlo1 Hhi1]. fold d1 in Hlo1, Hhi1.
  pose proof (Zdigits2_bounds (Zpos pb) ltac:(lia)) as [Hlo2 Hhi2]. fold d2 in Hlo2, Hhi2.
  assert (Hd12 : d1 <= d2).
  { apply (Zdigits2_mono (Zpos pa) (Zpos pb)); lia. }
  rewrite !Z.add_0_r, Z.sub_0_r.
  set (k := 53 + d2 - d1).
  assert (He' : Z.min (fexp prec emax (d1 - d2)) 0 = - k).
  { unfold fexp, emin, prec, emax, k. lia. }
  rewrite He'. replace (0 - - k) with k by lia.
  assert (Hk : 53 <= k) by (unfold k; lia).
  set (m' := match k with
             | Zpos _ => Z.shiftl (Zpos pa) k
             | Z0 => Zpos pa
             | Zneg _ => 0
             end).
  assert (Hm' : m' = Zpos pa * 2 ^ k).
  { unfold m'. destruct k as [|kp|kp] eqn:E; try lia.
    now rewrite Z.shiftl_mul_pow2 by lia. }
  rewrite div_eucl_pair.
  set (q := m' / Zpos pb).
  assert (Hpk : 0 < 2 ^ k) by (apply Z.pow_pos_nonneg; lia).
  assert (Hq_hi : q < 2 ^ k).
  { unfold q. apply Z.div_lt_upper_bound; [lia|]. rewrite Hm'. nia. }
  assert (Hq_lo : 2 ^ 52 <= q).
  { unfold q. apply Z.div_le_lower_bound; [lia|]. rewrite Hm'.
    assert (Hs : 2 ^ (d1 - 1) * 2 ^ k = 2 ^ d2 * 2 ^ 52).
    { rewrite <- !Z.pow_add_r by lia. f_equal. unfold k. lia. }
    assert (0 < 2 ^ 52) by reflexivity. nia. }
  assert (Hdq : Zdigits2 q <= k) by (apply Zdigits2_le; lia).
  assert (Hdq53 : 53 <= Zdigits2 q)
    by (apply Zdigits2_ge; [assert (0 < 2 ^ 52) by reflexivity; lia | exact Hq_lo]).
  pose proof (bra_normal_units false q (- k) (new_location (Zpos pb) (m' mod Zpos pb))
                Hq_lo ltac:(unfold k; lia) ltac:(lia)) as H.
  cbv zeta in H. destruct H as (m & e & Hbra & Hm & He & Hv).
  rewrite Hbra. exists m, e. split; [reflexivity|]. split; [exact Hm|].
  set (d := Zdigits2 q) in *. set (e1 := - k + d - 53) in *.
  assert (He1 : e1 <= -53) by (unfold e1; lia).
  split; [unfold e1, k in *; lia|].
  assert (Hp : 0 < 2 ^ (d - 53)) by (apply Z.pow_pos_nonneg; lia).
  assert (Hm1 : q / 2 ^ (d - 53) + 1 <= 2 ^ (- e1)).
  { enough (q / 2 ^ (d - 53) < 2 ^ (- e1)) by lia.
    apply Z.div_lt_upper_bound; [exact Hp|].
    rewrite <- Z.pow_add_r by lia.
    replace (d - 53 + - e1) with k by (unfold e1; lia). exact Hq_hi. }
  destruct (Z.eq_dec e e1) as [->|Hne1].
  - rewrite Z.sub_diag in Hv. change (2 ^ 0) with 1 in Hv. lia.
  - assert (e = e1 + 1) by lia. subst e.
    replace (e1 + 1 - e1) with 1 in Hv by lia. change (2 ^ 1) with 2 in Hv.
    assert (Hs : 2 ^ (- e1) = 2 * 2 ^ (- (e1 + 1))).
    { replace (- e1) with (1 + - (e1 + 1)) by lia.
      rewrite Z.pow_add_r by lia. reflexivity. }
    lia.
Qed.

(** [int(L * share) <= L] for a share of at most [1.0] and [L] below
    [2^52]. *)
Lemma int_mul_share_le L ms es :
  0 < L < 2 ^ 52 ->
  2 ^ 52 <= Zpos ms < 2 ^ 53 -> -953 <= es <= 0 -> Zpos ms <= 2 ^ (- es) ->
  exists f k,
    int_mul L (S754_finite false ms es) = Some f
    /\ to_int f = Some k /\ 0 <= k <= L.
Proof.
  intros HL Hms Hes Hle.
  assert (H52 : 2 ^ 52 < 2 ^ 53) by reflexivity.
  destruct (of_int_exact L ltac:(lia)) as (ma & ea & Heq & Hma & Hea & Hval).
  pose proof (Zdigits2_pos L ltac:(lia)) as HdL.
  assert (HdL' : Zdigits2 L <= 52) by (apply Zdigits2_le; lia).
  unfold int_mul. rewrite Heq. unfold mul. cbn [SFmul xorb].
  change (Zpos (ma * ms)) with (Zpos ma * Zpos ms).
  set (mx := Zpos ma * Zpos ms).
  assert (Hmx : 2 ^ 104 <= mx < 2 ^ 106).
  { unfold mx. change (2 ^ 104) with (2 ^ 52 * 2 ^ 52).
    change (2 ^ 106) with (2 ^ 53 * 2 ^ 53). nia. }
  assert (Hdx : 105 <= Zdigits2 mx <= 106).
  { split.
    - apply Zdigits2_ge; [|change (105 - 1) with 104]; lia.
    - apply Zdigits2_le; lia. }
  pose proof (bra_normal_units false mx (ea + es) loc_Exact
                ltac:(assert (2 ^ 52 <= 2 ^ 104) by (apply Z.pow_le_mono_r; lia); lia)
                ltac:(lia) ltac:(lia)) as H.
  cbv zeta in H. destruct H as (m & e & Hbra & Hm & He & Hv).
  rewrite Hbra. exists (S754_finite false m e), (Z.shiftl (Zpos m) e).
  split; [reflexivity|]. split; [reflexivity|].
  split; [apply Z.shiftl_nonneg; lia|].
  set (d := Zdigits2 mx) in *. set (e1 := ea + es + d - 53) in *.
  pose proof (Zdigits2_bounds mx ltac:(lia)) as [Hlo _]. fold d in Hlo.
  assert (Hpa : 0 < 2 ^ (- ea)) by (apply Z.pow_pos_nonneg; lia).
  assert (Hpe : 0 < 2 ^ (- es)) by (apply Z.pow_pos_nonneg; lia).
  assert (Hmx_le : mx <= L * 2 ^ (- ea - es)).
  { unfold mx. rewrite Hval.
    replace (- ea - es) with (- ea + - es) by lia.
    rewrite Z.pow_add_r by lia. nia. }
  assert (Hpae : 0 < 2 ^ (- ea - es)) by (apply Z.pow_pos_nonneg; lia).
  assert (He1 : e1 < 0).
  { assert (Hlt : 2 ^ (d - 1) < 2 ^ (52 + (- ea - es))).
    { rewrite Z.pow_add_r by lia. nia. }
    apply Z.pow_lt_mono_r_iff in Hlt; [|lia|lia]. unfold e1. lia. }
  set (u := - e1).
  assert (Hu : 1 <= u) by (unfold u; lia).
  assert (Hpu : 2 <= 2 ^ u).
  { change 2 with (2 ^ 1) at 1. apply Z.pow_le_mono_r; lia. }
  assert (Hp : 0 < 2 ^ (d - 53)) by (apply Z.pow_pos_nonneg; lia).
  assert (HM1 : mx / 2 ^ (d - 53) <= L * 2 ^ u).
  { apply Z.div_le_upper_bound; [exact Hp|].
    replace (2 ^ (d - 53) * (L * 2 ^ u)) with (L * 2 ^ (- ea - es)); [exact Hmx_le|].
    rewrite (Z.mul_comm (2 ^ (d - 53))), <- Z.mul_assoc, <- Z.pow_add_r by lia.
    do 2 f_equal. unfold u, e1. lia. }
  destruct (Z.eq_dec e e1) as [->|Hne1].
  - rewrite Z.sub_diag in Hv. change (2 ^ 0) with 1 in Hv.
    rewrite Z.shiftl_div_pow2 by lia. fold u.
    enough (Zpos m / 2 ^ u < L + 1) by lia.
    apply Z.div_lt_upper_bound; lia.
  - assert (e = e1 + 1) by lia. subst e.
    replace (e1 + 1 - e1) with 1 in Hv by lia. change (2 ^ 1) with 2 in Hv.
    rewrite Z.shiftl_div_pow2 by lia.
    replace (- (e1 + 1)) with (u - 1) by (unfold u; lia).
    assert (Hs : 2 ^ u = 2 * 2 ^ (u - 1)).
    { replace u with (1 + (u - 1)) at 1 by lia.
      rewrite Z.pow_add_r by lia. reflexivity. }
    assert (Hpu1 : 0 < 2 ^ (u - 1)) by (apply Z.pow_pos_nonneg; lia).
    enough (Zpos m / 2 ^ (u - 1) < L + 1) by lia.
    apply Z.div_lt_upper_bound; [exact Hpu1|]. nia.
Qed.

(** [int(m * 0.3)] is at most three tenths of [m]: the literal is below
    0.3 and the product is rounded by less than a tenth. *)
Lemma int_mul_lit_cap z :
  0 < z < 2 ^ 50 ->
  exists f k,
    int_mul z lit_0_3 = Some f /\ to_int f = Some k /\ 0 <= k /\ 10 * k <= 3 * z.
Proof.
  intros Hz.
  assert (H50 : 2 ^ 50 < 2 ^ 53) by reflexivity.
  destruct (of_int_exact z ltac:(lia)) as (ma & ea & Heq & Hma & Hea & Hval).
  pose proof (Zdigits2_pos z ltac:(lia)) as Hdz.
  assert (Hdz' : Zdigits2 z <= 50) by (apply Zdigits2_le; lia).
  unfold int_mul. rewrite Heq. unfold mul, lit_0_3. cbn [SFmul xorb].
  set (c := 5404319552844595%positive).
  change (Zpos (ma * c)) with (Zpos ma * Zpos c).
  set (mx := Zpos ma * Zpos c).
  assert (Hc : 2 ^ 52 <= Zpos c < 2 ^ 53) by (unfold c; lia).
  assert (Hc10 : 10 * Zpos c < 3 * 2 ^ 54) by (unfold c; reflexivity).
  assert (Hmx : 2 ^ 104 <= mx < 2 ^ 106).
  { unfold mx. change (2 ^ 104) with (2 ^ 52 * 2 ^ 52).
    change (2 ^ 106) with (2 ^ 53 * 2 ^ 53). nia. }
  assert (Hdx : 105 <= Zdigits2 mx <= 106).
  { split.
    - apply Zdigits2_ge; [|change (105 - 1) with 104]; lia.
    - apply Zdigits2_le; lia. }
  pose proof (bra_normal_units false mx (ea + -54) loc_Exact
                ltac:(assert (2 ^ 52 <= 2 ^ 104) by (apply Z.pow_le_mono_r; lia); lia)
                ltac:(lia) ltac:(lia)) as H.
  cbv zeta in H. destruct H as (m & e & Hbra & Hm & He & Hv).
  rewrite Hbra. exists (S754_finite false m e), (Z.shiftl (Zpos m) e).
  split; [reflexivity|]. split; [reflexivity|].
  split; [apply Z.shiftl_nonneg; lia|].
  set (d := Zdigits2 mx) in *. set (e1 := ea + -54 + d - 53) in *.
  set (u := - e1).
  assert (Hu : 4 <= u) by (unfold u, e1; lia).
  assert (Hpu : 16 <= 2 ^ u).
  { change 16 with (2 ^ 4). apply Z.pow_le_mono_r; lia. }
  assert (Hp : 0 < 2 ^ (d - 53)) by (apply Z.pow_pos_nonneg; lia).
  assert (Hpa : 0 < 2 ^ (- ea)) by (apply Z.pow_pos_nonneg; lia).
  assert (Hsplit : 2 ^ 54 * 2 ^ (- ea) = 2 ^ (d - 53) * 2 ^ u).
  { rewrite <- !Z.pow_add_r by lia. f_equal. unfold u, e1. lia. }
  (* ten times the truncated mantissa is below [3 z], in units of the
     last place *)
  assert (HM1 : 10 * (mx / 2 ^ (d - 53)) < 3 * z * 2 ^ u).
  { pose proof (Z.mul_div_le mx (2 ^ (d - 53)) Hp) as Hdiv.
    assert (Hten : 10 * mx < 3 * z * (2 ^ (d - 53) * 2 ^ u)).
    { rewrite <- Hsplit. unfold mx. rewrite Hval. nia. }
    nia. }
  assert (Hk : forall v, v <= mx / 2 ^ (d - 53) + 1 -> 10 * (v / 2 ^ u) <= 3 * z).
  { intros v Hvle.
    pose proof (Z.mul_div_le v (2 ^ u) ltac:(lia)) as Hdv.
    assert (10 * (v / 2 ^ u) * 2 ^ u <= 3 * z * 2 ^ u + 9) by nia.
    nia. }
  destruct (Z.eq_dec e e1) as [->|Hne1].
  - rewrite Z.sub_diag in Hv. change (2 ^ 0) with 1 in Hv.
    rewrite Z.shiftl_div_pow2 by lia. fold u. apply Hk. lia.
  - assert (e = e1 + 1) by lia. subst e.
    replace (e1 + 1 - e1) with 1 in Hv by lia. change (2 ^ 1) with 2 in Hv.
    rewrite Z.shiftl_div_pow2 by lia.
    replace (- (e1 + 1)) with (u - 1) by (unfold u; lia).
    assert (Hs : 2 ^ u = 2 * 2 ^ (u - 1)).
    { replace u with (1 + (u - 1)) at 1 by lia.
      rewrite Z.pow_add_r by lia. reflexivity. }
    assert (Hpu1 : 0 < 2 ^ (u - 1)) by (apply Z.pow_pos_nonneg; lia).
    replace (Zpos m / 2 ^ (u - 1)) with (Zpos m * 2 / 2 ^ u).
    + apply Hk. lia.
    + rewrite Hs, (Z.mul_comm 2 (2 ^ (u - 1))).
      apply Z.div_mul_cancel_r; lia.
Qed.

End Binary64More.

(** ** Caps on the kill estimate *)

Section KillCaps.
Import Acmi ImprovedCombatAnalyzer Examples Spec PilotSpec.

Lemma modest_sized acmi : modest acmi -> sized acmi.
Proof.
  unfold modest, sized, PyFloat.max_size. intros H.
  assert (2 ^ 50 < 2 ^ 63 - 1) by reflexivity. lia.
Qed.

(** The estimate of a pilot that fired, when the enemy lost aircraft. *)
Lemma estimated_kills_caps fired total losses kills :
  0 < fired < 2 ^ 50 -> fired <= total -> total <= PyFloat.max_size ->
  0 < losses < 2 ^ 50 ->
  estimated_kills PyFloat.lit_0_3 fired total losses = Some kills ->
  kills <= losses /\ 10 * kills <= 3 * fired.
Proof.
  intros Hf Hft Ht HL. unfold estimated_kills.
  pose proof (digits_max_size total ltac:(lia) Ht) as Hdt.
  destruct (share_at_most_one fired total ltac:(lia) Hft ltac:(lia))
    as (ms & es & -> & Hms & Hes & Hle).
  destruct (int_mul_lit_cap fired Hf) as (x & a & -> & Ha & Ha0 & Ha10).
  assert (H5052 : 2 ^ 50 < 2 ^ 52) by reflexivity.
  destruct (int_mul_share_le losses ms es ltac:(lia) Hms Hes Hle)
    as (y & b & -> & Hb & Hb0).
  rewrite Ha, Hb. intros [= <-]. lia.
Qed.

Lemma final_kill_caps acmi ps p :
  modest acmi -> analyze_combat_data acmi = Some ps ->
  air_to_air_kills (stats_of ps p) <= enemy_losses acmi (coalition (stats_of ps p))
  /\ 10 * air_to_air_kills (stats_of ps p) <= 3 * missiles_fired (stats_of ps p).
Proof.
  intros Hmod Hrun. pose proof (modest_sized acmi Hmod) as Hsz.
  destruct (enemy_losses_bound acmi (coalition (stats_of ps p))) as [HL0 HL1].
  destruct (final_profiles _ acmi ps Hrun) as [Hkeys Hprof].
  destruct (Hprof p) as (_ & _ & _ & Hm & _).
  pose proof (usage_fired_nonneg acmi p) as Hnn. rewrite <- Hm in Hnn.
  destruct (in_dec string_dec p (PyDict.keys ps)) as [Hin|Hn].
  2:{ rewrite (stats_of_missing ps p Hn) in *. cbn in *. lia. }
  pose proof (final_stats _ acmi ps p Hrun Hin) as Hf. cbv zeta in Hf.
  destruct Hf as (Hk & Hm' & Hc & Ht & Hfin).
  destruct (usage_kills_zero acmi p) as [Hz _].
  rewrite Hc in *. rewrite Hm' in *.
  set (s2 := stats_of (usage_state acmi) p) in *.
  set (L := enemy_losses acmi (coalition s2)) in *.
  destruct ((missiles_fired s2 =? 0) || (L =? 0)) eqn:E.
  - rewrite Hfin, Hz. lia.
  - apply orb_false_iff in E as [E0 EL].
    apply Z.eqb_neq in E0. apply Z.eqb_neq in EL.
    destruct Hfin as (kills & Hest & ->). cbn [air_to_air_kills with_kills].
    rewrite Hkeys in Hin.
    assert (Hin' : In p (PyDict.keys (usage_state acmi))).
    { destruct (usage_same_profiles acmi) as [-> _]. exact Hin. }
    destruct (coalition_total_bounds acmi p Hin' ltac:(fold s2; lia)) as [H1 H2].
    fold s2 in H1, H2.
    destruct (usage_total_bound acmi) as [_ H3].
    unfold modest in Hmod. unfold sized in Hsz.
    apply (estimated_kills_caps (missiles_fired s2)
             (coalition_total (usage_state acmi) (coalition s2)) L kills);
      try lia; exact Hest.
Qed.

(** X16. No more kills than enemy losses.  On a recording of fewer than
    [2^50] removed objects, no pilot is credited more kills than the
    number of removed aircraft of the enemy coalition: the pilot's share
    of the coalition's missiles is at most [1.0] and the product with the
    losses is not rounded above them. *)
Theorem kills_within_losses :
  forall acmi : Recording,
    modest acmi ->
    exists ps,
      analyze_combat_data acmi = Some ps
      /\ forall p,
          air_to_air_kills (stats_of ps p)
          <= enemy_losses acmi (coalition (stats_of ps p)).
Proof.
  intros acmi Hmod.
  destruct (analyze_defined acmi (modest_sized acmi Hmod)) as [ps Hrun].
  exists ps. split; [exact Hrun|]. intros p.
  now destruct (final_kill_caps acmi ps p Hmod Hrun).
Qed.

Lemma kills_within_losses_witness :
  modest ten_missiles
  /\ exists ps,
      analyze_combat_data ten_missiles = Some ps
      /\ forall p,
          air_to_air_kills (stats_of ps p)
          <= enemy_losses ten_missiles (coalition (stats_of ps p)).
Proof.
  assert (Hmod : modest ten_missiles) by reflexivity.
  split; [exact Hmod | exact (kills_within_losses ten_missiles Hmod)].
Defined.

(** X17. The hit-rate cap.  On a recording of fewer than [2^50] removed
    objects, the kills of a pilot are at most three tenths of the
    missiles credited to the pilot, although the float literal [0.3] and
    the product are rounded; a pilot credited with fewer than four
    missiles therefore has no kill. *)
Theorem hit_rate_cap :
  forall acmi : Recording,
    modest acmi ->
    exists ps,
      analyze_combat_data acmi = Some ps
      /\ forall p,
          10 * air_to_air_kills (stats_of ps p) <= 3 * missiles_fired (stats_of ps p)
          /\ (missiles_fired (stats_of ps p) < 4 ->
              air_to_air_kills (stats_of ps p) = 0).
Proof.
  intros acmi Hmod.
  pose proof (modest_sized acmi Hmod) as Hsz.
  destruct (analyze_defined acmi Hsz) as [ps Hrun].
  exists ps. split; [exact Hrun|]. intros p.
  destruct (final_kill_caps acmi ps p Hmod Hrun) as [_ H10].
  split; [exact H10|]. intros Hlt.
  pose proof (final_kill_range acmi ps p Hsz Hrun). lia.
Qed.

Lemma hit_rate_cap_witness :
  modest ten_missiles
  /\ exists ps,
      analyze_combat_data ten_missiles = Some ps
      /\ forall p,
          10 * air_to_air_kills (stats_of ps p) <= 3 * missiles_fired (stats_of ps p)
          /\ (missiles_fired (stats_of ps p) < 4 ->
              air_to_air_kills (stats_of ps p) = 0).
Proof.
  assert (Hmod : modest ten_missiles) by reflexivity.
  split; [exact Hmod | exact (hit_rate_cap ten_missiles Hmod)].
Defined.

End KillCaps.

(** ** The caps of the summary *)

Section SummaryCaps.
Import Acmi ImprovedCombatAnalyzer Examples Spec PilotSpec Report.

Lemma sum_Z_scale {A} (c : Z) (f : A -> Z) l :
  sum_Z (map (fun x => c * f x) l) = c * sum_Z (map f l).
Proof.
  induction l as [|x l IH]; [cbn; lia|].
  cbn [map]. rewrite !sum_Z_cons, IH. lia.
Qed.

(** X19. The caps of the summary.  On a recording of fewer than [2^50]
    removed objects, the total of the estimated kills is at most three
    tenths of the total of the missiles fired, and so are the kills and
    the missiles of every coalition of the breakdown: no hit rate of the
    report exceeds 30 percent. *)
Theorem summary_hit_rate_cap :
  forall acmi : Recording,
    modest acmi ->
    exists ps,
      analyze_combat_data acmi = Some ps
      /\ 0 <= total_kills (summary_of ps)
      /\ 10 * total_kills (summary_of ps) <= 3 * total_missiles (summary_of ps)
      /\ forall c data,
          In (c, data) (coalitions (summary_of ps)) ->
          0 <= c_kills data /\ 10 * c_kills data <= 3 * c_missiles data.
Proof.
  intros acmi Hmod. pose proof (modest_sized acmi Hmod) as Hsz.
  destruct (analyze_defined acmi Hsz) as [ps Hrun].
  exists ps. split; [exact Hrun|].
  destruct (final_profiles _ acmi ps Hrun) as [Hk _].
  destruct (pilots_state_facts acmi) as (Hnd & _).
  assert (Hnd' : NoDup (PyDict.keys ps)) by (rewrite Hk; exact Hnd).
  assert (Hcap : forall p,
             0 <= air_to_air_kills (stats_of ps p)
             /\ 10 * air_to_air_kills (stats_of ps p)
                <= 3 * missiles_fired (stats_of ps p)).
  { intros p. destruct (final_kill_caps acmi ps p Hmod Hrun) as [_ H10].
    pose proof (final_kill_range acmi ps p Hsz Hrun). lia. }
  assert (Hgroup : forall f : PilotStats -> bool,
             0 <= sum_Z (map air_to_air_kills (filter f (PyDict.values ps)))
             /\ 10 * sum_Z (map air_to_air_kills (filter f (PyDict.values ps)))
                <= 3 * sum_Z (map missiles_fired (filter f (PyDict.values ps)))).
  { intros f. rewrite !(sum_filter_values ps f _ Hnd'). split.
    - apply (sum_Z_nonneg _ (fun k => if f (stats_of ps k)
                                      then air_to_air_kills (stats_of ps k) else 0)).
      intros k. destruct (f (stats_of ps k)); [apply Hcap | lia].
    - rewrite <- !sum_Z_scale. apply sum_Z_le_pointwise. intros k _.
      destruct (f (stats_of ps k)); [apply Hcap | lia]. }
  cbn [total_kills total_missiles coalitions summary_of].
  split; [|split].
  - rewrite (sum_values ps _ Hnd').
    apply (sum_Z_nonneg _ (fun k => air_to_air_kills (stats_of ps k))).
    intros k. apply Hcap.
  - rewrite !(sum_values ps _ Hnd'), <- !sum_Z_scale.
    apply sum_Z_le_pointwise. intros k _. apply Hcap.
  - intros c data Hin.
    pose proof (in_get _ (coalitions_of ps) c data (coalitions_of_nodup ps) Hin) as Hg.
    pose proof (coalitions_of_get ps c) as Hc.
    unfold PyDict.get_default in Hc. rewrite Hg in Hc. subst data.
    cbn [c_kills c_missiles totals_of]. apply Hgroup.
Qed.

Lemma summary_hit_rate_cap_witness :
  modest ten_missiles
  /\ exists ps,
      analyze_combat_data ten_missiles = Some ps
      /\ 0 <= total_kills (summary_of ps)
      /\ 10 * total_kills (summary_of ps) <= 3 * total_missiles (summary_of ps)
      /\ forall c data,
          In (c, data) (coalitions (summary_of ps)) ->
          0 <= c_kills data /\ 10 * c_kills data <= 3 * c_missiles data.
Proof.
  assert (Hmod : modest ten_missiles) by reflexivity.
  split; [exact Hmod | exact (summary_hit_rate_cap ten_missiles Hmod)].
Defined.

End SummaryCaps.

(** ** The share of every pilot *)

Section ShareFacts.
Import Acmi ImprovedCombatAnalyzer Examples Spec PilotSpec ShareSpec.

Lemma place_nth p pilots :
  In p pilots ->
  exists j, nth_error pilots j = Some p /\ Z.of_nat j = place p pilots.
Proof.
  induction pilots as [|q rest IH]; intros Hin; [destruct Hin|].
  cbn [place]. destruct (String.eqb q p) eqn:E.
  - apply String.eqb_eq in E. subst q. now exists 0%nat.
  - destruct Hin as [->|Hin]; [now rewrite String.eqb_refl in E|].
    destruct (IH Hin) as (j & Hj & Hp). exists (S j). split; [exact Hj|]. lia.
Qed.

(** What one pilot receives from one group. *)
Lemma distribute_fired cps ps t per r p :
  NoDup cps ->
  missiles_fired (stats_of (distribute ps 0 cps t per r) p)
  = missiles_fired (stats_of ps p)
    + (if PyStr.mem p cps
       then per + (if place p cps <? r then 1 else 0)
       else 0).
Proof.
  intros Hnd. destruct (PyStr.mem p cps) eqn:Em.
  - apply mem_true_in in Em. destruct (place_nth p cps Em) as (j & Hj & Hp).
    rewrite (distribute_nth cps ps 0 t per r j p Hnd Hj).
    rewrite Z.add_0_l, Hp. lia.
  - apply mem_false_not_in in Em. rewrite distribute_other by exact Em. lia.
Qed.

Lemma distribute_types cps : forall ps i t per r p,
  NoDup cps ->
  missile_types_used (stats_of (distribute ps i cps t per r) p)
  = if PyStr.mem p cps && negb (PyStr.mem t (missile_types_used (stats_of ps p)))
    then missile_types_used (stats_of ps p) ++ [t]
    else missile_types_used (stats_of ps p).
Proof.
  induction cps as [|q rest IH]; intros ps i t per r p Hnd; cbn [distribute].
  - reflexivity.
  - inversion Hnd as [|? ? Hq Hrest]; subst.
    rewrite (IH _ _ _ _ _ _ Hrest). rewrite credit_types.
    assert (Hmem : PyStr.mem p (q :: rest) = String.eqb q p || PyStr.mem p rest).
    { unfold PyStr.mem. cbn [existsb]. now rewrite String.eqb_sym. }
    rewrite Hmem. clear Hmem.
    destruct (String.eqb q p) eqn:E.
    + apply String.eqb_eq in E. subst q.
      cbn [orb andb].
      assert (Hm : PyStr.mem p rest = false).
      { destruct (PyStr.mem p rest) eqn:Em; [|reflexivity].
        apply mem_true_in in Em. contradiction. }
      rewrite Hm. cbn [andb].
      now destruct (PyStr.mem t (missile_types_used (stats_of ps p))).
    + reflexivity.
Qed.

Lemma eligible_nodup ps c t : NoDup (PyDict.keys ps) -> NoDup (eligible ps c t).
Proof. intros Hnd. now apply NoDup_filter. Qed.

(** One group of the loop over [missile_types.items()]. *)
Lemma distribute_type_stats ps0 ps c t n p :
  NoDup (PyDict.keys ps0) -> same_profiles ps0 ps ->
  let ps' := distribute_type (PyDict.get_default [] (fighters_by_coalition ps0) c)
                             ps (t, n) in
  missiles_fired (stats_of ps' p)
  = missiles_fired (stats_of ps p) + share_of n (eligible ps0 c t) p
  /\ missile_types_used (stats_of ps' p)
     = if PyStr.mem p (eligible ps0 c t)
          && negb (PyStr.mem t (missile_types_used (stats_of ps p)))
       then missile_types_used (stats_of ps p) ++ [t]
       else missile_types_used (stats_of ps p).
Proof.
  intros Hnd Hsame ps'. unfold ps', distribute_type.
  rewrite (capable_eligible ps0 ps c t Hnd Hsame).
  pose proof (eligible_nodup ps0 c t Hnd) as Hne.
  destruct (eligible ps0 c t) as [|p0 cps] eqn:E.
  - unfold share_of. cbn. split; [lia | reflexivity].
  - rewrite (distribute_fired _ ps t _ _ p Hne).
    rewrite (distribute_types _ ps 0 t _ _ p Hne).
    unfold share_of. cbv zeta. split; reflexivity.
Qed.

Lemma not_mem_snoc (t x : string) (l : list string) :
  x <> t -> ~ In x l -> ~ In x (l ++ [t]).
Proof.
  intros Hne Hl Hin. apply in_app_or in Hin as [Hin|[Hin|[]]]; [tauto | congruence].
Qed.

(** The groups of one coalition. *)
Lemma distribute_types_stats ps0 c p jobs : forall ps,
  NoDup (PyDict.keys ps0) -> same_profiles ps0 ps ->
  NoDup (map fst jobs) ->
  (forall t, In t (map fst jobs) -> ~ In t (missile_types_used (stats_of ps p))) ->
  let ps' := fold_left
               (distribute_type (PyDict.get_default [] (fighters_by_coalition ps0) c))
               jobs ps in
  missiles_fired (stats_of ps' p)
  = missiles_fired (stats_of ps p)
    + sum_Z (map (fun job : string * Z =>
                    share_of (snd job) (eligible ps0 c (fst job)) p) jobs)
  /\ missile_types_used (stats_of ps' p)
     = missile_types_used (stats_of ps p)
       ++ filter (fun t => PyStr.mem p (eligible ps0 c t)) (map fst jobs).
Proof.
  induction jobs as [|[t n] jobs IH]; intros ps Hnd Hsame Hjobs Hnew;
    cbn [fold_left map filter fst snd].
  - cbn. rewrite app_nil_r. split; [lia | reflexivity].
  - inversion Hjobs as [|? ? Ht Hrest]; subst.
    destruct (distribute_type_total ps0 ps c t n Hnd Hsame) as [Hsame' _].
    destruct (distribute_type_stats ps0 ps c t n p Hnd Hsame) as [Hf Hty].
    cbv zeta in Hsame', Hf, Hty.
    assert (Hold : PyStr.mem t (missile_types_used (stats_of ps p)) = false).
    { destruct (PyStr.mem t (missile_types_used (stats_of ps p))) eqn:Em;
        [|reflexivity].
      apply mem_true_in in Em. exfalso. apply (Hnew t); [now left | exact Em]. }
    rewrite Hold in Hty. cbn [negb] in Hty. rewrite andb_true_r in Hty.
    set (ps1 := distribute_type
                  (PyDict.get_default [] (fighters_by_coalition ps0) c) ps (t, n)) in *.
    assert (Hnew' : forall t', In t' (map fst jobs) ->
                               ~ In t' (missile_types_used (stats_of ps1 p))).
    { intros t' Hin. rewrite Hty.
      assert (Hne : t' <> t) by (intros ->; contradiction).
      assert (Ho : ~ In t' (missile_types_used (stats_of ps p)))
        by (apply Hnew; now right).
      destruct (PyStr.mem p (eligible ps0 c t)); [|exact Ho].
      now apply not_mem_snoc. }
    destruct (IH ps1 Hnd Hsame' Hrest Hnew') as [IHf IHt]. cbv zeta in IHf, IHt.
    rewrite IHf, IHt, Hf, Hty, sum_Z_cons. split; [lia|].
    destruct (PyStr.mem p (eligible ps0 c t)).
    + now rewrite <- app_assoc.
    + reflexivity.
Qed.

Lemma keys_set_step {V} (d : PyDict.dict V) k v :
  PyDict.keys (PyDict.set d k v)
  = if PyStr.mem k (PyDict.keys d) then PyDict.keys d else PyDict.keys d ++ [k].
Proof.
  destruct (PyStr.mem k (PyDict.keys d)) eqn:Em.
  - apply keys_set_old. now apply mem_true_in.
  - apply keys_set_new. now apply mem_false_not_in.
Qed.

Lemma filter_true {A} (l : list A) : filter (fun _ => true) l = l.
Proof. induction l as [|x l IH]; cbn [filter]; congruence. Qed.

Lemma first_seen_nodup names : NoDup (first_seen names).
Proof.
  induction names as [|p rest IH]; cbn [first_seen]; constructor.
  - intros Hin. apply filter_In in Hin as [_ Hne].
    now rewrite String.eqb_refl in Hne.
  - now apply NoDup_filter.
Qed.

(** The names counted by [missile_types], in first-seen order. *)
Lemma count_by_name_keys missiles :
  PyDict.keys (count_by_name missiles) = first_seen (map missile_name missiles).
Proof.
  unfold count_by_name. fold missile_name.
  enough (H : forall l (d : PyDict.dict Z),
             PyDict.keys
               (fold_left
                  (fun d missile =>
                     PyDict.set d (missile_name missile)
                       (PyDict.get_default 0 d (missile_name missile) + 1)) l d)
             = fold_left (fun acc t => if PyStr.mem t acc then acc else acc ++ [t])
                         (map missile_name l) (PyDict.keys d)).
  { rewrite H, first_seen_fold. cbn [PyDict.keys map app].
    rewrite <- (filter_ext (fun _ => true)) by reflexivity. apply filter_true. }
  induction l as [|m l IH]; intros d; cbn [fold_left map]; [reflexivity|].
  now rewrite IH, keys_set_step.
Qed.

Lemma count_by_name_items_spec missiles :
  count_by_name missiles
  = map (fun t => (t, Z.of_nat (List.length
                                  (filter (fun m => String.eqb (missile_name m) t)
                                          missiles))))
        (first_seen (map missile_name missiles)).
Proof.
  assert (Hnd : NoDup (PyDict.keys (count_by_name missiles))).
  { rewrite count_by_name_keys. apply first_seen_nodup. }
  rewrite (items_via_keys _ 0 (count_by_name missiles) Hnd) at 1.
  rewrite count_by_name_keys. apply map_ext. intros t.
  now rewrite count_by_name_get.
Qed.

Lemma eligible_none_of_no_pilots ps c t :
  NoDup (PyDict.keys ps) ->
  PyDict.get_default [] (fighters_by_coalition ps) c = [] ->
  eligible ps c t = [].
Proof.
  intros Hnd He. destruct (eligible ps c t) as [|p l] eqn:E; [reflexivity|].
  assert (Hin : In p (eligible ps c t)) by (rewrite E; now left).
  apply (eligible_in_pilots ps c t p Hnd) in Hin. rewrite He in Hin. destruct Hin.
Qed.

(** One coalition of the loop over [coalition_missiles.items()]. *)
Lemma distribute_coalition_stats ps0 ps c ms p :
  NoDup (PyDict.keys ps0) -> same_profiles ps0 ps ->
  missile_types_used (stats_of ps p) = [] ->
  let ps' := distribute_coalition (fighters_by_coalition ps0) ps (c, ms) in
  let names := first_seen (map missile_name ms) in
  missiles_fired (stats_of ps' p)
  = missiles_fired (stats_of ps p)
    + sum_Z (map (fun t =>
                    share_of (Z.of_nat
                                (List.length
                                   (filter (fun m => String.eqb (missile_name m) t) ms)))
                             (eligible ps0 c t) p)
                 names)
  /\ missile_types_used (stats_of ps' p)
     = filter (fun t => PyStr.mem p (eligible ps0 c t)) names.
Proof.
  intros Hnd Hsame H0 ps' names. unfold ps', distribute_coalition.
  destruct (PyDict.get_default [] (fighters_by_coalition ps0) c)
    as [|p0 pilots] eqn:Ep.
  - assert (He : forall t, eligible ps0 c t = [])
      by (intros t; now apply eligible_none_of_no_pilots).
    split.
    + rewrite (map_ext _ (fun _ => 0)).
      * rewrite sum_Z_zero. lia.
      * intros t. now rewrite He.
    + rewrite H0. symmetry. apply filter_none. intros t _. now rewrite He.
  - rewrite <- Ep.
    destruct (distribute_types_stats ps0 c p (count_by_name ms) ps Hnd Hsame)
      as [Hf Ht].
    + change (NoDup (PyDict.keys (count_by_name ms))).
      rewrite count_by_name_keys. apply first_seen_nodup.
    + intros t _. rewrite H0. intros [].
    + cbv zeta in Hf, Ht. rewrite Hf, Ht, H0. cbn [app].
      fold (PyDict.keys (count_by_name ms)). rewrite count_by_name_keys. fold names.
      split; [|reflexivity]. f_equal. f_equal.
      rewrite count_by_name_items_spec. fold names. rewrite map_map. reflexivity.
Qed.

(** A group of another coalition leaves the pilot as it was. *)
Lemma distribute_coalition_other ps0 ps c ms p :
  NoDup (PyDict.keys ps0) -> same_profiles ps0 ps ->
  coalition (stats_of ps0 p) <> c ->
  stats_of (distribute_coalition (fighters_by_coalition ps0) ps (c, ms)) p
  = stats_of ps p.
Proof.
  intros Hnd Hsame Hc. unfold distribute_coalition.
  destruct (PyDict.get_default [] (fighters_by_coalition ps0) c)
    as [|p0 pilots] eqn:Ep; [reflexivity|]. rewrite <- Ep.
  set (pilots_c := PyDict.get_default [] (fighters_by_coalition ps0) c).
  enough (H : forall jobs cur,
             same_profiles ps0 cur ->
             stats_of (fold_left (distribute_type pilots_c) jobs cur) p
             = stats_of cur p) by (now apply H).
  induction jobs as [|[t n] jobs IH]; intros cur Hcur; cbn [fold_left];
    [reflexivity|].
  destruct (distribute_type_total ps0 cur c t n Hnd Hcur) as [Hcur' _].
  cbv zeta in Hcur'. fold pilots_c in Hcur'.
  rewrite (IH _ Hcur'). apply distribute_type_other. intros t' Hin.
  unfold pilots_c in Hin. rewrite (capable_eligible ps0 cur c t' Hnd Hcur) in Hin.
  apply eligible_spec in Hin as (_ & _ & Hin & _). contradiction.
Qed.

Lemma usage_groups_other ps0 p gs : forall ps,
  NoDup (PyDict.keys ps0) -> same_profiles ps0 ps ->
  ~ In (coalition (stats_of ps0 p)) (PyDict.keys gs) ->
  stats_of (fold_left (distribute_coalition (fighters_by_coalition ps0)) gs ps) p
  = stats_of ps p.
Proof.
  induction gs as [|[c ms] gs IH]; intros ps Hnd Hsame Hnot; cbn [fold_left];
    [reflexivity|].
  destruct (distribute_coalition_total ps0 ps c ms Hnd Hsame) as [Hsame' _].
  cbv zeta in Hsame'.
  rewrite (IH _ Hnd Hsame').
  - apply distribute_coalition_other; [exact Hnd | exact Hsame|].
    intros E. apply Hnot. left. now symmetry.
  - intros Hin. apply Hnot. now right.
Qed.

(** The loop over the coalitions: only the group of the pilot's own
    coalition counts. *)
Lemma usage_groups_stats ps0 p gs : forall ps,
  NoDup (PyDict.keys ps0) -> same_profiles ps0 ps ->
  NoDup (PyDict.keys gs) ->
  missile_types_used (stats_of ps p) = [] ->
  let c := coalition (stats_of ps0 p) in
  let ms := PyDict.get_default [] gs c in
  let names := first_seen (map missile_name ms) in
  let ps' := fold_left (distribute_coalition (fighters_by_coalition ps0)) gs ps in
  missiles_fired (stats_of ps' p)
  = missiles_fired (stats_of ps p)
    + sum_Z (map (fun t =>
                    share_of (Z.of_nat
                                (List.length
                                   (filter (fun m => String.eqb (missile_name m) t) ms)))
                             (eligible ps0 c t) p)
                 names)
  /\ missile_types_used (stats_of ps' p)
     = filter (fun t => PyStr.mem p (eligible ps0 c t)) names.
Proof.
  induction gs as [|[c1 ms1] gs IH]; intros ps Hnd Hsame Hgs H0 c ms names ps'.
  - unfold ps', names, ms. cbn. rewrite H0. split; [lia | reflexivity].
  - unfold ps'. cbn [fold_left].
    inversion Hgs as [|? ? Hc1 Hrest]; subst.
    destruct (distribute_coalition_total ps0 ps c1 ms1 Hnd Hsame) as [Hsame' _].
    cbv zeta in Hsame'.
    set (ps1 := distribute_coalition (fighters_by_coalition ps0) ps (c1, ms1)) in *.
    destruct (String.eqb c1 c) eqn:E.
    + apply String.eqb_eq in E.
      assert (Hms : ms = ms1).
      { unfold ms, PyDict.get_default. cbn [PyDict.get]. rewrite E.
        now rewrite String.eqb_refl. }
      rewrite (usage_groups_other ps0 p gs ps1 Hnd Hsame')
        by (fold c; now rewrite <- E).
      unfold names. rewrite Hms. subst c1.
      apply (distribute_coalition_stats ps0 ps c ms1 p Hnd Hsame H0).
    + assert (Hms : ms = PyDict.get_default [] gs c).
      { unfold ms, PyDict.get_default. cbn [PyDict.get]. now rewrite E. }
      assert (Hsame1 : stats_of ps1 p = stats_of ps p).
      { apply distribute_coalition_other; [exact Hnd | exact Hsame|].
        fold c. intros Hc. subst c1. now rewrite String.eqb_refl in E. }
      assert (H1 : missile_types_used (stats_of ps1 p) = [])
        by now rewrite Hsame1.
      destruct (IH ps1 Hnd Hsame' Hrest H1) as [IHf IHt].
      cbv zeta in IHf, IHt. fold c in IHf, IHt. rewrite <- Hms in IHf, IHt.
      fold names in IHf, IHt. rewrite IHf, IHt, Hsame1. split; reflexivity.
Qed.

Lemma group_by_coalition_nodup missiles :
  NoDup (PyDict.keys (group_by_coalition missiles)).
Proof.
  unfold group_by_coalition.
  apply (fold_left_inv_in _
           (fun d : PyDict.dict (list AcmiObject) => NoDup (PyDict.keys d))).
  - intros d m _ Hd. now apply nodup_keys_set.
  - constructor.
Qed.

(** The state of one pilot after [estimate_missile_usage]. *)
Lemma usage_stats ps0 air_to_air p :
  NoDup (PyDict.keys ps0) ->
  (forall q, missile_types_used (stats_of ps0 q) = []) ->
  let c := coalition (stats_of ps0 p) in
  let ms := filter (fun m => String.eqb (Acmi.coalition m) c) air_to_air in
  let names := first_seen (map missile_name ms) in
  missiles_fired (stats_of (estimate_missile_usage ps0 air_to_air) p)
  = missiles_fired (stats_of ps0 p)
    + sum_Z (map (fun t =>
                    share_of (Z.of_nat
                                (List.length
                                   (filter (fun m => String.eqb (missile_name m) t) ms)))
                             (eligible ps0 c t) p)
                 names)
  /\ missile_types_used (stats_of (estimate_missile_usage ps0 air_to_air) p)
     = filter (fun t => PyStr.mem p (eligible ps0 c t)) names.
Proof.
  intros Hnd H0 c ms names. unfold estimate_missile_usage.
  pose proof (usage_groups_stats ps0 p (group_by_coalition air_to_air) ps0 Hnd
                (same_profiles_refl ps0) (group_by_coalition_nodup air_to_air)
                (H0 p)) as H.
  cbv zeta in H. rewrite group_by_coalition_get in H. exact H.
Qed.

(** The shares and the names of the result of the analysis. *)
Lemma final_shares h acmi ps p :
  analyze_combat_data_with h acmi = Some ps ->
  missiles_fired (stats_of ps p) = apportioned acmi ps p
  /\ missile_types_used (stats_of ps p) = recorded_names acmi ps p.
Proof.
  intros Hrun.
  destruct (final_profiles h acmi ps Hrun) as [_ Hp].
  destruct (Hp p) as (_ & Hc & _ & Hm & Ht).
  destruct (pilots_state_facts acmi) as (Hnd & _ & Hf).
  assert (H0 : forall q, missile_types_used (stats_of (pilots_state acmi) q) = []).
  { intros q. now destruct (Hf q) as (_ & _ & -> & _). }
  destruct (usage_stats (pilots_state acmi) (air_to_air_of acmi) p Hnd H0)
    as [Hfired Htypes].
  cbv zeta in Hfired, Htypes.
  destruct (Hf p) as (Hz & _). rewrite Hz, Z.add_0_l in Hfired.
  unfold apportioned, recorded_names, munition_names, group_size, munitions_of.
  cbv zeta. rewrite Hm, Ht, Hc. unfold usage_state. rewrite Hfired, Htypes.
  split.
  - f_equal. apply map_ext. intros t.
    now rewrite (final_eligible h acmi ps _ t Hrun).
  - apply filter_ext. intros t.
    now rewrite (final_eligible h acmi ps _ t Hrun).
Qed.

Lemma filter_comm {A} (f g : A -> bool) l :
  filter f (filter g l) = filter g (filter f l).
Proof.
  rewrite !filter_filter. apply filter_ext. intros x. apply andb_comm.
Qed.

Lemma filter_all {A} (f : A -> bool) l :
  (forall x, In x l -> f x = true) -> filter f l = l.
Proof.
  induction l as [|x l IH]; intros H; cbn [filter]; [reflexivity|].
  rewrite (H x) by now left. f_equal. apply IH. intros y Hy. apply H. now right.
Qed.

(** Taking names out before or after [first_seen] is the same. *)
Lemma first_seen_filter (f : string -> bool) names :
  filter f (first_seen names) = first_seen (filter f names).
Proof.
  induction names as [|p rest IH]; cbn [first_seen filter]; [reflexivity|].
  destruct (f p) eqn:E; cbn [first_seen].
  - f_equal. now rewrite filter_comm, IH.
  - rewrite filter_comm, IH. apply filter_all. intros x Hx.
    apply first_seen_in, filter_In in Hx as [_ Hfx].
    destruct (String.eqb x p) eqn:Ex; [|reflexivity].
    apply String.eqb_eq in Ex. subst x. congruence.
Qed.

Lemma sum_Z_skip (g : string -> Z) (f : string -> bool) l :
  (forall x, f x = false -> g x = 0) ->
  sum_Z (map g (filter f l)) = sum_Z (map g l).
Proof.
  intros H. induction l as [|x l IH]; cbn [filter map]; [reflexivity|].
  destruct (f x) eqn:E; cbn [map]; rewrite !sum_Z_cons.
  - now rewrite IH.
  - rewrite IH, (H x E). lia.
Qed.

Lemma filter_skip {A} (e f : A -> bool) l :
  (forall x, f x = false -> e x = false) ->
  filter e (filter f l) = filter e l.
Proof.
  intros H. rewrite filter_filter. apply filter_ext. intros x.
  destruct (f x) eqn:E; [reflexivity|]. now rewrite (H x E).
Qed.

Lemma dict_ext {V} (dflt : V) (d1 d2 : PyDict.dict V) :
  NoDup (PyDict.keys d1) -> PyDict.keys d2 = PyDict.keys d1 ->
  (forall k, PyDict.get_default dflt d2 k = PyDict.get_default dflt d1 k) ->
  d2 = d1.
Proof.
  intros Hnd Hk Hv.
  rewrite (items_via_keys _ dflt d1 Hnd).
  rewrite (items_via_keys _ dflt d2) by now rewrite Hk.
  rewrite Hk. apply map_ext. intros k. now rewrite Hv.
Qed.

Lemma same_profiles_eta ps ps' p :
  same_profiles ps ps' ->
  stats_of ps' p
  = with_missiles (stats_of ps p) (missiles_fired (stats_of ps' p))
      (missile_types_used (stats_of ps' p)).
Proof.
  intros [_ H]. specialize (H p).
  destruct (stats_of ps' p), (stats_of ps p). unfold with_missiles in *.
  cbn in *. injection H as -> -> -> -> -> -> -> -> ->. reflexivity.
Qed.

(** A missile without eligible pilot can be taken out of the list:
    [estimate_missile_usage] gives the same state. *)
Lemma usage_without ps0 l1 l2 m :
  NoDup (PyDict.keys ps0) ->
  (forall q, missile_types_used (stats_of ps0 q) = []) ->
  eligible ps0 (Acmi.coalition m) (missile_name m) = [] ->
  estimate_missile_usage ps0 (l1 ++ m :: l2) = estimate_missile_usage ps0 (l1 ++ l2).
Proof.
  intros Hnd H0 Hel.
  destruct (estimate_missile_usage_total ps0 (l1 ++ m :: l2) Hnd) as [Hs1 _].
  destruct (estimate_missile_usage_total ps0 (l1 ++ l2) Hnd) as [Hs2 _].
  apply (dict_ext default_stats).
  - destruct Hs2 as [-> _]. exact Hnd.
  - destruct Hs1 as [-> _]. now destruct Hs2 as [-> _].
  - intros p. fold (stats_of (estimate_missile_usage ps0 (l1 ++ m :: l2)) p).
    fold (stats_of (estimate_missile_usage ps0 (l1 ++ l2)) p).
    rewrite (same_profiles_eta _ _ p Hs1), (same_profiles_eta _ _ p Hs2).
    destruct (usage_stats ps0 (l1 ++ m :: l2) p Hnd H0) as [Hf1 Ht1].
    destruct (usage_stats ps0 (l1 ++ l2) p Hnd H0) as [Hf2 Ht2].
    cbv zeta in Hf1, Ht1, Hf2, Ht2. rewrite Hf1, Ht1, Hf2, Ht2. clear Hf1 Ht1 Hf2 Ht2.
    set (c := coalition (stats_of ps0 p)).
    rewrite !filter_app. cbn [filter].
    destruct (String.eqb (Acmi.coalition m) c) eqn:Ec; [|reflexivity].
    apply String.eqb_eq in Ec. rewrite Ec in Hel.
    set (b1 := filter (fun m0 => String.eqb (Acmi.coalition m0) c) l1).
    set (b2 := filter (fun m0 => String.eqb (Acmi.coalition m0) c) l2).
    set (tm := missile_name m) in *.
    set (keep := fun t => negb (String.eqb t tm)).
    assert (Hshare : forall n, share_of n (eligible ps0 c tm) p = 0)
      by (intros n; now rewrite Hel).
    assert (Hg : forall t,
               share_of (Z.of_nat (List.length
                                     (filter (fun m0 => String.eqb (missile_name m0) t)
                                             (b1 ++ m :: b2))))
                        (eligible ps0 c t) p
               = share_of (Z.of_nat (List.length
                                       (filter (fun m0 => String.eqb (missile_name m0) t)
                                               (b1 ++ b2))))
                          (eligible ps0 c t) p).
    { intros t. destruct (String.eqb tm t) eqn:Et.
      - apply String.eqb_eq in Et. subst t. now rewrite !Hshare.
      - rewrite !filter_app. cbn [filter]. fold tm. now rewrite Et. }
    assert (Hnames : filter keep (first_seen (map missile_name (b1 ++ m :: b2)))
                     = filter keep (first_seen (map missile_name (b1 ++ b2)))).
    { rewrite !first_seen_filter. f_equal.
      rewrite !map_app, !filter_app. cbn [map filter]. fold tm.
      unfold keep at 2. now rewrite String.eqb_refl. }
    f_equal.
    + f_equal.
      rewrite (map_ext _ _ Hg).
      rewrite <- (sum_Z_skip _ keep (first_seen (map missile_name (b1 ++ m :: b2)))).
      * rewrite <- (sum_Z_skip _ keep (first_seen (map missile_name (b1 ++ b2)))).
        -- now rewrite Hnames.
        -- intros t Ht. unfold keep in Ht. apply negb_false_iff, String.eqb_eq in Ht.
           subst t. apply Hshare.
      * intros t Ht. unfold keep in Ht. apply negb_false_iff, String.eqb_eq in Ht.
        subst t. apply Hshare.
    + rewrite <- (filter_skip _ keep (first_seen (map missile_name (b1 ++ m :: b2)))).
      * rewrite <- (filter_skip _ keep (first_seen (map missile_name (b1 ++ b2)))).
        -- now rewrite Hnames.
        -- intros t Ht. unfold keep in Ht. apply negb_false_iff, String.eqb_eq in Ht.
           subst t. now rewrite Hel.
      * intros t Ht. unfold keep in Ht. apply negb_false_iff, String.eqb_eq in Ht.
        subst t. now rewrite Hel.
Qed.

(** A removed object that is no aircraft and reaches no pilot can be
    taken out of the recording: the analysis gives the same result. *)
Lemma analyze_without h alive before after m :
  is_plane m = false ->
  dropped (pilots_state {| alive_objects := alive;
                           removed_objects := before ++ m :: after |}) m = true ->
  analyze_combat_data_with h
    {| alive_objects := alive; removed_objects := before ++ after |}
  = analyze_combat_data_with h
      {| alive_objects := alive; removed_objects := before ++ m :: after |}.
Proof.
  intros Hpl Hdrop.
  rewrite !analyze_combat_data_unfold. cbn [removed_objects].
  assert (Hplanes : filter is_plane (before ++ m :: after)
                    = filter is_plane (before ++ after)).
  { rewrite !filter_app. cbn [filter]. now rewrite Hpl. }
  assert (Hps : pilots_state {| alive_objects := alive;
                                removed_objects := before ++ m :: after |}
                = pilots_state {| alive_objects := alive;
                                  removed_objects := before ++ after |}).
  { unfold pilots_state. cbn [alive_objects removed_objects]. now rewrite Hplanes. }
  rewrite Hplanes. f_equal.
  unfold usage_state, air_to_air_of. cbn [removed_objects]. rewrite <- Hps.
  rewrite !filter_app. cbn [filter].
  set (acmi := {| alive_objects := alive; removed_objects := before ++ m :: after |}) in *.
  unfold dropped in Hdrop. apply negb_true_iff in Hdrop.
  destruct (is_missile m) eqn:Em; [|reflexivity]. cbn [filter].
  destruct (is_air_to_air_missile m) eqn:Ea; [|reflexivity].
  cbn [andb] in Hdrop. unfold attributable in Hdrop.
  apply has_eligible_false in Hdrop.
  destruct (pilots_state_facts acmi) as (Hnd & _ & Hf).
  symmetry. apply usage_without; [exact Hnd | | exact Hdrop].
  intros q. now destruct (Hf q) as (_ & _ & -> & _).
Qed.

(** The same for all of them at once. *)
Lemma analyze_without_all h alive removed :
  let acmi := {| alive_objects := alive; removed_objects := removed |} in
  analyze_combat_data_with h
    {| alive_objects := alive;
       removed_objects :=
         filter (fun m => is_plane m || negb (dropped (pilots_state acmi) m))
                removed |}
  = analyze_combat_data_with h acmi.
Proof.
  intros acmi.
  set (keep := fun m => is_plane m || negb (dropped (pilots_state acmi) m)).
  enough (H : forall l2 l1,
             pilots_state {| alive_objects := alive; removed_objects := l1 ++ l2 |}
             = pilots_state acmi ->
             analyze_combat_data_with h
               {| alive_objects := alive; removed_objects := l1 ++ filter keep l2 |}
             = analyze_combat_data_with h
                 {| alive_objects := alive; removed_objects := l1 ++ l2 |})
    by (apply (H removed []); reflexivity).
  induction l2 as [|m l2 IH]; intros l1 Hps; cbn [filter]; [reflexivity|].
  destruct (keep m) eqn:Ek.
  - change (l1 ++ m :: filter keep l2) with (l1 ++ [m] ++ filter keep l2).
    change (l1 ++ m :: l2) with (l1 ++ [m] ++ l2) in *.
    rewrite !app_assoc in *. now apply IH.
  - unfold keep in Ek. apply orb_false_iff in Ek as [Hpl Hdrop].
    apply negb_false_iff in Hdrop.
    rewrite IH.
    + apply analyze_without; [exact Hpl | now rewrite Hps].
    + rewrite <- Hps. unfold pilots_state. cbn [alive_objects removed_objects].
      rewrite !filter_app. cbn [filter]. now rewrite Hpl.
Qed.

End ShareFacts.

(** ** The apportionment on a whole recording *)

Section AttributionClaims.
Import Acmi ImprovedCombatAnalyzer Examples Spec PilotSpec ShareSpec.

Lemma place_second (first second : string) :
  first <> second -> place second [first; second] = 1.
Proof.
  intros Hne. cbn [place]. apply String.eqb_neq in Hne. rewrite Hne.
  now rewrite String.eqb_refl.
Qed.

Lemma share_of_nth n pilots j p :
  NoDup pilots -> nth_error pilots j = Some p ->
  share_of n pilots p
  = n / Z.of_nat (List.length pilots)
    + (if Z.of_nat j <? n mod Z.of_nat (List.length pilots) then 1 else 0).
Proof.
  intros Hnd Hj. unfold share_of.
  assert (Hin : In p pilots) by (eapply nth_error_In; exact Hj).
  rewrite (mem_in_true _ _ Hin). cbv zeta.
  destruct (place_nth p pilots Hin) as (j' & Hj' & Hp).
  assert (j' = j).
  { apply (proj1 (NoDup_nth_error pilots) Hnd).
    - apply nth_error_Some. congruence.
    - congruence. }
  subst j'. now rewrite Hp.
Qed.

(** C4 (amended).  On every recording that fits a Python list, the
    entries of the result stand in the order in which the pilots are
    first seen (alive aircraft before removed ones), the eligible pilots
    of a group are taken in that order, and the [missiles_fired] of a
    pilot is the sum, over the missile names of the pilot's coalition,
    of the share in the group of that name: [N div K], and one more for
    the pilots at the first [N mod K] places of the eligible list.  When
    a coalition has one group of five missiles and two eligible pilots,
    the one seen first ends with 3 and the other with 2. *)
Theorem remainder_to_first_seen :
  forall acmi : Recording,
    sized acmi ->
    exists ps,
      analyze_combat_data acmi = Some ps
      /\ PyDict.keys ps = first_seen (named_pilots (all_aircraft acmi))
      /\ (forall p, missiles_fired (stats_of ps p) = apportioned acmi ps p)
      /\ (forall c t j p,
             nth_error (eligible ps c t) j = Some p ->
             share_of (group_size acmi c t) (eligible ps c t) p
             = group_size acmi c t / Z.of_nat (List.length (eligible ps c t))
               + (if Z.of_nat j
                     <? group_size acmi c t
                        mod Z.of_nat (List.length (eligible ps c t))
                  then 1 else 0))
      /\ (forall c t first second,
             eligible ps c t = [first; second] ->
             munition_names acmi c = [t] ->
             group_size acmi c t = 5 ->
             missiles_fired (stats_of ps first) = 3
             /\ missiles_fired (stats_of ps second) = 2).
Proof.
  intros acmi Hsz. destruct (analyze_defined acmi Hsz) as [ps Hrun].
  exists ps. split; [exact Hrun|].
  destruct (final_profiles _ acmi ps Hrun) as [Hk _].
  assert (Hnd : NoDup (PyDict.keys ps)) by (rewrite Hk; apply pilots_state_facts).
  assert (Hfired : forall p, missiles_fired (stats_of ps p) = apportioned acmi ps p).
  { intros p. apply (final_shares _ acmi ps p Hrun). }
  split; [rewrite Hk; apply pilots_state_keys|].
  split; [exact Hfired|]. split.
  - intros c t j p Hj. apply share_of_nth; [now apply eligible_nodup | exact Hj].
  - intros c t first second He Hnames Hsize.
    pose proof (eligible_nodup ps c t Hnd) as Hne. rewrite He in Hne.
    assert (Hdiff : first <> second).
    { inversion Hne as [|? ? Hnot _]; subst. intros ->. apply Hnot. now left. }
    assert (Hc : forall q, In q [first; second] -> coalition (stats_of ps q) = c).
    { intros q Hq. rewrite <- He in Hq. now apply eligible_spec in Hq. }
    rewrite !Hfired. unfold apportioned. cbv zeta.
    rewrite (Hc first) by (now left). rewrite (Hc second) by (right; now left).
    rewrite Hnames. cbn [map]. rewrite !sum_Z_cons, Hsize, He.
    change (sum_Z []) with 0.
    unfold share_of. cbv zeta.
    rewrite !mem_in_true by (cbn; auto).
    rewrite (place_second first second Hdiff).
    cbn [place]. rewrite String.eqb_refl.
    split; reflexivity.
Qed.

Lemma remainder_to_first_seen_witness :
  sized two_pilots
  /\ exists ps,
      analyze_combat_data two_pilots = Some ps
      /\ eligible ps "Allies" "AIM-9L" = ["B"; "A"]
      /\ munition_names two_pilots "Allies" = ["AIM-9L"]
      /\ group_size two_pilots "Allies" "AIM-9L" = 5
      /\ missiles_fired (stats_of ps "B") = 3
      /\ missiles_fired (stats_of ps "A") = 2.
Proof.
  assert (Hsz : sized two_pilots) by (unfold sized, PyFloat.max_size; simpl; lia).
  split; [exact Hsz|].
  destruct (remainder_to_first_seen two_pilots Hsz)
    as (ps & Hrun & _ & _ & _ & Hfive).
  exists ps. split; [exact Hrun|].
  assert (He : eligible ps "Allies" "AIM-9L" = ["B"; "A"]).
  { vm_compute in Hrun. injection Hrun as <-. reflexivity. }
  split; [exact He|]. split; [reflexivity|]. split; [reflexivity|].
  apply (Hfive "Allies" "AIM-9L" "B" "A" He); reflexivity.
Defined.

(** Two groups side by side: of five AIM-9L and three AIM-7, the pilot
    seen first receives 3 + 2 and the other 2 + 1. *)
Lemma two_groups_shares :
  exists ps,
    analyze_combat_data two_groups = Some ps
    /\ munition_names two_groups "Allies" = ["AIM-9L"; "AIM-7"; "R-73"]
    /\ apportioned two_groups ps "B" = 3 + 2 + 0
    /\ apportioned two_groups ps "A" = 2 + 1 + 0
    /\ missiles_fired (stats_of ps "B") = 5
    /\ missiles_fired (stats_of ps "A") = 3.
Proof.
  eexists. split; [vm_compute; reflexivity|].
  repeat split; vm_compute; reflexivity.
Qed.

(** C6 (amended).  The missiles credited to all pilots together are
    exactly the removed air-to-air missiles that have an eligible pilot.
    No count of the others is kept: a removed munition that reaches no
    pilot (its name holds no air-to-air designator, or no pilot of its
    coalition can carry it) can be taken out of the recording and the
    analysis gives the same result, so that no pilot statistic and no
    figure of the summary depends on it.  This holds for one such
    munition and for all of them together.  (A missile is required to
    have a [Name]: on a missile without one [is_air_to_air_missile]
    raises [TypeError].) *)
Theorem attributed_missiles_total :
  forall acmi : Recording,
    sized acmi ->
    exists ps,
      analyze_combat_data acmi = Some ps
      /\ (forall p, 0 <= missiles_fired (stats_of ps p))
      /\ total_missiles (summary_of ps)
         = Z.of_nat (List.length (filter (attributable ps) (air_to_air_of acmi)))
      /\ (forall before m after,
             removed_objects acmi = before ++ m :: after ->
             is_plane m = false ->
             (is_missile m = true -> has_name m = true) ->
             dropped ps m = true ->
             analyze_combat_data
               {| alive_objects := alive_objects acmi;
                  removed_objects := before ++ after |}
             = Some ps)
      /\ ((forall m, In m (removed_objects acmi) ->
                     is_missile m = true -> has_name m = true) ->
          analyze_combat_data
            {| alive_objects := alive_objects acmi;
               removed_objects :=
                 filter (fun m => is_plane m || negb (dropped ps m))
                        (removed_objects acmi) |}
          = Some ps).
Proof.
  intros acmi Hsz. destruct (analyze_defined acmi Hsz) as [ps Hrun].
  exists ps. split; [exact Hrun|]. split; [|split; [|split]].
  - intros p. destruct (final_profiles _ acmi ps Hrun) as [_ Hp].
    destruct (Hp p) as (_ & _ & _ & -> & _). apply usage_fired_nonneg.
  - change (total_missiles (summary_of ps)) with (total_fired ps).
    rewrite (final_total _ acmi ps Hrun).
    destruct (usage_total_bound acmi) as [-> _].
    do 2 f_equal. apply filter_ext. intros m. unfold attributable, has_eligible.
    now rewrite (final_eligible _ acmi ps _ _ Hrun).
  - intros before m after Hrem Hpl _ Hdrop.
    rewrite <- Hrun. destruct acmi as [alive removed].
    cbn [alive_objects removed_objects] in *. subst removed.
    apply analyze_without; [exact Hpl|].
    unfold dropped, attributable, has_eligible in *.
    now rewrite <- (final_eligible _ _ ps _ _ Hrun).
  - intros _. rewrite <- Hrun. destruct acmi as [alive removed].
    cbn [alive_objects removed_objects]. unfold analyze_combat_data.
    rewrite <- (analyze_without_all PyFloat.lit_0_3 alive removed). cbv zeta.
    do 2 f_equal. apply filter_ext. intros m.
    unfold dropped, attributable, has_eligible.
    now rewrite (final_eligible _ _ ps _ _ Hrun).
Qed.

Lemma attributed_missiles_total_witness :
  sized some_dropped
  /\ exists ps,
      analyze_combat_data some_dropped = Some ps
      /\ total_missiles (summary_of ps) = 1
      /\ dropped ps (missile 4 None "Enemies" "AIM-9L") = true
      /\ analyze_combat_data
           {| alive_objects := alive_objects some_dropped;
              removed_objects :=
                [missile 3 None "Allies" "AIM-9L"]
                  ++ [missile 5 None "Allies" "R-73";
                      missile 6 None "Allies" "FAB-250"] |}
         = Some ps
      /\ analyze_combat_data all_attributed = Some ps.
Proof.
  assert (Hsz : sized some_dropped)
    by (unfold sized, PyFloat.max_size; simpl; lia).
  split; [exact Hsz|].
  destruct (attributed_missiles_total some_dropped Hsz)
    as (ps & Hrun & _ & Htotal & Hone & Hall).
  exists ps. split; [exact Hrun|].
  assert (Hps : analyze_combat_data some_dropped = Some ps) by exact Hrun.
  vm_compute in Hps. injection Hps as Hps.
  assert (Hd : forall m, In m (removed_objects some_dropped) ->
                         dropped ps m
                         = negb (Nat.eqb (ident m) 3)).
  { intros m Hm. rewrite <- Hps. cbn in Hm.
    repeat (destruct Hm as [<-|Hm]; [reflexivity|]). destruct Hm. }
  split; [rewrite Htotal, <- Hps; reflexivity|].
  split; [apply (Hd (missile 4 None "Enemies" "AIM-9L")); cbn; auto|].
  split.
  - apply (Hone [missile 3 None "Allies" "AIM-9L"]
                (missile 4 None "Enemies" "AIM-9L")
                [missile 5 None "Allies" "R-73"; missile 6 None "Allies" "FAB-250"]).
    + reflexivity.
    + reflexivity.
    + reflexivity.
    + apply (Hd (missile 4 None "Enemies" "AIM-9L")). cbn. auto.
  - rewrite <- Hall.
    + f_equal. unfold all_attributed. f_equal.
      cbn [removed_objects some_dropped filter is_plane missile orb].
      rewrite !Hd by (cbn; auto 6). reflexivity.
    + intros m Hm _. cbn in Hm.
      repeat (destruct Hm as [<-|Hm]; [reflexivity|]). destruct Hm.
Defined.

Lemma label_is_no_designator label :
  In label (PyDict.values air_to_air_missiles) ->
  PyStr.any_in (PyDict.keys air_to_air_missiles) label = false.
Proof.
  intros H. cbn in H.
  repeat (destruct H as [<-|H]; [reflexivity|]). destruct H.
Qed.

(** C7 (amended).  For every removed air-to-air missile and every pilot
    eligible for its coalition and name, the missile's name (its type
    designator such as "AIM-9L") is in the pilot's [missile_types_used].
    The list holds nothing else: it is the list of the names of the
    groups for which the pilot is eligible, in the order in which the
    names are first met, and no family label of the table ("Sidewinder",
    "AMRAAM", ...) is ever in it. *)
Theorem missile_name_recorded :
  forall acmi : Recording,
    sized acmi ->
    exists ps,
      analyze_combat_data acmi = Some ps
      /\ (forall m p,
             In m (air_to_air_of acmi) ->
             In p (eligible ps (Acmi.coalition m) (missile_name m)) ->
             In (missile_name m) (missile_types_used (stats_of ps p)))
      /\ (forall p, missile_types_used (stats_of ps p) = recorded_names acmi ps p)
      /\ (forall p label,
             In label (PyDict.values air_to_air_missiles) ->
             ~ In label (missile_types_used (stats_of ps p))).
Proof.
  intros acmi Hsz. destruct (analyze_defined acmi Hsz) as [ps Hrun].
  exists ps. split; [exact Hrun|].
  assert (Hnames : forall p,
             missile_types_used (stats_of ps p) = recorded_names acmi ps p).
  { intros p. apply (final_shares _ acmi ps p Hrun). }
  split; [|split; [exact Hnames|]].
  - intros m p Hm Hp.
    rewrite (final_eligible _ acmi ps _ _ Hrun) in Hp.
    destruct (final_profiles _ acmi ps Hrun) as [_ Hprof].
    destruct (Hprof p) as (_ & _ & _ & _ & ->).
    apply usage_records_type; [apply pilots_state_facts | exact Hm | exact Hp].
  - intros p label Hlabel Hin. rewrite Hnames in Hin.
    unfold recorded_names in Hin. cbv zeta in Hin.
    apply filter_In in Hin as [Hin _].
    unfold munition_names in Hin. apply first_seen_in, in_map_iff in Hin.
    destruct Hin as (m & Hname & Hm).
    unfold munitions_of in Hm. apply filter_In in Hm as [Hm _].
    unfold air_to_air_of in Hm. apply filter_In in Hm as [_ Ha].
    unfold is_air_to_air_missile in Ha. cbv zeta in Ha.
    fold (missile_name m) in Ha. rewrite Hname in Ha.
    rewrite (label_is_no_designator label Hlabel) in Ha. discriminate.
Qed.

Lemma missile_name_recorded_witness :
  sized two_groups
  /\ exists ps,
      analyze_combat_data two_groups = Some ps
      /\ missile_types_used (stats_of ps "B") = ["AIM-9L"; "AIM-7"]
      /\ ~ In "Sidewinder" (missile_types_used (stats_of ps "B")).
Proof.
  assert (Hsz : sized two_groups) by (unfold sized, PyFloat.max_size; simpl; lia).
  split; [exact Hsz|].
  destruct (missile_name_recorded two_groups Hsz) as (ps & Hrun & _ & Hnames & Hlabel).
  exists ps. split; [exact Hrun|]. split.
  - rewrite Hnames. vm_compute in Hrun. injection Hrun as <-. reflexivity.
  - apply Hlabel. cbn. auto.
Defined.

End AttributionClaims.
